(** * A shallow embedding of the @stravigor/oauth2 authorization server

    The development follows the TypeScript sources:
    - [src/scopes.ts]           the scope registry,
    - [src/client.ts]           client lookup and secret verification,
    - [src/auth_code.ts]        authorization codes (creation, single-use consumption),
    - [src/token.ts]            access and refresh tokens,
    - [src/handlers/*.ts]       the HTTP handlers of the protocol endpoints.

    Conventions of the model.
    - A JavaScript string is a [string] (a sequence of bytes, its UTF-8
      encoding); a [Date] is its [getTime()] value, a [Z] of milliseconds.
    - The three SQL tables are lists of rows in insertion order, the way the
      repository's own in-memory test store keeps them; [SELECT ... LIMIT 1]
      is the first matching row; [INSERT] enforces the PRIMARY KEY, UNIQUE and
      FOREIGN KEY constraints declared in [OAuth2Manager.ensureTables].
    - The clock reads [now] throughout a request, except in [tokenResponse],
      which calls [Date.now()] once more after the awaited INSERT and reads
      [now_reply]; random hex strings and the database-generated UUID of a
      request come from an explicit [Env].
    - [Emitter] notifications are fire-and-forget and never influence the
      response or the store; they are not part of the model.
    - [Bun.CryptoHasher('sha256')] is SHA-256 as in FIPS 180-4. *)

From Stdlib Require Import ZArith List String Ascii Bool Lia Sorted.
From stdpp Require Import base option list strings gmap pretty.

Import ListNotations.
Local Open Scope Z_scope.

(** ** SHA-256 and the two digest encodings used by the sources *)

Module Sha256.

(** 32-bit words are [Z] values kept in the range [0, 2^32). *)
Definition wrap32 (x : Z) : Z := x mod 2 ^ 32.
Definition add32 (x y : Z) : Z := wrap32 (x + y).
Definition rotr (n x : Z) : Z :=
  Z.lor (Z.shiftr x n) (wrap32 (Z.shiftl x (32 - n))).
Definition shr (n x : Z) : Z := Z.shiftr x n.

Definition choose (x y z : Z) : Z :=
  Z.lxor (Z.land x y) (Z.land (Z.lnot x) z).
Definition majority (x y z : Z) : Z :=
  Z.lxor (Z.lxor (Z.land x y) (Z.land x z)) (Z.land y z).
Definition bsig0 (x : Z) : Z := Z.lxor (Z.lxor (rotr 2 x) (rotr 13 x)) (rotr 22 x).
Definition bsig1 (x : Z) : Z := Z.lxor (Z.lxor (rotr 6 x) (rotr 11 x)) (rotr 25 x).
Definition ssig0 (x : Z) : Z := Z.lxor (Z.lxor (rotr 7 x) (rotr 18 x)) (shr 3 x).
Definition ssig1 (x : Z) : Z := Z.lxor (Z.lxor (rotr 17 x) (rotr 19 x)) (shr 10 x).

(** The round constants are the first 32 fractional bits of the cube roots
    of the first 64 primes, the initial state those of the square roots of
    the first 8; both tables are computed rather than typed in. *)
Definition is_prime (n : Z) : bool :=
  (1 <? n) && forallb (fun d => negb (n mod d =? 0))
                      (map Z.of_nat (seq 2 (Z.to_nat (Z.sqrt n) - 1)%nat)).

Definition first_primes (count : nat) : list Z :=
  firstn count (List.filter is_prime (map Z.of_nat (seq 2 320))).

Fixpoint cube_root_bits (bits : nat) (n acc : Z) : Z :=
  match bits with
  | O => acc
  | S b =>
      let cand := acc + 2 ^ Z.of_nat b in
      cube_root_bits b n (if cand * cand * cand <=? n then cand else acc)
  end.
Definition cube_root (n : Z) : Z := cube_root_bits 40 n 0.

Definition round_constants : list Z :=
  Eval vm_compute in
    map (fun p => wrap32 (cube_root (p * 2 ^ 96))) (first_primes 64).
Definition initial_state : list Z :=
  Eval vm_compute in
    map (fun p => wrap32 (Z.sqrt (p * 2 ^ 64))) (first_primes 8).

(** Padding: the byte 0x80, zero bytes up to 56 modulo 64, then the bit
    length as a 64-bit big-endian integer. *)
Definition be_bytes (count : nat) (x : Z) : list Z :=
  map (fun i => Z.land (Z.shiftr x (8 * Z.of_nat i)) 255) (rev (seq 0 count)).

Definition pad (msg : list Z) : list Z :=
  let len := Z.of_nat (length msg) in
  msg ++ [128] ++ repeat 0 (Z.to_nat ((55 - len) mod 64)) ++ be_bytes 8 (8 * len).

Fixpoint be_words (fuel : nat) (bytes : list Z) : list Z :=
  match fuel, bytes with
  | S f, a :: b :: c :: d :: rest =>
      (Z.shiftl a 24 + Z.shiftl b 16 + Z.shiftl c 8 + d) :: be_words f rest
  | _, _ => []
  end.

Fixpoint blocks (fuel : nat) (words : list Z) : list (list Z) :=
  match fuel, words with
  | S f, _ :: _ => firstn 16 words :: blocks f (skipn 16 words)
  | _, _ => []
  end.

(** The message schedule, kept newest-first while it grows. *)
Fixpoint schedule_rev (count : nat) (w : list Z) : list Z :=
  match count with
  | O => w
  | S c =>
      let next := add32 (add32 (ssig1 (nth 1 w 0)) (nth 6 w 0))
                        (add32 (ssig0 (nth 14 w 0)) (nth 15 w 0)) in
      schedule_rev c (next :: w)
  end.
Definition schedule (block : list Z) : list Z := rev (schedule_rev 48 (rev block)).

Definition round (st : list Z) (kw : Z * Z) : list Z :=
  match st with
  | [a; b; c; d; e; f; g; h] =>
      let t1 := add32 (add32 (add32 h (bsig1 e)) (add32 (choose e f g) (fst kw))) (snd kw) in
      let t2 := add32 (bsig0 a) (majority a b c) in
      [add32 t1 t2; a; b; c; add32 d t1; e; f; g]
  | _ => st
  end.

Definition zip_with {A B C} (f : A -> B -> C) : list A -> list B -> list C :=
  fix go l k :=
    match l, k with
    | x :: l', y :: k' => f x y :: go l' k'
    | _, _ => []
    end.

Definition compress (st block : list Z) : list Z :=
  zip_with add32 st
    (fold_left round (zip_with pair round_constants (schedule block)) st).

Definition digest (msg : list Z) : list Z :=
  let words := be_words (length msg + 72)%nat (pad msg) in
  let final := fold_left compress (blocks (length words) words) initial_state in
  concat (map (be_bytes 4) final).

Definition bytes_of_string (s : string) : list Z :=
  map (fun c => Z.of_N (N_of_ascii c)) (list_ascii_of_string s).

(** [digest('hex')]: two lower-case hexadecimal digits per byte. *)
Definition hex_alphabet : string := "0123456789abcdef".
Definition nth_char (alphabet : string) (i : Z) : string :=
  match String.get (Z.to_nat i) alphabet with
  | Some c => String c EmptyString
  | None => EmptyString
  end.
Definition hex_of_bytes (bytes : list Z) : string :=
  String.concat EmptyString
    (map (fun b => nth_char hex_alphabet (b / 16) +:+ nth_char hex_alphabet (b mod 16)) bytes).

(** [digest('base64url')]: RFC 4648 section 5, without padding. *)
Definition base64url_alphabet : string :=
  "ABCDEFGHIJKLMNOPQRSTUVWXYZabcdefghijklmnopqrstuvwxyz0123456789-_".
Fixpoint base64url_of_bytes (fuel : nat) (bytes : list Z) : string :=
  let sextet (x : Z) (k : Z) := nth_char base64url_alphabet (Z.land (Z.shiftr x k) 63) in
  match fuel, bytes with
  | S f, a :: b :: c :: rest =>
      let x := Z.shiftl a 16 + Z.shiftl b 8 + c in
      sextet x 18 +:+ sextet x 12 +:+ sextet x 6 +:+ sextet x 0 +:+ base64url_of_bytes f rest
  | S _, [a; b] =>
      let x := Z.shiftl a 16 + Z.shiftl b 8 in
      sextet x 18 +:+ sextet x 12 +:+ sextet x 6
  | S _, [a] =>
      let x := Z.shiftl a 16 in
      sextet x 18 +:+ sextet x 12
  | _, _ => EmptyString
  end.

Definition sha256_hex (s : string) : string :=
  hex_of_bytes (digest (bytes_of_string s)).
Definition sha256_base64url (s : string) : string :=
  let d := digest (bytes_of_string s) in base64url_of_bytes (length d) d.

End Sha256.

(** ** JavaScript values and helpers *)

(** [!v] for a value that is a string, [null] or [undefined]: the empty
    string counts as absent. *)
Definition truthy (v : option string) : bool :=
  match v with
  | Some s => negb (String.eqb s EmptyString)
  | None => false
  end.

(** The string held by a value already known to be truthy. *)
Definition str (v : option string) : string :=
  match v with
  | Some s => s
  | None => EmptyString
  end.

(** [v === s] for a nullable string [v] and a string literal [s]. *)
Definition strict_eq (v : option string) (s : string) : bool :=
  match v with
  | Some x => String.eqb x s
  | None => false
  end.

(** Truthiness of a [Date | null]. *)
Definition is_set (d : option Z) : bool :=
  match d with
  | Some _ => true
  | None => false
  end.

(** [Array.prototype.includes] on an array of strings. *)
Definition includes (l : list string) (s : string) : bool :=
  existsb (String.eqb s) l.

(** [s.split(' ')]: one piece per separator, empty pieces included. *)
Fixpoint split (sep : ascii) (s : string) : list string :=
  match s with
  | EmptyString => [EmptyString]
  | String c rest =>
      if Ascii.eqb c sep then EmptyString :: split sep rest
      else match split sep rest with
           | w :: ws => String c w :: ws
           | [] => [String c EmptyString]
           end
  end.

(** [scope.split(' ').filter(Boolean)] *)
Definition split_scopes (scope : string) : list string :=
  List.filter (fun w => negb (String.eqb w EmptyString)) (split " "%char scope).

(** [names.join(sep)] *)
Definition join (sep : string) (names : list string) : string :=
  String.concat sep names.

Definition dquote : string := String "034"%char EmptyString.

(** The user value the host attaches to the context, as [getUserId] sees it. *)
Inductive JsScalar :=
| SString (s : string)
| SNumber (n : Z)
| SOther (rendered : string).

Inductive JsUser :=
| UString (s : string)
| UNumber (n : Z)
| UObject (id : option JsScalar)
| UOther.

Definition String_of (v : JsScalar) : string :=
  match v with
  | SString s => s
  | SNumber n => pretty n
  | SOther rendered => rendered
  end.

(** src/utils.ts *)
Definition getUserId (user : JsUser) : string + string :=
  match user with
  | UString s => inr s
  | UNumber n => inr (pretty n)
  | UObject (Some v) => inr (String_of v)
  | _ => inl ("Cannot extract user ID: user must have an " +:+ dquote +:+ "id" +:+ dquote
              +:+ " property or be a string/number.")
  end.

#[warnings="-register-all"]
Inductive Json :=
| JNull
| JBool (b : bool)
| JNum (n : Z)
| JStr (s : string)
| JArr (items : list Json)
| JObj (fields : list (string * Json)).

(** ** src/errors.ts *)

Record OAuth2Error := {
  message : string;
  errorCode : string;
  statusCode : Z
}.

Definition UnsupportedGrantError : OAuth2Error :=
  {| message := "The authorization grant type is not supported.";
     errorCode := "unsupported_grant_type"; statusCode := 400 |}.
Definition InvalidClientError (msg : string) : OAuth2Error :=
  {| message := msg; errorCode := "invalid_client"; statusCode := 401 |}.
Definition InvalidGrantError (msg : string) : OAuth2Error :=
  {| message := msg; errorCode := "invalid_grant"; statusCode := 400 |}.
Definition InvalidRequestError (msg : string) : OAuth2Error :=
  {| message := msg; errorCode := "invalid_request"; statusCode := 400 |}.
Definition InvalidScopeError (msg : string) : OAuth2Error :=
  {| message := msg; errorCode := "invalid_scope"; statusCode := 400 |}.

(** The default messages of the constructors. *)
Definition client_auth_failed : string := "Client authentication failed.".
Definition grant_invalid : string :=
  "The provided authorization grant is invalid, expired, or revoked.".

Definition toJSON (e : OAuth2Error) : Json :=
  JObj [("error", JStr (errorCode e)); ("error_description", JStr (message e))].

(** ** src/types.ts and the rows of the three tables *)

Inductive GrantType :=
| authorization_code
| client_credentials
| refresh_token.

Definition GrantType_eqb (a b : GrantType) : bool :=
  match a, b with
  | authorization_code, authorization_code => true
  | client_credentials, client_credentials => true
  | refresh_token, refresh_token => true
  | _, _ => false
  end.

Definition grants (l : list GrantType) (g : GrantType) : bool :=
  existsb (GrantType_eqb g) l.

Module ClientRow.
Record t := {
  id : string;
  name : string;
  secret : option string;
  redirect_uris : list string;
  scopes : option (list string);
  grant_types : list GrantType;
  confidential : bool;
  first_party : bool;
  revoked : bool;
  created_at : Z;
  updated_at : Z
}.
End ClientRow.

Module TokenRow.
Record t := {
  id : string;
  user_id : option string;
  client_id : string;
  name : option string;
  scopes : list string;
  token : string;
  refresh_token : option string;
  expires_at : Z;
  refresh_expires_at : option Z;
  last_used_at : option Z;
  revoked_at : option Z;
  created_at : Z
}.
End TokenRow.

Module AuthCodeRow.
Record t := {
  id : string;
  client_id : string;
  user_id : string;
  code : string;
  redirect_uri : string;
  scopes : list string;
  code_challenge : option string;
  code_challenge_method : option string;
  expires_at : Z;
  used_at : option Z;
  created_at : Z
}.
End AuthCodeRow.

Module OAuthClientData.
Record t := {
  id : string;
  name : string;
  redirectUris : list string;
  scopes : option (list string);
  grantTypes : list GrantType;
  confidential : bool;
  firstParty : bool;
  revoked : bool;
  createdAt : Z;
  updatedAt : Z
}.
End OAuthClientData.

Module OAuthTokenData.
Record t := {
  id : string;
  userId : option string;
  clientId : string;
  name : option string;
  scopes : list string;
  expiresAt : Z;
  refreshExpiresAt : option Z;
  lastUsedAt : option Z;
  revokedAt : option Z;
  createdAt : Z
}.
End OAuthTokenData.

Module OAuthAuthCodeData.
Record t := {
  id : string;
  clientId : string;
  userId : string;
  redirectUri : string;
  scopes : list string;
  codeChallenge : option string;
  codeChallengeMethod : option string;
  expiresAt : Z;
  usedAt : option Z;
  createdAt : Z
}.
End OAuthAuthCodeData.

Record ScopeDescription := {
  sd_name : string;
  sd_description : string
}.

Record OAuth2Config := {
  accessTokenLifetime : Z;
  refreshTokenLifetime : Z;
  authCodeLifetime : Z;
  personalAccessTokenLifetime : Z;
  defaultScopes : list string;
  personalAccessClient : option string;
  pruneRevokedAfterDays : Z
}.

(** The database: the tables [_strav_oauth_clients], [_strav_oauth_tokens]
    and [_strav_oauth_auth_codes]. *)
Record Db := {
  clients : list ClientRow.t;
  tokens : list TokenRow.t;
  auth_codes : list AuthCodeRow.t
}.

Definition with_clients (db : Db) (l : list ClientRow.t) : Db :=
  {| clients := l; tokens := tokens db; auth_codes := auth_codes db |}.
Definition with_tokens (db : Db) (l : list TokenRow.t) : Db :=
  {| clients := clients db; tokens := l; auth_codes := auth_codes db |}.
Definition with_auth_codes (db : Db) (l : list AuthCodeRow.t) : Db :=
  {| clients := clients db; tokens := tokens db; auth_codes := l |}.

(** What one request observes of its host: the clock ([Date.now()] and SQL
    [NOW()]) while the request is handled, the clock again when
    [tokenResponse] computes [expires_in] after the INSERT of
    [OAuthToken.create] has been awaited, the UUID the database generates
    for an inserted row, the successive results of [randomHex], and whether
    [new URL(s)] accepts [s]. *)
Record Env := {
  now : Z;
  now_reply : Z;
  uuid : string;
  hex1 : string;
  hex2 : string;
  url_ok : string -> bool
}.

Definition has_client (db : Db) (client_id : string) : bool :=
  existsb (fun c => String.eqb (ClientRow.id c) client_id) (clients db).

(** ** src/scopes.ts *)

Module ScopeRegistry.

(** The process-wide [Map<string, string>] from scope name to description. *)
Abbreviation t := (gmap string string).

Definition define (batch : list (string * string)) (reg : t) : t :=
  fold_left (fun m kv => <[fst kv := snd kv]> m) batch reg.

Definition has (reg : t) (name : string) : bool :=
  match reg !! name with
  | Some _ => true
  | None => false
  end.

Definition describe (reg : t) (names : list string) : list ScopeDescription :=
  map (fun name =>
         {| sd_name := name;
            sd_description := match reg !! name with Some d => d | None => name end |})
      names.

(** [validate] either throws an [InvalidScopeError] (left) or returns the
    effective scope list (right). The two [for] loops stop at the first
    offending name. *)
Definition validate (reg : t) (requested : list string)
    (clientAllowed : option (list string)) (defaultScopes : list string)
  : OAuth2Error + list string :=
  let scopes := if (0 <? length requested)%nat then requested else defaultScopes in
  if (length scopes =? 0)%nat then inr []
  else
    match List.find (fun scope => negb (has reg scope)) scopes with
    | Some scope =>
        inl (InvalidScopeError ("Unknown scope: " +:+ dquote +:+ scope +:+ dquote +:+ "."))
    | None =>
        match clientAllowed with
        | Some allowed =>
            match List.find (fun scope => negb (includes allowed scope)) scopes with
            | Some scope =>
                inl (InvalidScopeError
                       ("Scope " +:+ dquote +:+ scope +:+ dquote
                        +:+ " is not allowed for this client."))
            | None => inr scopes
            end
        | None => inr scopes
        end
    end.

End ScopeRegistry.

(** [ORDER BY key DESC] on a table: a stable insertion sort, so rows with
    equal keys stay in table order (SQL leaves their order open). *)
Fixpoint insert_desc {A} (key : A -> Z) (x : A) (l : list A) : list A :=
  match l with
  | [] => [x]
  | y :: l' => if key y <=? key x then x :: l else y :: insert_desc key x l'
  end.

Definition order_by_desc {A} (key : A -> Z) (l : list A) : list A :=
  fold_right (insert_desc key) [] l.

(** ** src/client.ts *)

Module OAuthClient.

Definition hashSecret (plain : string) : string := Sha256.sha256_hex plain.

Definition hydrate (row : ClientRow.t) : OAuthClientData.t :=
  {| OAuthClientData.id := ClientRow.id row;
     OAuthClientData.name := ClientRow.name row;
     OAuthClientData.redirectUris := ClientRow.redirect_uris row;
     OAuthClientData.scopes := ClientRow.scopes row;
     OAuthClientData.grantTypes := ClientRow.grant_types row;
     OAuthClientData.confidential := ClientRow.confidential row;
     OAuthClientData.firstParty := ClientRow.first_party row;
     OAuthClientData.revoked := ClientRow.revoked row;
     OAuthClientData.createdAt := ClientRow.created_at row;
     OAuthClientData.updatedAt := ClientRow.updated_at row |}.

(** [SELECT * FROM clients WHERE id = $1 LIMIT 1]; revoked clients are
    returned too, callers test [revoked]. *)
Definition find (db : Db) (id : string) : option OAuthClientData.t :=
  option_map hydrate
    (List.find (fun c => String.eqb (ClientRow.id c) id) (clients db)).

Definition timingSafeEqual (a b : string) : bool :=
  if negb (Nat.eqb (String.length a) (String.length b)) then false
  else String.eqb a b.

Definition verifySecret (db : Db) (client : OAuthClientData.t) (plainSecret : string) : bool :=
  match List.find (fun c => String.eqb (ClientRow.id c) (OAuthClientData.id client)) (clients db) with
  | None => false
  | Some row =>
      if negb (truthy (ClientRow.secret row)) then false
      else match ClientRow.secret row with
           | Some stored => timingSafeEqual stored (hashSecret plainSecret)
           | None => false
           end
  end.

Definition set_revoked (at_ : Z) (c : ClientRow.t) : ClientRow.t :=
  {| ClientRow.id := ClientRow.id c;
     ClientRow.name := ClientRow.name c;
     ClientRow.secret := ClientRow.secret c;
     ClientRow.redirect_uris := ClientRow.redirect_uris c;
     ClientRow.scopes := ClientRow.scopes c;
     ClientRow.grant_types := ClientRow.grant_types c;
     ClientRow.confidential := ClientRow.confidential c;
     ClientRow.first_party := ClientRow.first_party c;
     ClientRow.revoked := true;
     ClientRow.created_at := ClientRow.created_at c;
     ClientRow.updated_at := at_ |}.

Definition revoke (now_ : Z) (id : string) (db : Db) : Db :=
  with_clients db
    (map (fun c => if String.eqb (ClientRow.id c) id then set_revoked now_ c else c)
         (clients db)).

(** Hard delete: the client's codes, then its tokens, then the client. *)
Definition destroy (id : string) (db : Db) : Db :=
  {| auth_codes :=
       List.filter (fun c => negb (String.eqb (AuthCodeRow.client_id c) id)) (auth_codes db);
     tokens :=
       List.filter (fun t => negb (String.eqb (TokenRow.client_id t) id)) (tokens db);
     clients :=
       List.filter (fun c => negb (String.eqb (ClientRow.id c) id)) (clients db) |}.

Record CreateClientInput := {
  name : string;
  redirectUris : list string;
  confidential : option bool;
  firstParty : option bool;
  scopes : option (list string);
  grantTypes : option (list GrantType)
}.

(** The INSERT fails on a duplicate primary key. *)
Definition insert (row : ClientRow.t) (db : Db) : option Db :=
  if existsb (fun c => String.eqb (ClientRow.id c) (ClientRow.id row)) (clients db)
  then None
  else Some (with_clients db (clients db ++ [row])).

(** Returns the client record and the plain secret (if confidential). *)
Definition create (env : Env) (input : CreateClientInput) (db : Db)
  : option ((OAuthClientData.t * option string) * Db) :=
  let confidential_ := default true (confidential input) in
  let firstParty_ := default false (firstParty input) in
  let grantTypes_ := default [authorization_code; refresh_token] (grantTypes input) in
  let plainSecret := if confidential_ then Some (hex1 env) else None in
  let hashedSecret := if confidential_ then Some (hashSecret (hex1 env)) else None in
  let row :=
    {| ClientRow.id := uuid env;
       ClientRow.name := name input;
       ClientRow.secret := hashedSecret;
       ClientRow.redirect_uris := redirectUris input;
       ClientRow.scopes := scopes input;
       ClientRow.grant_types := grantTypes_;
       ClientRow.confidential := confidential_;
       ClientRow.first_party := firstParty_;
       ClientRow.revoked := false;
       ClientRow.created_at := now env;
       ClientRow.updated_at := now env |} in
  match insert row db with
  | Some db' => Some ((hydrate row, plainSecret), db')
  | None => None
  end.

(** [findIncludingRevoked] runs the same query as [find]. *)
Definition findIncludingRevoked (db : Db) (id : string) : option OAuthClientData.t :=
  option_map hydrate
    (List.find (fun c => String.eqb (ClientRow.id c) id) (clients db)).

(** List all non-revoked clients, newest first. *)
Definition all (db : Db) : list OAuthClientData.t :=
  map hydrate
    (order_by_desc ClientRow.created_at
       (List.filter (fun c => negb (ClientRow.revoked c)) (clients db))).

End OAuthClient.

(** ** src/auth_code.ts *)

Module AuthCode.

Definition hashCode (plain : string) : string := Sha256.sha256_hex plain.

Definition hydrate (row : AuthCodeRow.t) : OAuthAuthCodeData.t :=
  {| OAuthAuthCodeData.id := AuthCodeRow.id row;
     OAuthAuthCodeData.clientId := AuthCodeRow.client_id row;
     OAuthAuthCodeData.userId := AuthCodeRow.user_id row;
     OAuthAuthCodeData.redirectUri := AuthCodeRow.redirect_uri row;
     OAuthAuthCodeData.scopes := AuthCodeRow.scopes row;
     OAuthAuthCodeData.codeChallenge := AuthCodeRow.code_challenge row;
     OAuthAuthCodeData.codeChallengeMethod := AuthCodeRow.code_challenge_method row;
     OAuthAuthCodeData.expiresAt := AuthCodeRow.expires_at row;
     OAuthAuthCodeData.usedAt := AuthCodeRow.used_at row;
     OAuthAuthCodeData.createdAt := AuthCodeRow.created_at row |}.

Record CreateParams := {
  clientId : string;
  userId : string;
  redirectUri : string;
  scopes : list string;
  codeChallenge : option string;
  codeChallengeMethod : option string
}.

(** The INSERT fails (the promise rejects) on a duplicate primary key, a
    duplicate [code], or a [client_id] that references no client. *)
Definition insert (row : AuthCodeRow.t) (db : Db) : option Db :=
  if existsb (fun c => String.eqb (AuthCodeRow.id c) (AuthCodeRow.id row)) (auth_codes db)
     || existsb (fun c => String.eqb (AuthCodeRow.code c) (AuthCodeRow.code row)) (auth_codes db)
     || negb (has_client db (AuthCodeRow.client_id row))
  then None
  else Some (with_auth_codes db (auth_codes db ++ [row])).

Definition create (env : Env) (config : OAuth2Config) (params : CreateParams) (db : Db)
  : option ((string * OAuthAuthCodeData.t) * Db) :=
  let plainCode := hex1 env in
  let hashedCode := hashCode plainCode in
  let expiresAt := now env + authCodeLifetime config * 60000 in
  let row :=
    {| AuthCodeRow.id := uuid env;
       AuthCodeRow.client_id := clientId params;
       AuthCodeRow.user_id := userId params;
       AuthCodeRow.code := hashedCode;
       AuthCodeRow.redirect_uri := redirectUri params;
       AuthCodeRow.scopes := scopes params;
       AuthCodeRow.code_challenge := codeChallenge params;
       AuthCodeRow.code_challenge_method := codeChallengeMethod params;
       AuthCodeRow.expires_at := expiresAt;
       AuthCodeRow.used_at := None;
       AuthCodeRow.created_at := now env |} in
  match insert row db with
  | Some db' => Some ((plainCode, hydrate row), db')
  | None => None
  end.

Definition set_used_at (at_ : Z) (c : AuthCodeRow.t) : AuthCodeRow.t :=
  {| AuthCodeRow.id := AuthCodeRow.id c;
     AuthCodeRow.client_id := AuthCodeRow.client_id c;
     AuthCodeRow.user_id := AuthCodeRow.user_id c;
     AuthCodeRow.code := AuthCodeRow.code c;
     AuthCodeRow.redirect_uri := AuthCodeRow.redirect_uri c;
     AuthCodeRow.scopes := AuthCodeRow.scopes c;
     AuthCodeRow.code_challenge := AuthCodeRow.code_challenge c;
     AuthCodeRow.code_challenge_method := AuthCodeRow.code_challenge_method c;
     AuthCodeRow.expires_at := AuthCodeRow.expires_at c;
     AuthCodeRow.used_at := Some at_;
     AuthCodeRow.created_at := AuthCodeRow.created_at c |}.

(** [UPDATE auth_codes SET used_at = NOW() WHERE id = $1] *)
Definition mark_used (now_ : Z) (id : string) (db : Db) : Db :=
  with_auth_codes db
    (map (fun c => if String.eqb (AuthCodeRow.id c) id then set_used_at now_ c else c)
         (auth_codes db)).

(** [SELECT * FROM auth_codes WHERE code = $1 AND client_id = $2 LIMIT 1] *)
Definition lookup (db : Db) (hash clientId_ : string) : option AuthCodeRow.t :=
  List.find (fun c => String.eqb (AuthCodeRow.code c) hash
                      && String.eqb (AuthCodeRow.client_id c) clientId_)
            (auth_codes db).

Definition consume (now_ : Z) (plainCode clientId_ redirectUri_ : string)
    (codeVerifier : option string) (db : Db) : option OAuthAuthCodeData.t * Db :=
  let hash := hashCode plainCode in
  match lookup db hash clientId_ with
  | None => (None, db)
  | Some row =>
      let record := hydrate row in
      (* Already used *)
      if is_set (OAuthAuthCodeData.usedAt record) then (None, db)
      (* Expired *)
      else if OAuthAuthCodeData.expiresAt record <? now_ then (None, db)
      (* Redirect URI mismatch *)
      else if negb (String.eqb (OAuthAuthCodeData.redirectUri record) redirectUri_) then (None, db)
      (* PKCE verification *)
      else
        let challenge := OAuthAuthCodeData.codeChallenge record in
        let pkce_failed :=
          if truthy challenge then
            if negb (truthy codeVerifier) then true
            else if strict_eq (OAuthAuthCodeData.codeChallengeMethod record) "S256" then
              let verifierHash := Sha256.sha256_base64url (str codeVerifier) in
              negb (String.eqb verifierHash (str challenge))
            else
              (* plain method *)
              negb (String.eqb (str codeVerifier) (str challenge))
          else false in
        if pkce_failed then (None, db)
        else (Some record, mark_used now_ (OAuthAuthCodeData.id record) db)
  end.

(** [DELETE FROM auth_codes WHERE expires_at < NOW() OR used_at IS NOT NULL];
    returns the number of deleted rows. *)
Definition prune (now_ : Z) (db : Db) : nat * Db :=
  let kept :=
    List.filter (fun c => negb ((AuthCodeRow.expires_at c <? now_)
                                || is_set (AuthCodeRow.used_at c)))
                (auth_codes db) in
  ((length (auth_codes db) - length kept)%nat, with_auth_codes db kept).

End AuthCode.

(** ** src/token.ts *)

Module OAuthToken.

Definition hashToken (plain : string) : string := Sha256.sha256_hex plain.

Definition hydrate (row : TokenRow.t) : OAuthTokenData.t :=
  {| OAuthTokenData.id := TokenRow.id row;
     OAuthTokenData.userId := TokenRow.user_id row;
     OAuthTokenData.clientId := TokenRow.client_id row;
     OAuthTokenData.name := TokenRow.name row;
     OAuthTokenData.scopes := TokenRow.scopes row;
     OAuthTokenData.expiresAt := TokenRow.expires_at row;
     OAuthTokenData.refreshExpiresAt := TokenRow.refresh_expires_at row;
     OAuthTokenData.lastUsedAt := TokenRow.last_used_at row;
     OAuthTokenData.revokedAt := TokenRow.revoked_at row;
     OAuthTokenData.createdAt := TokenRow.created_at row |}.

Record CreateParams := {
  userId : option string;
  clientId : string;
  scopes : list string;
  name : option string;
  includeRefreshToken : option bool;
  accessTokenLifetime_ : option Z;
  refreshTokenLifetime_ : option Z
}.

Record Created := {
  accessToken : string;
  refreshToken : option string;
  tokenData : OAuthTokenData.t
}.

Definition refresh_is (hash : string) (t : TokenRow.t) : bool :=
  strict_eq (TokenRow.refresh_token t) hash.

(** The INSERT fails on a duplicate primary key, a duplicate [token], a
    duplicate non-null [refresh_token], or a [client_id] that references no
    client. *)
Definition insert (row : TokenRow.t) (db : Db) : option Db :=
  if existsb (fun t => String.eqb (TokenRow.id t) (TokenRow.id row)) (tokens db)
     || existsb (fun t => String.eqb (TokenRow.token t) (TokenRow.token row)) (tokens db)
     || match TokenRow.refresh_token row with
        | Some h => existsb (refresh_is h) (tokens db)
        | None => false
        end
     || negb (has_client db (TokenRow.client_id row))
  then None
  else Some (with_tokens db (tokens db ++ [row])).

Definition create (env : Env) (config : OAuth2Config) (params : CreateParams) (db : Db)
  : option (Created * Db) :=
  let plainAccess := hex1 env in
  let hashedAccess := hashToken plainAccess in
  let accessLifetime := default (accessTokenLifetime config) (accessTokenLifetime_ params) in
  let expiresAt := now env + accessLifetime * 60000 in
  let with_refresh :=
    negb (bool_decide (includeRefreshToken params = Some false))
    && bool_decide (is_Some (userId params)) in
  let refreshLifetime := default (refreshTokenLifetime config) (refreshTokenLifetime_ params) in
  let plainRefresh := if with_refresh then Some (hex2 env) else None in
  let hashedRefresh := if with_refresh then Some (hashToken (hex2 env)) else None in
  let refreshExpiresAt :=
    if with_refresh then Some (now env + refreshLifetime * 60000) else None in
  let row :=
    {| TokenRow.id := uuid env;
       TokenRow.user_id := userId params;
       TokenRow.client_id := clientId params;
       TokenRow.name := name params;
       TokenRow.scopes := scopes params;
       TokenRow.token := hashedAccess;
       TokenRow.refresh_token := hashedRefresh;
       TokenRow.expires_at := expiresAt;
       TokenRow.refresh_expires_at := refreshExpiresAt;
       TokenRow.last_used_at := None;
       TokenRow.revoked_at := None;
       TokenRow.created_at := now env |} in
  match insert row db with
  | Some db' =>
      Some ({| accessToken := plainAccess; refreshToken := plainRefresh;
               tokenData := hydrate row |}, db')
  | None => None
  end.

Definition set_last_used_at (at_ : Z) (t : TokenRow.t) : TokenRow.t :=
  {| TokenRow.id := TokenRow.id t;
     TokenRow.user_id := TokenRow.user_id t;
     TokenRow.client_id := TokenRow.client_id t;
     TokenRow.name := TokenRow.name t;
     TokenRow.scopes := TokenRow.scopes t;
     TokenRow.token := TokenRow.token t;
     TokenRow.refresh_token := TokenRow.refresh_token t;
     TokenRow.expires_at := TokenRow.expires_at t;
     TokenRow.refresh_expires_at := TokenRow.refresh_expires_at t;
     TokenRow.last_used_at := Some at_;
     TokenRow.revoked_at := TokenRow.revoked_at t;
     TokenRow.created_at := TokenRow.created_at t |}.

Definition set_revoked_at (at_ : Z) (t : TokenRow.t) : TokenRow.t :=
  {| TokenRow.id := TokenRow.id t;
     TokenRow.user_id := TokenRow.user_id t;
     TokenRow.client_id := TokenRow.client_id t;
     TokenRow.name := TokenRow.name t;
     TokenRow.scopes := TokenRow.scopes t;
     TokenRow.token := TokenRow.token t;
     TokenRow.refresh_token := TokenRow.refresh_token t;
     TokenRow.expires_at := TokenRow.expires_at t;
     TokenRow.refresh_expires_at := TokenRow.refresh_expires_at t;
     TokenRow.last_used_at := TokenRow.last_used_at t;
     TokenRow.revoked_at := Some at_;
     TokenRow.created_at := TokenRow.created_at t |}.

(** [UPDATE tokens SET last_used_at = NOW() WHERE id = $1], issued without
    being awaited by [validate]. *)
Definition touch (now_ : Z) (id : string) (db : Db) : Db :=
  with_tokens db
    (map (fun t => if String.eqb (TokenRow.id t) id then set_last_used_at now_ t else t)
         (tokens db)).

Definition validate (now_ : Z) (plainToken : string) (db : Db)
  : option OAuthTokenData.t * Db :=
  let hash := hashToken plainToken in
  match List.find (fun t => String.eqb (TokenRow.token t) hash) (tokens db) with
  | None => (None, db)
  | Some row =>
      let record := hydrate row in
      (* Reject revoked tokens *)
      if is_set (OAuthTokenData.revokedAt record) then (None, db)
      (* Reject expired tokens *)
      else if OAuthTokenData.expiresAt record <? now_ then (None, db)
      else (Some record, touch now_ (OAuthTokenData.id record) db)
  end.

Definition validateRefreshToken (now_ : Z) (plainRefresh : string) (db : Db)
  : option OAuthTokenData.t :=
  let hash := hashToken plainRefresh in
  match List.find (refresh_is hash) (tokens db) with
  | None => None
  | Some row =>
      let record := hydrate row in
      (* Reject revoked tokens *)
      if is_set (OAuthTokenData.revokedAt record) then None
      (* Reject expired refresh tokens *)
      else if match OAuthTokenData.refreshExpiresAt record with
              | Some refreshExpiresAt => refreshExpiresAt <? now_
              | None => false
              end
      then None
      else Some record
  end.

(** [UPDATE tokens SET revoked_at = NOW() WHERE id = $1] *)
Definition revoke (now_ : Z) (id : string) (db : Db) : Db :=
  with_tokens db
    (map (fun t => if String.eqb (TokenRow.id t) id then set_revoked_at now_ t else t)
         (tokens db)).

Definition revokeAllFor (now_ : Z) (userId_ : string) (db : Db) : Db :=
  with_tokens db
    (map (fun t => if strict_eq (TokenRow.user_id t) userId_
                      && negb (is_set (TokenRow.revoked_at t))
                   then set_revoked_at now_ t else t)
         (tokens db)).

Definition revokeAllForClient (now_ : Z) (userId_ clientId_ : string) (db : Db) : Db :=
  with_tokens db
    (map (fun t => if strict_eq (TokenRow.user_id t) userId_
                      && String.eqb (TokenRow.client_id t) clientId_
                      && negb (is_set (TokenRow.revoked_at t))
                   then set_revoked_at now_ t else t)
         (tokens db)).

(** The WHERE clause of [prune]. *)
Definition prunable (now_ cutoff : Z) (t : TokenRow.t) : bool :=
  ((TokenRow.expires_at t <? now_) && negb (is_set (TokenRow.refresh_expires_at t)))
  || match TokenRow.refresh_expires_at t with
     | Some r => r <? now_
     | None => false
     end
  || match TokenRow.revoked_at t with
     | Some r => r <? cutoff
     | None => false
     end.

Definition prune (now_ : Z) (revokedOlderThanDays : Z) (db : Db) : nat * Db :=
  let cutoff := now_ - revokedOlderThanDays * 86400000 in
  let kept := List.filter (fun t => negb (prunable now_ cutoff t)) (tokens db) in
  ((length (tokens db) - length kept)%nat, with_tokens db kept).

(** The WHERE clause of [allForUser]. *)
Definition active_for (now_ : Z) (userId_ : string) (t : TokenRow.t) : bool :=
  strict_eq (TokenRow.user_id t) userId_
  && negb (is_set (TokenRow.revoked_at t))
  && (now_ <? TokenRow.expires_at t).

(** List all active tokens for a user, newest first. *)
Definition allForUser (now_ : Z) (userId_ : string) (db : Db) : list OAuthTokenData.t :=
  map hydrate
    (order_by_desc TokenRow.created_at (List.filter (active_for now_ userId_) (tokens db))).

(** List personal access tokens for a user. *)
Definition personalTokensFor (config : OAuth2Config) (now_ : Z) (userId_ : string) (db : Db)
  : list OAuthTokenData.t :=
  let patClientId := personalAccessClient config in
  if negb (truthy patClientId) then []
  else
    map hydrate
      (order_by_desc TokenRow.created_at
         (List.filter (fun t => active_for now_ userId_ t
                                && String.eqb (TokenRow.client_id t) (str patClientId))
                      (tokens db))).

End OAuthToken.

(** ** Responses *)

(** [RJson body status] is [ctx.json(body, status)]; [RRedirect uri params
    status] redirects to the URL [new URL(uri)] after [searchParams.set] of
    each pair of [params] in order; [RConsent] is whatever the host's
    [renderAuthorization] action answers for a client and its scopes. *)
Inductive Response :=
| RJson (body : Json) (status : Z)
| RRedirect (uri : string) (params : list (string * string)) (status : Z)
| RConsent (client : OAuthClientData.t) (scopes : list ScopeDescription).

(** A handler answers, or an exception escapes it to the host. *)
Inductive Outcome :=
| Respond (r : Response)
| Raise (error : string).

Abbreviation Params := (gmap string string).

Definition state_param (state : option string) : list (string * string) :=
  if truthy state then [("state", str state)] else [].

Definition invalid_url : string := "TypeError: Invalid URL".
Definition insert_failed : string := "PostgresError: constraint violation".

(** ** src/handlers/authorize.ts *)

Record AuthRequest := {
  ar_clientId : string;
  ar_redirectUri : string;
  ar_scopes : list string;
  ar_state : option string;
  ar_codeChallenge : option string;
  ar_codeChallengeMethod : option string
}.

(** The session slot [_oauth2_auth_request]. *)
Abbreviation Session := (option AuthRequest).

(** Whether the host provided the optional [renderAuthorization] action. *)
Record OAuth2Actions := {
  renderAuthorization : bool
}.

Definition errorRedirect (env : Env) (redirectUri : string) (state : option string)
    (error description : string) : Outcome :=
  if url_ok env redirectUri then
    Respond (RRedirect redirectUri
               ([("error", error); ("error_description", description)] ++ state_param state)
               302)
  else Raise invalid_url.

Definition issueAuthorizationCode (env : Env) (config : OAuth2Config) (user : JsUser)
    (clientId redirectUri : string) (scopes : list string) (state : option string)
    (codeChallenge codeChallengeMethod : option string) (db : Db) : Outcome * Db :=
  match getUserId user with
  | inl err => (Raise err, db)
  | inr userId =>
      match AuthCode.create env config
              {| AuthCode.clientId := clientId;
                 AuthCode.userId := userId;
                 AuthCode.redirectUri := redirectUri;
                 AuthCode.scopes := scopes;
                 AuthCode.codeChallenge := codeChallenge;
                 AuthCode.codeChallengeMethod := codeChallengeMethod |} db with
      | None => (Raise insert_failed, db)
      | Some ((code, _), db') =>
          (* Redirect back to client with code *)
          if url_ok env redirectUri then
            (Respond (RRedirect redirectUri ([("code", code)] ++ state_param state) 302), db')
          else (Raise invalid_url, db')
      end
  end.

Definition json_error (e : OAuth2Error) (status : Z) : Outcome :=
  Respond (RJson (toJSON e) status).

Definition json_of_description (d : ScopeDescription) : Json :=
  JObj [("name", JStr (sd_name d)); ("description", JStr (sd_description d))].

Definition json_of_nullable (v : option string) : Json :=
  match v with
  | Some s => JStr s
  | None => JNull
  end.

Definition authorizeHandler (env : Env) (config : OAuth2Config) (reg : ScopeRegistry.t)
    (actions : OAuth2Actions) (query : Params) (user : JsUser)
    (session : Session) (db : Db) : Outcome * Session * Db :=
  let responseType := query !! "response_type" in
  let clientId := query !! "client_id" in
  let redirectUri := query !! "redirect_uri" in
  let scopeParam := query !! "scope" in
  let state := query !! "state" in
  let codeChallenge := query !! "code_challenge" in
  let codeChallengeMethod := default "plain" (query !! "code_challenge_method") in
  (* Validate required params *)
  if negb (strict_eq responseType "code") then
    (json_error (InvalidRequestError
                   ("The response_type must be " +:+ dquote +:+ "code" +:+ dquote +:+ "."))
                400, session, db)
  else if negb (truthy clientId) then
    (json_error (InvalidRequestError "The client_id parameter is required.") 400, session, db)
  else
    (* Look up client *)
    match OAuthClient.find db (str clientId) with
    | None => (json_error (InvalidClientError client_auth_failed) 401, session, db)
    | Some client =>
        if OAuthClientData.revoked client then
          (json_error (InvalidClientError client_auth_failed) 401, session, db)
        (* Must support authorization_code grant *)
        else if negb (grants (OAuthClientData.grantTypes client) authorization_code) then
          (json_error (InvalidRequestError
                         "This client does not support the authorization_code grant.")
                      400, session, db)
        (* Validate redirect URI *)
        else if negb (truthy redirectUri)
                || negb (includes (OAuthClientData.redirectUris client) (str redirectUri)) then
          (json_error (InvalidRequestError
                         "The redirect_uri is missing or not registered for this client.")
                      400, session, db)
        (* Public clients must use PKCE *)
        else if negb (OAuthClientData.confidential client) && negb (truthy codeChallenge) then
          (errorRedirect env (str redirectUri) state "invalid_request"
             "Public clients must use PKCE (code_challenge required).", session, db)
        (* Validate code_challenge_method *)
        else if truthy codeChallenge
                && negb (String.eqb codeChallengeMethod "S256")
                && negb (String.eqb codeChallengeMethod "plain") then
          (errorRedirect env (str redirectUri) state "invalid_request"
             ("Unsupported code_challenge_method. Use " +:+ dquote +:+ "S256" +:+ dquote
              +:+ " or " +:+ dquote +:+ "plain" +:+ dquote +:+ "."), session, db)
        else
          (* Validate scopes *)
          let requestedScopes :=
            if truthy scopeParam then split_scopes (str scopeParam) else [] in
          match ScopeRegistry.validate reg requestedScopes (OAuthClientData.scopes client)
                  (defaultScopes config) with
          | inl err =>
              (errorRedirect env (str redirectUri) state "invalid_scope" (message err),
               session, db)
          | inr scopes =>
              (* Store authorization request in session for the POST approval step *)
              let session' :=
                Some {| ar_clientId := str clientId;
                        ar_redirectUri := str redirectUri;
                        ar_scopes := scopes;
                        ar_state := state;
                        ar_codeChallenge := codeChallenge;
                        ar_codeChallengeMethod :=
                          if truthy codeChallenge then Some codeChallengeMethod else None |} in
              (* First-party clients skip consent *)
              if OAuthClientData.firstParty client then
                let (outcome, db') :=
                  issueAuthorizationCode env config user (OAuthClientData.id client)
                    (str redirectUri) scopes state codeChallenge (Some codeChallengeMethod) db in
                (outcome, session', db')
              else
                (* Third-party: render consent screen *)
                let scopeDescriptions := ScopeRegistry.describe reg scopes in
                if renderAuthorization actions then
                  (Respond (RConsent client scopeDescriptions), session', db)
                else
                  (Respond (RJson (JObj [("authorization_required", JBool true);
                                         ("client",
                                          JObj [("id", JStr (OAuthClientData.id client));
                                                ("name", JStr (OAuthClientData.name client))]);
                                         ("scopes", JArr (map json_of_description scopeDescriptions));
                                         ("state", json_of_nullable state)])
                                  200), session', db)
          end
    end.

(** [approved] is the truthiness of [body.approved]. *)
Definition approveHandler (env : Env) (config : OAuth2Config) (approved : bool)
    (user : JsUser) (session : Session) (db : Db) : Outcome * Session * Db :=
  match session with
  | None =>
      (json_error (InvalidRequestError "No pending authorization request.") 400, session, db)
  | Some authRequest =>
      (* Clear the session data *)
      let session' : Session := None in
      (* User denied *)
      if negb approved then
        (errorRedirect env (ar_redirectUri authRequest) (ar_state authRequest)
           "access_denied" "The resource owner denied the request.", session', db)
      else
        (* User approved: issue code *)
        let (outcome, db') :=
          issueAuthorizationCode env config user (ar_clientId authRequest)
            (ar_redirectUri authRequest) (ar_scopes authRequest) (ar_state authRequest)
            (ar_codeChallenge authRequest) (ar_codeChallengeMethod authRequest) db in
        (outcome, session', db')
  end.

(** ** src/handlers/personal_tokens.ts *)

(** [tokenId] is the route parameter [:id]. The context also carries the
    authenticated [user], and the configuration names the personal access
    client; the handler reads neither. *)
Definition revokePersonalTokenHandler (env : Env) (config : OAuth2Config) (user : JsUser)
    (tokenId : string) (db : Db) : Response * Db :=
  let db' := OAuthToken.revoke (now env) tokenId db in
  (RJson (JObj [("message", JStr "Token revoked.")]) 200, db').

(** ** src/handlers/revoke.ts *)

Definition revokeHandler (env : Env) (body : Params) (db : Db) : Response * Db :=
  let token := body !! "token" in
  let client_id := body !! "client_id" in
  let client_secret := body !! "client_secret" in
  if negb (truthy token) then
    (RJson (JObj [("error", JStr "invalid_request");
                  ("error_description", JStr "The token parameter is required.")]) 400, db)
  else
    (* Try revoking as access token first, then as refresh token *)
    let revoke_token :=
      match OAuthToken.validate (now env) (str token) db with
      | (Some tokenData, db1) =>
          (RJson (JObj []) 200, OAuthToken.revoke (now env) (OAuthTokenData.id tokenData) db1)
      | (None, db1) =>
          match OAuthToken.validateRefreshToken (now env) (str token) db1 with
          | Some refreshData =>
              (RJson (JObj []) 200,
               OAuthToken.revoke (now env) (OAuthTokenData.id refreshData) db1)
          | None => (RJson (JObj []) 200, db1)
          end
      end in
    (* Authenticate the client if credentials are provided *)
    if truthy client_id then
      match OAuthClient.find db (str client_id) with
      | None => (RJson (toJSON (InvalidClientError client_auth_failed)) 401, db)
      | Some client =>
          if OAuthClientData.revoked client then
            (RJson (toJSON (InvalidClientError client_auth_failed)) 401, db)
          else if OAuthClientData.confidential client && truthy client_secret then
            if negb (OAuthClient.verifySecret db client (str client_secret)) then
              (RJson (toJSON (InvalidClientError client_auth_failed)) 401, db)
            else revoke_token
          else revoke_token
      end
    else revoke_token.

(** ** src/handlers/token.ts *)

Definition tokenResponse (env : Env) (accessToken : string) (refreshToken : option string)
    (scopes : list string) (expiresAt : Z) : Response :=
  let expiresIn := (expiresAt - now_reply env) / 1000 in
  RJson (JObj ([("access_token", JStr accessToken);
                ("token_type", JStr "Bearer");
                ("expires_in", JNum expiresIn);
                ("scope", JStr (join " " scopes))]
               ++ (if truthy refreshToken then [("refresh_token", JStr (str refreshToken))]
                   else [])))
        200.

Definition errorResponse (error : OAuth2Error) : Response :=
  RJson (toJSON error) (statusCode error).

Definition secret_required : string := "Client secret is required for confidential clients.".

Definition handleAuthorizationCode (env : Env) (config : OAuth2Config) (body : Params)
    (db : Db) : Outcome * Db :=
  let code := body !! "code" in
  let redirect_uri := body !! "redirect_uri" in
  let client_id := body !! "client_id" in
  let client_secret := body !! "client_secret" in
  let code_verifier := body !! "code_verifier" in
  if negb (truthy code) || negb (truthy redirect_uri) || negb (truthy client_id) then
    (Respond (errorResponse
                (InvalidRequestError
                   "The code, redirect_uri, and client_id parameters are required.")), db)
  else
    (* Look up client *)
    match OAuthClient.find db (str client_id) with
    | None => (Respond (errorResponse (InvalidClientError client_auth_failed)), db)
    | Some client =>
        if OAuthClientData.revoked client then
          (Respond (errorResponse (InvalidClientError client_auth_failed)), db)
        (* Authenticate client *)
        else if OAuthClientData.confidential client && negb (truthy client_secret) then
          (Respond (errorResponse (InvalidClientError secret_required)), db)
        else if OAuthClientData.confidential client
                && negb (OAuthClient.verifySecret db client (str client_secret)) then
          (Respond (errorResponse (InvalidClientError client_auth_failed)), db)
        else
              (* Consume auth code (validates expiry, redirect_uri, PKCE) *)
              match AuthCode.consume (now env) (str code) (str client_id) (str redirect_uri)
                      code_verifier db with
              | (None, db1) => (Respond (errorResponse (InvalidGrantError grant_invalid)), db1)
              | (Some codeData, db1) =>
                  (* Issue tokens *)
                  match OAuthToken.create env config
                          {| OAuthToken.userId := Some (OAuthAuthCodeData.userId codeData);
                             OAuthToken.clientId := str client_id;
                             OAuthToken.scopes := OAuthAuthCodeData.scopes codeData;
                             OAuthToken.name := None;
                             OAuthToken.includeRefreshToken :=
                               Some (grants (OAuthClientData.grantTypes client) refresh_token);
                             OAuthToken.accessTokenLifetime_ := None;
                             OAuthToken.refreshTokenLifetime_ := None |} db1 with
                  | None => (Raise insert_failed, db1)
                  | Some (created, db2) =>
                      (Respond (tokenResponse env (OAuthToken.accessToken created)
                                  (OAuthToken.refreshToken created)
                                  (OAuthTokenData.scopes (OAuthToken.tokenData created))
                                  (OAuthTokenData.expiresAt (OAuthToken.tokenData created))),
                       db2)
                  end
              end
    end.

Definition handleClientCredentials (env : Env) (config : OAuth2Config)
    (reg : ScopeRegistry.t) (body : Params) (db : Db) : Outcome * Db :=
  let client_id := body !! "client_id" in
  let client_secret := body !! "client_secret" in
  let scope := body !! "scope" in
  if negb (truthy client_id) || negb (truthy client_secret) then
    (Respond (errorResponse
                (InvalidRequestError
                   "The client_id and client_secret parameters are required.")), db)
  else
    match OAuthClient.find db (str client_id) with
    | None => (Respond (errorResponse (InvalidClientError client_auth_failed)), db)
    | Some client =>
        if OAuthClientData.revoked client then
          (Respond (errorResponse (InvalidClientError client_auth_failed)), db)
        else if negb (OAuthClientData.confidential client) then
          (Respond (errorResponse
                      (InvalidClientError
                         "Client credentials grant requires a confidential client.")), db)
        else if negb (grants (OAuthClientData.grantTypes client) client_credentials) then
          (Respond (errorResponse
                      (InvalidGrantError
                         "This client does not support the client_credentials grant.")), db)
        else if negb (OAuthClient.verifySecret db client (str client_secret)) then
          (Respond (errorResponse (InvalidClientError client_auth_failed)), db)
        else
          (* Validate scopes *)
          let requestedScopes := if truthy scope then split_scopes (str scope) else [] in
          match ScopeRegistry.validate reg requestedScopes (OAuthClientData.scopes client)
                  (defaultScopes config) with
          | inl err => (Respond (errorResponse err), db)
          | inr scopes =>
              (* Issue access token only (no refresh token, no user) *)
              match OAuthToken.create env config
                      {| OAuthToken.userId := None;
                         OAuthToken.clientId := str client_id;
                         OAuthToken.scopes := scopes;
                         OAuthToken.name := None;
                         OAuthToken.includeRefreshToken := Some false;
                         OAuthToken.accessTokenLifetime_ := None;
                         OAuthToken.refreshTokenLifetime_ := None |} db with
              | None => (Raise insert_failed, db)
              | Some (created, db1) =>
                  (Respond (tokenResponse env (OAuthToken.accessToken created) None
                              (OAuthTokenData.scopes (OAuthToken.tokenData created))
                              (OAuthTokenData.expiresAt (OAuthToken.tokenData created))),
                   db1)
              end
          end
    end.

(** The names of [requested] that the old token does not carry. *)
Definition widened_scopes (oldScopes requested : list string) : list string :=
  List.filter (fun s => negb (includes oldScopes s)) requested.

Definition handleRefreshToken (env : Env) (config : OAuth2Config) (body : Params)
    (db : Db) : Outcome * Db :=
  let refresh_token := body !! "refresh_token" in
  let client_id := body !! "client_id" in
  let client_secret := body !! "client_secret" in
  let scope := body !! "scope" in
  if negb (truthy refresh_token) || negb (truthy client_id) then
    (Respond (errorResponse
                (InvalidRequestError
                   "The refresh_token and client_id parameters are required.")), db)
  else
    match OAuthClient.find db (str client_id) with
    | None => (Respond (errorResponse (InvalidClientError client_auth_failed)), db)
    | Some client =>
        if OAuthClientData.revoked client then
          (Respond (errorResponse (InvalidClientError client_auth_failed)), db)
        (* Authenticate confidential clients *)
        else if OAuthClientData.confidential client && negb (truthy client_secret) then
          (Respond (errorResponse (InvalidClientError secret_required)), db)
        else if OAuthClientData.confidential client
                && negb (OAuthClient.verifySecret db client (str client_secret)) then
          (Respond (errorResponse (InvalidClientError client_auth_failed)), db)
        else
              (* Validate refresh token *)
              match OAuthToken.validateRefreshToken (now env) (str refresh_token) db with
              | None => (Respond (errorResponse (InvalidGrantError grant_invalid)), db)
              | Some oldToken =>
                  if negb (String.eqb (OAuthTokenData.clientId oldToken) (str client_id)) then
                    (Respond (errorResponse (InvalidGrantError grant_invalid)), db)
                  else
                    (* Optionally narrow scopes (cannot widen) *)
                    let requested := split_scopes (str scope) in
                    let widened := widened_scopes (OAuthTokenData.scopes oldToken) requested in
                    if truthy scope && (0 <? length widened)%nat then
                      (Respond (errorResponse
                                  (InvalidRequestError
                                     ("Cannot widen scopes on refresh. Unknown scopes: "
                                      +:+ join ", " widened))), db)
                    else
                      let scopes :=
                        if truthy scope then requested else OAuthTokenData.scopes oldToken in
                      (* Revoke old token (rotation) *)
                      let db1 := OAuthToken.revoke (now env) (OAuthTokenData.id oldToken) db in
                      (* Issue new token pair *)
                      match OAuthToken.create env config
                              {| OAuthToken.userId := OAuthTokenData.userId oldToken;
                                 OAuthToken.clientId := str client_id;
                                 OAuthToken.scopes := scopes;
                                 OAuthToken.name := None;
                                 OAuthToken.includeRefreshToken := Some true;
                                 OAuthToken.accessTokenLifetime_ := None;
                                 OAuthToken.refreshTokenLifetime_ := None |} db1 with
                      | None => (Raise insert_failed, db1)
                      | Some (created, db2) =>
                          (Respond (tokenResponse env (OAuthToken.accessToken created)
                                      (OAuthToken.refreshToken created)
                                      (OAuthTokenData.scopes (OAuthToken.tokenData created))
                                      (OAuthTokenData.expiresAt (OAuthToken.tokenData created))),
                           db2)
                      end
              end
    end.

Definition tokenHandler (env : Env) (config : OAuth2Config) (reg : ScopeRegistry.t)
    (body : Params) (db : Db) : Outcome * Db :=
  let grantType := body !! "grant_type" in
  if negb (truthy grantType) then
    (Respond (errorResponse (InvalidRequestError "The grant_type parameter is required.")), db)
  else if String.eqb (str grantType) "authorization_code" then
    handleAuthorizationCode env config body db
  else if String.eqb (str grantType) "client_credentials" then
    handleClientCredentials env config reg body db
  else if String.eqb (str grantType) "refresh_token" then
    handleRefreshToken env config body db
  else (Respond (errorResponse UnsupportedGrantError), db).

(** ** Specification-side vocabulary

    These definitions follow the wording of the specification; the theorems
    below compare them with the code above. *)

(** "If requested is empty, substitute defaults." *)
Definition effective_scopes (requested defaults : list string) : list string :=
  match requested with
  | [] => defaults
  | _ :: _ => requested
  end.

(** A name the registry does not know, or one outside a non-null allow-list. *)
Definition scope_rejected (reg : ScopeRegistry.t) (clientAllowed : option (list string))
    (name : string) : Prop :=
  reg !! name = None \/ exists allowed, clientAllowed = Some allowed /\ ~ In name allowed.

(** Rewriting every access-token expiry of the table. *)
Definition set_expires_at (at_ : Z) (t : TokenRow.t) : TokenRow.t :=
  {| TokenRow.id := TokenRow.id t;
     TokenRow.user_id := TokenRow.user_id t;
     TokenRow.client_id := TokenRow.client_id t;
     TokenRow.name := TokenRow.name t;
     TokenRow.scopes := TokenRow.scopes t;
     TokenRow.token := TokenRow.token t;
     TokenRow.refresh_token := TokenRow.refresh_token t;
     TokenRow.expires_at := at_;
     TokenRow.refresh_expires_at := TokenRow.refresh_expires_at t;
     TokenRow.last_used_at := TokenRow.last_used_at t;
     TokenRow.revoked_at := TokenRow.revoked_at t;
     TokenRow.created_at := TokenRow.created_at t |}.

Definition reexpire (f : TokenRow.t -> Z) (db : Db) : Db :=
  with_tokens db (map (fun t => set_expires_at (f t) t) (tokens db)).

(** The access-token row a plaintext selects. *)
Definition access_row (db : Db) (plain : string) : option TokenRow.t :=
  List.find (fun t => String.eqb (TokenRow.token t) (OAuthToken.hashToken plain)) (tokens db).

(** The row a plaintext refresh token selects. *)
Definition refresh_row (db : Db) (plain : string) : option TokenRow.t :=
  List.find (OAuthToken.refresh_is (OAuthToken.hashToken plain)) (tokens db).

(** What "any stored PKCE challenge is satisfied by the verifier" amounts to
    in the code: a stored non-empty challenge demands a non-empty verifier
    that matches it, hashed under the method S256 and verbatim under any
    other stored method. *)
Definition pkce_satisfied (row : AuthCodeRow.t) (verifier : option string) : Prop :=
  truthy (AuthCodeRow.code_challenge row) = true ->
  truthy verifier = true
  /\ (if strict_eq (AuthCodeRow.code_challenge_method row) "S256"
      then Sha256.sha256_base64url (str verifier) = str (AuthCodeRow.code_challenge row)
      else str verifier = str (AuthCodeRow.code_challenge row)).

(** The same four conditions as one boolean test on the selected row. *)
Definition consume_accepts (now_ : Z) (redirectUri : string) (verifier : option string)
    (row : AuthCodeRow.t) : bool :=
  negb (is_set (AuthCodeRow.used_at row))
  && negb (AuthCodeRow.expires_at row <? now_)
  && String.eqb (AuthCodeRow.redirect_uri row) redirectUri
  && (negb (truthy (AuthCodeRow.code_challenge row))
      || (truthy verifier
          && if strict_eq (AuthCodeRow.code_challenge_method row) "S256"
             then String.eqb (Sha256.sha256_base64url (str verifier))
                             (str (AuthCodeRow.code_challenge row))
             else String.eqb (str verifier) (str (AuthCodeRow.code_challenge row)))).

(** The client authentication of /revoke (and /introspect) fails: a client
    id is supplied and names no client or a revoked one, or the client is
    confidential and a supplied secret does not verify. *)
Definition client_auth_fails (db : Db) (client_id client_secret : option string) : bool :=
  truthy client_id
  && match OAuthClient.find db (str client_id) with
     | None => true
     | Some client =>
         OAuthClientData.revoked client
         || (OAuthClientData.confidential client
             && truthy client_secret
             && negb (OAuthClient.verifySecret db client (str client_secret)))
     end.

(** "redirect_uri is missing or is not equal to one of the client's
    registered redirect URIs", for the client the request names. *)
Definition redirect_uri_unregistered (db : Db) (query : Params) : Prop :=
  truthy (query !! "redirect_uri") = false
  \/ forall client,
       OAuthClient.find db (str (query !! "client_id")) = Some client ->
       ~ In (str (query !! "redirect_uri")) (OAuthClientData.redirectUris client).

(** The URI is one of the registered redirect URIs of the client. *)
Definition registered_for (db : Db) (clientId uri : string) : Prop :=
  exists client,
    OAuthClient.find db clientId = Some client
    /\ In uri (OAuthClientData.redirectUris client).

(** The refresh request names its token and its client, the client exists,
    is not revoked and, when confidential, presents a secret that verifies:
    the checks of [handleRefreshToken] that precede the token validation. *)
Definition refresh_client_admitted (db : Db) (body : Params) : bool :=
  truthy (body !! "refresh_token")
  && truthy (body !! "client_id")
  && match OAuthClient.find db (str (body !! "client_id")) with
     | None => false
     | Some client =>
         negb (OAuthClientData.revoked client)
         && (negb (OAuthClientData.confidential client)
             || (truthy (body !! "client_secret")
                 && OAuthClient.verifySecret db client (str (body !! "client_secret"))))
     end.

(** "The old token" of a refresh request: what the handler binds to
    [oldToken] once the client is admitted, the refresh token validates and
    belongs to that client. *)
Definition refresh_old_token (env : Env) (body : Params) (db : Db)
  : option OAuthTokenData.t :=
  if refresh_client_admitted db body then
    match OAuthToken.validateRefreshToken (now env) (str (body !! "refresh_token")) db with
    | Some oldToken =>
        if String.eqb (OAuthTokenData.clientId oldToken) (str (body !! "client_id"))
        then Some oldToken else None
    | None => None
    end
  else None.

(** The scope field of a token response. *)
Definition payload_scope (payload : Json) : option string :=
  match payload with
  | JObj (_ :: _ :: _ :: (_, JStr scope) :: _) => Some scope
  | _ => None
  end.

(** The part of [handleRefreshToken] that follows the binding of
    [oldToken]: scope narrowing, rotation, issuance. *)
Definition refresh_tail (env : Env) (config : OAuth2Config) (body : Params) (db : Db)
    (oldToken : OAuthTokenData.t) : Outcome * Db :=
  let requested := split_scopes (str (body !! "scope")) in
  let widened := widened_scopes (OAuthTokenData.scopes oldToken) requested in
  if truthy (body !! "scope") && (0 <? length widened)%nat then
    (Respond (errorResponse
                (InvalidRequestError
                   ("Cannot widen scopes on refresh. Unknown scopes: " +:+ join ", " widened))),
     db)
  else
    let db1 := OAuthToken.revoke (now env) (OAuthTokenData.id oldToken) db in
    match OAuthToken.create env config
            {| OAuthToken.userId := OAuthTokenData.userId oldToken;
               OAuthToken.clientId := str (body !! "client_id");
               OAuthToken.scopes :=
                 if truthy (body !! "scope") then requested
                 else OAuthTokenData.scopes oldToken;
               OAuthToken.name := None;
               OAuthToken.includeRefreshToken := Some true;
               OAuthToken.accessTokenLifetime_ := None;
               OAuthToken.refreshTokenLifetime_ := None |} db1 with
    | None => (Raise insert_failed, db1)
    | Some (created, db2) =>
        (Respond (tokenResponse env (OAuthToken.accessToken created)
                    (OAuthToken.refreshToken created)
                    (OAuthTokenData.scopes (OAuthToken.tokenData created))
                    (OAuthTokenData.expiresAt (OAuthToken.tokenData created))),
         db2)
    end.

(** Every SQL statement of the sources that writes rows (the INSERT, UPDATE
    and DELETE statements of src/token.ts, src/client.ts and
    src/auth_code.ts), as a step between database states; the three DELETE
    statements of [OAuthClient.destroy] make one step. *)
Inductive db_write : Db -> Db -> Prop :=
| write_token_create env config params db created db' :
    OAuthToken.create env config params db = Some (created, db') -> db_write db db'
| write_token_touch now_ id db :
    db_write db (OAuthToken.touch now_ id db)
| write_token_revoke now_ id db :
    db_write db (OAuthToken.revoke now_ id db)
| write_token_revokeAllFor now_ userId db :
    db_write db (OAuthToken.revokeAllFor now_ userId db)
| write_token_revokeAllForClient now_ userId clientId db :
    db_write db (OAuthToken.revokeAllForClient now_ userId clientId db)
| write_token_prune now_ days db :
    db_write db (snd (OAuthToken.prune now_ days db))
| write_client_revoke now_ id db :
    db_write db (OAuthClient.revoke now_ id db)
| write_client_destroy id db :
    db_write db (OAuthClient.destroy id db)
| write_code_create env config params db created db' :
    AuthCode.create env config params db = Some (created, db') -> db_write db db'
| write_code_mark_used now_ id db :
    db_write db (AuthCode.mark_used now_ id db)
| write_code_prune now_ db :
    db_write db (snd (AuthCode.prune now_ db))
| write_client_create env input db created db' :
    OAuthClient.create env input db = Some (created, db') -> db_write db db'.

(** A token row with this id exists. *)
Definition present (db : Db) (id : string) : Prop :=
  exists r, In r (tokens db) /\ TokenRow.id r = id.

(** A token row with this id exists and has its [revoked_at] set. *)
Definition revoked_in (db : Db) (id : string) : Prop :=
  exists r, In r (tokens db) /\ TokenRow.id r = id /\ TokenRow.revoked_at r <> None.

(** A sequence of writes during which the row [id] is never deleted. *)
Inductive survives (id : string) : Db -> Db -> Prop :=
| survives_here db : survives id db db
| survives_step db db1 db2 :
    db_write db db1 -> present db1 id -> survives id db1 db2 -> survives id db db2.

(** The primary key of the token table. *)
Definition token_ids_unique (db : Db) : Prop :=
  List.NoDup (map TokenRow.id (tokens db)).

(** Two rows that agree on every column except the value of a [revoked_at]
    timestamp that both have or both lack. *)
Definition same_up_to_revocation_time (a b : TokenRow.t) : Prop :=
  OAuthToken.set_revoked_at 0 a = OAuthToken.set_revoked_at 0 b
  /\ is_set (TokenRow.revoked_at a) = is_set (TokenRow.revoked_at b).

(** ** Sample data used by the examples

    One confidential client "app" and one unrevoked token of user "alice"
    for client "app", whose access token "at-1" expires at time 5000 and
    whose refresh token "rt-1" never expires. *)
Definition sample_client : ClientRow.t :=
  {| ClientRow.id := "app";
     ClientRow.name := "Test";
     ClientRow.secret := Some (OAuthClient.hashSecret "s3cret");
     ClientRow.redirect_uris := ["https://example.com/callback"];
     ClientRow.scopes := None;
     ClientRow.grant_types := [authorization_code; refresh_token];
     ClientRow.confidential := true;
     ClientRow.first_party := false;
     ClientRow.revoked := false;
     ClientRow.created_at := 0;
     ClientRow.updated_at := 0 |}.

Definition sample_token : TokenRow.t :=
  {| TokenRow.id := "uuid-2";
     TokenRow.user_id := Some "alice";
     TokenRow.client_id := "app";
     TokenRow.name := None;
     TokenRow.scopes := ["read"];
     TokenRow.token := OAuthToken.hashToken "at-1";
     TokenRow.refresh_token := Some (OAuthToken.hashToken "rt-1");
     TokenRow.expires_at := 5000;
     TokenRow.refresh_expires_at := None;
     TokenRow.last_used_at := None;
     TokenRow.revoked_at := None;
     TokenRow.created_at := 1000 |}.

Definition sample_db : Db :=
  {| clients := [sample_client]; tokens := [sample_token]; auth_codes := [] |}.

(** An unused authorization code "code-1" of client "app", bound to the
    S256 challenge of the verifier "verifier-xyz" and expiring at 9000; a
    second one, "code-2", bound to the S256 challenge of the empty string;
    a third, "code-3", stored with an empty challenge. *)
Definition sample_code (id plain challenge : string) (method : option string)
  : AuthCodeRow.t :=
  {| AuthCodeRow.id := id;
     AuthCodeRow.client_id := "app";
     AuthCodeRow.user_id := "alice";
     AuthCodeRow.code := AuthCode.hashCode plain;
     AuthCodeRow.redirect_uri := "https://example.com/callback";
     AuthCodeRow.scopes := ["read"];
     AuthCodeRow.code_challenge := Some challenge;
     AuthCodeRow.code_challenge_method := method;
     AuthCodeRow.expires_at := 9000;
     AuthCodeRow.used_at := None;
     AuthCodeRow.created_at := 1000 |}.

Definition code1 : AuthCodeRow.t :=
  sample_code "uuid-3" "code-1" "rxPiyZz8P240xCXTZCn7w9huUtn-Efu70HAeOJkMu_I" (Some "S256").
Definition code2 : AuthCodeRow.t :=
  sample_code "uuid-4" "code-2" "47DEQpj8HBSa-_TImW-5JCeuQeRkm5NMpJWZG3hSuFU" (Some "S256").
Definition code3 : AuthCodeRow.t :=
  sample_code "uuid-5" "code-3" EmptyString (Some "plain").

Definition sample_code_db : Db :=
  {| clients := [sample_client]; tokens := []; auth_codes := [code1; code2; code3] |}.

Definition sample_env : Env :=
  {| now := 3000; now_reply := 3000; uuid := "uuid-9"; hex1 := "aa11"; hex2 := "bb22"; url_ok := fun _ => true |}.

Definition sample_config : OAuth2Config :=
  {| accessTokenLifetime := 60; refreshTokenLifetime := 43200;
     authCodeLifetime := 10; personalAccessTokenLifetime := 525600;
     defaultScopes := []; personalAccessClient := None;
     pruneRevokedAfterDays := 7 |}.

Definition sample_registry : ScopeRegistry.t :=
  <["read" := "Read"]> (<["write" := "Write"]> ∅).


(** A client revoked after registration, and the public client, requests
    and clocks of the end-to-end scenarios of the specification. *)
Definition revoked_client : ClientRow.t :=
  OAuthClient.set_revoked 500
    {| ClientRow.id := "old-app";
       ClientRow.name := "Retired";
       ClientRow.secret := None;
       ClientRow.redirect_uris := ["https://old.example/cb"];
       ClientRow.scopes := None;
       ClientRow.grant_types := [authorization_code];
       ClientRow.confidential := false;
       ClientRow.first_party := false;
       ClientRow.revoked := false;
       ClientRow.created_at := 0;
       ClientRow.updated_at := 0 |}.

Definition public_client : ClientRow.t :=
  {| ClientRow.id := "C";
     ClientRow.name := "Single-page app";
     ClientRow.secret := None;
     ClientRow.redirect_uris := ["https://app/cb"];
     ClientRow.scopes := None;
     ClientRow.grant_types := [authorization_code; refresh_token];
     ClientRow.confidential := false;
     ClientRow.first_party := false;
     ClientRow.revoked := false;
     ClientRow.created_at := 0;
     ClientRow.updated_at := 0 |}.

Definition scenario_db : Db :=
  {| clients := [sample_client; revoked_client; public_client];
     tokens := []; auth_codes := [] |}.

(** The host of a scenario request at time [t]; the reply is built within
    the same millisecond. *)
Definition env_at (t : Z) (id h1 h2 : string) : Env :=
  {| now := t; now_reply := t; uuid := id; hex1 := h1; hex2 := h2; url_ok := fun _ => true |}.

Definition scenario_authorize : Params :=
  <["response_type" := "code"]>
    (<["client_id" := "C"]>
       (<["redirect_uri" := "https://app/cb"]>
          (<["scope" := "read"]>
             (<["state" := "xyz"]>
                (<["code_challenge" := "rxPiyZz8P240xCXTZCn7w9huUtn-Efu70HAeOJkMu_I"]>
                   (<["code_challenge_method" := "S256"]> ∅)))))).

Definition scenario_exchange (redirect_uri : string) : Params :=
  <["grant_type" := "authorization_code"]>
    (<["code" := "c0de"]>
       (<["redirect_uri" := redirect_uri]>
          (<["client_id" := "C"]> (<["code_verifier" := "verifier-xyz"]> ∅)))).

(** GET /authorize, then the approval, then the state they leave behind. *)
Definition scenario_after_authorize : Outcome * Session * Db :=
  authorizeHandler (env_at 1000 "id-0" "unused" "unused") sample_config sample_registry
    {| renderAuthorization := false |} scenario_authorize (UObject (Some (SNumber 42)))
    None scenario_db.

Definition scenario_after_approve : Outcome * Session * Db :=
  approveHandler (env_at 2000 "id-1" "c0de" "unused") sample_config true
    (UObject (Some (SNumber 42))) (snd (fst scenario_after_authorize))
    (snd scenario_after_authorize).

Definition scenario_after_exchange : Outcome * Db :=
  tokenHandler (env_at 3000 "id-2" "acc-1" "ref-1") sample_config sample_registry
    (scenario_exchange "https://app/cb") (snd scenario_after_approve).

(** ** src/handlers/introspect.ts *)

Definition introspectHandler (env : Env) (body : Params) (db : Db) : Response * Db :=
  let token := body !! "token" in
  let client_id := body !! "client_id" in
  let client_secret := body !! "client_secret" in
  if negb (truthy token) then
    (RJson (JObj [("error", JStr "invalid_request");
                  ("error_description", JStr "The token parameter is required.")]) 400, db)
  else
    (* Validate the token *)
    let introspect :=
      match OAuthToken.validate (now env) (str token) db with
      | (None, db1) =>
          (* Inactive token: minimal response *)
          (RJson (JObj [("active", JBool false)]) 200, db1)
      | (Some tokenData, db1) =>
          (RJson (JObj ([("active", JBool true);
                         ("scope", JStr (join " " (OAuthTokenData.scopes tokenData)));
                         ("client_id", JStr (OAuthTokenData.clientId tokenData));
                         ("token_type", JStr "Bearer");
                         ("exp", JNum (OAuthTokenData.expiresAt tokenData / 1000));
                         ("iat", JNum (OAuthTokenData.createdAt tokenData / 1000))]
                        ++ match OAuthTokenData.userId tokenData with
                           | Some userId => [("sub", JStr userId)]
                           | None => []
                           end)) 200, db1)
      end in
    (* Authenticate the requesting client *)
    if truthy client_id then
      match OAuthClient.find db (str client_id) with
      | None => (RJson (toJSON (InvalidClientError client_auth_failed)) 401, db)
      | Some client =>
          if OAuthClientData.revoked client then
            (RJson (toJSON (InvalidClientError client_auth_failed)) 401, db)
          else if OAuthClientData.confidential client && truthy client_secret then
            if negb (OAuthClient.verifySecret db client (str client_secret)) then
              (RJson (toJSON (InvalidClientError client_auth_failed)) 401, db)
            else introspect
          else introspect
      end
    else introspect.

(** ** src/middleware/oauth.ts and src/middleware/scopes.ts *)

(** [header.slice(n)] *)
Fixpoint slice (n : nat) (s : string) : string :=
  match n, s with
  | O, _ => s
  | S n', String _ rest => slice n' rest
  | S _, EmptyString => EmptyString
  end.

(** The context state bag, as far as the two middleware use it: the keys
    [user], [oauth_token] and [oauth_client]. *)
Record Bag (User : Type) := {
  bag_user : option User;
  bag_oauth_token : option OAuthTokenData.t;
  bag_oauth_client : option OAuthClientData.t
}.
Arguments bag_user {User}.
Arguments bag_oauth_token {User}.
Arguments bag_oauth_client {User}.

(** A middleware answers itself, or calls [next()] on the updated bag. *)
Inductive Guarded (User : Type) :=
| Halt (r : Response)
| Next (bag : Bag User).
Arguments Halt {User}.
Arguments Next {User}.

(** [findById] is the host's user lookup; [header] the Authorization header. *)
Definition oauth {User : Type} (findById : string -> option User) (env : Env)
    (header : option string) (bag : Bag User) (db : Db) : Guarded User * Db :=
  if negb (truthy header) || negb (String.prefix "Bearer " (str header)) then
    (Halt (RJson (JObj [("error", JStr "unauthenticated");
                        ("error_description", JStr "Bearer token required.")]) 401), db)
  else
    let plain := slice 7 (str header) in
    match OAuthToken.validate (now env) plain db with
    | (None, db1) =>
        (Halt (RJson (JObj [("error", JStr "invalid_token");
                            ("error_description",
                             JStr "The access token is invalid or expired.")]) 401), db1)
    | (Some tokenData, db1) =>
        let proceed (user : option User) :=
          (* Set token and client on context for downstream use *)
          (Next {| bag_user := user;
                   bag_oauth_token := Some tokenData;
                   bag_oauth_client :=
                     match OAuthClient.find db1 (OAuthTokenData.clientId tokenData) with
                     | Some client => Some client
                     | None => bag_oauth_client bag
                     end |}, db1) in
        (* Load user for user-bound tokens (not client_credentials) *)
        if truthy (OAuthTokenData.userId tokenData) then
          match findById (str (OAuthTokenData.userId tokenData)) with
          | None =>
              (Halt (RJson (JObj [("error", JStr "invalid_token");
                                  ("error_description",
                                   JStr "The token owner no longer exists.")]) 401), db1)
          | Some user => proceed (Some user)
          end
        else proceed (bag_user bag)
    end.

(** The scope enforcement middleware [scopes(...required)]. *)
Definition scopes {User : Type} (required : list string) (bag : Bag User) : Guarded User :=
  match bag_oauth_token bag with
  | None =>
      Halt (RJson (JObj [("error", JStr "unauthenticated");
                         ("error_description", JStr "OAuth token required.")]) 401)
  | Some token =>
      let missing :=
        List.filter (fun s => negb (includes (OAuthTokenData.scopes token) s)) required in
      if (0 <? length missing)%nat then
        Halt (RJson (JObj [("error", JStr "insufficient_scope");
                           ("error_description",
                            JStr ("Missing required scopes: " +:+ join ", " missing))]) 403)
      else Next bag
  end.

(** ** src/handlers/personal_tokens.ts, continued

    A [Date] inside a JSON body is shown as its time value. *)

Record PersonalTokenBody := {
  pt_name : option string;
  pt_scopes : option (list string)
}.

Definition createPersonalTokenHandler (env : Env) (config : OAuth2Config)
    (reg : ScopeRegistry.t) (body : PersonalTokenBody) (user : JsUser) (db : Db)
  : Outcome * Db :=
  if negb (truthy (personalAccessClient config)) then
    (Respond (RJson (JObj [("message",
                            JStr ("No personal access client configured. Run " +:+ dquote
                                  +:+ "strav oauth2:setup" +:+ dquote +:+ " first."))]) 500), db)
  else if negb (truthy (pt_name body)) then
    (Respond (RJson (JObj [("message", JStr "The name field is required.")]) 422), db)
  else
    (* Validate scopes if provided *)
    let scopes_ := default [] (pt_scopes body) in
    match List.find (fun scope => negb (ScopeRegistry.has reg scope)) scopes_ with
    | Some scope =>
        (Respond (RJson (JObj [("message",
                                JStr ("Unknown scope: " +:+ dquote +:+ scope +:+ dquote
                                      +:+ "."))]) 422), db)
    | None =>
        match getUserId user with
        | inl err => (Raise err, db)
        | inr userId =>
            match OAuthToken.create env config
                    {| OAuthToken.userId := Some userId;
                       OAuthToken.clientId := str (personalAccessClient config);
                       OAuthToken.scopes := scopes_;
                       OAuthToken.name := Some (str (pt_name body));
                       OAuthToken.includeRefreshToken := Some false;
                       OAuthToken.accessTokenLifetime_ :=
                         Some (personalAccessTokenLifetime config);
                       OAuthToken.refreshTokenLifetime_ := None |} db with
            | None => (Raise insert_failed, db)
            | Some (created, db') =>
                let tokenData := OAuthToken.tokenData created in
                (Respond
                   (RJson (JObj [("token", JStr (OAuthToken.accessToken created));
                                 ("accessToken",
                                  JObj [("id", JStr (OAuthTokenData.id tokenData));
                                        ("name", json_of_nullable (OAuthTokenData.name tokenData));
                                        ("scopes",
                                         JArr (map JStr (OAuthTokenData.scopes tokenData)));
                                        ("expires_at", JNum (OAuthTokenData.expiresAt tokenData));
                                        ("created_at", JNum (OAuthTokenData.createdAt tokenData))])])
                          201), db')
            end
        end
    end.

Definition json_of_date (d : option Z) : Json :=
  match d with
  | Some t => JNum t
  | None => JNull
  end.

Definition listPersonalTokensHandler (env : Env) (config : OAuth2Config) (user : JsUser)
    (db : Db) : Outcome :=
  match getUserId user with
  | inl err => Raise err
  | inr userId =>
      let tokens_ := OAuthToken.personalTokensFor config (now env) userId db in
      Respond
        (RJson (JObj [("tokens",
                       JArr (map (fun t =>
                                    JObj [("id", JStr (OAuthTokenData.id t));
                                          ("name", json_of_nullable (OAuthTokenData.name t));
                                          ("scopes", JArr (map JStr (OAuthTokenData.scopes t)));
                                          ("last_used_at", json_of_date (OAuthTokenData.lastUsedAt t));
                                          ("expires_at", JNum (OAuthTokenData.expiresAt t));
                                          ("created_at", JNum (OAuthTokenData.createdAt t))])
                                 tokens_))]) 200)
  end.

(** ** src/handlers/clients.ts *)

Definition GrantType_name (g : GrantType) : string :=
  match g with
  | authorization_code => "authorization_code"
  | client_credentials => "client_credentials"
  | refresh_token => "refresh_token"
  end.

Definition json_of_client (c : OAuthClientData.t) : Json :=
  JObj [("id", JStr (OAuthClientData.id c));
        ("name", JStr (OAuthClientData.name c));
        ("redirect_uris", JArr (map JStr (OAuthClientData.redirectUris c)));
        ("grant_types", JArr (map (fun g => JStr (GrantType_name g)) (OAuthClientData.grantTypes c)));
        ("confidential", JBool (OAuthClientData.confidential c));
        ("first_party", JBool (OAuthClientData.firstParty c));
        ("created_at", JNum (OAuthClientData.createdAt c))].

Definition listClientsHandler (db : Db) : Response :=
  RJson (JObj [("clients", JArr (map json_of_client (OAuthClient.all db)))]) 200.

Record CreateClientBody := {
  cb_name : option string;
  cb_redirect_uris : option (list string);
  cb_confidential : option bool;
  cb_first_party : option bool;
  cb_scopes : option (list string);
  cb_grant_types : option (list GrantType)
}.

Definition createClientHandler (env : Env) (body : CreateClientBody) (db : Db)
  : Outcome * Db :=
  if negb (truthy (cb_name body)) then
    (Respond (RJson (JObj [("message", JStr "The name field is required.")]) 422), db)
  else
    match cb_redirect_uris body with
    | None | Some [] =>
        (Respond (RJson (JObj [("message", JStr "At least one redirect_uri is required.")]) 422),
         db)
    | Some redirect_uris =>
        match OAuthClient.create env
                {| OAuthClient.name := str (cb_name body);
                   OAuthClient.redirectUris := redirect_uris;
                   OAuthClient.confidential := cb_confidential body;
                   OAuthClient.firstParty := cb_first_party body;
                   OAuthClient.scopes := cb_scopes body;
                   OAuthClient.grantTypes := cb_grant_types body |} db with
        | None => (Raise insert_failed, db)
        | Some ((client, plainSecret), db') =>
            (Respond (RJson (JObj [("client", json_of_client client);
                                   ("secret", json_of_nullable plainSecret)]) 201), db')
        end
    end.

Definition deleteClientHandler (env : Env) (id : string) (db : Db) : Response * Db :=
  match OAuthClient.findIncludingRevoked db id with
  | None => (RJson (JObj [("message", JStr "Client not found.")]) 404, db)
  | Some _ =>
      (RJson (JObj [("message", JStr "Client revoked.")]) 200,
       OAuthClient.revoke (now env) id db)
  end.

(** ** src/helpers.ts: the convenience API *)

Definition oauth2_createPersonalToken (env : Env) (config : OAuth2Config) (user : JsUser)
    (name : string) (scopes_ : list string) (db : Db)
  : (string + (string * OAuthTokenData.t)) * Db :=
  if negb (truthy (personalAccessClient config)) then
    (inl ("No personal access client configured. Run " +:+ dquote +:+ "strav oauth2:setup"
          +:+ dquote +:+ " or set oauth2.personalAccessClient in config."), db)
  else
    match getUserId user with
    | inl err => (inl err, db)
    | inr userId =>
        match OAuthToken.create env config
                {| OAuthToken.userId := Some userId;
                   OAuthToken.clientId := str (personalAccessClient config);
                   OAuthToken.scopes := scopes_;
                   OAuthToken.name := Some name;
                   OAuthToken.includeRefreshToken := Some false;
                   OAuthToken.accessTokenLifetime_ := Some (personalAccessTokenLifetime config);
                   OAuthToken.refreshTokenLifetime_ := None |} db with
        | None => (inl insert_failed, db)
        | Some (created, db') =>
            (inr (OAuthToken.accessToken created, OAuthToken.tokenData created), db')
        end
    end.

(** ** Database states the sources can reach *)

(** One SQL write of the sources, client creation included. *)
Inductive db_step : Db -> Db -> Prop :=
| step_write db db' : db_write db db' -> db_step db db'
| step_client_create env input db created db' :
    OAuthClient.create env input db = Some (created, db') -> db_step db db'.

Definition empty_db : Db := {| clients := []; tokens := []; auth_codes := [] |}.

Inductive reachable : Db -> Prop :=
| reachable_empty : reachable empty_db
| reachable_step db db' : reachable db -> db_step db db' -> reachable db'.

(** The non-null refresh hashes of the token table. *)
Definition refresh_hashes (l : list TokenRow.t) : list string :=
  flat_map (fun t => match TokenRow.refresh_token t with
                     | Some h => [h]
                     | None => []
                     end) l.

(** The declared constraints of the schema, and the shape [create] gives a
    token row: a refresh hash only with a user and a refresh expiry. *)
Record db_consistent (db : Db) : Prop := {
  client_ids_unique : List.NoDup (map ClientRow.id (clients db));
  token_ids_unique_ : List.NoDup (map TokenRow.id (tokens db));
  token_hashes_unique : List.NoDup (map TokenRow.token (tokens db));
  refresh_hashes_unique : List.NoDup (refresh_hashes (tokens db));
  code_ids_unique : List.NoDup (map AuthCodeRow.id (auth_codes db));
  code_hashes_unique : List.NoDup (map AuthCodeRow.code (auth_codes db));
  tokens_reference_clients :
    forall t, In t (tokens db) -> has_client db (TokenRow.client_id t) = true;
  codes_reference_clients :
    forall c, In c (auth_codes db) -> has_client db (AuthCodeRow.client_id c) = true;
  refresh_needs_user :
    forall t, In t (tokens db) -> TokenRow.refresh_token t <> None ->
              TokenRow.user_id t <> None /\ TokenRow.refresh_expires_at t <> None
}.

(** ** Vocabulary of the further properties *)

(** A scope name that survives a round trip through a space-separated
    list: not empty and without a space. *)
Definition scope_token (w : string) : Prop :=
  w <> EmptyString /\ ~ In " "%char (list_ascii_of_string w).

(** A string made of spaces only (the empty string included). *)
Definition blank (s : string) : Prop :=
  forall c, In c (list_ascii_of_string s) -> c = " "%char.

(** An update of token rows that leaves the key columns alone. *)
Definition token_keys_kept (f : TokenRow.t -> TokenRow.t) : Prop :=
  forall t,
    TokenRow.id (f t) = TokenRow.id t
    /\ TokenRow.token (f t) = TokenRow.token t
    /\ TokenRow.refresh_token (f t) = TokenRow.refresh_token t
    /\ TokenRow.client_id (f t) = TokenRow.client_id t
    /\ TokenRow.user_id (f t) = TokenRow.user_id t
    /\ TokenRow.refresh_expires_at (f t) = TokenRow.refresh_expires_at t.

(** Whether [OAuthToken.create] issues a refresh token for these parameters. *)
Definition wants_refresh (params : OAuthToken.CreateParams) : bool :=
  negb (bool_decide (OAuthToken.includeRefreshToken params = Some false))
  && bool_decide (is_Some (OAuthToken.userId params)).

(** The row [OAuthToken.create] inserts. *)
Definition new_token_row (env : Env) (config : OAuth2Config) (params : OAuthToken.CreateParams)
  : TokenRow.t :=
  {| TokenRow.id := uuid env;
     TokenRow.user_id := OAuthToken.userId params;
     TokenRow.client_id := OAuthToken.clientId params;
     TokenRow.name := OAuthToken.name params;
     TokenRow.scopes := OAuthToken.scopes params;
     TokenRow.token := OAuthToken.hashToken (hex1 env);
     TokenRow.refresh_token :=
       if wants_refresh params then Some (OAuthToken.hashToken (hex2 env)) else None;
     TokenRow.expires_at :=
       now env + default (accessTokenLifetime config) (OAuthToken.accessTokenLifetime_ params)
                 * 60000;
     TokenRow.refresh_expires_at :=
       if wants_refresh params
       then Some (now env
                  + default (refreshTokenLifetime config) (OAuthToken.refreshTokenLifetime_ params)
                    * 60000)
       else None;
     TokenRow.last_used_at := None;
     TokenRow.revoked_at := None;
     TokenRow.created_at := now env |}.

(** The row [AuthCode.create] inserts. *)
Definition new_code_row (env : Env) (config : OAuth2Config) (params : AuthCode.CreateParams)
  : AuthCodeRow.t :=
  {| AuthCodeRow.id := uuid env;
     AuthCodeRow.client_id := AuthCode.clientId params;
     AuthCodeRow.user_id := AuthCode.userId params;
     AuthCodeRow.code := AuthCode.hashCode (hex1 env);
     AuthCodeRow.redirect_uri := AuthCode.redirectUri params;
     AuthCodeRow.scopes := AuthCode.scopes params;
     AuthCodeRow.code_challenge := AuthCode.codeChallenge params;
     AuthCodeRow.code_challenge_method := AuthCode.codeChallengeMethod params;
     AuthCodeRow.expires_at := now env + authCodeLifetime config * 60000;
     AuthCodeRow.used_at := None;
     AuthCodeRow.created_at := now env |}.

(** The row [OAuthClient.create] inserts. *)
Definition new_client_row (env : Env) (input : OAuthClient.CreateClientInput) : ClientRow.t :=
  let confidential_ := default true (OAuthClient.confidential input) in
  {| ClientRow.id := uuid env;
     ClientRow.name := OAuthClient.name input;
     ClientRow.secret :=
       if confidential_ then Some (OAuthClient.hashSecret (hex1 env)) else None;
     ClientRow.redirect_uris := OAuthClient.redirectUris input;
     ClientRow.scopes := OAuthClient.scopes input;
     ClientRow.grant_types :=
       default [authorization_code; refresh_token] (OAuthClient.grantTypes input);
     ClientRow.confidential := confidential_;
     ClientRow.first_party := default false (OAuthClient.firstParty input);
     ClientRow.revoked := false;
     ClientRow.created_at := now env;
     ClientRow.updated_at := now env |}.

(** The database after the first statement of a fresh installation: the
    creation of one confidential client. *)
Definition first_client_input : OAuthClient.CreateClientInput :=
  {| OAuthClient.name := "Test";
     OAuthClient.redirectUris := ["https://example.com/callback"];
     OAuthClient.confidential := None;
     OAuthClient.firstParty := None;
     OAuthClient.scopes := None;
     OAuthClient.grantTypes := None |}.

Definition first_client_db : Db :=
  with_clients empty_db [new_client_row (env_at 100 "uuid-1" "5ec7e7" "unused") first_client_input].

(** The [try] block of [revokeHandler]: the token is revoked as an access
    token first, then as a refresh token. *)
Definition revoke_by_plaintext (env : Env) (token : string) (db : Db) : Response * Db :=
  match OAuthToken.validate (now env) token db with
  | (Some tokenData, db1) =>
      (RJson (JObj []) 200, OAuthToken.revoke (now env) (OAuthTokenData.id tokenData) db1)
  | (None, db1) =>
      match OAuthToken.validateRefreshToken (now env) token db1 with
      | Some refreshData =>
          (RJson (JObj []) 200, OAuthToken.revoke (now env) (OAuthTokenData.id refreshData) db1)
      | None => (RJson (JObj []) 200, db1)
      end
  end.

(** The [active] field of an introspection response. *)
Definition payload_active (payload : Json) : option bool :=
  match payload with
  | JObj ((_, JBool active) :: _) => Some active
  | _ => None
  end.

(** The part of [introspectHandler] that follows the client
    authentication. *)
Definition introspect_by_plaintext (env : Env) (token : string) (db : Db) : Response * Db :=
  match OAuthToken.validate (now env) token db with
  | (None, db1) => (RJson (JObj [("active", JBool false)]) 200, db1)
  | (Some tokenData, db1) =>
      (RJson (JObj ([("active", JBool true);
                     ("scope", JStr (join " " (OAuthTokenData.scopes tokenData)));
                     ("client_id", JStr (OAuthTokenData.clientId tokenData));
                     ("token_type", JStr "Bearer");
                     ("exp", JNum (OAuthTokenData.expiresAt tokenData / 1000));
                     ("iat", JNum (OAuthTokenData.createdAt tokenData / 1000))]
                    ++ match OAuthTokenData.userId tokenData with
                       | Some userId => [("sub", JStr userId)]
                       | None => []
                       end)) 200, db1)
  end.

(** The [scope] field of an introspection response. *)
Definition introspection_scope (payload : Json) : option string :=
  match payload with
  | JObj (_ :: (_, JStr scope) :: _) => Some scope
  | _ => None
  end.

(** The last step of every grant: INSERT the token, answer with the pair. *)
Definition issue_tokens (env : Env) (config : OAuth2Config) (params : OAuthToken.CreateParams)
    (db : Db) : Outcome * Db :=
  match OAuthToken.create env config params db with
  | None => (Raise insert_failed, db)
  | Some (created, db') =>
      (Respond (tokenResponse env (OAuthToken.accessToken created)
                  (OAuthToken.refreshToken created)
                  (OAuthTokenData.scopes (OAuthToken.tokenData created))
                  (OAuthTokenData.expiresAt (OAuthToken.tokenData created))),
       db')
  end.

(** The checks of [handleAuthorizationCode] that precede the exchange of
    the code: the three parameters are present, the client exists, is not
    revoked and, when confidential, presents a secret that verifies. *)
Definition code_client_admitted (db : Db) (body : Params) : bool :=
  truthy (body !! "code") && truthy (body !! "redirect_uri") && truthy (body !! "client_id")
  && match OAuthClient.find db (str (body !! "client_id")) with
     | None => false
     | Some client =>
         negb (OAuthClientData.revoked client)
         && (negb (OAuthClientData.confidential client)
             || (truthy (body !! "client_secret")
                 && OAuthClient.verifySecret db client (str (body !! "client_secret"))))
     end.

(** The parameters of the code [issueAuthorizationCode] inserts for a
    pending authorization request. *)
Definition code_params (request : AuthRequest) (userId : string) : AuthCode.CreateParams :=
  {| AuthCode.clientId := ar_clientId request;
     AuthCode.userId := userId;
     AuthCode.redirectUri := ar_redirectUri request;
     AuthCode.scopes := ar_scopes request;
     AuthCode.codeChallenge := ar_codeChallenge request;
     AuthCode.codeChallengeMethod := ar_codeChallengeMethod request |}.

(** A confidential client registered for the client-credentials grant. *)
Definition machine_client : ClientRow.t :=
  {| ClientRow.id := "svc";
     ClientRow.name := "Nightly job";
     ClientRow.secret := Some (OAuthClient.hashSecret "m2m-secret");
     ClientRow.redirect_uris := [];
     ClientRow.scopes := Some ["read"];
     ClientRow.grant_types := [client_credentials];
     ClientRow.confidential := true;
     ClientRow.first_party := false;
     ClientRow.revoked := false;
     ClientRow.created_at := 0;
     ClientRow.updated_at := 0 |}.

Definition machine_db : Db :=
  {| clients := [machine_client]; tokens := []; auth_codes := [] |}.

(** The client check of GET /authorize is reached and fails: the
    response_type is "code", a client_id is given, and it names no client or
    a revoked one. *)
Definition authorize_client_refused (db : Db) (query : Params) : bool :=
  strict_eq (query !! "response_type") "code"
  && truthy (query !! "client_id")
  && match OAuthClient.find db (str (query !! "client_id")) with
     | None => true
     | Some client => OAuthClientData.revoked client
     end.

(** The UUID and the two random strings of the request collide with no
    stored token: the INSERT of [OAuthToken.create] violates no PRIMARY KEY
    or UNIQUE constraint of the token table. *)
Definition token_insertable (env : Env) (db : Db) : Prop :=
  ~ In (uuid env) (map TokenRow.id (tokens db))
  /\ ~ In (OAuthToken.hashToken (hex1 env)) (map TokenRow.token (tokens db))
  /\ ~ In (OAuthToken.hashToken (hex2 env)) (refresh_hashes (tokens db)).

(** The value of the property [key] of a JSON object. *)
Definition json_field (key : string) (payload : Json) : option Json :=
  match payload with
  | JObj fields => option_map snd (List.find (fun kv => String.eqb (fst kv) key) fields)
  | _ => None
  end.

(** A token of user "alice" for client "app" issued at time 0 under
    [sample_config]: the access token lives one hour, the refresh token
    thirty days. Times are in milliseconds, a day is 86400000. *)
Definition long_lived_token : TokenRow.t :=
  {| TokenRow.id := "uuid-7";
     TokenRow.user_id := Some "alice";
     TokenRow.client_id := "app";
     TokenRow.name := None;
     TokenRow.scopes := ["read"];
     TokenRow.token := OAuthToken.hashToken "at-7";
     TokenRow.refresh_token := Some (OAuthToken.hashToken "rt-7");
     TokenRow.expires_at := 3600000;
     TokenRow.refresh_expires_at := Some 2592000000;
     TokenRow.last_used_at := None;
     TokenRow.revoked_at := None;
     TokenRow.created_at := 0 |}.

(** A confidential first-party client, for which GET /authorize skips the
    consent screen. *)
Definition first_party_client : ClientRow.t :=
  {| ClientRow.id := "dash";
     ClientRow.name := "Dashboard";
     ClientRow.secret := Some (OAuthClient.hashSecret "dash-secret");
     ClientRow.redirect_uris := ["https://dash.example/cb"];
     ClientRow.scopes := None;
     ClientRow.grant_types := [authorization_code; refresh_token];
     ClientRow.confidential := true;
     ClientRow.first_party := true;
     ClientRow.revoked := false;
     ClientRow.created_at := 0;
     ClientRow.updated_at := 0 |}.

Definition first_party_db : Db :=
  {| clients := [first_party_client]; tokens := []; auth_codes := [] |}.

Definition long_lived_db : Db :=
  {| clients := [sample_client]; tokens := [long_lived_token]; auth_codes := [] |}.

(** * Theorems *)

Arguments Sha256.sha256_hex : simpl never.
Arguments Sha256.sha256_base64url : simpl never.

(** ** The digest against published vectors *)

Example sha256_hex_empty :
  Sha256.sha256_hex EmptyString
  = "e3b0c44298fc1c149afbf4c8996fb92427ae41e4649b934ca495991b7852b855".
Proof. vm_compute. reflexivity. Qed.

Example sha256_hex_abc :
  Sha256.sha256_hex "abc"
  = "ba7816bf8f01cfea414140de5dae2223b00361a396177a9cb410ff61f20015ad".
Proof. vm_compute. reflexivity. Qed.

Example sha256_hex_two_blocks :
  Sha256.sha256_hex "abcdbcdecdefdefgefghfghighijhijkijkljklmklmnlmnomnopnopq"
  = "248d6a61d20638b8e5c026930c3e6039a33ce45964ff2167f6ecedd419db06c1".
Proof. vm_compute. reflexivity. Qed.

Example sha256_base64url_empty :
  Sha256.sha256_base64url EmptyString = "47DEQpj8HBSa-_TImW-5JCeuQeRkm5NMpJWZG3hSuFU".
Proof. vm_compute. reflexivity. Qed.

Example sha256_base64url_verifier :
  Sha256.sha256_base64url "verifier-xyz" = "rxPiyZz8P240xCXTZCn7w9huUtn-Efu70HAeOJkMu_I".
Proof. vm_compute. reflexivity. Qed.

(** ** Helper lemmas on the JavaScript helpers and on tables *)

Lemma truthy_true (v : option string) :
  truthy v = true <-> exists s, v = Some s /\ s <> EmptyString.
Proof.
  unfold truthy. destruct v as [s|].
  - rewrite negb_true_iff, String.eqb_neq. split.
    + intros H. exists s. auto.
    + intros (s' & [= <-] & H). exact H.
  - split; [discriminate | intros (s & [=] & _)].
Qed.

Lemma truthy_str (v : option string) : truthy v = true -> v = Some (str v).
Proof. destruct v; simpl; [reflexivity | discriminate]. Qed.

Lemma includes_In (l : list string) (s : string) : includes l s = true <-> In s l.
Proof.
  unfold includes. rewrite existsb_exists. split.
  - intros (x & Hx & Heq). apply String.eqb_eq in Heq. now subst.
  - intros H. exists s. split; [exact H | apply String.eqb_refl].
Qed.

Lemma includes_false (l : list string) (s : string) : includes l s = false <-> ~ In s l.
Proof.
  rewrite <- includes_In. destruct (includes l s); split; intros H; congruence.
Qed.

Lemma find_none_iff {A} (P : A -> bool) (l : list A) :
  List.find P l = None <-> forall x, In x l -> P x = false.
Proof.
  split; [apply List.find_none |].
  induction l as [|a l IH]; intros H; simpl; [reflexivity |].
  rewrite (H a (or_introl eq_refl)). apply IH. intros x Hx. apply H. now right.
Qed.

Lemma find_map_stable {A} (P : A -> bool) (f : A -> A) (l : list A) :
  (forall x, P (f x) = P x) ->
  List.find P (map f l) = option_map f (List.find P l).
Proof.
  intros HP. induction l as [|a l IH]; simpl; [reflexivity |].
  rewrite HP. destruct (P a); [reflexivity | exact IH].
Qed.

Lemma find_app_hit {A} (P : A -> bool) (l k : list A) (x : A) :
  List.find P l = Some x -> List.find P (l ++ k) = Some x.
Proof.
  induction l as [|a l IH]; simpl; [discriminate |].
  destruct (P a); [trivial | exact IH].
Qed.

Lemma is_set_true (d : option Z) : is_set d = true <-> d <> None.
Proof. destruct d; simpl; split; congruence. Qed.

Lemma is_set_false (d : option Z) : is_set d = false <-> d = None.
Proof. destruct d; simpl; split; congruence. Qed.

(** ** ScopeRegistry.validate *)

Lemma has_false (reg : ScopeRegistry.t) (name : string) :
  ScopeRegistry.has reg name = false <-> reg !! name = None.
Proof. unfold ScopeRegistry.has. destruct (reg !! name); split; congruence. Qed.

Lemma validate_scopes_effective (requested defaults : list string) :
  (if (0 <? length requested)%nat then requested else defaults)
  = effective_scopes requested defaults.
Proof. destruct requested; reflexivity. Qed.

(** C8. [ScopeRegistry.validate] substitutes the defaults for an empty
    request; it throws, and then an [InvalidScopeError] (invalid_scope, 400),
    exactly when some name of the resulting list is unregistered or lies
    outside a non-null client allow-list; otherwise it returns the resulting
    list itself, in its input order. *)
Theorem ScopeRegistry_validate_spec
    (reg : ScopeRegistry.t) (requested : list string)
    (clientAllowed : option (list string)) (defaults : list string) :
  let eff := effective_scopes requested defaults in
  let result := ScopeRegistry.validate reg requested clientAllowed defaults in
  ((exists e, result = inl e)
   <-> (exists name, In name eff /\ scope_rejected reg clientAllowed name))
  /\ (forall e, result = inl e -> errorCode e = "invalid_scope" /\ statusCode e = 400)
  /\ ((forall name, In name eff -> ~ scope_rejected reg clientAllowed name)
      -> result = inr eff).
Proof.
  intros eff result. subst result. unfold ScopeRegistry.validate.
  rewrite validate_scopes_effective. fold eff.
  destruct eff as [|s0 rest] eqn:Heff.
  { simpl. split; [split | split].
    - intros (e & [=]).
    - intros (name & [] & _).
    - intros e [=].
    - reflexivity. }
  change ((length (s0 :: rest) =? 0)%nat) with false. cbv iota.
  destruct (List.find (fun scope => negb (ScopeRegistry.has reg scope)) (s0 :: rest))
    as [bad|] eqn:Hreg.
  { apply List.find_some in Hreg as [Hin Hbad].
    apply negb_true_iff, has_false in Hbad.
    assert (Hrej : exists name, In name (s0 :: rest) /\ scope_rejected reg clientAllowed name)
      by (exists bad; split; [exact Hin | now left]).
    split; [split | split].
    - intros _. exact Hrej.
    - intros _. eauto.
    - intros e [= <-]. split; reflexivity.
    - intros Hnone. destruct Hrej as (name & Hname & Hr). now destruct (Hnone name Hname). }
  rewrite find_none_iff in Hreg.
  assert (Hknown : forall name, In name (s0 :: rest) -> reg !! name <> None).
  { intros name Hname Hn. apply has_false in Hn. specialize (Hreg name Hname).
    simpl in Hreg. rewrite Hn in Hreg. discriminate. }
  destruct clientAllowed as [allowed|].
  - destruct (List.find (fun scope => negb (includes allowed scope)) (s0 :: rest))
      as [bad|] eqn:Hall.
    + apply List.find_some in Hall as [Hin Hbad].
      apply negb_true_iff, includes_false in Hbad.
      assert (Hrej : exists name, In name (s0 :: rest)
                                  /\ scope_rejected reg (Some allowed) name)
        by (exists bad; split; [exact Hin | right; eauto]).
      split; [split | split].
      * intros _. exact Hrej.
      * intros _. eauto.
      * intros e [= <-]. split; reflexivity.
      * intros Hnone. destruct Hrej as (name & Hname & Hr). now destruct (Hnone name Hname).
    + rewrite find_none_iff in Hall. split; [split | split].
      * intros (e & [=]).
      * intros (name & Hname & [Hn | (l & [= <-] & Hout)]).
        -- now destruct (Hknown name Hname).
        -- specialize (Hall name Hname). apply negb_false_iff, includes_In in Hall.
           contradiction.
      * intros e [=].
      * reflexivity.
  - split; [split | split].
    + intros (e & [=]).
    + intros (name & Hname & [Hn | (l & [=] & _)]). now destruct (Hknown name Hname).
    + intros e [=].
    + reflexivity.
Qed.

(** A run of C8 on the registry of the test suite: one unknown name is
    enough to throw, and an accepted request comes back unchanged. *)
Lemma ScopeRegistry_validate_spec_witness :
  let reg : ScopeRegistry.t := <["read" := "Read"]> (<["write" := "Write"]> ∅) in
  ScopeRegistry.validate reg ["write"; "read"] (Some ["read"; "write"]) ["read"]
  = inr ["write"; "read"]
  /\ ScopeRegistry.validate reg [] None ["read"] = inr ["read"]
  /\ exists e, ScopeRegistry.validate reg ["read"; "admin"] None [] = inl e.
Proof.
  intros reg.
  destruct (ScopeRegistry_validate_spec reg ["write"; "read"] (Some ["read"; "write"]) ["read"])
    as (_ & _ & Hok).
  destruct (ScopeRegistry_validate_spec reg [] None ["read"]) as (_ & _ & Hdef).
  destruct (ScopeRegistry_validate_spec reg ["read"; "admin"] None []) as (Hbad & _ & _).
  split; [| split].
  - apply Hok. intros name Hname [Hn | (l & [= <-] & Hout)].
    + destruct Hname as [<- | [<- | []]]; vm_compute in Hn; discriminate.
    + apply Hout. simpl in *. tauto.
  - apply Hdef. intros name Hname [Hn | (l & [=] & _)].
    destruct Hname as [<- | []]. vm_compute in Hn. discriminate.
  - apply Hbad. exists "admin". split; [simpl; tauto | left; vm_compute; reflexivity].
Defined.

(** ** OAuthToken.validate and OAuthToken.validateRefreshToken *)

Lemma validate_unfold (now_ : Z) (plain : string) (db : Db) :
  OAuthToken.validate now_ plain db =
  match access_row db plain with
  | None => (None, db)
  | Some row =>
      if is_set (TokenRow.revoked_at row) then (None, db)
      else if TokenRow.expires_at row <? now_ then (None, db)
      else (Some (OAuthToken.hydrate row), OAuthToken.touch now_ (TokenRow.id row) db)
  end.
Proof. reflexivity. Qed.

Lemma validateRefreshToken_unfold (now_ : Z) (plain : string) (db : Db) :
  OAuthToken.validateRefreshToken now_ plain db =
  match refresh_row db plain with
  | None => None
  | Some row =>
      if is_set (TokenRow.revoked_at row) then None
      else if match TokenRow.refresh_expires_at row with
              | Some r => r <? now_
              | None => false
              end
      then None
      else Some (OAuthToken.hydrate row)
  end.
Proof. reflexivity. Qed.

(** C3, as stated, fails: at the instant [now = expires_at] the token is
    still accepted. *)
Lemma validate_boundary_counterexample :
  TokenRow.expires_at sample_token = 5000
  /\ access_row sample_db "at-1" = Some sample_token
  /\ fst (OAuthToken.validate 5000 "at-1" sample_db) = Some (OAuthToken.hydrate sample_token)
  /\ fst (OAuthToken.validate 5000 "at-1" sample_db) <> None.
Proof. vm_compute. repeat split; congruence. Qed.

(** C3, amended. For the row a plaintext selects, [validate] returns null
    exactly when the row is revoked or [expires_at] is strictly earlier than
    the current time; at the boundary instant [expires_at = now] an unrevoked
    token is returned (and its [last_used_at] is bumped). *)
Theorem validate_expiry_boundary (now_ : Z) (plain : string) (db : Db) (row : TokenRow.t) :
  access_row db plain = Some row ->
  (fst (OAuthToken.validate now_ plain db) = None
   <-> TokenRow.revoked_at row <> None \/ TokenRow.expires_at row < now_)
  /\ (TokenRow.expires_at row = now_ -> TokenRow.revoked_at row = None ->
      OAuthToken.validate now_ plain db
      = (Some (OAuthToken.hydrate row), OAuthToken.touch now_ (TokenRow.id row) db)).
Proof.
  intros Hrow. rewrite validate_unfold, Hrow. split.
  - destruct (is_set (TokenRow.revoked_at row)) eqn:Hrev.
    + apply is_set_true in Hrev. simpl. tauto.
    + apply is_set_false in Hrev.
      destruct (TokenRow.expires_at row <? now_) eqn:Hexp; simpl.
      * apply Z.ltb_lt in Hexp. tauto.
      * apply Z.ltb_ge in Hexp. split; [discriminate |].
        intros [H | H]; [congruence | lia].
  - intros Heq Hrev. rewrite Hrev. simpl.
    assert ((TokenRow.expires_at row <? now_) = false) as -> by (apply Z.ltb_ge; lia).
    reflexivity.
Qed.

Lemma validate_expiry_boundary_witness :
  OAuthToken.validate 5000 "at-1" sample_db
  = (Some (OAuthToken.hydrate sample_token), OAuthToken.touch 5000 "uuid-2" sample_db)
  /\ fst (OAuthToken.validate 5001 "at-1" sample_db) = None.
Proof.
  assert (Hrow : access_row sample_db "at-1" = Some sample_token) by (vm_compute; reflexivity).
  split.
  - apply (proj2 (validate_expiry_boundary 5000 "at-1" sample_db sample_token Hrow));
      reflexivity.
  - apply (proj1 (validate_expiry_boundary 5001 "at-1" sample_db sample_token Hrow)).
    right. simpl. lia.
Defined.

Lemma refresh_row_reexpire (f : TokenRow.t -> Z) (db : Db) (plain : string) :
  refresh_row (reexpire f db) plain
  = option_map (fun t => set_expires_at (f t) t) (refresh_row db plain).
Proof.
  unfold refresh_row, reexpire. simpl. apply find_map_stable. reflexivity.
Qed.

(** C10. [validateRefreshToken] never looks at the access-token
    [expires_at]: an unrevoked row is accepted whenever its refresh expiry is
    absent or not past, whatever [expires_at] is (so also after the access
    token expired); a row with a null [refresh_expires_at] is accepted at
    every time; and rewriting every [expires_at] of the table arbitrarily
    changes neither acceptance nor the accepted token. *)
Theorem validateRefreshToken_ignores_access_expiry
    (db : Db) (plain : string) (row : TokenRow.t) :
  refresh_row db plain = Some row ->
  TokenRow.revoked_at row = None ->
  (forall now_,
      (forall r, TokenRow.refresh_expires_at row = Some r -> now_ <= r) ->
      OAuthToken.validateRefreshToken now_ plain db = Some (OAuthToken.hydrate row))
  /\ (TokenRow.refresh_expires_at row = None ->
      forall now_, OAuthToken.validateRefreshToken now_ plain db
                   = Some (OAuthToken.hydrate row))
  /\ (forall now_ f,
         option_map OAuthTokenData.id (OAuthToken.validateRefreshToken now_ plain (reexpire f db))
         = option_map OAuthTokenData.id (OAuthToken.validateRefreshToken now_ plain db)).
Proof.
  intros Hrow Hrev.
  assert (Hlive : forall now_,
             (forall r, TokenRow.refresh_expires_at row = Some r -> now_ <= r) ->
             OAuthToken.validateRefreshToken now_ plain db = Some (OAuthToken.hydrate row)).
  { intros now_ Hexp. rewrite validateRefreshToken_unfold, Hrow, Hrev. simpl.
    destruct (TokenRow.refresh_expires_at row) as [r|]; [| reflexivity].
    specialize (Hexp r eq_refl).
    assert ((r <? now_) = false) as -> by (apply Z.ltb_ge; lia). reflexivity. }
  split; [exact Hlive | split].
  - intros Hnull now_. apply Hlive. intros r Hr. congruence.
  - intros now_ f. rewrite !validateRefreshToken_unfold, refresh_row_reexpire, Hrow. simpl.
    rewrite Hrev. simpl.
    destruct (match TokenRow.refresh_expires_at row with
              | Some r => r <? now_
              | None => false
              end); reflexivity.
Qed.

(** C10 on the sample table, long after the access token expired. *)
Lemma validateRefreshToken_ignores_access_expiry_witness :
  TokenRow.expires_at sample_token < 999999
  /\ OAuthToken.validateRefreshToken 999999 "rt-1" sample_db
     = Some (OAuthToken.hydrate sample_token).
Proof.
  split; [simpl; lia |].
  assert (Hrow : refresh_row sample_db "rt-1" = Some sample_token) by (vm_compute; reflexivity).
  destruct (validateRefreshToken_ignores_access_expiry sample_db "rt-1" sample_token Hrow eq_refl)
    as (_ & Hnever & _).
  apply Hnever. reflexivity.
Defined.

(** ** OAuthToken.revoke *)

Lemma revoke_tokens (now_ : Z) (id : string) (db : Db) :
  tokens (OAuthToken.revoke now_ id db)
  = map (fun t => if String.eqb (TokenRow.id t) id
                  then OAuthToken.set_revoked_at now_ t else t) (tokens db).
Proof. reflexivity. Qed.

Lemma revoke_In (now_ : Z) (id : string) (db : Db) (r' : TokenRow.t) :
  In r' (tokens (OAuthToken.revoke now_ id db)) ->
  exists r, In r (tokens db)
            /\ r' = (if String.eqb (TokenRow.id r) id
                     then OAuthToken.set_revoked_at now_ r else r).
Proof.
  rewrite revoke_tokens, in_map_iff. intros (r & <- & Hr). eauto.
Qed.

Lemma revoke_marks (now_ : Z) (id : string) (db : Db) (r' : TokenRow.t) :
  In r' (tokens (OAuthToken.revoke now_ id db)) -> TokenRow.id r' = id ->
  TokenRow.revoked_at r' = Some now_.
Proof.
  intros Hin Hid. apply revoke_In in Hin as (r & _ & ->).
  destruct (String.eqb (TokenRow.id r) id) eqn:E; [reflexivity |].
  apply String.eqb_neq in E. contradiction.
Qed.

(** C9. DELETE /personal-tokens/:id performs no ownership check: for every
    existing token id, whoever the authenticated user is, whoever owns the
    token, and whichever client it belongs to (personal-access client or
    not), the handler answers 200 "Token revoked." and every row with that id
    has [revoked_at] set to the current time; nothing else changes. *)
Theorem revokePersonalToken_unchecked
    (env : Env) (config : OAuth2Config) (user : JsUser) (tokenId : string)
    (db : Db) (row : TokenRow.t) :
  In row (tokens db) ->
  TokenRow.id row = tokenId ->
  let result := revokePersonalTokenHandler env config user tokenId db in
  fst result = RJson (JObj [("message", JStr "Token revoked.")]) 200
  /\ In (OAuthToken.set_revoked_at (now env) row) (tokens (snd result))
  /\ (forall r, In r (tokens (snd result)) -> TokenRow.id r = tokenId ->
                TokenRow.revoked_at r = Some (now env))
  /\ (forall r, In r (tokens db) -> TokenRow.id r <> tokenId -> In r (tokens (snd result)))
  /\ clients (snd result) = clients db
  /\ auth_codes (snd result) = auth_codes db.
Proof.
  intros Hin Hid. simpl. repeat split.
  - apply in_map_iff. exists row. split; [| exact Hin].
    rewrite Hid, String.eqb_refl. reflexivity.
  - intros r Hr Hrid. exact (revoke_marks _ _ _ _ Hr Hrid).
  - intros r Hr Hne. apply in_map_iff. exists r. split; [| exact Hr].
    apply String.eqb_neq in Hne. rewrite Hne. reflexivity.
Qed.

(** C9 at a concrete request: user "mallory" revokes the token of user
    "alice", issued to client "app", while the personal-access client is
    "pat". *)
Lemma revokePersonalToken_unchecked_witness :
  let env := {| now := 7000; now_reply := 7000; uuid := "u"; hex1 := "a"; hex2 := "b"; url_ok := fun _ => true |} in
  let config := {| accessTokenLifetime := 60; refreshTokenLifetime := 43200;
                   authCodeLifetime := 10; personalAccessTokenLifetime := 525600;
                   defaultScopes := []; personalAccessClient := Some "pat";
                   pruneRevokedAfterDays := 7 |} in
  let result := revokePersonalTokenHandler env config (UString "mallory") "uuid-2" sample_db in
  TokenRow.user_id sample_token = Some "alice"
  /\ fst result = RJson (JObj [("message", JStr "Token revoked.")]) 200
  /\ In (OAuthToken.set_revoked_at 7000 sample_token) (tokens (snd result)).
Proof.
  intros env config result.
  destruct (revokePersonalToken_unchecked env config (UString "mallory") "uuid-2"
              sample_db sample_token) as (Hresp & Hrow & _).
  - simpl. left. reflexivity.
  - reflexivity.
  - split; [reflexivity | split; [exact Hresp | exact Hrow]].
Defined.

Lemma set_revoked_at_absorbs (t1 t2 : Z) (r : TokenRow.t) :
  OAuthToken.set_revoked_at t2 (OAuthToken.set_revoked_at t1 r)
  = OAuthToken.set_revoked_at t2 r.
Proof. reflexivity. Qed.

Lemma revoke_absorbs (t1 t2 : Z) (id : string) (db : Db) :
  OAuthToken.revoke t2 id (OAuthToken.revoke t1 id db) = OAuthToken.revoke t2 id db.
Proof.
  unfold OAuthToken.revoke, with_tokens. simpl. f_equal.
  rewrite map_map. apply map_ext. intros r.
  destruct (String.eqb (TokenRow.id r) id) eqn:E; simpl; rewrite E; reflexivity.
Qed.

Lemma access_row_revoke (now_ : Z) (id : string) (db : Db) (plain : string) :
  access_row (OAuthToken.revoke now_ id db) plain
  = option_map (fun t => if String.eqb (TokenRow.id t) id
                         then OAuthToken.set_revoked_at now_ t else t)
               (access_row db plain).
Proof.
  unfold access_row. rewrite revoke_tokens. apply find_map_stable.
  intros r. destruct (String.eqb (TokenRow.id r) id); reflexivity.
Qed.

Lemma refresh_row_revoke (now_ : Z) (id : string) (db : Db) (plain : string) :
  refresh_row (OAuthToken.revoke now_ id db) plain
  = option_map (fun t => if String.eqb (TokenRow.id t) id
                         then OAuthToken.set_revoked_at now_ t else t)
               (refresh_row db plain).
Proof.
  unfold refresh_row. rewrite revoke_tokens. apply find_map_stable.
  intros r. destruct (String.eqb (TokenRow.id r) id); reflexivity.
Qed.

Lemma Forall2_map_self {A} (R : A -> A -> Prop) (g : A -> A) (l : list A) :
  (forall x, In x l -> R (g x) x) -> Forall2 R (map g l) l.
Proof.
  induction l as [|a l IH]; intros H; simpl; constructor.
  - apply H. now left.
  - apply IH. intros x Hx. apply H. now right.
Qed.

Lemma unique_id_row (l : list TokenRow.t) (a b : TokenRow.t) :
  List.NoDup (map TokenRow.id l) -> In a l -> In b l -> TokenRow.id a = TokenRow.id b -> a = b.
Proof.
  induction l as [|x l IH]; intros Hnd Ha Hb Hid; [destruct Ha |].
  simpl in Hnd. apply NoDup_cons_iff in Hnd as [Hx Hnd].
  destruct Ha as [-> | Ha], Hb as [-> | Hb]; auto.
  - exfalso. apply Hx. rewrite Hid. now apply in_map.
  - exfalso. apply Hx. rewrite <- Hid. now apply in_map.
Qed.

Lemma NoDup_map_filter {A B} (f : A -> B) (P : A -> bool) (l : list A) :
  List.NoDup (map f l) -> List.NoDup (map f (List.filter P l)).
Proof.
  induction l as [|a l IH]; simpl; intros Hnd; [constructor |].
  apply NoDup_cons_iff in Hnd as [Ha Hnd].
  destruct (P a); simpl; [| auto].
  apply NoDup_cons_iff. split; [| auto].
  intros Hin. apply Ha. apply in_map_iff in Hin as (x & Hx & Hin).
  apply filter_In in Hin as [Hin _]. apply in_map_iff. eauto.
Qed.

(** The three shapes of a write to the token table. *)
Lemma mapped_keeps_revocations (f : TokenRow.t -> TokenRow.t) (l : list TokenRow.t) :
  (forall x, TokenRow.id (f x) = TokenRow.id x) ->
  (forall x, TokenRow.revoked_at x <> None -> TokenRow.revoked_at (f x) <> None) ->
  List.NoDup (map TokenRow.id l) ->
  List.NoDup (map TokenRow.id (map f l))
  /\ forall r r', In r l -> TokenRow.revoked_at r <> None ->
                  In r' (map f l) -> TokenRow.id r' = TokenRow.id r ->
                  TokenRow.revoked_at r' <> None.
Proof.
  intros Hid Hkeep Hnd. split.
  - rewrite map_map. erewrite map_ext; [exact Hnd | exact Hid].
  - intros r r' Hr Hrev Hr' Heq. apply in_map_iff in Hr' as (x & <- & Hx).
    rewrite Hid in Heq. rewrite (unique_id_row l x r Hnd Hx Hr Heq). now apply Hkeep.
Qed.

Lemma filtered_keeps_revocations (P : TokenRow.t -> bool) (l : list TokenRow.t) :
  List.NoDup (map TokenRow.id l) ->
  List.NoDup (map TokenRow.id (List.filter P l))
  /\ forall r r', In r l -> TokenRow.revoked_at r <> None ->
                  In r' (List.filter P l) -> TokenRow.id r' = TokenRow.id r ->
                  TokenRow.revoked_at r' <> None.
Proof.
  intros Hnd. split; [now apply NoDup_map_filter |].
  intros r r' Hr Hrev Hr' Heq. apply filter_In in Hr' as [Hr' _].
  now rewrite (unique_id_row l r' r Hnd Hr' Hr Heq).
Qed.

Lemma appended_keeps_revocations (row : TokenRow.t) (l : list TokenRow.t) :
  existsb (fun t => String.eqb (TokenRow.id t) (TokenRow.id row)) l = false ->
  List.NoDup (map TokenRow.id l) ->
  List.NoDup (map TokenRow.id (l ++ [row]))
  /\ forall r r', In r l -> TokenRow.revoked_at r <> None ->
                  In r' (l ++ [row]) -> TokenRow.id r' = TokenRow.id r ->
                  TokenRow.revoked_at r' <> None.
Proof.
  intros Hfresh Hnd.
  assert (Hnew : forall x, In x l -> TokenRow.id x <> TokenRow.id row).
  { intros x Hx Heq.
    assert (existsb (fun t => String.eqb (TokenRow.id t) (TokenRow.id row)) l = true).
    { apply existsb_exists. exists x. split; [exact Hx | now apply String.eqb_eq]. }
    congruence. }
  split.
  - rewrite map_app. apply List.NoDup_app; [exact Hnd | |].
    + simpl. constructor; [intros [] | constructor].
    + intros i Hi [<- | []]. apply in_map_iff in Hi as (x & Hx & Hin).
      exact (Hnew x Hin Hx).
  - intros r r' Hr Hrev Hr' Heq. apply in_app_iff in Hr' as [Hr' | [<- | []]].
    + now rewrite (unique_id_row l r' r Hnd Hr' Hr Heq).
    + exfalso. exact (Hnew r Hr (eq_sym Heq)).
Qed.

Lemma token_insert_inv (row : TokenRow.t) (db db' : Db) :
  OAuthToken.insert row db = Some db' ->
  existsb (fun t => String.eqb (TokenRow.id t) (TokenRow.id row)) (tokens db) = false
  /\ db' = with_tokens db (tokens db ++ [row]).
Proof.
  unfold OAuthToken.insert.
  destruct (existsb (fun t => String.eqb (TokenRow.id t) (TokenRow.id row)) (tokens db));
    simpl; [discriminate |].
  match goal with |- (if ?c then _ else _) = _ -> _ => destruct c end;
    [discriminate | intros [= <-]; auto].
Qed.

Lemma token_create_inv env config params db created db' :
  OAuthToken.create env config params db = Some (created, db') ->
  exists row,
    OAuthToken.tokenData created = OAuthToken.hydrate row
    /\ TokenRow.scopes row = OAuthToken.scopes params
    /\ TokenRow.revoked_at row = None
    /\ existsb (fun t => String.eqb (TokenRow.id t) (TokenRow.id row)) (tokens db) = false
    /\ db' = with_tokens db (tokens db ++ [row]).
Proof.
  unfold OAuthToken.create.
  match goal with
  | |- match OAuthToken.insert ?r db with _ => _ end = _ -> _ =>
      destruct (OAuthToken.insert r db) as [d|] eqn:Hins; [| discriminate];
      intros [= <- <-]; apply token_insert_inv in Hins as [Hfresh ->];
      exists r; auto
  end.
Qed.

(** One write keeps the primary key unique and never un-revokes a row. *)
Lemma write_keeps_revocations (db db' : Db) :
  db_write db db' ->
  token_ids_unique db ->
  token_ids_unique db'
  /\ forall r r', In r (tokens db) -> TokenRow.revoked_at r <> None ->
                  In r' (tokens db') -> TokenRow.id r' = TokenRow.id r ->
                  TokenRow.revoked_at r' <> None.
Proof.
  unfold token_ids_unique.
  assert (Hsame : forall l : list TokenRow.t,
             List.NoDup (map TokenRow.id l) ->
             List.NoDup (map TokenRow.id l)
             /\ forall r r', In r l -> TokenRow.revoked_at r <> None ->
                             In r' l -> TokenRow.id r' = TokenRow.id r ->
                             TokenRow.revoked_at r' <> None).
  { intros l Hnd. split; [exact Hnd |]. intros r r' Hr Hrev Hr' Heq.
    now rewrite (unique_id_row l r' r Hnd Hr' Hr Heq). }
  intros Hw Hnd. destruct Hw.
  - apply token_create_inv in H as (row & _ & _ & _ & Hfresh & ->). simpl.
    now apply appended_keeps_revocations.
  - apply mapped_keeps_revocations; [| | exact Hnd]; intros x;
      destruct (String.eqb (TokenRow.id x) id); simpl; auto.
  - apply mapped_keeps_revocations; [| | exact Hnd]; intros x;
      destruct (String.eqb (TokenRow.id x) id); simpl; auto; discriminate.
  - apply mapped_keeps_revocations; [| | exact Hnd]; intros x;
      destruct (strict_eq (TokenRow.user_id x) userId && negb (is_set (TokenRow.revoked_at x)));
      simpl; auto; discriminate.
  - apply mapped_keeps_revocations; [| | exact Hnd]; intros x;
      destruct (strict_eq (TokenRow.user_id x) userId
                && String.eqb (TokenRow.client_id x) clientId
                && negb (is_set (TokenRow.revoked_at x)));
      simpl; auto; discriminate.
  - simpl. now apply filtered_keeps_revocations.
  - simpl. now apply Hsame.
  - simpl. now apply filtered_keeps_revocations.
  - unfold AuthCode.create in H.
    match type of H with
    | match AuthCode.insert ?r db with _ => _ end = _ =>
        unfold AuthCode.insert in H;
        destruct (existsb _ (auth_codes db) || existsb _ (auth_codes db)
                  || negb (has_client db (AuthCodeRow.client_id r)));
        [discriminate | injection H as _ <-]
    end.
    simpl. now apply Hsame.
  - simpl. now apply Hsame.
  - simpl. now apply Hsame.
  - unfold OAuthClient.create in H.
    match type of H with
    | match OAuthClient.insert ?r db with _ => _ end = _ =>
        unfold OAuthClient.insert in H;
        destruct (existsb (fun c => String.eqb (ClientRow.id c) (ClientRow.id r)) (clients db));
        [discriminate | injection H as _ <-]
    end.
    simpl. now apply Hsame.
Qed.

Lemma survives_keeps_revocation (id : string) (db db' : Db) :
  survives id db db' ->
  token_ids_unique db ->
  revoked_in db id ->
  token_ids_unique db'
  /\ forall r', In r' (tokens db') -> TokenRow.id r' = id -> TokenRow.revoked_at r' <> None.
Proof.
  induction 1 as [db | db db1 db2 Hw Hpres _ IH]; intros Hnd (r & Hr & Hid & Hrev).
  - split; [exact Hnd |]. intros r' Hr' Hid'.
    rewrite (unique_id_row (tokens db) r' r Hnd Hr' Hr); [exact Hrev | congruence].
  - destruct (write_keeps_revocations db db1 Hw Hnd) as [Hnd1 Hkeep].
    apply IH; [exact Hnd1 |].
    destruct Hpres as (r1 & Hr1 & Hid1). exists r1. split; [exact Hr1 | split; [exact Hid1 |]].
    apply (Hkeep r r1 Hr Hrev Hr1). congruence.
Qed.

Lemma validate_after_revoke (t : Z) (id : string) (db : Db) (now_ : Z) (plain : string) :
  fst (OAuthToken.validate now_ plain (OAuthToken.revoke t id db))
  = match access_row db plain with
    | Some row =>
        if String.eqb (TokenRow.id row) id then None
        else fst (OAuthToken.validate now_ plain db)
    | None => None
    end.
Proof.
  rewrite !validate_unfold, access_row_revoke.
  destruct (access_row db plain) as [row|]; simpl; [| reflexivity].
  destruct (String.eqb (TokenRow.id row) id); simpl; [reflexivity |].
  destruct (is_set (TokenRow.revoked_at row)); [reflexivity |].
  destruct (TokenRow.expires_at row <? now_); reflexivity.
Qed.

Lemma validateRefreshToken_after_revoke
    (t : Z) (id : string) (db : Db) (now_ : Z) (plain : string) :
  OAuthToken.validateRefreshToken now_ plain (OAuthToken.revoke t id db)
  = match refresh_row db plain with
    | Some row =>
        if String.eqb (TokenRow.id row) id then None
        else OAuthToken.validateRefreshToken now_ plain db
    | None => None
    end.
Proof.
  rewrite !validateRefreshToken_unfold, refresh_row_revoke.
  destruct (refresh_row db plain) as [row|]; simpl; [| reflexivity].
  destruct (String.eqb (TokenRow.id row) id); reflexivity.
Qed.

(** What does hold of two calls of [OAuthToken.revoke]: the last write
    wins. The store after [revoke(id); revoke(id)] is the store after the
    single call made at the time of the second one; compared with the store
    after the first call alone, the rows agree on every column except the
    value of the [revoked_at] timestamp of the rows with that id, which is
    set in both, and [validate] and [validateRefreshToken] answer the same
    for every plaintext at every time. And no write statement of the
    sources clears [revoked_at]: through any sequence of writes that does
    not delete it, a revoked row stays revoked. *)
Lemma revoke_idempotent_and_permanent (db : Db) (id : string) (t1 t2 : Z) :
  let once := OAuthToken.revoke t1 id db in
  let twice := OAuthToken.revoke t2 id once in
  twice = OAuthToken.revoke t2 id db
  /\ (t1 = t2 -> twice = once)
  /\ Forall2 same_up_to_revocation_time (tokens twice) (tokens once)
  /\ clients twice = clients once
  /\ auth_codes twice = auth_codes once
  /\ (forall now_ plain,
         fst (OAuthToken.validate now_ plain twice) = fst (OAuthToken.validate now_ plain once))
  /\ (forall now_ plain,
         OAuthToken.validateRefreshToken now_ plain twice
         = OAuthToken.validateRefreshToken now_ plain once)
  /\ (forall db',
         token_ids_unique db -> revoked_in db id -> survives id db db' ->
         forall r', In r' (tokens db') -> TokenRow.id r' = id ->
                    TokenRow.revoked_at r' <> None).
Proof.
  intros once twice.
  assert (Habs : twice = OAuthToken.revoke t2 id db) by apply revoke_absorbs.
  split; [exact Habs | split; [| split; [| split; [| split; [| split; [| split]]]]]].
  - intros <-. exact Habs.
  - subst twice. rewrite (revoke_tokens t2 id once). apply Forall2_map_self.
    intros r Hr. destruct (String.eqb (TokenRow.id r) id) eqn:E.
    + apply String.eqb_eq in E. pose proof (revoke_marks t1 id db r Hr E) as Hm.
      unfold same_up_to_revocation_time. simpl. rewrite Hm. split; reflexivity.
    + split; reflexivity.
  - reflexivity.
  - reflexivity.
  - intros now_ plain. rewrite Habs. subst once. now rewrite !validate_after_revoke.
  - intros now_ plain. rewrite Habs. subst once.
    now rewrite !validateRefreshToken_after_revoke.
  - intros db' Hnd Hrev Hsurv. exact (proj2 (survives_keeps_revocation id db db' Hsurv Hnd Hrev)).
Qed.

(** On the sample table: revoking at 6000 and again at 6500 gives the
    store of the single call at 6500; and after the revocation at 6000 the
    row stays revoked through an update of [last_used_at] and a
    [revokeAllFor] sweep. *)
Lemma revoke_idempotent_and_permanent_witness :
  let db := OAuthToken.revoke 6000 "uuid-2" sample_db in
  let db' := OAuthToken.revokeAllFor 6800 "alice" (OAuthToken.touch 6700 "uuid-2" db) in
  OAuthToken.revoke 6500 "uuid-2" db = OAuthToken.revoke 6500 "uuid-2" sample_db
  /\ forall r', In r' (tokens db') -> TokenRow.id r' = "uuid-2" ->
                TokenRow.revoked_at r' <> None.
Proof.
  intros db db'.
  destruct (revoke_idempotent_and_permanent sample_db "uuid-2" 6000 6500)
    as (Habs & _).
  split; [exact Habs |].
  destruct (revoke_idempotent_and_permanent db "uuid-2" 6000 6500)
    as (_ & _ & _ & _ & _ & _ & _ & Hperm).
  apply (Hperm db').
  - unfold token_ids_unique. simpl. constructor; [intros [] | constructor].
  - eexists. split; [left; reflexivity | split; [reflexivity | discriminate]].
  - eapply survives_step; [apply (write_token_touch 6700 "uuid-2") | |].
    + eexists. split; [left; reflexivity | reflexivity].
    + eapply survives_step; [apply (write_token_revokeAllFor 6800 "alice") | |].
      * eexists. split; [left; reflexivity | reflexivity].
      * apply survives_here.
Defined.

(** C7. The idempotence of [OAuthToken.revoke] fails on the code. The
    UPDATE of [revoke] has no [revoked_at IS NULL] guard, unlike the UPDATEs
    of [revokeAllFor] and [revokeAllForClient]: a second call overwrites the
    timestamp of the first, and [prune] compares that timestamp with its
    cutoff. Here a token is revoked on day 1 and, in the second store,
    revoked again on day 5; [prune(7)] runs on day 9, when the cutoff is
    day 2 and neither the access nor the refresh token decides the deletion
    of the row on its own (the refresh token expires on day 30). After one
    call the row is deleted and [prune] returns 1; after two calls the row
    is kept and [prune] returns 0. The bulk revocation of the same user,
    called at the same two times, leaves the store of its first call. *)
Theorem revoke_twice_postpones_prune :
  let day := 86400000 in
  let once := OAuthToken.revoke (1 * day) "uuid-7" long_lived_db in
  let twice := OAuthToken.revoke (5 * day) "uuid-7" once in
  twice <> once
  /\ OAuthToken.prune (9 * day) 7 once = (1%nat, with_tokens long_lived_db [])
  /\ OAuthToken.prune (9 * day) 7 twice = (0%nat, twice)
  /\ OAuthToken.revokeAllFor (5 * day) "alice"
       (OAuthToken.revokeAllFor (1 * day) "alice" long_lived_db)
     = OAuthToken.revokeAllFor (1 * day) "alice" long_lived_db.
Proof.
  intros day once twice. repeat apply conj; try (vm_compute; reflexivity).
  intros H. apply (f_equal (fun d => map TokenRow.revoked_at (tokens d))) in H.
  vm_compute in H. discriminate H.
Qed.

(** ** AuthCode.consume *)

Lemma consume_unfold (now_ : Z) (plain clientId redirectUri : string)
    (verifier : option string) (db : Db) :
  AuthCode.consume now_ plain clientId redirectUri verifier db =
  match AuthCode.lookup db (AuthCode.hashCode plain) clientId with
  | None => (None, db)
  | Some row =>
      if consume_accepts now_ redirectUri verifier row
      then (Some (AuthCode.hydrate row), AuthCode.mark_used now_ (AuthCodeRow.id row) db)
      else (None, db)
  end.
Proof.
  unfold AuthCode.consume, consume_accepts.
  destruct (AuthCode.lookup db (AuthCode.hashCode plain) clientId) as [row|]; [| reflexivity].
  simpl.
  destruct (is_set (AuthCodeRow.used_at row)); [reflexivity |].
  destruct (AuthCodeRow.expires_at row <? now_); [reflexivity |].
  destruct (String.eqb (AuthCodeRow.redirect_uri row) redirectUri); [| reflexivity].
  destruct (truthy (AuthCodeRow.code_challenge row)); [| reflexivity].
  destruct (truthy verifier); [| reflexivity].
  simpl.
  destruct (strict_eq (AuthCodeRow.code_challenge_method row) "S256");
    match goal with |- context [String.eqb ?a ?b] => destruct (String.eqb a b) end;
    reflexivity.
Qed.

Lemma consume_accepts_iff (now_ : Z) (redirectUri : string) (verifier : option string)
    (row : AuthCodeRow.t) :
  consume_accepts now_ redirectUri verifier row = true
  <-> AuthCodeRow.used_at row = None
      /\ now_ <= AuthCodeRow.expires_at row
      /\ AuthCodeRow.redirect_uri row = redirectUri
      /\ pkce_satisfied row verifier.
Proof.
  unfold consume_accepts, pkce_satisfied.
  rewrite !andb_true_iff, !negb_true_iff, is_set_false, Z.ltb_ge, String.eqb_eq,
    orb_true_iff, negb_true_iff, andb_true_iff.
  assert (Hm : (if strict_eq (AuthCodeRow.code_challenge_method row) "S256"
                then String.eqb (Sha256.sha256_base64url (str verifier))
                                (str (AuthCodeRow.code_challenge row))
                else String.eqb (str verifier) (str (AuthCodeRow.code_challenge row))) = true
               <-> (if strict_eq (AuthCodeRow.code_challenge_method row) "S256"
                    then Sha256.sha256_base64url (str verifier)
                         = str (AuthCodeRow.code_challenge row)
                    else str verifier = str (AuthCodeRow.code_challenge row))).
  { destruct (strict_eq (AuthCodeRow.code_challenge_method row) "S256");
      apply String.eqb_eq. }
  rewrite Hm.
  destruct (truthy (AuthCodeRow.code_challenge row)); intuition congruence.
Qed.

Lemma lookup_mark_used (now_ : Z) (id : string) (db : Db) (hash clientId : string) :
  AuthCode.lookup (AuthCode.mark_used now_ id db) hash clientId
  = option_map (fun c => if String.eqb (AuthCodeRow.id c) id
                         then AuthCode.set_used_at now_ c else c)
               (AuthCode.lookup db hash clientId).
Proof.
  unfold AuthCode.lookup, AuthCode.mark_used. simpl. apply find_map_stable.
  intros c. destruct (String.eqb (AuthCodeRow.id c) id); reflexivity.
Qed.

Lemma consume_used (now_ : Z) (plain clientId redirectUri : string)
    (verifier : option string) (db : Db) (row : AuthCodeRow.t) :
  AuthCode.lookup db (AuthCode.hashCode plain) clientId = Some row ->
  AuthCodeRow.used_at row <> None ->
  AuthCode.consume now_ plain clientId redirectUri verifier db = (None, db).
Proof.
  intros Hrow Hused. rewrite consume_unfold, Hrow. unfold consume_accepts.
  apply is_set_true in Hused. rewrite Hused. reflexivity.
Qed.

(** C1, as stated, fails in two corner cases of JavaScript truthiness: an
    empty verifier is rejected although the stored S256 challenge is the
    digest of the empty string, and a code stored with an empty challenge is
    consumed without any verifier. *)
Lemma consume_pkce_counterexample :
  let uri := "https://example.com/callback" in
  (AuthCode.lookup sample_code_db (AuthCode.hashCode "code-2") "app" = Some code2
   /\ AuthCodeRow.used_at code2 = None
   /\ 1000 <= AuthCodeRow.expires_at code2
   /\ AuthCodeRow.redirect_uri code2 = uri
   /\ AuthCodeRow.code_challenge_method code2 = Some "S256"
   /\ Some (Sha256.sha256_base64url EmptyString) = AuthCodeRow.code_challenge code2
   /\ AuthCode.consume 1000 "code-2" "app" uri (Some EmptyString) sample_code_db
      = (None, sample_code_db))
  /\ (AuthCode.lookup sample_code_db (AuthCode.hashCode "code-3") "app" = Some code3
      /\ AuthCodeRow.code_challenge code3 = Some EmptyString
      /\ fst (AuthCode.consume 1000 "code-3" "app" uri None sample_code_db)
         = Some (AuthCode.hydrate code3)).
Proof.
  intros uri. repeat apply conj; try (vm_compute; reflexivity).
  vm_compute. discriminate.
Qed.

(** C1, amended. [consume] returns the hydrated row exactly when the first
    row matching the SHA-256 hash of the plaintext and the client id exists,
    is unused, is not past its expiry, carries the given redirect URI, and
    its stored non-empty PKCE challenge (if any) is matched by a non-empty
    verifier; the success marks every row with that id used at the current
    time. A failing call leaves the database as it was. A used row is never
    consumed, so after a success no later call for that code and client
    succeeds, whatever the time, redirect URI or verifier. *)
Theorem consume_spec (now_ : Z) (plain clientId redirectUri : string)
    (verifier : option string) (db : Db) :
  let result := AuthCode.consume now_ plain clientId redirectUri verifier db in
  (forall data db',
      result = (Some data, db')
      <-> exists row,
            AuthCode.lookup db (AuthCode.hashCode plain) clientId = Some row
            /\ AuthCodeRow.used_at row = None
            /\ now_ <= AuthCodeRow.expires_at row
            /\ AuthCodeRow.redirect_uri row = redirectUri
            /\ pkce_satisfied row verifier
            /\ data = AuthCode.hydrate row
            /\ db' = AuthCode.mark_used now_ (AuthCodeRow.id row) db)
  /\ (fst result = None -> snd result = db)
  /\ (forall row,
         AuthCode.lookup db (AuthCode.hashCode plain) clientId = Some row ->
         AuthCodeRow.used_at row <> None -> result = (None, db))
  /\ (forall data db',
         result = (Some data, db') ->
         (exists row',
             AuthCode.lookup db' (AuthCode.hashCode plain) clientId = Some row'
             /\ AuthCodeRow.used_at row' = Some now_)
         /\ forall now' redirectUri' verifier',
              AuthCode.consume now' plain clientId redirectUri' verifier' db' = (None, db')).
Proof.
  intros result.
  assert (Hsucc : forall data db',
             result = (Some data, db')
             <-> exists row,
                   AuthCode.lookup db (AuthCode.hashCode plain) clientId = Some row
                   /\ AuthCodeRow.used_at row = None
                   /\ now_ <= AuthCodeRow.expires_at row
                   /\ AuthCodeRow.redirect_uri row = redirectUri
                   /\ pkce_satisfied row verifier
                   /\ data = AuthCode.hydrate row
                   /\ db' = AuthCode.mark_used now_ (AuthCodeRow.id row) db).
  { intros data db'. subst result. rewrite consume_unfold.
    destruct (AuthCode.lookup db (AuthCode.hashCode plain) clientId) as [row|].
    - destruct (consume_accepts now_ redirectUri verifier row) eqn:Hacc.
      + apply consume_accepts_iff in Hacc as (Hu & He & Hr & Hp). split.
        * intros [= <- <-]. exists row. auto 10.
        * intros (row' & [= <-] & _ & _ & _ & _ & -> & ->). reflexivity.
      + split; [discriminate |].
        intros (row' & [= <-] & Hu & He & Hr & Hp & _).
        assert (consume_accepts now_ redirectUri verifier row = true)
          by (apply consume_accepts_iff; auto).
        congruence.
    - split; [discriminate | intros (row' & [=] & _)]. }
  split; [exact Hsucc | split; [| split]].
  - subst result. rewrite consume_unfold.
    destruct (AuthCode.lookup db (AuthCode.hashCode plain) clientId) as [row|];
      [| reflexivity].
    destruct (consume_accepts now_ redirectUri verifier row); [discriminate | reflexivity].
  - intros row Hrow Hused. now apply consume_used with (row := row).
  - intros data db' Hres. apply Hsucc in Hres as (row & Hrow & _ & _ & _ & _ & _ & ->).
    assert (Hrow' : AuthCode.lookup (AuthCode.mark_used now_ (AuthCodeRow.id row) db)
                      (AuthCode.hashCode plain) clientId
                    = Some (AuthCode.set_used_at now_ row)).
    { rewrite lookup_mark_used, Hrow. simpl. now rewrite String.eqb_refl. }
    split.
    + eexists. split; [exact Hrow' | reflexivity].
    + intros now' redirectUri' verifier'.
      apply consume_used with (row := AuthCode.set_used_at now_ row);
        [exact Hrow' | discriminate].
Qed.

(** C1 on the PKCE scenario of the specification: the code bound to the
    S256 challenge of "verifier-xyz" is consumed once with that verifier, and
    the replay fails. *)
Lemma consume_spec_witness :
  let uri := "https://example.com/callback" in
  let db' := AuthCode.mark_used 2000 "uuid-3" sample_code_db in
  AuthCode.consume 2000 "code-1" "app" uri (Some "verifier-xyz") sample_code_db
  = (Some (AuthCode.hydrate code1), db')
  /\ AuthCode.consume 2001 "code-1" "app" uri (Some "verifier-xyz") db' = (None, db').
Proof.
  intros uri db'.
  destruct (consume_spec 2000 "code-1" "app" uri (Some "verifier-xyz") sample_code_db)
    as (Hsucc & _ & _ & Hreplay).
  assert (Hfirst : AuthCode.consume 2000 "code-1" "app" uri (Some "verifier-xyz") sample_code_db
                   = (Some (AuthCode.hydrate code1), db')).
  { apply Hsucc. exists code1.
    split; [vm_compute; reflexivity |].
    split; [reflexivity |].
    split; [simpl; lia |].
    split; [reflexivity |].
    split; [| split; reflexivity].
    intros _. split; [reflexivity | vm_compute; reflexivity]. }
  split; [exact Hfirst |].
  exact (proj2 (Hreplay _ _ Hfirst) 2001 uri (Some "verifier-xyz")).
Defined.

(** ** POST /revoke *)

Lemma revoke_token_status (env : Env) (token : string) (db : Db) :
  fst (match OAuthToken.validate (now env) token db with
       | (Some tokenData, db1) =>
           (RJson (JObj []) 200,
            OAuthToken.revoke (now env) (OAuthTokenData.id tokenData) db1)
       | (None, db1) =>
           match OAuthToken.validateRefreshToken (now env) token db1 with
           | Some refreshData =>
               (RJson (JObj []) 200,
                OAuthToken.revoke (now env) (OAuthTokenData.id refreshData) db1)
           | None => (RJson (JObj []) 200, db1)
           end
       end) = RJson (JObj []) 200.
Proof.
  destruct (OAuthToken.validate (now env) token db) as [[d|] db1]; [reflexivity |].
  destruct (OAuthToken.validateRefreshToken (now env) token db1); reflexivity.
Qed.

(** C4, as stated, fails: with the token present, an unknown client id or
    a wrong secret of a confidential client is answered 401. *)
Lemma revokeHandler_counterexample :
  let unknown : Params := <["token" := "at-1"]> (<["client_id" := "ghost"]> ∅) in
  let wrong : Params :=
    <["token" := "some-token"]> (<["client_id" := "app"]> (<["client_secret" := "wrong-secret"]> ∅)) in
  revokeHandler sample_env unknown sample_db
  = (RJson (toJSON (InvalidClientError client_auth_failed)) 401, sample_db)
  /\ revokeHandler sample_env wrong sample_db
     = (RJson (toJSON (InvalidClientError client_auth_failed)) 401, sample_db).
Proof. split; vm_compute; reflexivity. Qed.

(** C4, amended. For every POST /revoke request whose token parameter is
    present and non-empty: if the client authentication fails the response
    is 401 invalid_client and the database is untouched; otherwise the
    response is 200 with body {}, whatever the database holds for that token
    (absent, revoked, expired or valid). *)
Theorem revokeHandler_status (env : Env) (body : Params) (db : Db) :
  truthy (body !! "token") = true ->
  (client_auth_fails db (body !! "client_id") (body !! "client_secret") = true ->
   revokeHandler env body db = (RJson (toJSON (InvalidClientError client_auth_failed)) 401, db))
  /\ (client_auth_fails db (body !! "client_id") (body !! "client_secret") = false ->
      fst (revokeHandler env body db) = RJson (JObj []) 200).
Proof.
  intros Htok. unfold revokeHandler, client_auth_fails. rewrite Htok. simpl.
  destruct (truthy (body !! "client_id")); simpl.
  - destruct (OAuthClient.find db (str (body !! "client_id"))) as [client|].
    + destruct (OAuthClientData.revoked client); simpl.
      * split; [reflexivity | discriminate].
      * destruct (OAuthClientData.confidential client && truthy (body !! "client_secret")).
        -- destruct (OAuthClient.verifySecret db client (str (body !! "client_secret")));
             simpl; split; try discriminate; try reflexivity.
           intros _. apply revoke_token_status.
        -- split; [discriminate |]. intros _. apply revoke_token_status.
    + split; [reflexivity | discriminate].
  - split; [discriminate |]. intros _. apply revoke_token_status.
Qed.

(** C4 on three requests without client credentials: an unknown token, a
    valid access token and a valid refresh token are all answered 200 {}. *)
Lemma revokeHandler_status_witness :
  fst (revokeHandler sample_env (<["token" := "nonexistent-token"]> ∅) sample_db)
  = RJson (JObj []) 200
  /\ fst (revokeHandler sample_env (<["token" := "at-1"]> ∅) sample_db) = RJson (JObj []) 200
  /\ fst (revokeHandler sample_env (<["token" := "rt-1"]> ∅) sample_db) = RJson (JObj []) 200.
Proof.
  repeat apply conj.
  - apply (revokeHandler_status sample_env (<["token" := "nonexistent-token"]> ∅) sample_db);
      vm_compute; reflexivity.
  - apply (revokeHandler_status sample_env (<["token" := "at-1"]> ∅) sample_db);
      vm_compute; reflexivity.
  - apply (revokeHandler_status sample_env (<["token" := "rt-1"]> ∅) sample_db);
      vm_compute; reflexivity.
Defined.

(** ** GET and POST /authorize *)

Lemma errorRedirect_target (env : Env) (u : string) (state : option string)
    (error description uri : string) (params : list (string * string)) (status : Z) :
  errorRedirect env u state error description = Respond (RRedirect uri params status) ->
  uri = u.
Proof.
  unfold errorRedirect. destruct (url_ok env u); [| discriminate]. now intros [= <- _ _].
Qed.

Lemma issueAuthorizationCode_target (env : Env) (config : OAuth2Config) (user : JsUser)
    (clientId u : string) (scopes : list string) (state challenge method : option string)
    (db : Db) (uri : string) (params : list (string * string)) (status : Z) :
  fst (issueAuthorizationCode env config user clientId u scopes state challenge method db)
  = Respond (RRedirect uri params status) ->
  uri = u.
Proof.
  unfold issueAuthorizationCode.
  destruct (getUserId user) as [err | userId]; [discriminate |].
  destruct (AuthCode.create env config _ db) as [[[code data] db']|]; [| discriminate].
  destruct (url_ok env u); [| discriminate]. now intros [= <- _ _].
Qed.

Lemma find_client_id (db : Db) (id : string) (client : OAuthClientData.t) :
  OAuthClient.find db id = Some client -> OAuthClientData.id client = id.
Proof.
  unfold OAuthClient.find.
  destruct (List.find _ (clients db)) as [row|] eqn:Hrow; [| discriminate].
  apply List.find_some in Hrow as [_ Hid]. apply String.eqb_eq in Hid.
  now intros [= <-].
Qed.

(** The early exits of [authorizeHandler]: a JSON error, nothing stored, no
    redirect. The last conjunct, about POST /authorize, is in the context. *)
Ltac early_json_error ctor :=
  repeat apply conj; [| discriminate | congruence | assumption];
  intros _; repeat apply conj; try reflexivity;
  eexists (ctor _); split; [reflexivity |].

Ltac early_invalid_request :=
  early_json_error InvalidRequestError; left; split; reflexivity.

Ltac early_invalid_client :=
  early_json_error InvalidClientError; right; repeat split.

(** C2, as stated, fails on the status: a request without redirect_uri
    that names an unknown client, and a request with an unregistered
    redirect_uri that names a revoked client, are answered 401
    invalid_client, not 400 invalid_request. *)
Lemma authorize_counterexample :
  let unknown : Params := <["response_type" := "code"]> (<["client_id" := "ghost"]> ∅) in
  let retired : Params :=
    <["response_type" := "code"]>
      (<["client_id" := "old-app"]> (<["redirect_uri" := "https://evil.example/cb"]> ∅)) in
  (unknown !! "redirect_uri" = None
   /\ authorizeHandler sample_env sample_config sample_registry
        {| renderAuthorization := false |} unknown (UString "alice") None scenario_db
      = (Respond (RJson (toJSON (InvalidClientError client_auth_failed)) 401), None,
         scenario_db))
  /\ (In revoked_client (clients scenario_db)
      /\ ~ In "https://evil.example/cb" (ClientRow.redirect_uris revoked_client)
      /\ authorizeHandler sample_env sample_config sample_registry
           {| renderAuthorization := false |} retired (UString "alice") None scenario_db
         = (Respond (RJson (toJSON (InvalidClientError client_auth_failed)) 401), None,
            scenario_db)).
Proof.
  intros unknown retired. repeat apply conj; try (vm_compute; reflexivity).
  - simpl. tauto.
  - simpl. intros [H | []]. discriminate H.
Qed.

(** The outcomes of GET /authorize by cases: with an unregistered
    redirect_uri a JSON error that changes nothing; every redirect targets
    the supplied redirect_uri after it was found among the registered URIs
    of the client; the pending request written to the session carries such
    a URI; POST /authorize redirects only to the URI of the pending
    request. *)
Lemma authorize_outcomes
    (env : Env) (config : OAuth2Config) (reg : ScopeRegistry.t) (actions : OAuth2Actions)
    (query : Params) (user : JsUser) (session : Session) (db : Db) :
  let result := authorizeHandler env config reg actions query user session db in
  let outcome := fst (fst result) in
  let session' := snd (fst result) in
  (redirect_uri_unregistered db query ->
   (exists e,
       outcome = Respond (RJson (toJSON e) (statusCode e))
       /\ ((errorCode e = "invalid_request" /\ statusCode e = 400)
           \/ (errorCode e = "invalid_client" /\ statusCode e = 401
               /\ forall client,
                    OAuthClient.find db (str (query !! "client_id")) = Some client ->
                    OAuthClientData.revoked client = true)))
   /\ session' = session
   /\ snd result = db)
  /\ (forall uri params status,
         outcome = Respond (RRedirect uri params status) ->
         query !! "redirect_uri" = Some uri
         /\ registered_for db (str (query !! "client_id")) uri)
  /\ (session' <> session ->
      exists request,
        session' = Some request
        /\ query !! "redirect_uri" = Some (ar_redirectUri request)
        /\ registered_for db (ar_clientId request) (ar_redirectUri request))
  /\ (forall env' approved user' request db1 uri params status,
         fst (fst (approveHandler env' config approved user' (Some request) db1))
         = Respond (RRedirect uri params status) ->
         uri = ar_redirectUri request).
Proof.
  intros result outcome session'. subst outcome session' result.
  unfold authorizeHandler.
  set (redirectUri := query !! "redirect_uri").
  set (clientId := query !! "client_id").
  assert (Happrove : forall env' approved user' request db1 uri params status,
             fst (fst (approveHandler env' config approved user' (Some request) db1))
             = Respond (RRedirect uri params status) ->
             uri = ar_redirectUri request).
  { intros env' approved user' request db1 uri params status.
    destruct approved; simpl.
    - destruct (issueAuthorizationCode env' config user' (ar_clientId request)
                  (ar_redirectUri request) (ar_scopes request) (ar_state request)
                  (ar_codeChallenge request) (ar_codeChallengeMethod request) db1)
        as [o d] eqn:Hissue.
      simpl. intros Ho.
      apply (issueAuthorizationCode_target env' config user' (ar_clientId request)
               (ar_redirectUri request) (ar_scopes request) (ar_state request)
               (ar_codeChallenge request) (ar_codeChallengeMethod request) db1
               uri params status).
      rewrite Hissue. exact Ho.
    - apply errorRedirect_target. }
  destruct (strict_eq (query !! "response_type") "code"); simpl.
  2:{ early_invalid_request. }
  destruct (truthy clientId); simpl.
  2:{ early_invalid_request. }
  destruct (OAuthClient.find db (str clientId)) as [client|] eqn:Hclient; simpl.
  2:{ early_invalid_client. discriminate. }
  destruct (OAuthClientData.revoked client) eqn:Hrevoked; simpl.
  { early_invalid_client. intros client' [= <-]. exact Hrevoked. }
  destruct (grants (OAuthClientData.grantTypes client) authorization_code); simpl.
  2:{ early_invalid_request. }
  destruct (truthy redirectUri) eqn:Huri; simpl.
  2:{ early_invalid_request. }
  destruct (includes (OAuthClientData.redirectUris client) (str redirectUri)) eqn:Hinc; simpl.
  2:{ early_invalid_request. }
  (* From here on the redirect URI is registered. *)
  apply includes_In in Hinc.
  assert (Hreg : registered_for db (str clientId) (str redirectUri))
    by (exists client; auto).
  assert (Hsome : redirectUri = Some (str redirectUri)) by now apply truthy_str.
  assert (Hnot : ~ redirect_uri_unregistered db query).
  { intros [Hmiss | Hout].
    - fold redirectUri in Hmiss. congruence.
    - exact (Hout client Hclient Hinc). }
  assert (Herr : forall state error description uri params status,
             errorRedirect env (str redirectUri) state error description
             = Respond (RRedirect uri params status) ->
             redirectUri = Some uri /\ registered_for db (str clientId) uri).
  { intros state error description uri params status H.
    apply errorRedirect_target in H. subst uri. auto. }
  destruct (negb (OAuthClientData.confidential client) && negb (truthy (query !! "code_challenge"))).
  { simpl. repeat apply conj; [tauto | apply Herr | congruence | exact Happrove]. }
  destruct (truthy (query !! "code_challenge")
            && negb (String.eqb (default "plain" (query !! "code_challenge_method")) "S256")
            && negb (String.eqb (default "plain" (query !! "code_challenge_method")) "plain")).
  { simpl. repeat apply conj; [tauto | apply Herr | congruence | exact Happrove]. }
  destruct (ScopeRegistry.validate reg _ (OAuthClientData.scopes client) (defaultScopes config))
    as [err | scopes].
  { simpl. repeat apply conj; [tauto | apply Herr | congruence | exact Happrove]. }
  assert (Hwritten : forall request,
             request = {| ar_clientId := str clientId;
                          ar_redirectUri := str redirectUri;
                          ar_scopes := scopes;
                          ar_state := query !! "state";
                          ar_codeChallenge := query !! "code_challenge";
                          ar_codeChallengeMethod :=
                            if truthy (query !! "code_challenge")
                            then Some (default "plain" (query !! "code_challenge_method"))
                            else None |} ->
             exists request',
               Some request = Some request'
               /\ redirectUri = Some (ar_redirectUri request')
               /\ registered_for db (ar_clientId request') (ar_redirectUri request')).
  { intros request ->. eexists. split; [reflexivity |]. simpl. auto. }
  destruct (OAuthClientData.firstParty client).
  - destruct (issueAuthorizationCode env config user (OAuthClientData.id client)
                (str redirectUri) scopes (query !! "state") (query !! "code_challenge")
                (Some (default "plain" (query !! "code_challenge_method"))) db)
      as [o d] eqn:Hissue.
    simpl. repeat apply conj; [tauto | | | exact Happrove].
    + intros uri params status Ho.
      assert (uri = str redirectUri) as ->.
      { apply (issueAuthorizationCode_target env config user (OAuthClientData.id client)
                 (str redirectUri) scopes (query !! "state") (query !! "code_challenge")
                 (Some (default "plain" (query !! "code_challenge_method"))) db
                 uri params status).
        rewrite Hissue. exact Ho. }
      auto.
    + intros _. now apply Hwritten.
  - destruct (renderAuthorization actions); simpl;
      (repeat apply conj; [tauto | discriminate | | exact Happrove]);
      intros _; now apply Hwritten.
Qed.

(** Which JSON error an unregistered redirect_uri is answered with: 401
    invalid_client exactly when the client check is reached and fails, 400
    invalid_request in every other case. *)
Lemma authorize_unregistered_status
    (env : Env) (config : OAuth2Config) (reg : ScopeRegistry.t) (actions : OAuth2Actions)
    (query : Params) (user : JsUser) (session : Session) (db : Db) :
  redirect_uri_unregistered db query ->
  let result := authorizeHandler env config reg actions query user session db in
  (authorize_client_refused db query = true ->
   result = (Respond (RJson (toJSON (InvalidClientError client_auth_failed)) 401), session, db))
  /\ (authorize_client_refused db query = false ->
      exists msg,
        result = (Respond (RJson (toJSON (InvalidRequestError msg)) 400), session, db)).
Proof.
  intros Hun result. subst result.
  unfold authorizeHandler, authorize_client_refused, json_error.
  destruct (strict_eq (query !! "response_type") "code"); simpl.
  2:{ split; [discriminate | intros _; eexists; reflexivity]. }
  destruct (truthy (query !! "client_id")); simpl.
  2:{ split; [discriminate | intros _; eexists; reflexivity]. }
  destruct (OAuthClient.find db (str (query !! "client_id"))) as [client|] eqn:Hclient.
  2:{ split; [reflexivity | discriminate]. }
  destruct (OAuthClientData.revoked client); simpl.
  { split; [reflexivity | discriminate]. }
  split; [discriminate | intros _].
  destruct (grants (OAuthClientData.grantTypes client) authorization_code); simpl.
  2:{ eexists; reflexivity. }
  destruct (truthy (query !! "redirect_uri")) eqn:Huri; simpl.
  2:{ eexists; reflexivity. }
  destruct (includes (OAuthClientData.redirectUris client) (str (query !! "redirect_uri")))
    eqn:Hinc; simpl.
  2:{ eexists; reflexivity. }
  exfalso. apply includes_In in Hinc.
  destruct Hun as [Hmiss | Hout]; [congruence | exact (Hout client Hclient Hinc)].
Qed.

(** C2, amended. For every GET /authorize request whose redirect_uri is
    missing, empty, or not one of the registered redirect URIs of the client
    it names, the response is a JSON error and never a redirect, and neither
    the session nor the database changes. The error is 401 invalid_client
    exactly when the response_type is "code", a client_id is given and it
    names no client or a revoked one; in every other case (a wrong or
    missing response_type, a missing client_id, or an existing, non-revoked
    client) it is 400 invalid_request. Every redirect the handler issues,
    error or success, targets the supplied redirect_uri after it was found
    among the client's registered URIs; the pending request written to the
    session carries such a URI, and POST /authorize redirects only to the
    URI of the pending request. *)
Theorem authorize_never_reflects
    (env : Env) (config : OAuth2Config) (reg : ScopeRegistry.t) (actions : OAuth2Actions)
    (query : Params) (user : JsUser) (session : Session) (db : Db) :
  let result := authorizeHandler env config reg actions query user session db in
  let outcome := fst (fst result) in
  let session' := snd (fst result) in
  (redirect_uri_unregistered db query ->
   (authorize_client_refused db query = true ->
    outcome = Respond (RJson (toJSON (InvalidClientError client_auth_failed)) 401))
   /\ (authorize_client_refused db query = false ->
       exists msg, outcome = Respond (RJson (toJSON (InvalidRequestError msg)) 400))
   /\ session' = session
   /\ snd result = db)
  /\ (forall uri params status,
         outcome = Respond (RRedirect uri params status) ->
         query !! "redirect_uri" = Some uri
         /\ registered_for db (str (query !! "client_id")) uri)
  /\ (session' <> session ->
      exists request,
        session' = Some request
        /\ query !! "redirect_uri" = Some (ar_redirectUri request)
        /\ registered_for db (ar_clientId request) (ar_redirectUri request))
  /\ (forall env' approved user' request db1 uri params status,
         fst (fst (approveHandler env' config approved user' (Some request) db1))
         = Respond (RRedirect uri params status) ->
         uri = ar_redirectUri request).
Proof.
  intros result outcome session'. subst outcome session' result.
  destruct (authorize_outcomes env config reg actions query user session db)
    as (Hbad & Hredirect & Hsession & Happrove).
  repeat apply conj; [| exact Hredirect | exact Hsession | exact Happrove].
  intros Hun. destruct (Hbad Hun) as (_ & Hs & Hd).
  destruct (authorize_unregistered_status env config reg actions query user session db Hun)
    as [H401 H400].
  repeat apply conj; [| | exact Hs | exact Hd].
  - intros Hrefused. now rewrite (H401 Hrefused).
  - intros Hrefused. destruct (H400 Hrefused) as (msg & ->). now exists msg.
Qed.

(** The handler on the test cases of its security note. An unregistered
    URI with the registered client "app" is answered 400 invalid_request;
    the same URI with the unknown client "ghost" is answered 401
    invalid_client; nothing is stored in either case. *)
Lemma authorize_never_reflects_witness :
  let request (client : string) : Params :=
    <["response_type" := "code"]>
      (<["client_id" := client]> (<["redirect_uri" := "https://evil.example/cb"]> ∅)) in
  let result (client : string) :=
    authorizeHandler sample_env sample_config sample_registry
      {| renderAuthorization := false |} (request client) (UString "alice") None sample_db in
  (exists msg,
      fst (fst (result "app")) = Respond (RJson (toJSON (InvalidRequestError msg)) 400))
  /\ snd (fst (result "app")) = None
  /\ snd (result "app") = sample_db
  /\ fst (fst (result "ghost"))
     = Respond (RJson (toJSON (InvalidClientError client_auth_failed)) 401)
  /\ snd (result "ghost") = sample_db.
Proof.
  intros request result.
  destruct (authorize_never_reflects sample_env sample_config sample_registry
              {| renderAuthorization := false |} (request "app") (UString "alice") None
              sample_db) as (Happ & _).
  destruct (authorize_never_reflects sample_env sample_config sample_registry
              {| renderAuthorization := false |} (request "ghost") (UString "alice") None
              sample_db) as (Hghost & _).
  assert (Hun_app : redirect_uri_unregistered sample_db (request "app")).
  { right. intros client Hfind Hin.
    vm_compute in Hfind. injection Hfind as <-.
    vm_compute in Hin. destruct Hin as [H | []]. discriminate H. }
  assert (Hun_ghost : redirect_uri_unregistered sample_db (request "ghost")).
  { right. intros client Hfind. vm_compute in Hfind. discriminate Hfind. }
  destruct (Happ Hun_app) as (_ & H400 & Hs & Hd).
  destruct (Hghost Hun_ghost) as (H401 & _ & _ & Hd').
  repeat apply conj.
  - apply H400. vm_compute. reflexivity.
  - exact Hs.
  - exact Hd.
  - apply H401. vm_compute. reflexivity.
  - exact Hd'.
Defined.

(** ** POST /token, grant_type=refresh_token *)

Lemma admitted_same_clients (db db' : Db) (body : Params) :
  clients db' = clients db ->
  refresh_client_admitted db' body = refresh_client_admitted db body.
Proof.
  intros H. unfold refresh_client_admitted, OAuthClient.find, OAuthClient.verifySecret.
  now rewrite H.
Qed.

(** The handler, split at the point where [oldToken] is bound. *)
Lemma handleRefreshToken_split (env : Env) (config : OAuth2Config) (body : Params) (db : Db) :
  match refresh_old_token env body db with
  | Some oldToken =>
      handleRefreshToken env config body db = refresh_tail env config body db oldToken
  | None =>
      exists e,
        handleRefreshToken env config body db = (Respond (errorResponse e), db)
        /\ (statusCode e = 400 \/ statusCode e = 401)
        /\ (refresh_client_admitted db body = true -> e = InvalidGrantError grant_invalid)
  end.
Proof.
  unfold refresh_old_token, refresh_client_admitted, handleRefreshToken, refresh_tail.
  destruct (truthy (body !! "refresh_token")); simpl;
    [| eexists; split; [reflexivity | split; [left; reflexivity | discriminate]]].
  destruct (truthy (body !! "client_id")); simpl;
    [| eexists; split; [reflexivity | split; [left; reflexivity | discriminate]]].
  destruct (OAuthClient.find db (str (body !! "client_id"))) as [client|]; simpl;
    [| eexists; split; [reflexivity | split; [right; reflexivity | discriminate]]].
  destruct (OAuthClientData.revoked client); simpl;
    [eexists; split; [reflexivity | split; [right; reflexivity | discriminate]] |].
  destruct (OAuthClientData.confidential client); simpl.
  - destruct (truthy (body !! "client_secret")); simpl;
      [| eexists; split; [reflexivity | split; [right; reflexivity | discriminate]]].
    destruct (OAuthClient.verifySecret db client (str (body !! "client_secret"))); simpl;
      [| eexists; split; [reflexivity | split; [right; reflexivity | discriminate]]].
    destruct (OAuthToken.validateRefreshToken (now env) (str (body !! "refresh_token")) db)
      as [old|]; [| eexists; split; [reflexivity | split; [left; reflexivity | reflexivity]]].
    destruct (String.eqb (OAuthTokenData.clientId old) (str (body !! "client_id"))); simpl;
      [reflexivity | eexists; split; [reflexivity | split; [left; reflexivity | reflexivity]]].
  - destruct (OAuthToken.validateRefreshToken (now env) (str (body !! "refresh_token")) db)
      as [old|]; [| eexists; split; [reflexivity | split; [left; reflexivity | reflexivity]]].
    destruct (String.eqb (OAuthTokenData.clientId old) (str (body !! "client_id"))); simpl;
      [reflexivity | eexists; split; [reflexivity | split; [left; reflexivity | reflexivity]]].
Qed.

Lemma validateRefreshToken_row (now_ : Z) (plain : string) (db : Db) (old : OAuthTokenData.t) :
  OAuthToken.validateRefreshToken now_ plain db = Some old ->
  exists row,
    refresh_row db plain = Some row
    /\ old = OAuthToken.hydrate row
    /\ In row (tokens db).
Proof.
  rewrite validateRefreshToken_unfold.
  destruct (refresh_row db plain) as [row|] eqn:Hrow; [| discriminate].
  destruct (is_set (TokenRow.revoked_at row)); [discriminate |].
  destruct (match TokenRow.refresh_expires_at row with
            | Some r => r <? now_
            | None => false
            end); [discriminate |].
  intros [= <-]. exists row. repeat split.
  unfold refresh_row in Hrow. now apply List.find_some in Hrow as [Hin _].
Qed.

Lemma refresh_old_token_inv (env : Env) (body : Params) (db : Db) (old : OAuthTokenData.t) :
  refresh_old_token env body db = Some old ->
  refresh_client_admitted db body = true
  /\ OAuthToken.validateRefreshToken (now env) (str (body !! "refresh_token")) db = Some old
  /\ OAuthTokenData.clientId old = str (body !! "client_id").
Proof.
  unfold refresh_old_token.
  destruct (refresh_client_admitted db body); [| discriminate].
  destruct (OAuthToken.validateRefreshToken (now env) (str (body !! "refresh_token")) db)
    as [o|]; [| discriminate].
  destruct (String.eqb (OAuthTokenData.clientId o) (str (body !! "client_id"))) eqn:E;
    [| discriminate].
  apply String.eqb_eq in E. intros [= <-]. auto.
Qed.

(** A request whose client is admitted but whose refresh token selects a
    revoked row is answered invalid_grant, and nothing changes. *)
Lemma handleRefreshToken_revoked (env : Env) (config : OAuth2Config) (body : Params)
    (db : Db) (row : TokenRow.t) :
  refresh_client_admitted db body = true ->
  refresh_row db (str (body !! "refresh_token")) = Some row ->
  TokenRow.revoked_at row <> None ->
  handleRefreshToken env config body db
  = (Respond (errorResponse (InvalidGrantError grant_invalid)), db).
Proof.
  intros Hadm Hrow Hrev.
  pose proof (handleRefreshToken_split env config body db) as Hsplit.
  assert (Hnone : refresh_old_token env body db = None).
  { unfold refresh_old_token. rewrite Hadm, validateRefreshToken_unfold, Hrow.
    apply is_set_true in Hrev. now rewrite Hrev. }
  rewrite Hnone in Hsplit. destruct Hsplit as (e & -> & _ & He). now rewrite (He Hadm).
Qed.

Lemma widened_nil (oldScopes requested : list string) :
  widened_scopes oldScopes requested = [] ->
  forall name, In name requested -> In name oldScopes.
Proof.
  unfold widened_scopes. intros Hnil name Hname.
  destruct (includes oldScopes name) eqn:E; [now apply includes_In |].
  assert (In name (List.filter (fun s => negb (includes oldScopes s)) requested))
    by (apply filter_In; split; [exact Hname | now rewrite E]).
  rewrite Hnil in H. destruct H.
Qed.

(** The scope step of [handleRefreshToken], for a request that reaches it
    with old token [old]: which names widen, the refusal when one does, and
    what a 200 answer implies about the row it appended. *)
Lemma refresh_scope_step
    (env : Env) (config : OAuth2Config) (body : Params) (db : Db) :
  let requested := split_scopes (str (body !! "scope")) in
  let result := handleRefreshToken env config body db in
  (forall old,
      refresh_old_token env body db = Some old ->
      let widened := widened_scopes (OAuthTokenData.scopes old) requested in
      (forall name,
          In name widened <-> In name requested /\ ~ In name (OAuthTokenData.scopes old))
      /\ (truthy (body !! "scope") = true -> widened <> [] ->
          result
          = (Respond (RJson (toJSON (InvalidRequestError
                                       ("Cannot widen scopes on refresh. Unknown scopes: "
                                        +:+ join ", " widened))) 400), db)))
  /\ (forall payload,
         fst result = Respond (RJson payload 200) ->
         exists old oldrow row,
           refresh_old_token env body db = Some old
           /\ refresh_row db (str (body !! "refresh_token")) = Some oldrow
           /\ old = OAuthToken.hydrate oldrow
           /\ tokens (snd result)
              = tokens (OAuthToken.revoke (now env) (TokenRow.id oldrow) db) ++ [row]
           /\ TokenRow.scopes row
              = (if truthy (body !! "scope") then requested else TokenRow.scopes oldrow)
           /\ (truthy (body !! "scope") = true ->
               forall name, In name requested -> In name (TokenRow.scopes oldrow))
           /\ (forall name, In name (TokenRow.scopes row) -> In name (TokenRow.scopes oldrow))
           /\ payload_scope payload = Some (join " " (TokenRow.scopes row))).
Proof.
  intros requested result.
  pose proof (handleRefreshToken_split env config body db) as Hsplit.
  destruct (refresh_old_token env body db) as [old|] eqn:Hold.
  2:{ destruct Hsplit as (e & He & Hstatus & _). subst result. rewrite He. simpl.
      split; [discriminate |].
      intros payload [= _ H200]. destruct Hstatus; lia. }
  subst result. rewrite Hsplit. clear Hsplit.
  unfold refresh_tail. fold requested.
  set (widened := widened_scopes (OAuthTokenData.scopes old) requested).
  split.
  - intros old' [= <-]. simpl. fold widened. split.
    + intros name. unfold widened, widened_scopes.
      rewrite filter_In, negb_true_iff, includes_false. reflexivity.
    + intros Hscope Hw. rewrite Hscope.
      destruct widened as [|w ws]; [congruence | reflexivity].
  - intros payload.
    destruct (truthy (body !! "scope") && (0 <? length widened)%nat) eqn:Hcond;
      [discriminate |].
    assert (Hnarrow : truthy (body !! "scope") = true ->
                      forall name, In name requested -> In name (OAuthTokenData.scopes old)).
    { intros Hscope. rewrite Hscope in Hcond. simpl in Hcond.
      apply widened_nil. fold widened. destruct widened; [reflexivity | discriminate]. }
    destruct (OAuthToken.create env config _
                (OAuthToken.revoke (now env) (OAuthTokenData.id old) db))
      as [[created db2]|] eqn:Hcreate; [| discriminate].
    apply token_create_inv in Hcreate as (row & Hdata & Hscopes & _ & _ & ->).
    simpl in Hscopes. simpl. intros [= <-].
    destruct (refresh_old_token_inv env body db old Hold) as (_ & Hval & _).
    apply validateRefreshToken_row in Hval as (oldrow & Hrow & -> & _).
    exists (OAuthToken.hydrate oldrow), oldrow, row.
    split; [reflexivity |]. split; [exact Hrow |]. split; [reflexivity |].
    split; [reflexivity |]. split; [exact Hscopes |]. split; [exact Hnarrow |]. split.
    + intros name. rewrite Hscopes.
      destruct (truthy (body !! "scope")); [now apply Hnarrow | trivial].
    + rewrite Hdata. reflexivity.
Qed.

Lemma old_row_revoked (env : Env) (body : Params) (db : Db) (old : OAuthTokenData.t) :
  refresh_old_token env body db = Some old ->
  let db1 := OAuthToken.revoke (now env) (OAuthTokenData.id old) db in
  refresh_client_admitted db body = true
  /\ exists oldrow,
       refresh_row db1 (str (body !! "refresh_token")) = Some oldrow
       /\ In oldrow (tokens db1)
       /\ TokenRow.id oldrow = OAuthTokenData.id old
       /\ TokenRow.revoked_at oldrow = Some (now env).
Proof.
  intros Hold db1. apply refresh_old_token_inv in Hold as (Hadm & Hval & _).
  split; [exact Hadm |].
  apply validateRefreshToken_row in Hval as (row & Hrow & -> & Hin).
  exists (OAuthToken.set_revoked_at (now env) row).
  assert (Hrow1 : refresh_row db1 (str (body !! "refresh_token"))
                  = Some (OAuthToken.set_revoked_at (now env) row)).
  { subst db1. rewrite refresh_row_revoke, Hrow. simpl. now rewrite String.eqb_refl. }
  split; [exact Hrow1 |]. split; [| split; reflexivity].
  unfold refresh_row in Hrow1. now apply List.find_some in Hrow1 as [H _].
Qed.

(** C5. In every successful refresh the new pair is created by an INSERT
    into a table in which every row carrying the old token's id, the row of
    the presented refresh token among them, already has [revoked_at] set to
    the current time, and the new row is not yet in that table; the response
    is built from the created pair. After the success, presenting the same
    refresh token again is answered invalid_grant at any later time.  When
    instead the issuance fails, the exception escapes, the old token is
    revoked all the same and nothing was inserted; the consumed refresh
    token is then rejected with invalid_grant as well. *)
Theorem refresh_rotation (env : Env) (config : OAuth2Config) (body : Params) (db : Db) :
  let result := handleRefreshToken env config body db in
  let plainRefresh := str (body !! "refresh_token") in
  (forall payload,
      fst result = Respond (RJson payload 200) ->
      exists old params created,
        refresh_old_token env body db = Some old
        /\ (exists oldrow,
               refresh_row (OAuthToken.revoke (now env) (OAuthTokenData.id old) db) plainRefresh
               = Some oldrow
               /\ TokenRow.id oldrow = OAuthTokenData.id old
               /\ TokenRow.revoked_at oldrow = Some (now env))
        /\ (forall r, In r (tokens (OAuthToken.revoke (now env) (OAuthTokenData.id old) db)) ->
                      TokenRow.id r = OAuthTokenData.id old ->
                      TokenRow.revoked_at r = Some (now env))
        /\ OAuthToken.create env config params
             (OAuthToken.revoke (now env) (OAuthTokenData.id old) db)
           = Some (created, snd result)
        /\ (forall r, In r (tokens (OAuthToken.revoke (now env) (OAuthTokenData.id old) db)) ->
                      TokenRow.id r <> OAuthTokenData.id (OAuthToken.tokenData created))
        /\ fst result
           = Respond (tokenResponse env (OAuthToken.accessToken created)
                        (OAuthToken.refreshToken created)
                        (OAuthTokenData.scopes (OAuthToken.tokenData created))
                        (OAuthTokenData.expiresAt (OAuthToken.tokenData created)))
        /\ (forall now', OAuthToken.validateRefreshToken now' plainRefresh (snd result) = None)
        /\ forall env',
             handleRefreshToken env' config body (snd result)
             = (Respond (errorResponse (InvalidGrantError grant_invalid)), snd result))
  /\ (forall err,
         fst result = Raise err ->
         exists old,
           refresh_old_token env body db = Some old
           /\ snd result = OAuthToken.revoke (now env) (OAuthTokenData.id old) db
           /\ (forall r, In r (tokens (snd result)) ->
                         TokenRow.id r = OAuthTokenData.id old ->
                         TokenRow.revoked_at r = Some (now env))
           /\ (forall now', OAuthToken.validateRefreshToken now' plainRefresh (snd result) = None)
           /\ forall env',
                handleRefreshToken env' config body (snd result)
                = (Respond (errorResponse (InvalidGrantError grant_invalid)), snd result)).
Proof.
  intros result plainRefresh.
  pose proof (handleRefreshToken_split env config body db) as Hsplit.
  destruct (refresh_old_token env body db) as [old|] eqn:Hold.
  2:{ destruct Hsplit as (e & He & Hstatus & _). subst result. rewrite He. simpl.
      split; [| discriminate].
      intros payload [= _ H200]. destruct Hstatus; lia. }
  subst result. rewrite Hsplit. clear Hsplit.
  destruct (old_row_revoked env body db old Hold) as (Hadm & oldrow & Hrow1 & Hin1 & Hid1 & Hrev1).
  set (db1 := OAuthToken.revoke (now env) (OAuthTokenData.id old) db) in *.
  assert (Hmarks : forall r, In r (tokens db1) -> TokenRow.id r = OAuthTokenData.id old ->
                             TokenRow.revoked_at r = Some (now env))
    by (intros r; apply revoke_marks).
  assert (Hadm1 : refresh_client_admitted db1 body = true)
    by (rewrite (admitted_same_clients db db1 body); [exact Hadm | reflexivity]).
  unfold refresh_tail. fold db1.
  destruct (truthy (body !! "scope")
            && (0 <? length (widened_scopes (OAuthTokenData.scopes old)
                               (split_scopes (str (body !! "scope")))))%nat).
  { simpl. split; discriminate. }
  match goal with
  | |- context [OAuthToken.create env config ?p db1] =>
      set (params := p); destruct (OAuthToken.create env config params db1)
        as [[created db2]|] eqn:Hcreate
  end; simpl.
  - split; [| discriminate]. intros payload _.
    exists old, params, created.
    pose proof Hcreate as Hinv.
    apply token_create_inv in Hinv as (row & Hdata & _ & _ & Hfresh & Hdb2).
    split; [reflexivity |]. split; [eauto |]. split; [exact Hmarks |].
    assert (Hrow2 : refresh_row db2 plainRefresh = Some oldrow)
      by (subst db2; unfold refresh_row; simpl; now apply find_app_hit).
    split; [exact Hcreate |]. split; [| split; [reflexivity | split]].
    + intros r Hr Heq. rewrite Hdata in Heq. simpl in Heq.
      assert (existsb (fun t => String.eqb (TokenRow.id t) (TokenRow.id row)) (tokens db1) = true).
      { apply existsb_exists. exists r. split; [exact Hr | now apply String.eqb_eq]. }
      congruence.
    + intros now'. rewrite validateRefreshToken_unfold, Hrow2, Hrev1. reflexivity.
    + intros env'. apply handleRefreshToken_revoked with (row := oldrow).
      * rewrite (admitted_same_clients db1 db2 body); [exact Hadm1 | now subst db2].
      * exact Hrow2.
      * congruence.
  - split; [discriminate |]. intros err _. exists old.
    split; [reflexivity |]. split; [reflexivity |]. split; [exact Hmarks |].
    split; [intros now'; rewrite validateRefreshToken_unfold; fold plainRefresh;
            unfold plainRefresh; rewrite Hrow1, Hrev1; reflexivity |].
    intros env'. apply handleRefreshToken_revoked with (row := oldrow);
      [exact Hadm1 | exact Hrow1 | congruence].
Qed.

(** C5 on scenario 4 of the specification: a valid refresh token is
    exchanged for a new pair, and its reuse is refused. *)
Lemma refresh_rotation_witness :
  let body : Params :=
    <["grant_type" := "refresh_token"]>
      (<["refresh_token" := "rt-1"]>
         (<["client_id" := "app"]> (<["client_secret" := "s3cret"]> ∅))) in
  let result := handleRefreshToken sample_env sample_config body sample_db in
  (exists payload, fst result = Respond (RJson payload 200))
  /\ handleRefreshToken sample_env sample_config body (snd result)
     = (Respond (errorResponse (InvalidGrantError grant_invalid)), snd result).
Proof.
  intros body result.
  assert (Hok : fst result
                = Respond (RJson (JObj [("access_token", JStr "aa11");
                                        ("token_type", JStr "Bearer");
                                        ("expires_in", JNum 3600);
                                        ("scope", JStr "read");
                                        ("refresh_token", JStr "bb22")]) 200))
    by (vm_compute; reflexivity).
  split; [eexists; exact Hok |].
  destruct (refresh_rotation sample_env sample_config body sample_db) as (Hsucc & _).
  destruct (Hsucc _ Hok) as (old & params & created & _ & _ & _ & _ & _ & _ & _ & Hretry).
  apply Hretry.
Defined.

(** ** The end-to-end scenarios of the specification, run on the model *)

(** Scenario 1, PKCE happy path. GET /authorize for the public client
    stores the pending request and asks for consent. *)
Example scenario_authorize_asks_consent :
  scenario_after_authorize
  = (Respond (RJson (JObj [("authorization_required", JBool true);
                           ("client", JObj [("id", JStr "C"); ("name", JStr "Single-page app")]);
                           ("scopes", JArr [JObj [("name", JStr "read");
                                                  ("description", JStr "Read")]]);
                           ("state", JStr "xyz")]) 200),
     Some {| ar_clientId := "C";
             ar_redirectUri := "https://app/cb";
             ar_scopes := ["read"];
             ar_state := Some "xyz";
             ar_codeChallenge := Some "rxPiyZz8P240xCXTZCn7w9huUtn-Efu70HAeOJkMu_I";
             ar_codeChallengeMethod := Some "S256" |},
     scenario_db).
Proof. vm_compute. reflexivity. Qed.

(** The approval redirects to the registered URI with the code and the
    state, and clears the session. *)
Example scenario_approve_redirects :
  fst scenario_after_approve
  = (Respond (RRedirect "https://app/cb" [("code", "c0de"); ("state", "xyz")] 302), None).
Proof. vm_compute. reflexivity. Qed.

(** The exchange with the right verifier answers the token envelope. *)
Example scenario_exchange_succeeds :
  fst scenario_after_exchange
  = Respond (RJson (JObj [("access_token", JStr "acc-1");
                          ("token_type", JStr "Bearer");
                          ("expires_in", JNum 3600);
                          ("scope", JStr "read");
                          ("refresh_token", JStr "ref-1")]) 200).
Proof. vm_compute. reflexivity. Qed.

(** Scenario 2, code replay: the same exchange a second time is refused. *)
Example scenario_replay_refused :
  fst (tokenHandler (env_at 3500 "id-3" "acc-2" "ref-2") sample_config sample_registry
         (scenario_exchange "https://app/cb") (snd scenario_after_exchange))
  = Respond (RJson (toJSON (InvalidGrantError grant_invalid)) 400).
Proof. vm_compute. reflexivity. Qed.

(** Scenario 3, redirect URI tampering: the code is found, the URI differs. *)
Example scenario_tampered_redirect_refused :
  tokenHandler (env_at 3000 "id-2" "acc-1" "ref-1") sample_config sample_registry
    (scenario_exchange "https://evil/cb") (snd scenario_after_approve)
  = (Respond (RJson (toJSON (InvalidGrantError grant_invalid)) 400), snd scenario_after_approve).
Proof. vm_compute. reflexivity. Qed.

(** Scenario 4, refresh rotation: a new pair, then the old refresh token is
    refused. *)
Example scenario_refresh_rotates :
  let body : Params :=
    <["grant_type" := "refresh_token"]>
      (<["refresh_token" := "ref-1"]> (<["client_id" := "C"]> ∅)) in
  let first := tokenHandler (env_at 4000 "id-4" "acc-3" "ref-3") sample_config
                 sample_registry body (snd scenario_after_exchange) in
  fst first
  = Respond (RJson (JObj [("access_token", JStr "acc-3");
                          ("token_type", JStr "Bearer");
                          ("expires_in", JNum 3600);
                          ("scope", JStr "read");
                          ("refresh_token", JStr "ref-3")]) 200)
  /\ fst (tokenHandler (env_at 4500 "id-5" "acc-4" "ref-4") sample_config
            sample_registry body (snd first))
     = Respond (RJson (toJSON (InvalidGrantError grant_invalid)) 400).
Proof. split; vm_compute; reflexivity. Qed.

(** Scenario 6, client credentials on a public client. *)
Example scenario_public_client_credentials_refused :
  let body : Params :=
    <["grant_type" := "client_credentials"]>
      (<["client_id" := "C"]> (<["client_secret" := "anything"]> ∅)) in
  fst (tokenHandler (env_at 5000 "id-6" "acc-5" "ref-5") sample_config sample_registry
         body scenario_db)
  = Respond (RJson (toJSON (InvalidClientError
                              "Client credentials grant requires a confidential client.")) 401).
Proof. vm_compute. reflexivity. Qed.

(** * Further properties of the sources *)

(** ** Scope strings: [split(' ').filter(Boolean)] and [join(' ')] *)

Lemma split_not_nil (sep : ascii) (s : string) : split sep s <> [].
Proof.
  destruct s as [|c rest]; simpl; [discriminate |].
  destruct (Ascii.eqb c sep); [discriminate |].
  destruct (split sep rest); discriminate.
Qed.

Lemma split_pieces_free (sep : ascii) (s w : string) :
  In w (split sep s) -> ~ In sep (list_ascii_of_string w).
Proof.
  revert w. induction s as [|c rest IH]; simpl; intros w Hw.
  - destruct Hw as [<- | []]. simpl. tauto.
  - destruct (Ascii.eqb c sep) eqn:E.
    + destruct Hw as [<- | Hw]; [simpl; tauto | now apply IH].
    + apply Ascii.eqb_neq in E.
      destruct (split sep rest) as [|w0 ws] eqn:Hs; [now destruct (split_not_nil sep rest) |].
      destruct Hw as [<- | Hw].
      * simpl. intros [Hc | Hin]; [congruence |]. apply (IH w0); [now left | exact Hin].
      * apply IH. now right.
Qed.

Lemma split_free (sep : ascii) (w : string) :
  ~ In sep (list_ascii_of_string w) -> split sep w = [w].
Proof.
  induction w as [|c rest IH]; simpl; intros Hfree; [reflexivity |].
  destruct (Ascii.eqb c sep) eqn:E.
  - apply Ascii.eqb_eq in E. subst. tauto.
  - rewrite IH; [reflexivity | tauto].
Qed.

Lemma split_app_sep (sep : ascii) (w rest : string) :
  ~ In sep (list_ascii_of_string w) ->
  split sep (w +:+ String sep rest) = w :: split sep rest.
Proof.
  induction w as [|c w' IH]; simpl; intros Hfree.
  - now rewrite Ascii.eqb_refl.
  - destruct (Ascii.eqb c sep) eqn:E.
    + apply Ascii.eqb_eq in E. subst. tauto.
    + rewrite IH; [reflexivity | tauto].
Qed.

Lemma split_blank (s : string) :
  blank s -> forall w, In w (split " "%char s) -> w = EmptyString.
Proof.
  induction s as [|c rest IH]; simpl; intros Hb w Hw.
  - destruct Hw as [<- | []]. reflexivity.
  - assert (c = " "%char) as -> by (apply Hb; now left).
    rewrite Ascii.eqb_refl in Hw. destruct Hw as [<- | Hw]; [reflexivity |].
    apply IH; [| exact Hw]. intros c' Hc'. apply Hb. now right.
Qed.

Lemma filter_all_false {A} (P : A -> bool) (l : list A) :
  (forall x, In x l -> P x = false) -> List.filter P l = [].
Proof.
  induction l as [|a l IH]; simpl; intros H; [reflexivity |].
  rewrite (H a (or_introl eq_refl)). apply IH. intros x Hx. apply H. now right.
Qed.

Lemma filter_all_true {A} (P : A -> bool) (l : list A) :
  (forall x, In x l -> P x = true) -> List.filter P l = l.
Proof.
  induction l as [|a l IH]; simpl; intros H; [reflexivity |].
  rewrite (H a (or_introl eq_refl)). f_equal. apply IH. intros x Hx. apply H. now right.
Qed.

(** X1. The scope list parsed from a request parameter never contains an
    empty name or a name with a space, whatever the parameter is; and a
    parameter made only of spaces parses to the empty list, like the empty
    string. *)
Theorem split_scopes_well_formed (scope : string) :
  (forall name, In name (split_scopes scope) -> scope_token name)
  /\ (blank scope -> split_scopes scope = []).
Proof.
  unfold split_scopes. split.
  - intros name Hin. apply filter_In in Hin as [Hin Hne].
    apply negb_true_iff, String.eqb_neq in Hne.
    split; [exact Hne | now apply split_pieces_free with (s := scope)].
  - intros Hb. apply filter_all_false. intros w Hw.
    rewrite (split_blank scope Hb w Hw). reflexivity.
Qed.

Lemma split_scopes_well_formed_witness :
  split_scopes "   " = [] /\ scope_token "read".
Proof.
  destruct (split_scopes_well_formed "   ") as (_ & Hblank).
  destruct (split_scopes_well_formed " read  write ") as (Hwf & _).
  split.
  - apply Hblank. intros c Hc. simpl in Hc. intuition congruence.
  - apply Hwf. vm_compute. auto.
Defined.

Lemma split_join (names : list string) :
  names <> [] ->
  (forall name, In name names -> ~ In " "%char (list_ascii_of_string name)) ->
  split " "%char (join " " names) = names.
Proof.
  unfold join. induction names as [|a l IH]; intros Hne Hfree; [congruence |].
  destruct l as [|b l'].
  - simpl. apply split_free. apply Hfree. now left.
  - change (String.concat " " (a :: b :: l'))
      with (a +:+ String " "%char (String.concat " " (b :: l'))).
    rewrite split_app_sep by (apply Hfree; now left).
    f_equal. apply IH; [discriminate |]. intros name Hname. apply Hfree. now right.
Qed.

(** X2. The [scope] field of a token or introspection response parses back
    to the scopes it was built from: joining names that are non-empty and
    contain no space with single spaces and splitting the result again gives
    the same list, in the same order. *)
Theorem scope_field_round_trip (names : list string) :
  (forall name, In name names -> scope_token name) ->
  split_scopes (join " " names) = names.
Proof.
  intros Hok. destruct names as [|a l]; [reflexivity |].
  unfold split_scopes. rewrite split_join.
  - apply filter_all_true. intros w Hw. apply negb_true_iff, String.eqb_neq.
    exact (proj1 (Hok w Hw)).
  - discriminate.
  - intros name Hname. exact (proj2 (Hok name Hname)).
Qed.

Lemma scope_field_round_trip_witness :
  split_scopes (join " " ["repos:read"; "repos:write"]) = ["repos:read"; "repos:write"].
Proof.
  apply scope_field_round_trip. intros name [<- | [<- | []]];
    (split; [discriminate | vm_compute; intuition discriminate]).
Defined.

(** ** The scope registry: [define], [has], [describe] with [validate] *)

Lemma validate_accepts_iff (reg : ScopeRegistry.t) (requested : list string)
    (clientAllowed : option (list string)) (defaults accepted : list string) :
  ScopeRegistry.validate reg requested clientAllowed defaults = inr accepted
  <-> accepted = effective_scopes requested defaults
      /\ (forall name, In name accepted -> reg !! name <> None)
      /\ (forall allowed, clientAllowed = Some allowed ->
                          forall name, In name accepted -> In name allowed).
Proof.
  unfold ScopeRegistry.validate. rewrite validate_scopes_effective.
  set (eff := effective_scopes requested defaults).
  destruct eff as [|s0 rest] eqn:Heff.
  { simpl. split.
    - intros [= <-]. repeat split; intros; contradiction.
    - intros (-> & _). reflexivity. }
  change ((length (s0 :: rest) =? 0)%nat) with false. cbv iota.
  destruct (List.find (fun scope => negb (ScopeRegistry.has reg scope)) (s0 :: rest))
    as [bad|] eqn:Hreg.
  { apply List.find_some in Hreg as [Hin Hbad]. apply negb_true_iff, has_false in Hbad.
    split; [discriminate |]. intros (-> & Hknown & _). now destruct (Hknown bad Hin). }
  rewrite find_none_iff in Hreg.
  assert (Hknown : forall name, In name (s0 :: rest) -> reg !! name <> None).
  { intros name Hname Hn. apply has_false in Hn. specialize (Hreg name Hname).
    simpl in Hreg. rewrite Hn in Hreg. discriminate. }
  destruct clientAllowed as [allowed|].
  - destruct (List.find (fun scope => negb (includes allowed scope)) (s0 :: rest))
      as [bad|] eqn:Hall.
    + apply List.find_some in Hall as [Hin Hbad]. apply negb_true_iff, includes_false in Hbad.
      split; [discriminate |]. intros (-> & _ & Hal). now destruct (Hbad (Hal allowed eq_refl bad Hin)).
    + rewrite find_none_iff in Hall. split.
      * intros [= <-]. split; [reflexivity | split; [exact Hknown |]].
        intros a [= <-] name Hname. specialize (Hall name Hname).
        now apply negb_false_iff, includes_In in Hall.
      * intros (-> & _). reflexivity.
  - split.
    + intros [= <-]. split; [reflexivity | split; [exact Hknown | discriminate]].
    + intros (-> & _). reflexivity.
Qed.

Lemma define_lookup (batch : list (string * string)) (reg : ScopeRegistry.t) (name : string) :
  ScopeRegistry.define batch reg !! name <> None
  <-> reg !! name <> None \/ In name (map fst batch).
Proof.
  unfold ScopeRegistry.define. revert reg.
  induction batch as [|[k v] batch IH]; intros reg; simpl.
  - tauto.
  - rewrite IH. destruct (decide (k = name)) as [-> | Hne].
    + rewrite lookup_insert_eq. split; [auto | intros _; left; discriminate].
    + rewrite lookup_insert_ne by exact Hne. tauto.
Qed.

(** X3. [ScopeRegistry.define] only adds: after [define(batch)] the
    registered names are exactly the earlier ones and the names of the
    batch, and every request that [validate] accepted before is accepted
    afterwards with the same result. *)
Theorem define_only_adds (batch : list (string * string)) (reg : ScopeRegistry.t) :
  (forall name,
      ScopeRegistry.has (ScopeRegistry.define batch reg) name = true
      <-> ScopeRegistry.has reg name = true \/ In name (map fst batch))
  /\ (forall requested clientAllowed defaults accepted,
         ScopeRegistry.validate reg requested clientAllowed defaults = inr accepted ->
         ScopeRegistry.validate (ScopeRegistry.define batch reg) requested clientAllowed defaults
         = inr accepted).
Proof.
  assert (Hhas : forall (r : ScopeRegistry.t) name,
             ScopeRegistry.has r name = true <-> r !! name <> None).
  { intros r name. unfold ScopeRegistry.has. destruct (r !! name); split; congruence. }
  split.
  - intros name. rewrite !Hhas. apply define_lookup.
  - intros requested clientAllowed defaults accepted Hok.
    apply validate_accepts_iff in Hok as (Heff & Hknown & Hallowed).
    apply validate_accepts_iff. split; [exact Heff | split; [| exact Hallowed]].
    intros name Hname. apply define_lookup. left. now apply Hknown.
Qed.

Lemma define_only_adds_witness :
  ScopeRegistry.validate (ScopeRegistry.define [("admin", "Administer")] sample_registry)
    ["write"; "read"] None []
  = inr ["write"; "read"].
Proof.
  destruct (define_only_adds [("admin", "Administer")] sample_registry) as (_ & Hkeep).
  apply Hkeep. vm_compute. reflexivity.
Defined.

(** X4. [describe] never fails and keeps the names and their order; for
    the scopes [validate] returned, every description is the registered
    one, never the pass-through of the name. *)
Theorem describe_validated (reg : ScopeRegistry.t) (names : list string) :
  map sd_name (ScopeRegistry.describe reg names) = names
  /\ (forall d, In d (ScopeRegistry.describe reg names) ->
                reg !! sd_name d = Some (sd_description d)
                \/ (reg !! sd_name d = None /\ sd_description d = sd_name d))
  /\ (forall requested clientAllowed defaults,
         ScopeRegistry.validate reg requested clientAllowed defaults = inr names ->
         forall d, In d (ScopeRegistry.describe reg names) ->
                   reg !! sd_name d = Some (sd_description d)).
Proof.
  unfold ScopeRegistry.describe. split; [| split].
  - rewrite map_map. simpl. apply map_id.
  - intros d Hd. apply in_map_iff in Hd as (name & <- & _). simpl.
    destruct (reg !! name); auto.
  - intros requested clientAllowed defaults Hok d Hd.
    apply validate_accepts_iff in Hok as (_ & Hknown & _).
    apply in_map_iff in Hd as (name & <- & Hname). simpl.
    specialize (Hknown name Hname). destruct (reg !! name); congruence.
Qed.

Lemma describe_validated_witness :
  map sd_name (ScopeRegistry.describe sample_registry ["read"]) = ["read"]
  /\ Forall (fun d => sample_registry !! sd_name d = Some (sd_description d))
       (ScopeRegistry.describe sample_registry ["read"]).
Proof.
  destruct (describe_validated sample_registry ["read"]) as (Hnames & _ & Hreg).
  split; [exact Hnames |]. apply List.Forall_forall.
  apply (Hreg ["read"] None []). vm_compute. reflexivity.
Defined.

(** ** The schema constraints are an invariant of the sources *)

Lemma token_create_row env config params db created db' :
  OAuthToken.create env config params db = Some (created, db') ->
  let row := new_token_row env config params in
  db' = with_tokens db (tokens db ++ [row])
  /\ created = {| OAuthToken.accessToken := hex1 env;
                  OAuthToken.refreshToken :=
                    if wants_refresh params then Some (hex2 env) else None;
                  OAuthToken.tokenData := OAuthToken.hydrate row |}
  /\ existsb (fun t => String.eqb (TokenRow.id t) (TokenRow.id row)) (tokens db) = false
  /\ existsb (fun t => String.eqb (TokenRow.token t) (TokenRow.token row)) (tokens db) = false
  /\ (forall h, TokenRow.refresh_token row = Some h ->
                existsb (OAuthToken.refresh_is h) (tokens db) = false)
  /\ has_client db (TokenRow.client_id row) = true.
Proof.
  unfold OAuthToken.create. fold (wants_refresh params).
  change {| TokenRow.id := uuid env;
            TokenRow.user_id := OAuthToken.userId params;
            TokenRow.client_id := OAuthToken.clientId params;
            TokenRow.name := OAuthToken.name params;
            TokenRow.scopes := OAuthToken.scopes params;
            TokenRow.token := OAuthToken.hashToken (hex1 env);
            TokenRow.refresh_token :=
              if wants_refresh params then Some (OAuthToken.hashToken (hex2 env)) else None;
            TokenRow.expires_at :=
              now env + default (accessTokenLifetime config)
                          (OAuthToken.accessTokenLifetime_ params) * 60000;
            TokenRow.refresh_expires_at :=
              if wants_refresh params
              then Some (now env
                         + default (refreshTokenLifetime config)
                             (OAuthToken.refreshTokenLifetime_ params) * 60000)
              else None;
            TokenRow.last_used_at := None;
            TokenRow.revoked_at := None;
            TokenRow.created_at := now env |}
    with (new_token_row env config params).
  set (row := new_token_row env config params).
  unfold OAuthToken.insert.
  destruct (existsb (fun t => String.eqb (TokenRow.id t) (TokenRow.id row)) (tokens db));
    [discriminate |].
  destruct (existsb (fun t => String.eqb (TokenRow.token t) (TokenRow.token row)) (tokens db));
    [discriminate |].
  destruct (match TokenRow.refresh_token row with
            | Some h => existsb (OAuthToken.refresh_is h) (tokens db)
            | None => false
            end) eqn:Href; [discriminate |].
  destruct (has_client db (TokenRow.client_id row)) eqn:Hfk; [| discriminate].
  intros [= <- <-]. cbv zeta. repeat split.
  intros h Hh. rewrite Hh in Href. exact Href.
Qed.

Lemma code_create_row env config params db created db' :
  AuthCode.create env config params db = Some (created, db') ->
  let row := new_code_row env config params in
  db' = with_auth_codes db (auth_codes db ++ [row])
  /\ created = (hex1 env, AuthCode.hydrate row)
  /\ existsb (fun c => String.eqb (AuthCodeRow.id c) (AuthCodeRow.id row)) (auth_codes db) = false
  /\ existsb (fun c => String.eqb (AuthCodeRow.code c) (AuthCodeRow.code row)) (auth_codes db)
     = false
  /\ has_client db (AuthCodeRow.client_id row) = true.
Proof.
  unfold AuthCode.create.
  change {| AuthCodeRow.id := uuid env;
            AuthCodeRow.client_id := AuthCode.clientId params;
            AuthCodeRow.user_id := AuthCode.userId params;
            AuthCodeRow.code := AuthCode.hashCode (hex1 env);
            AuthCodeRow.redirect_uri := AuthCode.redirectUri params;
            AuthCodeRow.scopes := AuthCode.scopes params;
            AuthCodeRow.code_challenge := AuthCode.codeChallenge params;
            AuthCodeRow.code_challenge_method := AuthCode.codeChallengeMethod params;
            AuthCodeRow.expires_at := now env + authCodeLifetime config * 60000;
            AuthCodeRow.used_at := None;
            AuthCodeRow.created_at := now env |}
    with (new_code_row env config params).
  set (row := new_code_row env config params).
  unfold AuthCode.insert.
  destruct (existsb (fun c => String.eqb (AuthCodeRow.id c) (AuthCodeRow.id row)) (auth_codes db));
    [discriminate |].
  destruct (existsb (fun c => String.eqb (AuthCodeRow.code c) (AuthCodeRow.code row))
              (auth_codes db)); [discriminate |].
  destruct (has_client db (AuthCodeRow.client_id row)) eqn:Hfk; [| discriminate].
  intros [= <- <-]. cbv zeta. repeat split.
Qed.

Lemma existsb_eqb_false {A} (key : A -> string) (k : string) (l : list A) :
  existsb (fun x => String.eqb (key x) k) l = false <-> ~ In k (map key l).
Proof.
  rewrite <- not_true_iff_false, existsb_exists, in_map_iff. split.
  - intros H (x & Hk & Hx). apply H. exists x. split; [exact Hx | now apply String.eqb_eq].
  - intros H (x & Hx & Hk). apply H. exists x. apply String.eqb_eq in Hk. auto.
Qed.

Lemma NoDup_snoc {A} (l : list A) (x : A) :
  List.NoDup l -> ~ In x l -> List.NoDup (l ++ [x]).
Proof.
  intros Hnd Hx. apply List.NoDup_app; [exact Hnd | |].
  - constructor; [intros [] | constructor].
  - intros a Ha [<- | []]. contradiction.
Qed.

Lemma NoDup_app_disjoint {A} (l k : list A) (x : A) :
  List.NoDup (l ++ k) -> In x l -> ~ In x k.
Proof.
  induction l as [|a l IH]; simpl; intros Hnd Hx; [destruct Hx |].
  apply NoDup_cons_iff in Hnd as [Ha Hnd]. destruct Hx as [<- | Hx].
  - intros Hk. apply Ha. apply in_app_iff. now right.
  - now apply IH.
Qed.

Lemma NoDup_flat_map_filter {A B} (g : A -> list B) (P : A -> bool) (l : list A) :
  List.NoDup (flat_map g l) -> List.NoDup (flat_map g (List.filter P l)).
Proof.
  induction l as [|a l IH]; simpl; intros Hnd; [constructor |].
  pose proof (NoDup_app_remove_l _ _ Hnd) as Hl.
  destruct (P a); simpl; [| auto].
  apply List.NoDup_app; [exact (NoDup_app_remove_r _ _ Hnd) | auto |].
  intros b Hb Hin. apply (NoDup_app_disjoint _ _ b Hnd Hb).
  apply in_flat_map in Hin as (x & Hx & Hbx). apply filter_In in Hx as [Hx _].
  apply in_flat_map. eauto.
Qed.

Lemma refresh_hashes_mapped (f : TokenRow.t -> TokenRow.t) (l : list TokenRow.t) :
  (forall t, TokenRow.refresh_token (f t) = TokenRow.refresh_token t) ->
  refresh_hashes (map f l) = refresh_hashes l.
Proof.
  intros H. unfold refresh_hashes. induction l as [|a l IH]; simpl; [reflexivity |].
  now rewrite H, IH.
Qed.

Lemma refresh_hashes_In (l : list TokenRow.t) (h : string) :
  In h (refresh_hashes l) <-> exists t, In t l /\ TokenRow.refresh_token t = Some h.
Proof.
  unfold refresh_hashes. rewrite in_flat_map. split.
  - intros (t & Ht & Hh). exists t. split; [exact Ht |].
    destruct (TokenRow.refresh_token t); [destruct Hh as [<- | []]; reflexivity | destruct Hh].
  - intros (t & Ht & Hh). exists t. split; [exact Ht |]. rewrite Hh. now left.
Qed.

Lemma has_client_iff (db : Db) (id : string) :
  has_client db id = true <-> In id (map ClientRow.id (clients db)).
Proof.
  unfold has_client. rewrite existsb_exists, in_map_iff. split.
  - intros (c & Hc & Hid). apply String.eqb_eq in Hid. eauto.
  - intros (c & Hid & Hc). exists c. split; [exact Hc | now apply String.eqb_eq].
Qed.

Lemma consistent_tokens_mapped (f : TokenRow.t -> TokenRow.t) (db : Db) :
  token_keys_kept f -> db_consistent db ->
  db_consistent (with_tokens db (map f (tokens db))).
Proof.
  intros Hf [C1 C2 C3 C4 C5 C6 C7 C8 C9]. constructor; simpl; try assumption.
  - rewrite map_map. erewrite map_ext; [exact C2 | intros t; apply Hf].
  - rewrite map_map. erewrite map_ext; [exact C3 | intros t; apply Hf].
  - rewrite refresh_hashes_mapped; [exact C4 | intros t; apply Hf].
  - intros t' Ht'. apply in_map_iff in Ht' as (t & <- & Ht).
    destruct (Hf t) as (_ & _ & _ & -> & _). exact (C7 t Ht).
  - intros t' Ht'. apply in_map_iff in Ht' as (t & <- & Ht).
    destruct (Hf t) as (_ & _ & -> & _ & -> & ->). exact (C9 t Ht).
Qed.

Lemma consistent_tokens_filtered (P : TokenRow.t -> bool) (db : Db) :
  db_consistent db -> db_consistent (with_tokens db (List.filter P (tokens db))).
Proof.
  intros [C1 C2 C3 C4 C5 C6 C7 C8 C9]. constructor; simpl; try assumption.
  - now apply NoDup_map_filter.
  - now apply NoDup_map_filter.
  - now apply NoDup_flat_map_filter.
  - intros t Ht. apply filter_In in Ht as [Ht _]. exact (C7 t Ht).
  - intros t Ht. apply filter_In in Ht as [Ht _]. exact (C9 t Ht).
Qed.

Lemma consistent_codes_mapped (f : AuthCodeRow.t -> AuthCodeRow.t) (db : Db) :
  (forall c, AuthCodeRow.id (f c) = AuthCodeRow.id c
             /\ AuthCodeRow.code (f c) = AuthCodeRow.code c
             /\ AuthCodeRow.client_id (f c) = AuthCodeRow.client_id c) ->
  db_consistent db -> db_consistent (with_auth_codes db (map f (auth_codes db))).
Proof.
  intros Hf [C1 C2 C3 C4 C5 C6 C7 C8 C9]. constructor; simpl; try assumption.
  - rewrite map_map. erewrite map_ext; [exact C5 | intros c; apply Hf].
  - rewrite map_map. erewrite map_ext; [exact C6 | intros c; apply Hf].
  - intros c' Hc'. apply in_map_iff in Hc' as (c & <- & Hc).
    destruct (Hf c) as (_ & _ & ->). exact (C8 c Hc).
Qed.

Lemma consistent_codes_filtered (P : AuthCodeRow.t -> bool) (db : Db) :
  db_consistent db -> db_consistent (with_auth_codes db (List.filter P (auth_codes db))).
Proof.
  intros [C1 C2 C3 C4 C5 C6 C7 C8 C9]. constructor; simpl; try assumption.
  - now apply NoDup_map_filter.
  - now apply NoDup_map_filter.
  - intros c Hc. apply filter_In in Hc as [Hc _]. exact (C8 c Hc).
Qed.

Lemma consistent_clients_mapped (f : ClientRow.t -> ClientRow.t) (db : Db) :
  (forall c, ClientRow.id (f c) = ClientRow.id c) ->
  db_consistent db -> db_consistent (with_clients db (map f (clients db))).
Proof.
  intros Hf [C1 C2 C3 C4 C5 C6 C7 C8 C9].
  assert (Hids : map ClientRow.id (map f (clients db)) = map ClientRow.id (clients db))
    by (rewrite map_map; apply map_ext; exact Hf).
  assert (Hhas : forall id, has_client (with_clients db (map f (clients db))) id
                            = has_client db id).
  { intros id. apply eq_true_iff_eq. rewrite !has_client_iff. simpl. now rewrite Hids. }
  constructor; simpl; try assumption.
  - now rewrite Hids.
  - intros t Ht. rewrite Hhas. exact (C7 t Ht).
  - intros c Hc. rewrite Hhas. exact (C8 c Hc).
Qed.

Lemma consistent_destroy (id : string) (db : Db) :
  db_consistent db -> db_consistent (OAuthClient.destroy id db).
Proof.
  intros [C1 C2 C3 C4 C5 C6 C7 C8 C9].
  assert (Hkept : forall cid, cid <> id -> has_client db cid = true ->
                              has_client (OAuthClient.destroy id db) cid = true).
  { intros cid Hne Hc. apply has_client_iff in Hc. apply in_map_iff in Hc as (c & Hcid & Hc).
    apply has_client_iff. simpl. apply in_map_iff. exists c. split; [exact Hcid |].
    apply filter_In. split; [exact Hc |]. apply negb_true_iff, String.eqb_neq. congruence. }
  constructor; simpl; try (now apply NoDup_map_filter).
  - now apply NoDup_flat_map_filter.
  - intros t Ht. apply filter_In in Ht as [Ht Hne].
    apply negb_true_iff, String.eqb_neq in Hne. apply Hkept; [exact Hne | exact (C7 t Ht)].
  - intros c Hc. apply filter_In in Hc as [Hc Hne].
    apply negb_true_iff, String.eqb_neq in Hne. apply Hkept; [exact Hne | exact (C8 c Hc)].
  - intros t Ht. apply filter_In in Ht as [Ht _]. exact (C9 t Ht).
Qed.

Lemma client_create_row env input db created db' :
  OAuthClient.create env input db = Some (created, db') ->
  let row := new_client_row env input in
  db' = with_clients db (clients db ++ [row])
  /\ created = (OAuthClient.hydrate row,
                if default true (OAuthClient.confidential input) then Some (hex1 env) else None)
  /\ ~ In (ClientRow.id row) (map ClientRow.id (clients db)).
Proof.
  unfold OAuthClient.create.
  change {| ClientRow.id := uuid env;
            ClientRow.name := OAuthClient.name input;
            ClientRow.secret :=
              if default true (OAuthClient.confidential input)
              then Some (OAuthClient.hashSecret (hex1 env)) else None;
            ClientRow.redirect_uris := OAuthClient.redirectUris input;
            ClientRow.scopes := OAuthClient.scopes input;
            ClientRow.grant_types :=
              default [authorization_code; refresh_token] (OAuthClient.grantTypes input);
            ClientRow.confidential := default true (OAuthClient.confidential input);
            ClientRow.first_party := default false (OAuthClient.firstParty input);
            ClientRow.revoked := false;
            ClientRow.created_at := now env;
            ClientRow.updated_at := now env |}
    with (new_client_row env input).
  set (row := new_client_row env input).
  unfold OAuthClient.insert.
  destruct (existsb (fun c => String.eqb (ClientRow.id c) (ClientRow.id row)) (clients db))
    eqn:Hid; [discriminate |].
  intros [= <- <-]. cbv zeta. repeat split.
  now apply existsb_eqb_false.
Qed.

Lemma consistent_token_inserted env config params db created db' :
  OAuthToken.create env config params db = Some (created, db') ->
  db_consistent db -> db_consistent db'.
Proof.
  intros Hc [C1 C2 C3 C4 C5 C6 C7 C8 C9].
  apply token_create_row in Hc as (-> & _ & Hid & Htok & Href & Hfk).
  set (row := new_token_row env config params) in *.
  constructor; simpl; try assumption.
  - rewrite map_app. apply NoDup_snoc; [exact C2 | now apply existsb_eqb_false].
  - rewrite map_app. apply NoDup_snoc; [exact C3 | now apply existsb_eqb_false].
  - unfold refresh_hashes. rewrite flat_map_app. fold (refresh_hashes (tokens db)). simpl.
    rewrite app_nil_r.
    destruct (if wants_refresh params then Some (OAuthToken.hashToken (hex2 env)) else None)
      as [h|] eqn:Hh; [| now rewrite app_nil_r].
    apply NoDup_snoc; [exact C4 |].
    intros Hin. apply refresh_hashes_In in Hin as (t & Ht & Hth).
    assert (existsb (OAuthToken.refresh_is h) (tokens db) = true).
    { apply existsb_exists. exists t. split; [exact Ht |].
      unfold OAuthToken.refresh_is. rewrite Hth. apply String.eqb_refl. }
    rewrite (Href h) in H; [discriminate | exact Hh].
  - intros t Ht. apply in_app_iff in Ht as [Ht | [<- | []]]; [exact (C7 t Ht) | exact Hfk].
  - intros t Ht. apply in_app_iff in Ht as [Ht | [<- | []]]; [exact (C9 t Ht) |].
    simpl. unfold wants_refresh.
    destruct (negb (bool_decide (OAuthToken.includeRefreshToken params = Some false)));
      simpl; [| congruence].
    destruct (bool_decide (is_Some (OAuthToken.userId params))) eqn:Hu; [| congruence].
    apply bool_decide_eq_true in Hu. destruct Hu as [u Hu]. rewrite Hu.
    intros _. split; discriminate.
Qed.

Lemma consistent_code_inserted env config params db created db' :
  AuthCode.create env config params db = Some (created, db') ->
  db_consistent db -> db_consistent db'.
Proof.
  intros Hc [C1 C2 C3 C4 C5 C6 C7 C8 C9].
  apply code_create_row in Hc as (-> & _ & Hid & Hcode & Hfk).
  constructor; simpl; try assumption.
  - rewrite map_app. apply NoDup_snoc; [exact C5 | now apply existsb_eqb_false].
  - rewrite map_app. apply NoDup_snoc; [exact C6 | now apply existsb_eqb_false].
  - intros c Hc. apply in_app_iff in Hc as [Hc | [<- | []]]; [exact (C8 c Hc) | exact Hfk].
Qed.

Lemma consistent_client_inserted env input db created db' :
  OAuthClient.create env input db = Some (created, db') ->
  db_consistent db -> db_consistent db'.
Proof.
  intros Hc [C1 C2 C3 C4 C5 C6 C7 C8 C9].
  apply client_create_row in Hc as (-> & _ & Hid).
  assert (Hmono : forall id, has_client db id = true ->
                             has_client (with_clients db (clients db ++ [new_client_row env input])) id
                             = true).
  { intros id. rewrite !has_client_iff. simpl. rewrite map_app, in_app_iff. auto. }
  constructor; simpl; try assumption.
  - rewrite map_app. now apply NoDup_snoc.
  - intros t Ht. apply Hmono. exact (C7 t Ht).
  - intros c Hc. apply Hmono. exact (C8 c Hc).
Qed.

Lemma set_flags_keep_keys (f : TokenRow.t -> TokenRow.t) :
  (forall t, f t = t \/ (exists at_, f t = OAuthToken.set_revoked_at at_ t)
             \/ exists at_, f t = OAuthToken.set_last_used_at at_ t) ->
  token_keys_kept f.
Proof.
  intros H t. destruct (H t) as [-> | [[at_ ->] | [at_ ->]]]; repeat split.
Qed.

Lemma step_keeps_consistency (db db' : Db) :
  db_step db db' -> db_consistent db -> db_consistent db'.
Proof.
  intros Hstep Hc. destruct Hstep as [db db' Hw | env input db created db' Hcreate].
  2:{ exact (consistent_client_inserted _ _ _ _ _ Hcreate Hc). }
  destruct Hw.
  - exact (consistent_token_inserted _ _ _ _ _ _ H Hc).
  - apply consistent_tokens_mapped; [| exact Hc]. apply set_flags_keep_keys. intros t.
    destruct (String.eqb (TokenRow.id t) id); eauto.
  - apply consistent_tokens_mapped; [| exact Hc]. apply set_flags_keep_keys. intros t.
    destruct (String.eqb (TokenRow.id t) id); eauto.
  - apply consistent_tokens_mapped; [| exact Hc]. apply set_flags_keep_keys. intros t.
    destruct (strict_eq (TokenRow.user_id t) userId && negb (is_set (TokenRow.revoked_at t)));
      eauto.
  - apply consistent_tokens_mapped; [| exact Hc]. apply set_flags_keep_keys. intros t.
    destruct (strict_eq (TokenRow.user_id t) userId
              && String.eqb (TokenRow.client_id t) clientId
              && negb (is_set (TokenRow.revoked_at t))); eauto.
  - simpl. now apply consistent_tokens_filtered.
  - apply consistent_clients_mapped; [| exact Hc]. intros c.
    destruct (String.eqb (ClientRow.id c) id); reflexivity.
  - now apply consistent_destroy.
  - exact (consistent_code_inserted _ _ _ _ _ _ H Hc).
  - apply consistent_codes_mapped; [| exact Hc]. intros c.
    destruct (String.eqb (AuthCodeRow.id c) id); repeat split.
  - simpl. now apply consistent_codes_filtered.
  - exact (consistent_client_inserted _ _ _ _ _ H Hc).
Qed.

(** X5. Every database the sources can reach from the empty one, by any
    sequence of their INSERT, UPDATE and DELETE statements, satisfies the
    schema: primary keys, token hashes, non-null refresh hashes and code
    hashes are unique, every token and code references an existing client
    (hard deletion cascades), and a token row carries a refresh hash only
    together with a user id and a refresh expiry. *)
Theorem reachable_consistent (db : Db) : reachable db -> db_consistent db.
Proof.
  induction 1 as [| db db' _ IH Hstep].
  - constructor; simpl; try apply List.NoDup_nil; intros x [].
  - exact (step_keeps_consistency db db' Hstep IH).
Qed.

Lemma first_client_db_reachable : reachable first_client_db.
Proof.
  apply (reachable_step empty_db); [constructor |].
  apply (step_client_create (env_at 100 "uuid-1" "5ec7e7" "unused") first_client_input empty_db
           (OAuthClient.hydrate
              (new_client_row (env_at 100 "uuid-1" "5ec7e7" "unused") first_client_input),
            Some "5ec7e7")).
  reflexivity.
Qed.

Lemma reachable_consistent_witness : db_consistent first_client_db.
Proof. apply reachable_consistent. exact first_client_db_reachable. Defined.

(** ** The digest is 64 hexadecimal characters *)

Lemma round_length (st : list Z) (kw : Z * Z) : length (Sha256.round st kw) = length st.
Proof.
  unfold Sha256.round.
  destruct st as [|a [|b [|c [|d [|e [|f [|g [|h [|i rest]]]]]]]]]; reflexivity.
Qed.

Lemma fold_round_length (l : list (Z * Z)) (st : list Z) :
  length (fold_left Sha256.round l st) = length st.
Proof.
  revert st. induction l as [|kw l IH]; intros st; simpl; [reflexivity |].
  now rewrite IH, round_length.
Qed.

Lemma zip_with_length {A B C} (f : A -> B -> C) (l : list A) (k : list B) :
  length l = length k -> length (Sha256.zip_with f l k) = length l.
Proof.
  revert k. induction l as [|x l IH]; intros [|y k]; simpl; intros H; try congruence.
  f_equal. apply IH. congruence.
Qed.

Lemma compress_length (st block : list Z) : length (Sha256.compress st block) = length st.
Proof.
  unfold Sha256.compress. apply zip_with_length. now rewrite fold_round_length.
Qed.

Lemma fold_compress_length (blocks : list (list Z)) (st : list Z) :
  length (fold_left Sha256.compress blocks st) = length st.
Proof.
  revert st. induction blocks as [|b l IH]; intros st; simpl; [reflexivity |].
  now rewrite IH, compress_length.
Qed.

Lemma be_bytes_bounds (count : nat) (x b : Z) :
  In b (Sha256.be_bytes count x) -> 0 <= b < 256.
Proof.
  unfold Sha256.be_bytes. rewrite in_map_iff. intros (i & <- & _).
  change 255 with (Z.ones 8). rewrite Z.land_ones by lia.
  apply Z.mod_pos_bound. lia.
Qed.

Lemma digest_shape (msg : list Z) :
  length (Sha256.digest msg) = 32%nat /\ forall b, In b (Sha256.digest msg) -> 0 <= b < 256.
Proof.
  unfold Sha256.digest.
  set (final := fold_left Sha256.compress _ Sha256.initial_state).
  assert (Hlen : length final = 8%nat) by (subst final; now rewrite fold_compress_length).
  split.
  - destruct final as [|a [|b [|c [|d [|e [|f [|g [|h [|i rest]]]]]]]]]; try discriminate.
    reflexivity.
  - intros b Hb. apply in_concat in Hb as (l & Hl & Hb).
    apply in_map_iff in Hl as (w & <- & _). exact (be_bytes_bounds 4 w b Hb).
Qed.

Lemma string_length_append (a b : string) :
  String.length (a +:+ b) = (String.length a + String.length b)%nat.
Proof.
  induction a as [|c a IH]; [reflexivity |].
  change (S (String.length (a +:+ b)) = S (String.length a + String.length b)).
  now rewrite IH.
Qed.

Lemma hex_digit_length (i : Z) :
  0 <= i < 16 -> String.length (Sha256.nth_char Sha256.hex_alphabet i) = 1%nat.
Proof.
  intros Hi.
  assert (H : i = 0 \/ i = 1 \/ i = 2 \/ i = 3 \/ i = 4 \/ i = 5 \/ i = 6 \/ i = 7 \/ i = 8
              \/ i = 9 \/ i = 10 \/ i = 11 \/ i = 12 \/ i = 13 \/ i = 14 \/ i = 15) by lia.
  repeat (destruct H as [-> | H]; [reflexivity |]). subst. reflexivity.
Qed.

Lemma append_empty_r (x : string) : x +:+ EmptyString = x.
Proof.
  induction x as [|c x IH]; [reflexivity |].
  change (String c (x +:+ EmptyString) = String c x). now rewrite IH.
Qed.

Lemma concat_empty_cons (x : string) (l : list string) :
  String.concat EmptyString (x :: l) = x +:+ String.concat EmptyString l.
Proof.
  destruct l as [|y l']; simpl; [| reflexivity].
  symmetry. apply append_empty_r.
Qed.

Lemma hex_of_bytes_length (bytes : list Z) :
  (forall b, In b bytes -> 0 <= b < 256) ->
  String.length (Sha256.hex_of_bytes bytes) = (2 * length bytes)%nat.
Proof.
  unfold Sha256.hex_of_bytes. induction bytes as [|b l IH]; intros Hb; [reflexivity |].
  assert (Hl : forall x, In x l -> 0 <= x < 256) by (intros x Hx; apply Hb; now right).
  assert (H2 : String.length (Sha256.nth_char Sha256.hex_alphabet (b / 16)
                              +:+ Sha256.nth_char Sha256.hex_alphabet (b mod 16)) = 2%nat).
  { pose proof (Hb b (or_introl eq_refl)).
    rewrite string_length_append, !hex_digit_length; [reflexivity | |].
    - apply Z.mod_pos_bound. lia.
    - split; [apply Z.div_pos; lia | apply Z.div_lt_upper_bound; lia]. }
  specialize (IH Hl). rewrite map_cons, concat_empty_cons, string_length_append, H2, IH.
  simpl. lia.
Qed.

Lemma sha256_hex_length (s : string) : String.length (Sha256.sha256_hex s) = 64%nat.
Proof.
  unfold Sha256.sha256_hex. destruct (digest_shape (Sha256.bytes_of_string s)) as [Hlen Hb].
  rewrite hex_of_bytes_length by exact Hb. now rewrite Hlen.
Qed.

Lemma sha256_hex_truthy (s : string) : truthy (Some (Sha256.sha256_hex s)) = true.
Proof.
  simpl. apply negb_true_iff, String.eqb_neq. intros H.
  pose proof (sha256_hex_length s) as Hl. rewrite H in Hl. discriminate.
Qed.
(** ** Clients: creation, lookup, secrets, revocation and deletion *)

Lemma find_app_miss {A} (P : A -> bool) (l k : list A) :
  List.find P l = None -> List.find P (l ++ k) = List.find P k.
Proof.
  induction l as [|a l IH]; simpl; [reflexivity |].
  destruct (P a); [discriminate | exact IH].
Qed.

Lemma find_filter_hit {A} (P Q : A -> bool) (l : list A) (x : A) :
  List.find P l = Some x -> Q x = true -> List.find P (List.filter Q l) = Some x.
Proof.
  induction l as [|a l IH]; simpl; [discriminate |].
  destruct (P a) eqn:HP.
  - intros [= ->] HQ. rewrite HQ. simpl. now rewrite HP.
  - intros Hf HQ. destruct (Q a); simpl; [rewrite HP |]; now apply IH.
Qed.

Lemma find_filter_some {A} (P Q : A -> bool) (l : list A) (y : A) :
  List.find P (List.filter Q l) = Some y -> In y l /\ P y = true /\ Q y = true.
Proof.
  intros H. apply List.find_some in H as [Hin HP]. apply filter_In in Hin as [Hin HQ]. auto.
Qed.

Lemma unique_key_row {A} (key : A -> string) (l : list A) (a b : A) :
  List.NoDup (map key l) -> In a l -> In b l -> key a = key b -> a = b.
Proof.
  induction l as [|x l IH]; simpl; [contradiction |].
  intros Hnd Ha Hb Hk. apply List.NoDup_cons_iff in Hnd as [Hx Hnd].
  destruct Ha as [-> | Ha], Hb as [-> | Hb]; [reflexivity | | | now apply IH].
  - exfalso. apply Hx. rewrite Hk. now apply in_map.
  - exfalso. apply Hx. rewrite <- Hk. now apply in_map.
Qed.

Lemma timingSafeEqual_eq (a b : string) : OAuthClient.timingSafeEqual a b = true <-> a = b.
Proof.
  unfold OAuthClient.timingSafeEqual. split.
  - destruct (Nat.eqb (String.length a) (String.length b)); simpl; [| discriminate].
    apply String.eqb_eq.
  - intros ->. rewrite Nat.eqb_refl. simpl. apply String.eqb_refl.
Qed.

Lemma client_row_absent (db : Db) (id : string) :
  ~ In id (map ClientRow.id (clients db)) ->
  List.find (fun c => String.eqb (ClientRow.id c) id) (clients db) = None.
Proof.
  intros Hn. apply find_none_iff. intros c Hc. apply String.eqb_neq. intros <-.
  apply Hn. now apply in_map.
Qed.

Lemma client_row_created env input db created db' :
  OAuthClient.create env input db = Some (created, db') ->
  List.find (fun c => String.eqb (ClientRow.id c) (uuid env)) (clients db')
  = Some (new_client_row env input).
Proof.
  intros Hc. apply client_create_row in Hc as (-> & _ & Hfresh). simpl.
  rewrite find_app_miss by (now apply client_row_absent). simpl.
  now rewrite String.eqb_refl.
Qed.

(** X6. The secret returned once by [OAuthClient.create] is the only kind
    of secret [verifySecret] accepts for the new client: the returned
    plaintext verifies, any other string verifies exactly when it has the
    same SHA-256 digest, and nothing verifies for a public client, which
    gets no secret. The new client is found by its id, not revoked, and
    the clients that existed before are found as before. *)
Theorem client_secret_round_trip env input db client plainSecret db' :
  OAuthClient.create env input db = Some ((client, plainSecret), db') ->
  OAuthClient.find db' (OAuthClientData.id client) = Some client
  /\ OAuthClientData.revoked client = false
  /\ (forall id c, OAuthClient.find db id = Some c -> OAuthClient.find db' id = Some c)
  /\ (forall secret,
         plainSecret = Some secret ->
         OAuthClientData.confidential client = true
         /\ OAuthClient.verifySecret db' client secret = true
         /\ forall guess,
              OAuthClient.verifySecret db' client guess = true
              <-> OAuthClient.hashSecret guess = OAuthClient.hashSecret secret)
  /\ (plainSecret = None ->
      OAuthClientData.confidential client = false
      /\ forall guess, OAuthClient.verifySecret db' client guess = false).
Proof.
  intros Hc. pose proof (client_row_created _ _ _ _ _ Hc) as Hrow.
  pose proof (client_create_row _ _ _ _ _ Hc) as (Hdb & Hcreated & Hfresh).
  injection Hcreated as -> ->.
  assert (Hverify : forall guess,
             OAuthClient.verifySecret db' (OAuthClient.hydrate (new_client_row env input)) guess
             = match ClientRow.secret (new_client_row env input) with
               | Some stored => OAuthClient.timingSafeEqual stored (OAuthClient.hashSecret guess)
               | None => false
               end).
  { intros guess. unfold OAuthClient.verifySecret.
    change (OAuthClientData.id (OAuthClient.hydrate (new_client_row env input))) with (uuid env).
    rewrite Hrow. simpl.
    destruct (default true (OAuthClient.confidential input)); [| reflexivity].
    unfold OAuthClient.hashSecret at 1. now rewrite sha256_hex_truthy. }
  repeat apply conj.
  - unfold OAuthClient.find. simpl. change (OAuthClientData.id _) with (uuid env) in Hrow.
    now rewrite Hrow.
  - reflexivity.
  - intros id c. unfold OAuthClient.find. rewrite Hdb. simpl.
    destruct (List.find (fun c0 => String.eqb (ClientRow.id c0) id) (clients db)) as [r|] eqn:Hf;
      [| discriminate].
    now rewrite (find_app_hit _ _ _ _ Hf).
  - intros secret Hs.
    assert (Hconf : default true (OAuthClient.confidential input) = true)
      by (destruct (default true (OAuthClient.confidential input)); [reflexivity | discriminate]).
    rewrite Hconf in Hs. injection Hs as <-.
    assert (Hv : forall guess,
               OAuthClient.verifySecret db' (OAuthClient.hydrate (new_client_row env input)) guess
               = OAuthClient.timingSafeEqual (OAuthClient.hashSecret (hex1 env))
                   (OAuthClient.hashSecret guess)).
    { intros guess. rewrite Hverify. simpl. now rewrite Hconf. }
    repeat apply conj.
    + exact Hconf.
    + rewrite Hv. now apply timingSafeEqual_eq.
    + intros guess. rewrite Hv, timingSafeEqual_eq. split; congruence.
  - intros Hs.
    assert (Hconf : default true (OAuthClient.confidential input) = false)
      by (destruct (default true (OAuthClient.confidential input)); [discriminate | reflexivity]).
    split; [exact Hconf |].
    intros guess. rewrite Hverify. simpl. now rewrite Hconf.
Qed.

Lemma client_secret_round_trip_witness :
  let client :=
    OAuthClient.hydrate (new_client_row (env_at 100 "uuid-1" "5ec7e7" "unused") first_client_input) in
  OAuthClient.find first_client_db "uuid-1" = Some client
  /\ OAuthClient.verifySecret first_client_db client "5ec7e7" = true.
Proof.
  intros client.
  destruct (client_secret_round_trip (env_at 100 "uuid-1" "5ec7e7" "unused") first_client_input
              empty_db client (Some "5ec7e7") first_client_db ltac:(vm_compute; reflexivity))
    as (Hfind & _ & _ & Hsecret & _).
  split; [exact Hfind | exact (proj1 (proj2 (Hsecret "5ec7e7" eq_refl)))].
Defined.

Lemma find_filter_implied {A} (P Q : A -> bool) (l : list A) :
  (forall x, P x = true -> Q x = true) ->
  List.find P (List.filter Q l) = List.find P l.
Proof.
  intros HPQ. induction l as [|a l IH]; simpl; [reflexivity |].
  destruct (Q a) eqn:HQ; simpl.
  - destruct (P a); [reflexivity | exact IH].
  - destruct (P a) eqn:HP; [| exact IH]. rewrite (HPQ a HP) in HQ. discriminate.
Qed.

Lemma filter_idem {A} (Q : A -> bool) (l : list A) :
  List.filter Q (List.filter Q l) = List.filter Q l.
Proof. apply filter_all_true. intros x Hx. now apply filter_In in Hx. Qed.

Lemma client_revoke_find (t : Z) (id id' : string) (db : Db) :
  OAuthClient.find (OAuthClient.revoke t id db) id'
  = option_map (fun c => OAuthClient.hydrate
                           (if String.eqb (ClientRow.id c) id
                            then OAuthClient.set_revoked t c else c))
      (List.find (fun c => String.eqb (ClientRow.id c) id') (clients db)).
Proof.
  unfold OAuthClient.find, OAuthClient.revoke. simpl.
  rewrite find_map_stable.
  - now destruct (List.find _ (clients db)).
  - intros c. now destruct (String.eqb (ClientRow.id c) id).
Qed.

(** A request that names a client that is absent or revoked gets an error
    from each grant handler, and the database stays as it was. *)
Lemma unusable_client_refused (env : Env) (config : OAuth2Config) (reg : ScopeRegistry.t)
    (body : Params) (db : Db) (id : string) :
  body !! "client_id" = Some id ->
  (forall c, OAuthClient.find db id = Some c -> OAuthClientData.revoked c = true) ->
  exists e,
    tokenHandler env config reg body db = (Respond (errorResponse e), db)
    /\ (statusCode e = 400 \/ statusCode e = 401).
Proof.
  intros Hid Hun. unfold tokenHandler.
  destruct (negb (truthy (body !! "grant_type"))); [eexists (InvalidRequestError _); auto |].
  destruct (String.eqb (str (body !! "grant_type")) "authorization_code").
  { unfold handleAuthorizationCode. rewrite Hid. simpl str.
    destruct (negb (truthy (body !! "code")) || negb (truthy (body !! "redirect_uri"))
              || negb (truthy (Some id)));
      [eexists (InvalidRequestError _); auto |].
    destruct (OAuthClient.find db id) as [c|] eqn:Hf; [| eexists (InvalidClientError _); auto].
    rewrite (Hun c eq_refl). eexists (InvalidClientError _); auto. }
  destruct (String.eqb (str (body !! "grant_type")) "client_credentials").
  { unfold handleClientCredentials. rewrite Hid. simpl str.
    destruct (negb (truthy (Some id)) || negb (truthy (body !! "client_secret")));
      [eexists (InvalidRequestError _); auto |].
    destruct (OAuthClient.find db id) as [c|] eqn:Hf; [| eexists (InvalidClientError _); auto].
    rewrite (Hun c eq_refl). eexists (InvalidClientError _); auto. }
  destruct (String.eqb (str (body !! "grant_type")) "refresh_token").
  { unfold handleRefreshToken. rewrite Hid. simpl str.
    destruct (negb (truthy (body !! "refresh_token")) || negb (truthy (Some id)));
      [eexists (InvalidRequestError _); auto |].
    destruct (OAuthClient.find db id) as [c|] eqn:Hf; [| eexists (InvalidClientError _); auto].
    rewrite (Hun c eq_refl). eexists (InvalidClientError _); auto. }
  exists UnsupportedGrantError. auto.
Qed.

Lemma unusable_client_unauthorized (env : Env) (config : OAuth2Config) (reg : ScopeRegistry.t)
    (actions : OAuth2Actions) (query : Params) (user : JsUser) (session : Session) (db : Db)
    (id : string) :
  query !! "client_id" = Some id ->
  (forall c, OAuthClient.find db id = Some c -> OAuthClientData.revoked c = true) ->
  exists e,
    authorizeHandler env config reg actions query user session db
    = (Respond (RJson (toJSON e) (statusCode e)), session, db)
    /\ (statusCode e = 400 \/ statusCode e = 401).
Proof.
  intros Hid Hun. unfold authorizeHandler, json_error. rewrite Hid. simpl str.
  destruct (negb (strict_eq (query !! "response_type") "code"));
    [eexists (InvalidRequestError _); auto |].
  destruct (negb (truthy (Some id))); [eexists (InvalidRequestError _); auto |].
  destruct (OAuthClient.find db id) as [c|] eqn:Hf; [| eexists (InvalidClientError _); auto].
  rewrite (Hun c eq_refl). eexists (InvalidClientError _); auto.
Qed.

(** X7. [OAuthClient.revoke(id)] is a soft revocation. A client found
    before is still found afterwards, flagged revoked, with [updated_at] set
    to the time of the call and every other field as before; no client row
    is added or removed, and an id that named no client still names none.
    Every grant of POST /token and every GET /authorize that names the
    client then ends in a 400 or 401 JSON error without touching the
    database or the session. The client's tokens and codes are not touched:
    an access token issued to it before is validated exactly as before. *)
Theorem client_revoke_blocks_grants (t : Z) (id : string) (db : Db) :
  let db' := OAuthClient.revoke t id db in
  (forall c, OAuthClient.find db' id = Some c -> OAuthClientData.revoked c = true)
  /\ (forall c,
         OAuthClient.find db id = Some c ->
         OAuthClient.find db' id
         = Some {| OAuthClientData.id := OAuthClientData.id c;
                   OAuthClientData.name := OAuthClientData.name c;
                   OAuthClientData.redirectUris := OAuthClientData.redirectUris c;
                   OAuthClientData.scopes := OAuthClientData.scopes c;
                   OAuthClientData.grantTypes := OAuthClientData.grantTypes c;
                   OAuthClientData.confidential := OAuthClientData.confidential c;
                   OAuthClientData.firstParty := OAuthClientData.firstParty c;
                   OAuthClientData.revoked := true;
                   OAuthClientData.createdAt := OAuthClientData.createdAt c;
                   OAuthClientData.updatedAt := t |})
  /\ (OAuthClient.find db id = None -> OAuthClient.find db' id = None)
  /\ length (clients db') = length (clients db)
  /\ (forall id', id' <> id -> OAuthClient.find db' id' = OAuthClient.find db id')
  /\ (forall env config reg body,
         body !! "client_id" = Some id ->
         exists e,
           tokenHandler env config reg body db' = (Respond (errorResponse e), db')
           /\ (statusCode e = 400 \/ statusCode e = 401))
  /\ (forall env config reg actions query user session,
         query !! "client_id" = Some id ->
         exists e,
           authorizeHandler env config reg actions query user session db'
           = (Respond (RJson (toJSON e) (statusCode e)), session, db')
           /\ (statusCode e = 400 \/ statusCode e = 401))
  /\ tokens db' = tokens db
  /\ auth_codes db' = auth_codes db
  /\ (forall now_ plain,
         fst (OAuthToken.validate now_ plain db') = fst (OAuthToken.validate now_ plain db)).
Proof.
  intros db'.
  assert (Hrev : forall c, OAuthClient.find db' id = Some c -> OAuthClientData.revoked c = true).
  { intros c. unfold db'. rewrite client_revoke_find.
    destruct (List.find _ (clients db)) as [r|] eqn:Hf; [| discriminate].
    apply List.find_some in Hf as [_ Hr]. simpl. rewrite Hr. now intros [= <-]. }
  repeat apply conj; try reflexivity.
  - exact Hrev.
  - intros c. unfold db'. rewrite client_revoke_find. unfold OAuthClient.find.
    destruct (List.find _ (clients db)) as [r|] eqn:Hf; [| discriminate].
    apply List.find_some in Hf as [_ Hr]. simpl. rewrite Hr. now intros [= <-].
  - unfold db'. rewrite client_revoke_find. unfold OAuthClient.find.
    now destruct (List.find _ (clients db)).
  - unfold db', OAuthClient.revoke. simpl. now rewrite length_map.
  - intros id' Hne. unfold db'. rewrite client_revoke_find. unfold OAuthClient.find.
    destruct (List.find _ (clients db)) as [r|] eqn:Hf; [| reflexivity].
    apply List.find_some in Hf as [_ Hr]. apply String.eqb_eq in Hr. simpl.
    replace (String.eqb (ClientRow.id r) id) with false; [reflexivity |].
    symmetry. apply String.eqb_neq. congruence.
  - intros env config reg body Hid. now apply unusable_client_refused with (id := id).
  - intros env config reg actions query user session Hid.
    now apply unusable_client_unauthorized with (id := id).
  - intros now_ plain. rewrite !validate_unfold. unfold access_row.
    change (tokens db') with (tokens db).
    destruct (List.find _ (tokens db)) as [row|]; [| reflexivity].
    destruct (is_set (TokenRow.revoked_at row)); [reflexivity |].
    destruct (TokenRow.expires_at row <? now_); reflexivity.
Qed.

Lemma client_revoke_blocks_grants_witness :
  let db' := OAuthClient.revoke 4000 "app" sample_db in
  let body : Params :=
    <["grant_type" := "refresh_token"]>
      (<["refresh_token" := "rt-1"]>
         (<["client_id" := "app"]> (<["client_secret" := "s3cret"]> ∅))) in
  (exists e, tokenHandler sample_env sample_config sample_registry body db'
             = (Respond (errorResponse e), db'))
  /\ fst (OAuthToken.validate 4500 "at-1" db') = Some (OAuthToken.hydrate sample_token)
  /\ (exists c, OAuthClient.find db' "app" = Some c
                /\ OAuthClientData.revoked c = true
                /\ OAuthClientData.name c = "Test"
                /\ OAuthClientData.updatedAt c = 4000).
Proof.
  intros db' body.
  destruct (client_revoke_blocks_grants 4000 "app" sample_db)
    as (_ & Hfound & _ & _ & _ & Htoken & _ & _ & _ & Hvalid).
  split; [| split].
  3:{ eexists. split; [apply (Hfound (OAuthClient.hydrate sample_client)); reflexivity |].
      repeat split. }
  - destruct (Htoken sample_env sample_config sample_registry body ltac:(vm_compute; reflexivity)) as (e & He & _).
    now exists e.
  - unfold db'. rewrite Hvalid. vm_compute. reflexivity.
Defined.

(** X8. [OAuthClient.destroy(id)] cascades: afterwards the client is not
    found, exactly the tokens and codes of other clients remain, other
    clients are found as before, and a second call changes nothing. An
    access token of the deleted client no longer validates (token hashes
    being unique), one of another client validates as before. *)
Theorem destroy_cascades (id : string) (db : Db) :
  let db' := OAuthClient.destroy id db in
  OAuthClient.find db' id = None
  /\ (forall id', id' <> id -> OAuthClient.find db' id' = OAuthClient.find db id')
  /\ (forall t, In t (tokens db') <-> In t (tokens db) /\ TokenRow.client_id t <> id)
  /\ (forall c, In c (auth_codes db') <-> In c (auth_codes db) /\ AuthCodeRow.client_id c <> id)
  /\ OAuthClient.destroy id db' = db'
  /\ (forall now_ plain row,
         access_row db plain = Some row -> TokenRow.client_id row <> id ->
         fst (OAuthToken.validate now_ plain db') = fst (OAuthToken.validate now_ plain db))
  /\ (List.NoDup (map TokenRow.token (tokens db)) ->
      forall now_ plain row,
        access_row db plain = Some row -> TokenRow.client_id row = id ->
        fst (OAuthToken.validate now_ plain db') = None).
Proof.
  intros db'. repeat apply conj.
  - unfold OAuthClient.find, db'. simpl.
    destruct (List.find _ (List.filter _ (clients db))) as [r|] eqn:Hf; [| reflexivity].
    apply find_filter_some in Hf as (_ & Heq & Hne). rewrite Heq in Hne. discriminate.
  - intros id' Hne. unfold OAuthClient.find, db'. simpl. f_equal.
    apply find_filter_implied. intros c Hc. apply String.eqb_eq in Hc.
    apply negb_true_iff, String.eqb_neq. congruence.
  - intros t. unfold db'. simpl. rewrite filter_In, negb_true_iff, String.eqb_neq. tauto.
  - intros c. unfold db'. simpl. rewrite filter_In, negb_true_iff, String.eqb_neq. tauto.
  - unfold db', OAuthClient.destroy. simpl. now rewrite !filter_idem.
  - intros now_ plain row Hrow Hne. rewrite !validate_unfold.
    assert (Hrow' : access_row db' plain = Some row).
    { unfold access_row, db'. simpl. apply find_filter_hit; [exact Hrow |].
      now apply negb_true_iff, String.eqb_neq. }
    rewrite Hrow, Hrow'.
    destruct (is_set (TokenRow.revoked_at row)); [reflexivity |].
    destruct (TokenRow.expires_at row <? now_); reflexivity.
  - intros Hnd now_ plain row Hrow Hid. rewrite validate_unfold.
    destruct (access_row db' plain) as [row'|] eqn:Hrow'; [exfalso | reflexivity].
    unfold access_row, db' in Hrow'. simpl in Hrow'.
    apply find_filter_some in Hrow' as (Hin' & Hh' & Hne').
    apply List.find_some in Hrow as [Hin Hh].
    apply String.eqb_eq in Hh, Hh'.
    assert (row' = row)
      by (apply (unique_key_row TokenRow.token (tokens db)); congruence).
    subst row'. apply negb_true_iff, String.eqb_neq in Hne'. contradiction.
Qed.

Lemma destroy_cascades_witness :
  OAuthClient.find (OAuthClient.destroy "app" sample_db) "app" = None
  /\ fst (OAuthToken.validate 3000 "at-1" (OAuthClient.destroy "app" sample_db)) = None.
Proof.
  destruct (destroy_cascades "app" sample_db) as (Hfind & _ & _ & _ & _ & _ & Hdead).
  split; [exact Hfind |].
  apply (Hdead ltac:(simpl; repeat constructor; simpl; tauto) 3000 "at-1" sample_token);
    vm_compute; reflexivity.
Defined.

(** ** Authorization codes: issue, exchange, prune *)

Lemma code_row_created env config params db created db' :
  AuthCode.create env config params db = Some (created, db') ->
  forall clientId,
    AuthCode.lookup db' (AuthCode.hashCode (hex1 env)) clientId
    = if String.eqb (AuthCode.clientId params) clientId
      then Some (new_code_row env config params) else None.
Proof.
  intros Hc clientId. apply code_create_row in Hc as (-> & _ & _ & Hcode & _).
  unfold AuthCode.lookup. simpl. rewrite find_app_miss.
  - simpl. rewrite String.eqb_refl. simpl.
    now destruct (String.eqb (AuthCode.clientId params) clientId).
  - apply find_none_iff. intros c Hc. apply andb_false_iff. left.
    apply String.eqb_neq. intros Heq.
    apply (existsb_eqb_false AuthCodeRow.code) in Hcode. apply Hcode.
    simpl. rewrite <- Heq. now apply in_map.
Qed.

(** X9. An authorization code issued by [AuthCode.create] can be exchanged
    once: [consume] of the returned plaintext by the same client with the
    same redirect URI, no later than its expiry and with a verifier that
    satisfies the stored challenge, returns the record [create] returned
    and marks the row used; the same plaintext presented by another client,
    with another redirect URI or after the expiry is refused and changes
    nothing. *)
Theorem code_round_trip env config params db plain data db' :
  AuthCode.create env config params db = Some ((plain, data), db') ->
  let expiry := now env + authCodeLifetime config * 60000 in
  OAuthAuthCodeData.userId data = AuthCode.userId params
  /\ OAuthAuthCodeData.scopes data = AuthCode.scopes params
  /\ OAuthAuthCodeData.expiresAt data = expiry
  /\ (forall now' verifier,
         now' <= expiry ->
         pkce_satisfied (new_code_row env config params) verifier ->
         AuthCode.consume now' plain (AuthCode.clientId params) (AuthCode.redirectUri params)
           verifier db'
         = (Some data, AuthCode.mark_used now' (OAuthAuthCodeData.id data) db'))
  /\ (forall now' clientId redirectUri verifier,
         clientId <> AuthCode.clientId params
         \/ redirectUri <> AuthCode.redirectUri params
         \/ expiry < now' ->
         AuthCode.consume now' plain clientId redirectUri verifier db' = (None, db')).
Proof.
  intros Hc expiry. pose proof (code_row_created _ _ _ _ _ _ Hc) as Hlookup.
  pose proof (code_create_row _ _ _ _ _ _ Hc) as (_ & Hcreated & _).
  injection Hcreated as -> ->.
  repeat apply conj; try reflexivity.
  - intros now' verifier Hnow Hpkce. rewrite consume_unfold, Hlookup, String.eqb_refl.
    replace (consume_accepts now' (AuthCode.redirectUri params) verifier
               (new_code_row env config params)) with true; [reflexivity |].
    symmetry. apply consume_accepts_iff. repeat apply conj; auto.
  - intros now' clientId redirectUri verifier Hbad. rewrite consume_unfold, Hlookup.
    destruct (String.eqb (AuthCode.clientId params) clientId) eqn:Hcl; [| reflexivity].
    apply String.eqb_eq in Hcl.
    destruct (consume_accepts now' redirectUri verifier (new_code_row env config params))
      eqn:Hacc; [exfalso | reflexivity].
    apply consume_accepts_iff in Hacc as (_ & Hexp & Hredir & _). simpl in Hexp, Hredir.
    destruct Hbad as [Hbad | [Hbad | Hbad]]; [congruence | congruence | unfold expiry in Hbad; lia].
Qed.

Lemma code_round_trip_witness :
  let env := env_at 2000 "id-1" "c0de" "unused" in
  let params := {| AuthCode.clientId := "app"; AuthCode.userId := "alice";
                   AuthCode.redirectUri := "https://example.com/callback";
                   AuthCode.scopes := ["read"];
                   AuthCode.codeChallenge := None;
                   AuthCode.codeChallengeMethod := None |} in
  let db' := with_auth_codes sample_db [new_code_row env sample_config params] in
  fst (AuthCode.consume 2500 "c0de" "app" "https://example.com/callback" None db')
  = Some (AuthCode.hydrate (new_code_row env sample_config params))
  /\ AuthCode.consume 2500 "c0de" "app" "https://evil.example/cb" None db' = (None, db').
Proof.
  intros env params db'.
  destruct (code_round_trip env sample_config params sample_db "c0de"
              (AuthCode.hydrate (new_code_row env sample_config params)) db' ltac:(vm_compute; reflexivity))
    as (_ & _ & _ & Hok & Hbad).
  split.
  - rewrite Hok; [reflexivity | simpl; lia | intros Hch; discriminate].
  - apply Hbad. right. left. discriminate.
Defined.

Lemma filter_length_sum {A} (Q : A -> bool) (l : list A) :
  (length l - length (List.filter Q l) + length (List.filter Q l) = length l)%nat.
Proof. pose proof (List.filter_length_le Q l). lia. Qed.

(** X10. [AuthCode.prune] deletes exactly the codes that are used or
    expired and reports their number; pruning again deletes nothing; and,
    code hashes being unique, no exchange at that time or later can tell
    whether the table was pruned: [consume] answers the same. *)
Theorem code_prune_unobservable (now_ : Z) (db : Db) :
  let pruned := snd (AuthCode.prune now_ db) in
  (fst (AuthCode.prune now_ db) + length (auth_codes pruned) = length (auth_codes db))%nat
  /\ (forall c, In c (auth_codes pruned)
                <-> In c (auth_codes db)
                    /\ AuthCodeRow.used_at c = None /\ now_ <= AuthCodeRow.expires_at c)
  /\ AuthCode.prune now_ pruned = (0%nat, pruned)
  /\ clients pruned = clients db
  /\ tokens pruned = tokens db
  /\ (List.NoDup (map AuthCodeRow.code (auth_codes db)) ->
      forall now' plain clientId redirectUri verifier,
        now_ <= now' ->
        fst (AuthCode.consume now' plain clientId redirectUri verifier pruned)
        = fst (AuthCode.consume now' plain clientId redirectUri verifier db)).
Proof.
  intros pruned.
  set (keep := fun c => negb ((AuthCodeRow.expires_at c <? now_) || is_set (AuthCodeRow.used_at c))).
  assert (Hkeep : forall c, keep c = true
                            <-> AuthCodeRow.used_at c = None /\ now_ <= AuthCodeRow.expires_at c).
  { intros c. unfold keep. rewrite negb_true_iff, orb_false_iff, Z.ltb_ge, is_set_false. tauto. }
  repeat apply conj; try reflexivity.
  - simpl. apply filter_length_sum.
  - intros c. unfold pruned. simpl. fold keep. rewrite filter_In, Hkeep. tauto.
  - unfold pruned, AuthCode.prune. simpl. fold keep. rewrite filter_idem, Nat.sub_diag.
    reflexivity.
  - intros Hnd now' plain clientId redirectUri verifier Hnow. rewrite !consume_unfold.
    unfold AuthCode.lookup, pruned. simpl. fold keep.
    set (P := fun c => String.eqb (AuthCodeRow.code c) (AuthCode.hashCode plain)
                       && String.eqb (AuthCodeRow.client_id c) clientId).
    destruct (List.find P (auth_codes db)) as [row|] eqn:Hrow.
    + destruct (keep row) eqn:Hk.
      * rewrite (find_filter_hit P keep _ _ Hrow Hk).
        now destruct (consume_accepts now' redirectUri verifier row).
      * assert (Hrej : consume_accepts now' redirectUri verifier row = false).
        { destruct (consume_accepts now' redirectUri verifier row) eqn:Hacc; [| reflexivity].
          apply consume_accepts_iff in Hacc as (Hu & He & _).
          assert (keep row = true) by (apply Hkeep; split; [exact Hu | lia]). congruence. }
        rewrite Hrej.
        destruct (List.find P (List.filter keep (auth_codes db))) as [row'|] eqn:Hrow';
          [| reflexivity].
        apply find_filter_some in Hrow' as (Hin' & HP' & Hk').
        apply List.find_some in Hrow as [Hin HP].
        apply andb_true_iff in HP as [HP _], HP' as [HP' _].
        apply String.eqb_eq in HP, HP'.
        assert (row' = row)
          by (apply (unique_key_row AuthCodeRow.code (auth_codes db)); congruence).
        congruence.
    + destruct (List.find P (List.filter keep (auth_codes db))) as [row'|] eqn:Hrow';
        [| reflexivity].
      apply find_filter_some in Hrow' as (Hin' & HP' & _).
      rewrite find_none_iff in Hrow. rewrite (Hrow row' Hin') in HP'. discriminate.
Qed.

Lemma code_prune_unobservable_witness :
  let db := AuthCode.mark_used 2000 "uuid-3" sample_code_db in
  fst (AuthCode.prune 2500 db) = 1%nat
  /\ fst (AuthCode.consume 2600 "code-1" "app" "https://example.com/callback"
            (Some "verifier-xyz") (snd (AuthCode.prune 2500 db))) = None.
Proof.
  intros db.
  destruct (code_prune_unobservable 2500 db) as (_ & _ & _ & _ & _ & Hsame).
  split; [vm_compute; reflexivity |].
  rewrite Hsame; [vm_compute; reflexivity | | lia].
  vm_compute. repeat constructor; simpl; intuition discriminate.
Defined.

(** ** Tokens: issue, validate, bulk revocation, prune *)

Lemma existsb_false_find {A} (P : A -> bool) (l : list A) :
  existsb P l = false -> List.find P l = None.
Proof.
  induction l as [|a l IH]; simpl; [reflexivity |].
  destruct (P a); simpl; [discriminate | exact IH].
Qed.

Lemma token_row_created env config params db created db' :
  OAuthToken.create env config params db = Some (created, db') ->
  access_row db' (hex1 env) = Some (new_token_row env config params)
  /\ (wants_refresh params = true ->
      refresh_row db' (hex2 env) = Some (new_token_row env config params)).
Proof.
  intros Hc. apply token_create_row in Hc as (-> & _ & _ & Htok & Href & _).
  unfold access_row, refresh_row. simpl. split.
  - rewrite find_app_miss by (now apply existsb_false_find). simpl.
    now rewrite String.eqb_refl.
  - intros Hw. rewrite find_app_miss.
    + simpl. unfold OAuthToken.refresh_is. simpl. rewrite Hw. simpl.
      now rewrite String.eqb_refl.
    + apply existsb_false_find, Href. simpl. now rewrite Hw.
Qed.

(** X11. A token pair issued by [OAuthToken.create] is accepted until it
    expires: [validate] of the returned access token returns the record
    [create] returned at every time up to [expires_at] and nothing after
    it; a refresh token is returned exactly when the token has a user and
    [includeRefreshToken] is not [false], and [validateRefreshToken]
    returns the same record for it up to the refresh expiry. *)
Theorem token_round_trip env config params db created db' :
  OAuthToken.create env config params db = Some (created, db') ->
  let data := OAuthToken.tokenData created in
  let expiry :=
    now env + default (accessTokenLifetime config) (OAuthToken.accessTokenLifetime_ params)
              * 60000 in
  let refreshExpiry :=
    now env + default (refreshTokenLifetime config) (OAuthToken.refreshTokenLifetime_ params)
              * 60000 in
  OAuthTokenData.userId data = OAuthToken.userId params
  /\ OAuthTokenData.clientId data = OAuthToken.clientId params
  /\ OAuthTokenData.scopes data = OAuthToken.scopes params
  /\ OAuthTokenData.expiresAt data = expiry
  /\ (forall now',
         now' <= expiry ->
         OAuthToken.validate now' (OAuthToken.accessToken created) db'
         = (Some data, OAuthToken.touch now' (OAuthTokenData.id data) db'))
  /\ (forall now',
         expiry < now' ->
         OAuthToken.validate now' (OAuthToken.accessToken created) db' = (None, db'))
  /\ (OAuthToken.refreshToken created <> None
      <-> OAuthToken.userId params <> None
          /\ OAuthToken.includeRefreshToken params <> Some false)
  /\ (forall plainRefresh now',
         OAuthToken.refreshToken created = Some plainRefresh ->
         now' <= refreshExpiry ->
         OAuthToken.validateRefreshToken now' plainRefresh db' = Some data).
Proof.
  intros Hc data expiry refreshExpiry.
  pose proof (token_row_created _ _ _ _ _ _ Hc) as (Haccess & Hrefresh).
  pose proof (token_create_row _ _ _ _ _ _ Hc) as (_ & Hcreated & _).
  subst created. subst data. simpl OAuthToken.tokenData. simpl OAuthToken.accessToken.
  simpl OAuthToken.refreshToken.
  repeat apply conj; try reflexivity.
  - intros now' Hnow.
    assert (Hlt : (TokenRow.expires_at (new_token_row env config params) <? now') = false)
      by (apply Z.ltb_ge; exact Hnow).
    rewrite validate_unfold, Haccess, Hlt. reflexivity.
  - intros now' Hnow.
    assert (Hlt : (TokenRow.expires_at (new_token_row env config params) <? now') = true)
      by (apply Z.ltb_lt; exact Hnow).
    rewrite validate_unfold, Haccess, Hlt. reflexivity.
  - unfold wants_refresh.
    destruct (OAuthToken.includeRefreshToken params) as [[|]|], (OAuthToken.userId params);
      simpl; intros H; try (now destruct H); try discriminate; split; congruence.
  - unfold wants_refresh.
    destruct (OAuthToken.includeRefreshToken params) as [[|]|], (OAuthToken.userId params);
      simpl; intros H; try (now destruct H); try discriminate.
  - intros plainRefresh now' Hsome Hnow.
    destruct (wants_refresh params) eqn:Hw; [| discriminate].
    injection Hsome as <-. rewrite validateRefreshToken_unfold, (Hrefresh eq_refl).
    unfold refreshExpiry in Hnow. apply Z.ltb_ge in Hnow.
    simpl. rewrite Hw, Hnow. reflexivity.
Qed.

Lemma token_round_trip_witness :
  let params := {| OAuthToken.userId := Some "alice"; OAuthToken.clientId := "app";
                   OAuthToken.scopes := ["read"]; OAuthToken.name := None;
                   OAuthToken.includeRefreshToken := None;
                   OAuthToken.accessTokenLifetime_ := None;
                   OAuthToken.refreshTokenLifetime_ := None |} in
  let row := new_token_row sample_env sample_config params in
  let db' := with_tokens sample_db [sample_token; row] in
  fst (OAuthToken.validate 3603000 "aa11" db') = Some (OAuthToken.hydrate row)
  /\ OAuthToken.validate 3603001 "aa11" db' = (None, db')
  /\ OAuthToken.validateRefreshToken 3603001 "bb22" db' = Some (OAuthToken.hydrate row).
Proof.
  intros params row db'.
  destruct (token_round_trip sample_env sample_config params sample_db
              {| OAuthToken.accessToken := "aa11"; OAuthToken.refreshToken := Some "bb22";
                 OAuthToken.tokenData := OAuthToken.hydrate row |} db' ltac:(vm_compute; reflexivity))
    as (_ & _ & _ & _ & Hok & Hlate & _ & Hrefresh).
  repeat apply conj.
  - rewrite Hok; [reflexivity | simpl; lia].
  - apply Hlate. simpl. lia.
  - apply Hrefresh; [reflexivity | simpl; lia].
Defined.

Lemma strict_eq_true (v : option string) (s : string) : strict_eq v s = true <-> v = Some s.
Proof.
  destruct v as [x|]; simpl; [| split; discriminate].
  rewrite String.eqb_eq. split; congruence.
Qed.

Lemma revokeAllFor_tokens (t : Z) (u : string) (db : Db) :
  tokens (OAuthToken.revokeAllFor t u db)
  = map (fun r => if strict_eq (TokenRow.user_id r) u && negb (is_set (TokenRow.revoked_at r))
                  then OAuthToken.set_revoked_at t r else r) (tokens db).
Proof. reflexivity. Qed.

Lemma access_row_revokeAllFor (t : Z) (u : string) (db : Db) (plain : string) :
  access_row (OAuthToken.revokeAllFor t u db) plain
  = option_map (fun r => if strict_eq (TokenRow.user_id r) u
                            && negb (is_set (TokenRow.revoked_at r))
                         then OAuthToken.set_revoked_at t r else r)
      (access_row db plain).
Proof.
  unfold access_row. rewrite revokeAllFor_tokens. apply find_map_stable.
  intros r. now destruct (strict_eq (TokenRow.user_id r) u && negb (is_set (TokenRow.revoked_at r))).
Qed.

Lemma refresh_row_revokeAllFor (t : Z) (u : string) (db : Db) (plain : string) :
  refresh_row (OAuthToken.revokeAllFor t u db) plain
  = option_map (fun r => if strict_eq (TokenRow.user_id r) u
                            && negb (is_set (TokenRow.revoked_at r))
                         then OAuthToken.set_revoked_at t r else r)
      (refresh_row db plain).
Proof.
  unfold refresh_row. rewrite revokeAllFor_tokens. apply find_map_stable.
  intros r. now destruct (strict_eq (TokenRow.user_id r) u && negb (is_set (TokenRow.revoked_at r))).
Qed.

(** X12. [OAuthToken.revokeAllFor(user)] leaves no usable token of that
    user: afterwards neither [validate] nor [validateRefreshToken] returns a
    record of the user, at any time. Tokens of other users validate as
    before. Unlike [revoke], it keeps the timestamp of a token that was
    already revoked, so a second call, at any time, changes nothing; and it
    subsumes [revokeAllForClient] for the same user. *)
Theorem revokeAllFor_spec (t : Z) (u : string) (db : Db) :
  let db' := OAuthToken.revokeAllFor t u db in
  (forall row, In row (tokens db') -> TokenRow.user_id row = Some u ->
               TokenRow.revoked_at row <> None)
  /\ (forall now_ plain d,
         fst (OAuthToken.validate now_ plain db') = Some d ->
         OAuthTokenData.userId d <> Some u
         /\ fst (OAuthToken.validate now_ plain db) = Some d)
  /\ (forall now_ plain d,
         OAuthToken.validateRefreshToken now_ plain db' = Some d ->
         OAuthTokenData.userId d <> Some u
         /\ OAuthToken.validateRefreshToken now_ plain db = Some d)
  /\ (forall now_ plain d,
         fst (OAuthToken.validate now_ plain db) = Some d ->
         OAuthTokenData.userId d <> Some u ->
         fst (OAuthToken.validate now_ plain db') = Some d)
  /\ (forall row r, In row (tokens db) -> TokenRow.revoked_at row = Some r -> In row (tokens db'))
  /\ (forall t', OAuthToken.revokeAllFor t' u db' = db')
  /\ (forall c, OAuthToken.revokeAllFor t u (OAuthToken.revokeAllForClient t u c db) = db')
  /\ clients db' = clients db
  /\ auth_codes db' = auth_codes db.
Proof.
  intros db'.
  set (f := fun r => if strict_eq (TokenRow.user_id r) u && negb (is_set (TokenRow.revoked_at r))
                     then OAuthToken.set_revoked_at t r else r).
  assert (Hf : forall r, (TokenRow.user_id r = Some u /\ TokenRow.revoked_at r = None
                          /\ f r = OAuthToken.set_revoked_at t r)
                         \/ ((TokenRow.user_id r <> Some u \/ TokenRow.revoked_at r <> None)
                             /\ f r = r)).
  { intros r. unfold f. destruct (strict_eq (TokenRow.user_id r) u) eqn:Hu; simpl.
    - apply strict_eq_true in Hu. destruct (TokenRow.revoked_at r) eqn:Hr; simpl.
      + right. split; [right; discriminate | reflexivity].
      + left. auto.
    - right. split; [left | reflexivity]. intros Hs. apply strict_eq_true in Hs. congruence. }
  repeat apply conj; try reflexivity.
  - intros row Hin Hu. unfold db' in Hin. rewrite revokeAllFor_tokens in Hin.
    fold f in Hin. apply in_map_iff in Hin as (r & <- & _).
    destruct (Hf r) as [(_ & _ & Hfr) | ([Hne | Hrev] & Hfr)]; rewrite Hfr in *;
      [discriminate | contradiction | exact Hrev].
  - intros now_ plain d. unfold db'. rewrite !validate_unfold, access_row_revokeAllFor.
    fold f. destruct (access_row db plain) as [r|]; [simpl | discriminate].
    destruct (Hf r) as [(_ & _ & ->) | ([Hne | Hrev] & ->)].
    + discriminate.
    + destruct (is_set (TokenRow.revoked_at r)); [discriminate |].
      destruct (TokenRow.expires_at r <? now_); [discriminate |]. simpl.
      intros [= <-]. split; [exact Hne | reflexivity].
    + apply is_set_true in Hrev. rewrite Hrev. discriminate.
  - intros now_ plain d. unfold db'. rewrite !validateRefreshToken_unfold, refresh_row_revokeAllFor.
    fold f. destruct (refresh_row db plain) as [r|]; [simpl | discriminate].
    destruct (Hf r) as [(_ & _ & ->) | ([Hne | Hrev] & ->)].
    + discriminate.
    + destruct (is_set (TokenRow.revoked_at r)); [discriminate |].
      destruct (match TokenRow.refresh_expires_at r with
                | Some r0 => r0 <? now_
                | None => false
                end); [discriminate |].
      intros [= <-]. split; [exact Hne | reflexivity].
    + apply is_set_true in Hrev. rewrite Hrev. discriminate.
  - intros now_ plain d. unfold db'. rewrite !validate_unfold, access_row_revokeAllFor.
    fold f. destruct (access_row db plain) as [r|]; [simpl | discriminate].
    destruct (is_set (TokenRow.revoked_at r)) eqn:Hrev; [discriminate |].
    destruct (TokenRow.expires_at r <? now_) eqn:Hexp; [discriminate |]. simpl.
    intros [= <-] Hne. simpl in Hne.
    destruct (Hf r) as [(Hu & _) | (_ & ->)]; [contradiction |].
    now rewrite Hrev, Hexp.
  - intros row r Hin Hrev. unfold db'. rewrite revokeAllFor_tokens. apply in_map_iff.
    exists row. split; [| exact Hin]. fold (f row).
    destruct (Hf row) as [(_ & Hnone & _) | (_ & ->)]; [congruence | reflexivity].
  - intros t'. unfold db', OAuthToken.revokeAllFor, with_tokens. simpl. f_equal.
    rewrite map_map. apply map_ext. intros r. fold (f r).
    destruct (Hf r) as [(Hu & _ & ->) | ([Hne | Hrev] & ->)]; simpl.
    + now rewrite andb_false_r.
    + replace (strict_eq (TokenRow.user_id r) u) with false; [reflexivity |].
      symmetry. apply not_true_is_false. rewrite strict_eq_true. exact Hne.
    + apply is_set_true in Hrev. rewrite Hrev. now rewrite andb_false_r.
  - intros c. unfold db', OAuthToken.revokeAllFor, OAuthToken.revokeAllForClient, with_tokens.
    simpl. f_equal. rewrite map_map. apply map_ext. intros r.
    destruct (strict_eq (TokenRow.user_id r) u) eqn:Hu; simpl; [| now rewrite Hu].
    destruct (String.eqb (TokenRow.client_id r) c); simpl; [| now rewrite Hu].
    destruct (is_set (TokenRow.revoked_at r)) eqn:Hrev; simpl.
    + now rewrite Hu, Hrev.
    + now rewrite Hu.
Qed.

Lemma revokeAllFor_spec_witness :
  let db' := OAuthToken.revokeAllFor 4000 "alice" sample_db in
  fst (OAuthToken.validate 4500 "at-1" db') = None
  /\ OAuthToken.revokeAllFor 9000 "alice" db' = db'.
Proof.
  intros db'.
  destruct (revokeAllFor_spec 4000 "alice" sample_db)
    as (_ & Hdead & _ & _ & _ & Hidem & _).
  split; [| apply Hidem].
  destruct (fst (OAuthToken.validate 4500 "at-1" db')) as [d|] eqn:Hv; [| reflexivity].
  destruct (Hdead 4500 "at-1" d Hv) as (Hu & Hbefore). exfalso. apply Hu.
  assert (Hs : fst (OAuthToken.validate 4500 "at-1" sample_db)
               = Some (OAuthToken.hydrate sample_token)) by (vm_compute; reflexivity).
  rewrite Hs in Hbefore. injection Hbefore as <-. reflexivity.
Defined.

(** X13. [OAuthToken.prune] reports the number of rows it deletes and a
    second run deletes nothing. In a table with unique hashes where every
    row that has a refresh hash has a refresh expiry, pruning is invisible
    to refresh: [validateRefreshToken] answers the same at that time or
    later. For access tokens it never revives anything, and it removes a
    token that [validate] still accepts only when the refresh expiry of the
    row is past. *)
Theorem token_prune_spec (now_ days : Z) (db : Db) :
  let pruned := snd (OAuthToken.prune now_ days db) in
  (fst (OAuthToken.prune now_ days db) + length (tokens pruned) = length (tokens db))%nat
  /\ OAuthToken.prune now_ days pruned = (0%nat, pruned)
  /\ clients pruned = clients db
  /\ auth_codes pruned = auth_codes db
  /\ (forall now' plain d,
         now_ <= now' ->
         fst (OAuthToken.validate now' plain db) = Some d ->
         (forall r, OAuthTokenData.refreshExpiresAt d = Some r -> now_ <= r) ->
         fst (OAuthToken.validate now' plain pruned) = Some d)
  /\ (List.NoDup (map TokenRow.token (tokens db)) ->
      forall now' plain d,
        fst (OAuthToken.validate now' plain pruned) = Some d ->
        fst (OAuthToken.validate now' plain db) = Some d)
  /\ (List.NoDup (refresh_hashes (tokens db)) ->
      (forall t, In t (tokens db) -> TokenRow.refresh_token t <> None ->
                 TokenRow.refresh_expires_at t <> None) ->
      forall now' plain,
        now_ <= now' ->
        OAuthToken.validateRefreshToken now' plain pruned
        = OAuthToken.validateRefreshToken now' plain db).
Proof.
  intros pruned.
  set (cutoff := now_ - days * 86400000).
  set (keep := fun t => negb (OAuthToken.prunable now_ cutoff t)).
  assert (Htokens : tokens pruned = List.filter keep (tokens db)) by reflexivity.
  repeat apply conj; try reflexivity.
  - rewrite Htokens. simpl. apply filter_length_sum.
  - unfold OAuthToken.prune. fold cutoff. fold keep. rewrite Htokens, filter_idem, Nat.sub_diag.
    unfold pruned, OAuthToken.prune, with_tokens. simpl. reflexivity.
  - intros now' plain d Hnow. rewrite !validate_unfold.
    destruct (access_row db plain) as [row|] eqn:Hrow; [| discriminate].
    destruct (is_set (TokenRow.revoked_at row)) eqn:Hrev; [discriminate |].
    destruct (TokenRow.expires_at row <? now') eqn:Hexp; [discriminate |].
    simpl. intros [= <-] Hr. simpl in Hr.
    assert (Hk : keep row = true).
    { unfold keep, OAuthToken.prunable. apply negb_true_iff.
      apply is_set_false in Hrev. rewrite Hrev. apply Z.ltb_ge in Hexp.
      destruct (TokenRow.refresh_expires_at row) as [r|]; simpl.
      - specialize (Hr r eq_refl). rewrite andb_false_r. simpl.
        rewrite orb_false_r. apply Z.ltb_ge. exact Hr.
      - rewrite !orb_false_r, andb_true_r. apply Z.ltb_ge. lia. }
    unfold access_row in *. rewrite Htokens, (find_filter_hit _ keep _ _ Hrow Hk).
    apply is_set_false in Hrev. rewrite Hrev. simpl. now rewrite Hexp.
  - intros Hnd now' plain d. rewrite !validate_unfold. unfold access_row. rewrite Htokens.
    destruct (List.find _ (List.filter keep (tokens db))) as [row|] eqn:Hrow; [| discriminate].
    apply find_filter_some in Hrow as (Hin & Hh & _).
    destruct (List.find _ (tokens db)) as [row0|] eqn:Hrow0.
    + apply List.find_some in Hrow0 as [Hin0 Hh0]. apply String.eqb_eq in Hh, Hh0.
      assert (row0 = row)
        by (apply (unique_key_row TokenRow.token (tokens db)); congruence).
      subst row0. destruct (is_set (TokenRow.revoked_at row)); [auto |].
      destruct (TokenRow.expires_at row <? now'); auto.
    + rewrite find_none_iff in Hrow0. rewrite (Hrow0 row Hin) in Hh. discriminate.
  - intros Hnd Hexpiry now' plain Hnow. rewrite !validateRefreshToken_unfold.
    unfold refresh_row. rewrite Htokens.
    set (P := OAuthToken.refresh_is (OAuthToken.hashToken plain)).
    destruct (List.find P (tokens db)) as [row|] eqn:Hrow.
    + destruct (keep row) eqn:Hk; [now rewrite (find_filter_hit P keep _ _ Hrow Hk) |].
      pose proof Hrow as Hfound. apply List.find_some in Hfound as [Hin Hh].
      unfold P, OAuthToken.refresh_is in Hh. apply strict_eq_true in Hh.
      assert (Hrej : (if is_set (TokenRow.revoked_at row) then None
                      else if match TokenRow.refresh_expires_at row with
                              | Some r => r <? now'
                              | None => false
                              end
                           then None else Some (OAuthToken.hydrate row)) = None).
      { destruct (is_set (TokenRow.revoked_at row)) eqn:Hrev; [reflexivity |].
        apply is_set_false in Hrev.
        destruct (TokenRow.refresh_expires_at row) as [r|] eqn:Hr.
        - unfold keep, OAuthToken.prunable in Hk. rewrite Hr, Hrev in Hk. simpl in Hk.
          rewrite andb_false_r, orb_false_r in Hk. simpl in Hk.
          apply negb_false_iff, Z.ltb_lt in Hk.
          replace (r <? now') with true; [reflexivity |]. symmetry. apply Z.ltb_lt. lia.
        - exfalso. apply (Hexpiry row Hin); congruence. }
      rewrite Hrej.
      destruct (List.find P (List.filter keep (tokens db))) as [row'|] eqn:Hrow';
        [exfalso | reflexivity].
      apply find_filter_some in Hrow' as (Hin' & Hh' & Hk').
      unfold P, OAuthToken.refresh_is in Hh'. apply strict_eq_true in Hh'.
      assert (row' = row); [| congruence].
      clear - Hnd Hin Hin' Hh Hh'. revert Hnd Hin Hin'.
      induction (tokens db) as [|x l IH]; simpl; [contradiction |].
      intros Hnd [-> | Hin] [-> | Hin']; try reflexivity.
      * exfalso. rewrite Hh in Hnd. simpl in Hnd. apply List.NoDup_cons_iff in Hnd as [Hx _].
        apply Hx, refresh_hashes_In. now exists row'.
      * exfalso. rewrite Hh' in Hnd. simpl in Hnd. apply List.NoDup_cons_iff in Hnd as [Hx _].
        apply Hx, refresh_hashes_In. now exists row.
      * apply IH; [| exact Hin | exact Hin'].
        destruct (TokenRow.refresh_token x); [| exact Hnd].
        simpl in Hnd. now apply List.NoDup_cons_iff in Hnd as [_ Hnd].
    + destruct (List.find P (List.filter keep (tokens db))) as [row'|] eqn:Hrow';
        [| reflexivity].
      apply find_filter_some in Hrow' as (Hin' & HP' & _).
      rewrite find_none_iff in Hrow. rewrite (Hrow row' Hin') in HP'. discriminate.
Qed.

Lemma token_prune_spec_witness :
  let params := {| OAuthToken.userId := Some "alice"; OAuthToken.clientId := "app";
                   OAuthToken.scopes := ["read"]; OAuthToken.name := None;
                   OAuthToken.includeRefreshToken := None;
                   OAuthToken.accessTokenLifetime_ := None;
                   OAuthToken.refreshTokenLifetime_ := None |} in
  let db := with_tokens sample_db [new_token_row sample_env sample_config params] in
  OAuthToken.validateRefreshToken 3700000 "bb22" (snd (OAuthToken.prune 3603001 7 db))
  = OAuthToken.validateRefreshToken 3700000 "bb22" db.
Proof.
  intros params db.
  destruct (token_prune_spec 3603001 7 db) as (_ & _ & _ & _ & _ & _ & Hsame).
  apply Hsame; [| | lia].
  - simpl. repeat constructor. simpl. tauto.
  - intros t [<- | []]. discriminate.
Defined.

(** ** POST /revoke and POST /introspect *)

Lemma touch_tokens (now_ : Z) (id : string) (db : Db) :
  tokens (OAuthToken.touch now_ id db)
  = map (fun t => if String.eqb (TokenRow.id t) id
                  then OAuthToken.set_last_used_at now_ t else t) (tokens db).
Proof. reflexivity. Qed.

Lemma access_row_touch (now_ : Z) (id : string) (db : Db) (plain : string) :
  access_row (OAuthToken.touch now_ id db) plain
  = option_map (fun t => if String.eqb (TokenRow.id t) id
                         then OAuthToken.set_last_used_at now_ t else t)
      (access_row db plain).
Proof.
  unfold access_row. rewrite touch_tokens. apply find_map_stable.
  intros r. now destruct (String.eqb (TokenRow.id r) id).
Qed.

Lemma refresh_row_touch (now_ : Z) (id : string) (db : Db) (plain : string) :
  refresh_row (OAuthToken.touch now_ id db) plain
  = option_map (fun t => if String.eqb (TokenRow.id t) id
                         then OAuthToken.set_last_used_at now_ t else t)
      (refresh_row db plain).
Proof.
  unfold refresh_row. rewrite touch_tokens. apply find_map_stable.
  intros r. now destruct (String.eqb (TokenRow.id r) id).
Qed.

(** What [validate] and [validateRefreshToken] reject stays rejected. *)
Lemma validate_rejects_later (now_ now' : Z) (plain : string) (db : Db) :
  now_ <= now' ->
  fst (OAuthToken.validate now_ plain db) = None ->
  fst (OAuthToken.validate now' plain db) = None.
Proof.
  intros Hnow. rewrite !validate_unfold.
  destruct (access_row db plain) as [row|]; [| reflexivity].
  destruct (is_set (TokenRow.revoked_at row)); [reflexivity |].
  destruct (TokenRow.expires_at row <? now_) eqn:He; [| discriminate].
  apply Z.ltb_lt in He. intros _.
  replace (TokenRow.expires_at row <? now') with true; [reflexivity |].
  symmetry. apply Z.ltb_lt. lia.
Qed.

Lemma validateRefreshToken_rejects_later (now_ now' : Z) (plain : string) (db : Db) :
  now_ <= now' ->
  OAuthToken.validateRefreshToken now_ plain db = None ->
  OAuthToken.validateRefreshToken now' plain db = None.
Proof.
  intros Hnow. rewrite !validateRefreshToken_unfold.
  destruct (refresh_row db plain) as [row|]; [| reflexivity].
  destruct (is_set (TokenRow.revoked_at row)); [reflexivity |].
  destruct (TokenRow.refresh_expires_at row) as [r|]; [| discriminate].
  destruct (r <? now_) eqn:He; [| discriminate].
  apply Z.ltb_lt in He. intros _.
  replace (r <? now') with true; [reflexivity |]. symmetry. apply Z.ltb_lt. lia.
Qed.

Lemma validate_rejected_db (now_ : Z) (plain : string) (db : Db) :
  fst (OAuthToken.validate now_ plain db) = None ->
  OAuthToken.validate now_ plain db = (None, db).
Proof.
  rewrite validate_unfold.
  destruct (access_row db plain) as [row|]; [| reflexivity].
  destruct (is_set (TokenRow.revoked_at row)); [reflexivity |].
  destruct (TokenRow.expires_at row <? now_); [reflexivity | discriminate].
Qed.

Lemma validate_accepted_row (now_ : Z) (plain : string) (db : Db) (d : OAuthTokenData.t) :
  fst (OAuthToken.validate now_ plain db) = Some d ->
  exists row,
    access_row db plain = Some row
    /\ d = OAuthToken.hydrate row
    /\ TokenRow.revoked_at row = None
    /\ now_ <= TokenRow.expires_at row
    /\ OAuthToken.validate now_ plain db
       = (Some d, OAuthToken.touch now_ (TokenRow.id row) db).
Proof.
  rewrite validate_unfold.
  destruct (access_row db plain) as [row|]; [| discriminate].
  destruct (is_set (TokenRow.revoked_at row)) eqn:Hrev; [discriminate |].
  destruct (TokenRow.expires_at row <? now_) eqn:He; [discriminate |].
  simpl. intros [= <-]. exists row. apply is_set_false in Hrev. apply Z.ltb_ge in He.
  repeat split; assumption.
Qed.

Lemma revokeHandler_authenticated (env : Env) (body : Params) (db : Db) :
  truthy (body !! "token") = true ->
  client_auth_fails db (body !! "client_id") (body !! "client_secret") = false ->
  revokeHandler env body db = revoke_by_plaintext env (str (body !! "token")) db.
Proof.
  intros Htok Hauth. unfold revokeHandler, client_auth_fails in *. rewrite Htok. simpl negb.
  cbv iota. fold (revoke_by_plaintext env (str (body !! "token")) db).
  destruct (truthy (body !! "client_id")); [| reflexivity]. simpl in Hauth.
  destruct (OAuthClient.find db (str (body !! "client_id"))) as [client|]; [| discriminate].
  destruct (OAuthClientData.revoked client); [discriminate |]. simpl in Hauth.
  destruct (OAuthClientData.confidential client && truthy (body !! "client_secret"));
    [| reflexivity].
  simpl in Hauth. now rewrite Hauth.
Qed.

(** What the [try] block of /revoke leaves behind. *)
Lemma revoke_by_plaintext_dead (env : Env) (token : string) (db : Db) :
  let db' := snd (revoke_by_plaintext env token db) in
  clients db' = clients db
  /\ auth_codes db' = auth_codes db
  /\ (forall now', now env <= now' -> fst (OAuthToken.validate now' token db') = None)
  /\ (access_row db token = None ->
      forall now', now env <= now' -> OAuthToken.validateRefreshToken now' token db' = None)
  /\ (forall row other now',
         fst (OAuthToken.validate (now env) token db) = Some (OAuthToken.hydrate row) ->
         access_row db token = Some row ->
         refresh_row db other = Some row ->
         OAuthToken.validateRefreshToken now' other db' = None)
  /\ (forall row other now',
         access_row db token = None ->
         OAuthToken.validateRefreshToken (now env) token db <> None ->
         refresh_row db token = Some row ->
         access_row db other = Some row ->
         fst (OAuthToken.validate now' other db') = None).
Proof.
  intros db'. unfold db', revoke_by_plaintext.
  destruct (fst (OAuthToken.validate (now env) token db)) as [d|] eqn:Hv.
  - destruct (validate_accepted_row _ _ _ _ Hv) as (row & Hrow & -> & _ & _ & Hval).
    rewrite Hval. simpl. repeat apply conj; try reflexivity.
    + intros now' _. rewrite validate_after_revoke, access_row_touch, Hrow. simpl.
      destruct (String.eqb (TokenRow.id row) (TokenRow.id row)) eqn:He; simpl;
        [now rewrite He | now rewrite String.eqb_refl in He].
    + intros Hnone. congruence.
    + intros row' other now' _ Hrow' Hother.
      assert (row' = row) by congruence. subst row'.
      rewrite validateRefreshToken_after_revoke, refresh_row_touch, Hother. simpl.
      rewrite String.eqb_refl. simpl. now rewrite String.eqb_refl.
    + intros row' other now' Hnone. congruence.
  - rewrite (validate_rejected_db _ _ _ Hv).
    destruct (OAuthToken.validateRefreshToken (now env) token db) as [d|] eqn:Hr.
    + destruct (validateRefreshToken_row _ _ _ _ Hr) as (row & Hrow & -> & _).
      simpl. repeat apply conj; try reflexivity.
      * intros now' Hnow. rewrite validate_after_revoke.
        destruct (access_row db token) as [r|]; [| reflexivity].
        destruct (String.eqb (TokenRow.id r) (TokenRow.id row)); [reflexivity |].
        now apply validate_rejects_later with (now_ := now env).
      * intros _ now' _. rewrite validateRefreshToken_after_revoke, Hrow.
        now rewrite String.eqb_refl.
      * intros row' other now' Hacc. discriminate.
      * intros row' other now' _ _ Hrow' Hother.
        assert (row' = row) by congruence. subst row'.
        rewrite validate_after_revoke, Hother. now rewrite String.eqb_refl.
    + simpl. repeat apply conj; try reflexivity.
      * intros now' Hnow. now apply validate_rejects_later with (now_ := now env).
      * intros _ now' Hnow. now apply validateRefreshToken_rejects_later with (now_ := now env).
      * intros row' other now' Hacc. discriminate.
      * intros row' other now' _ Hne. now destruct Hne.
Qed.

(** X14. A POST /revoke that is answered 200 leaves the presented string
    unusable as an access token from then on, and as a refresh token too
    when it is not an access token; only the token table is written.
    Revocation is per row, so the pair dies together: revoking by access
    token invalidates the refresh token issued with it, and revoking by
    refresh token invalidates the paired access token. *)
Theorem revokeHandler_kills_pair (env : Env) (body : Params) (db : Db) :
  truthy (body !! "token") = true ->
  client_auth_fails db (body !! "client_id") (body !! "client_secret") = false ->
  let token := str (body !! "token") in
  let db' := snd (revokeHandler env body db) in
  clients db' = clients db
  /\ auth_codes db' = auth_codes db
  /\ (forall now', now env <= now' -> fst (OAuthToken.validate now' token db') = None)
  /\ (access_row db token = None ->
      forall now', now env <= now' -> OAuthToken.validateRefreshToken now' token db' = None)
  /\ (forall row other now',
         fst (OAuthToken.validate (now env) token db) = Some (OAuthToken.hydrate row) ->
         access_row db token = Some row ->
         refresh_row db other = Some row ->
         OAuthToken.validateRefreshToken now' other db' = None)
  /\ (forall row other now',
         access_row db token = None ->
         OAuthToken.validateRefreshToken (now env) token db <> None ->
         refresh_row db token = Some row ->
         access_row db other = Some row ->
         fst (OAuthToken.validate now' other db') = None).
Proof.
  intros Htok Hauth token db'. unfold db'.
  rewrite (revokeHandler_authenticated env body db Htok Hauth).
  apply revoke_by_plaintext_dead.
Qed.

Lemma revokeHandler_kills_pair_witness :
  let db' := snd (revokeHandler sample_env (<["token" := "rt-1"]> ∅) sample_db) in
  fst (OAuthToken.validate 3000 "at-1" sample_db) = Some (OAuthToken.hydrate sample_token)
  /\ fst (OAuthToken.validate 3000 "at-1" db') = None.
Proof.
  intros db'.
  assert (Htok : truthy ((<["token" := "rt-1"]> ∅ : Params) !! "token") = true)
    by (vm_compute; reflexivity).
  assert (Hauth : client_auth_fails sample_db
                    ((<["token" := "rt-1"]> ∅ : Params) !! "client_id")
                    ((<["token" := "rt-1"]> ∅ : Params) !! "client_secret") = false)
    by (vm_compute; reflexivity).
  destruct (revokeHandler_kills_pair sample_env (<["token" := "rt-1"]> ∅) sample_db Htok Hauth)
    as (_ & _ & _ & _ & _ & Hpair).
  split; [vm_compute; reflexivity |].
  apply (Hpair sample_token "at-1" 3000); try (vm_compute; reflexivity).
  vm_compute. discriminate.
Defined.

Lemma introspectHandler_cases (env : Env) (body : Params) (db : Db) :
  truthy (body !! "token") = true ->
  introspectHandler env body db
  = if client_auth_fails db (body !! "client_id") (body !! "client_secret")
    then (RJson (toJSON (InvalidClientError client_auth_failed)) 401, db)
    else introspect_by_plaintext env (str (body !! "token")) db.
Proof.
  intros Htok. unfold introspectHandler, client_auth_fails. rewrite Htok. simpl negb.
  cbv iota. fold (introspect_by_plaintext env (str (body !! "token")) db).
  destruct (truthy (body !! "client_id")); [| reflexivity]. simpl.
  destruct (OAuthClient.find db (str (body !! "client_id"))) as [client|]; [| reflexivity].
  destruct (OAuthClientData.revoked client); [reflexivity |]. simpl.
  destruct (OAuthClientData.confidential client && truthy (body !! "client_secret"));
    [| reflexivity].
  simpl. now destruct (OAuthClient.verifySecret db client (str (body !! "client_secret"))).
Qed.

(** X15. POST /introspect authenticates the client by the rule of
    /revoke (401 and nothing else on failure) and otherwise answers 200 with
    [active] true exactly when [OAuthToken.validate] accepts the string as an
    access token; a string that is not a valid access token, a valid
    refresh token included, gets the bare [{active: false}]. The only write
    is the [last_used_at] update of [validate]. After a POST /revoke of a
    token answered 200, introspection of it is inactive from then on. *)
Theorem introspect_spec (env : Env) (body : Params) (db : Db) :
  truthy (body !! "token") = true ->
  let token := str (body !! "token") in
  let result := introspectHandler env body db in
  let accepted := fst (OAuthToken.validate (now env) token db) in
  (client_auth_fails db (body !! "client_id") (body !! "client_secret") = true ->
   result = (RJson (toJSON (InvalidClientError client_auth_failed)) 401, db))
  /\ (client_auth_fails db (body !! "client_id") (body !! "client_secret") = false ->
      snd result = snd (OAuthToken.validate (now env) token db)
      /\ (accepted = None -> fst result = RJson (JObj [("active", JBool false)]) 200)
      /\ exists payload,
           fst result = RJson payload 200
           /\ payload_active payload = Some (match accepted with Some _ => true | None => false end)
           /\ forall d, accepted = Some d ->
                        introspection_scope payload = Some (join " " (OAuthTokenData.scopes d)))
  /\ (forall env0 body0 db0,
         truthy (body0 !! "token") = true ->
         client_auth_fails db0 (body0 !! "client_id") (body0 !! "client_secret") = false ->
         body0 !! "token" = body !! "token" ->
         db = snd (revokeHandler env0 body0 db0) ->
         now env0 <= now env ->
         client_auth_fails db (body !! "client_id") (body !! "client_secret") = false ->
         result = (RJson (JObj [("active", JBool false)]) 200, db)).
Proof.
  intros Htok token result accepted. unfold result.
  rewrite (introspectHandler_cases env body db Htok). fold token.
  assert (Hplain : forall db1,
             fst (OAuthToken.validate (now env) token db1) = None ->
             introspect_by_plaintext env token db1
             = (RJson (JObj [("active", JBool false)]) 200, db1)).
  { intros db1 Hnone. unfold introspect_by_plaintext.
    now rewrite (validate_rejected_db _ _ _ Hnone). }
  repeat apply conj.
  - now intros ->.
  - intros ->. unfold introspect_by_plaintext, accepted.
    destruct (OAuthToken.validate (now env) token db) as [[d|] db1]; simpl.
    + repeat apply conj; [reflexivity | discriminate |].
      eexists. split; [reflexivity |]. split; [reflexivity |]. now intros d' [= <-].
    + repeat apply conj; [reflexivity | reflexivity |].
      eexists. split; [reflexivity |]. split; [reflexivity |]. discriminate.
  - intros env0 body0 db0 Htok0 Hauth0 Hsame Hdb Hnow ->.
    apply Hplain. subst db.
    destruct (revokeHandler_authenticated env0 body0 db0 Htok0 Hauth0).
    rewrite (revokeHandler_authenticated env0 body0 db0 Htok0 Hauth0).
    destruct (revoke_by_plaintext_dead env0 (str (body0 !! "token")) db0) as (_ & _ & Hdead & _).
    unfold token. rewrite <- Hsame. now apply Hdead.
Qed.

Lemma introspect_spec_witness :
  let body : Params := <["token" := "rt-1"]> ∅ in
  OAuthToken.validateRefreshToken 3000 "rt-1" sample_db <> None
  /\ fst (introspectHandler sample_env body sample_db) = RJson (JObj [("active", JBool false)]) 200.
Proof.
  intros body.
  assert (Htok : truthy (body !! "token") = true) by (vm_compute; reflexivity).
  destruct (introspect_spec sample_env body sample_db Htok) as (_ & Hok & _).
  split; [vm_compute; discriminate |].
  destruct (Hok ltac:(vm_compute; reflexivity)) as (_ & Hinactive & _).
  apply Hinactive. vm_compute. reflexivity.
Defined.

(** ** The middleware *)

Lemma bearer_prefix (h : string) :
  String.prefix "Bearer " h = true -> h = "Bearer " +:+ slice 7 h.
Proof.
  intros H.
  do 7 (destruct h as [|? h]; [discriminate |]; cbn [String.prefix] in H;
        match type of H with
        | context [Ascii.ascii_dec ?a ?b] =>
            destruct (Ascii.ascii_dec a b) as [<- |]; [| discriminate]
        end).
  reflexivity.
Qed.

Lemma validate_reads_tokens (now_ : Z) (plain : string) (db db2 : Db) :
  tokens db2 = tokens db ->
  fst (OAuthToken.validate now_ plain db2) = fst (OAuthToken.validate now_ plain db).
Proof.
  intros Ht. rewrite !validate_unfold. unfold access_row. rewrite Ht.
  destruct (List.find _ (tokens db)) as [row|]; [| reflexivity].
  destruct (is_set (TokenRow.revoked_at row)); [reflexivity |].
  destruct (TokenRow.expires_at row <? now_); reflexivity.
Qed.

Lemma validate_writes_tokens (now_ : Z) (plain : string) (db : Db) :
  clients (snd (OAuthToken.validate now_ plain db)) = clients db
  /\ auth_codes (snd (OAuthToken.validate now_ plain db)) = auth_codes db.
Proof.
  rewrite validate_unfold.
  destruct (access_row db plain) as [row|]; [| split; reflexivity].
  destruct (is_set (TokenRow.revoked_at row)); [split; reflexivity |].
  destruct (TokenRow.expires_at row <? now_); split; reflexivity.
Qed.

(** X16. The Bearer guard lets a request through only when the
    Authorization header is ["Bearer "] followed by a string that
    [OAuthToken.validate] accepts at that moment, and then attaches exactly
    the validated record; a user-bound token also needs its owner to be
    found, a token without user keeps the user already on the context. Every
    refusal is a 401, and the guard writes to the token table only. The
    client of the token is not consulted: after [OAuthClient.revoke] of any
    client the guard lets through exactly the same requests. *)
Theorem bearer_guard_spec {User : Type} (findById : string -> option User) (env : Env)
    (header : option string) (bag : Bag User) (db : Db) :
  let result := oauth findById env header bag db in
  (forall bag',
      fst result = Next bag' ->
      exists plain d,
        header = Some ("Bearer " +:+ plain)
        /\ OAuthToken.validate (now env) plain db = (Some d, snd result)
        /\ bag_oauth_token bag' = Some d
        /\ (truthy (OAuthTokenData.userId d) = true ->
            bag_user bag' = findById (str (OAuthTokenData.userId d)) /\ bag_user bag' <> None)
        /\ (truthy (OAuthTokenData.userId d) = false -> bag_user bag' = bag_user bag))
  /\ (forall r, fst result = Halt r -> exists payload, r = RJson payload 401)
  /\ clients (snd result) = clients db
  /\ auth_codes (snd result) = auth_codes db
  /\ (forall t id,
         (exists bag', fst (oauth findById env header bag (OAuthClient.revoke t id db)) = Next bag')
         <-> exists bag', fst result = Next bag').
Proof.
  intros result.
  assert (Hshape : forall db0,
             fst (oauth findById env header bag db0)
             = if negb (truthy header) || negb (String.prefix "Bearer " (str header))
               then Halt (RJson (JObj [("error", JStr "unauthenticated");
                                       ("error_description", JStr "Bearer token required.")])
                            401)
               else match fst (OAuthToken.validate (now env) (slice 7 (str header)) db0) with
                    | None =>
                        Halt (RJson (JObj [("error", JStr "invalid_token");
                                           ("error_description",
                                            JStr "The access token is invalid or expired.")]) 401)
                    | Some d =>
                        if truthy (OAuthTokenData.userId d) then
                          match findById (str (OAuthTokenData.userId d)) with
                          | None =>
                              Halt (RJson (JObj [("error", JStr "invalid_token");
                                                 ("error_description",
                                                  JStr "The token owner no longer exists.")]) 401)
                          | Some user =>
                              Next {| bag_user := Some user;
                                      bag_oauth_token := Some d;
                                      bag_oauth_client :=
                                        match OAuthClient.find
                                                (snd (OAuthToken.validate (now env)
                                                        (slice 7 (str header)) db0))
                                                (OAuthTokenData.clientId d) with
                                        | Some client => Some client
                                        | None => bag_oauth_client bag
                                        end |}
                          end
                        else
                          Next {| bag_user := bag_user bag;
                                  bag_oauth_token := Some d;
                                  bag_oauth_client :=
                                    match OAuthClient.find
                                            (snd (OAuthToken.validate (now env)
                                                    (slice 7 (str header)) db0))
                                            (OAuthTokenData.clientId d) with
                                    | Some client => Some client
                                    | None => bag_oauth_client bag
                                    end |}
                    end).
  { intros db0. unfold oauth.
    destruct (negb (truthy header) || negb (String.prefix "Bearer " (str header)));
      [reflexivity |].
    destruct (OAuthToken.validate (now env) (slice 7 (str header)) db0) as [[d|] db1];
      [| reflexivity].
    simpl. destruct (truthy (OAuthTokenData.userId d)); [| reflexivity].
    now destruct (findById (str (OAuthTokenData.userId d))). }
  assert (Hsnd : snd result
                 = if negb (truthy header) || negb (String.prefix "Bearer " (str header))
                   then db
                   else snd (OAuthToken.validate (now env) (slice 7 (str header)) db)).
  { unfold result, oauth.
    destruct (negb (truthy header) || negb (String.prefix "Bearer " (str header)));
      [reflexivity |].
    destruct (OAuthToken.validate (now env) (slice 7 (str header)) db) as [[d|] db1];
      [| reflexivity].
    simpl. destruct (truthy (OAuthTokenData.userId d)); [| reflexivity].
    now destruct (findById (str (OAuthTokenData.userId d))). }
  assert (Hdb : snd result = db
                \/ snd result = snd (OAuthToken.validate (now env) (slice 7 (str header)) db)).
  { rewrite Hsnd.
    destruct (negb (truthy header) || negb (String.prefix "Bearer " (str header))); auto. }
  repeat apply conj.
  - intros bag' Hnext. unfold result in Hnext. rewrite Hshape in Hnext.
    rewrite Hsnd.
    destruct (negb (truthy header) || negb (String.prefix "Bearer " (str header))) eqn:Hh;
      [discriminate |].
    apply orb_false_iff in Hh as [Ht Hp]. apply negb_false_iff in Ht, Hp.
    destruct (fst (OAuthToken.validate (now env) (slice 7 (str header)) db)) as [d|] eqn:Hv;
      [| discriminate].
    exists (slice 7 (str header)), d.
    split; [rewrite <- (bearer_prefix _ Hp); now apply truthy_str |].
    split; [rewrite <- Hv; now destruct (OAuthToken.validate _ _ db) |].
    destruct (truthy (OAuthTokenData.userId d)) eqn:Hu.
    + destruct (findById (str (OAuthTokenData.userId d))) as [user|] eqn:Hfind;
        [| discriminate].
      injection Hnext as <-. simpl. repeat split; try discriminate.
    + injection Hnext as <-. simpl. repeat split; discriminate.
  - intros r Hhalt. unfold result in Hhalt. rewrite Hshape in Hhalt.
    destruct (negb (truthy header) || negb (String.prefix "Bearer " (str header)));
      [injection Hhalt as <-; eauto |].
    destruct (fst (OAuthToken.validate (now env) (slice 7 (str header)) db)) as [d|];
      [| injection Hhalt as <-; eauto].
    destruct (truthy (OAuthTokenData.userId d)); [| discriminate].
    destruct (findById (str (OAuthTokenData.userId d))); [discriminate |].
    injection Hhalt as <-; eauto.
  - destruct Hdb as [-> | ->]; [reflexivity | apply validate_writes_tokens].
  - destruct Hdb as [-> | ->]; [reflexivity | apply validate_writes_tokens].
  - intros t id. unfold result. rewrite !Hshape.
    rewrite (validate_reads_tokens (now env) (slice 7 (str header)) db
               (OAuthClient.revoke t id db) eq_refl).
    destruct (negb (truthy header) || negb (String.prefix "Bearer " (str header)));
      [reflexivity |].
    destruct (fst (OAuthToken.validate (now env) (slice 7 (str header)) db)) as [d|];
      [| reflexivity].
    destruct (truthy (OAuthTokenData.userId d)); [| split; eauto].
    destruct (findById (str (OAuthTokenData.userId d))); [split; eauto | reflexivity].
Qed.

Lemma bearer_guard_spec_witness :
  let bag : Bag string := {| bag_user := None; bag_oauth_token := None;
                             bag_oauth_client := None |} in
  exists bag',
    fst (oauth (fun id => Some id) sample_env (Some "Bearer at-1") bag
           (OAuthClient.revoke 2000 "app" sample_db)) = Next bag'.
Proof.
  intros bag.
  destruct (bearer_guard_spec (fun id => Some id) sample_env (Some "Bearer at-1") bag sample_db)
    as (_ & _ & _ & _ & Hrevoked).
  apply Hrevoked. eexists. vm_compute. reflexivity.
Defined.

(** X17. The scope middleware calls [next()] exactly when a token is on
    the context and carries every required scope, and then leaves the
    context as it is; without a token it answers 401, with a token that
    lacks a scope 403. Asking for fewer scopes never turns an accepted
    request into a refused one, and neither does a token with more scopes. *)
Theorem scopes_guard_spec {User : Type} (required : list string) (bag : Bag User) :
  (scopes required bag = Next bag
   <-> exists token,
         bag_oauth_token bag = Some token
         /\ forall s, In s required -> In s (OAuthTokenData.scopes token))
  /\ (forall bag', scopes required bag = Next bag' -> bag' = bag)
  /\ (forall r,
         scopes required bag = Halt r ->
         exists payload status,
           r = RJson payload status
           /\ (bag_oauth_token bag = None -> status = 401)
           /\ (bag_oauth_token bag <> None -> status = 403))
  /\ (forall fewer,
         (forall s, In s fewer -> In s required) ->
         scopes required bag = Next bag -> scopes fewer bag = Next bag)
  /\ (forall token token' (bag2 : Bag User),
         bag_oauth_token bag = Some token ->
         bag_oauth_token bag2 = Some token' ->
         (forall s, In s (OAuthTokenData.scopes token) -> In s (OAuthTokenData.scopes token')) ->
         scopes required bag = Next bag -> scopes required bag2 = Next bag2).
Proof.
  assert (Hiff : forall (req : list string) (b : Bag User),
             scopes req b = Next b
             <-> exists token,
                   bag_oauth_token b = Some token
                   /\ forall s, In s req -> In s (OAuthTokenData.scopes token)).
  { intros req b. unfold scopes. destruct (bag_oauth_token b) as [token|].
    - set (missing := List.filter (fun s => negb (includes (OAuthTokenData.scopes token) s)) req).
      destruct missing as [|m rest] eqn:Hm; simpl.
      + split; [| reflexivity]. intros _. exists token. split; [reflexivity |].
        intros s Hs. apply includes_In.
        destruct (includes (OAuthTokenData.scopes token) s) eqn:Hi; [reflexivity |].
        assert (In s missing) by (apply filter_In; split; [exact Hs | now rewrite Hi]).
        rewrite Hm in H. contradiction.
      + split; [discriminate |]. intros (token' & [= <-] & Hall).
        assert (Hin : In m missing) by (rewrite Hm; now left).
        apply filter_In in Hin as [Hreq Hmiss]. apply negb_true_iff, includes_false in Hmiss.
        now destruct (Hmiss (Hall m Hreq)).
    - split; [discriminate |]. intros (token & Hnone & _). discriminate. }
  repeat apply conj.
  - apply Hiff.
  - apply Hiff.
  - intros bag'. unfold scopes. destruct (bag_oauth_token bag) as [token|]; [| discriminate].
    destruct (0 <? length _)%nat; [discriminate |]. now intros [= <-].
  - intros r. unfold scopes. destruct (bag_oauth_token bag) as [token|].
    + destruct (0 <? length _)%nat; [| discriminate]. intros [= <-].
      eexists _, _. split; [reflexivity |]. split; [discriminate | reflexivity].
    + intros [= <-]. eexists _, _. split; [reflexivity |]. split; [reflexivity | congruence].
  - intros fewer Hsub Hok. apply Hiff. apply Hiff in Hok as (token & Htok & Hall).
    exists token. split; [exact Htok |]. auto.
  - intros token token' bag2 Htok Htok' Hsub Hok. apply Hiff.
    apply Hiff in Hok as (token0 & Htok0 & Hall).
    assert (token0 = token) by congruence. subst token0.
    exists token'. split; [exact Htok' |]. auto.
Qed.

Lemma scopes_guard_spec_witness :
  let bag : Bag string := {| bag_user := None;
                             bag_oauth_token := Some (OAuthToken.hydrate sample_token);
                             bag_oauth_client := None |} in
  scopes ["read"] bag = Next bag /\ scopes [] bag = Next bag.
Proof.
  intros bag.
  destruct (scopes_guard_spec ["read"] bag) as (Hiff & _ & _ & Hfewer & _).
  assert (Hok : scopes ["read"] bag = Next bag).
  { apply Hiff. eexists. split; [reflexivity |]. intros s [<- | []]. now left. }
  split; [exact Hok |]. apply Hfewer; [intros s [] | exact Hok].
Defined.

(** ** POST /token *)

Lemma validate_error_status (reg : ScopeRegistry.t) (requested : list string)
    (clientAllowed : option (list string)) (defaults : list string) (err : OAuth2Error) :
  ScopeRegistry.validate reg requested clientAllowed defaults = inl err ->
  statusCode err = 400.
Proof.
  unfold ScopeRegistry.validate.
  destruct (length _ =? 0)%nat; [discriminate |].
  destruct (List.find _ _); [now intros [= <-] |].
  destruct clientAllowed as [allowed|]; [| discriminate].
  destruct (List.find _ _); [now intros [= <-] | discriminate].
Qed.

Lemma consume_rejected_db (now_ : Z) (plain clientId redirectUri : string)
    (verifier : option string) (db db1 : Db) :
  AuthCode.consume now_ plain clientId redirectUri verifier db = (None, db1) -> db1 = db.
Proof.
  rewrite consume_unfold.
  destruct (AuthCode.lookup db (AuthCode.hashCode plain) clientId) as [row|];
    [| now intros [= <-]].
  destruct (consume_accepts now_ redirectUri verifier row); [discriminate | now intros [= <-]].
Qed.

Lemma verifySecret_same_clients (db db' : Db) (client : OAuthClientData.t) (secret : string) :
  clients db' = clients db ->
  OAuthClient.verifySecret db' client secret = OAuthClient.verifySecret db client secret.
Proof. intros H. unfold OAuthClient.verifySecret. now rewrite H. Qed.

Lemma find_same_clients (db db' : Db) (id : string) :
  clients db' = clients db -> OAuthClient.find db' id = OAuthClient.find db id.
Proof. intros H. unfold OAuthClient.find. now rewrite H. Qed.

Ltac refuse ctor := left; eexists (ctor _); split; [reflexivity | simpl; auto].

(** The authorization-code grant: an error that leaves the database
    alone, or a consumed code followed by the INSERT of the token. *)
Lemma handleAuthorizationCode_shape (env : Env) (config : OAuth2Config) (body : Params)
    (db : Db) :
  (exists e,
      handleAuthorizationCode env config body db = (Respond (errorResponse e), db)
      /\ (statusCode e = 400 \/ statusCode e = 401))
  \/ exists client row,
       OAuthClient.find db (str (body !! "client_id")) = Some client
       /\ OAuthClientData.revoked client = false
       /\ (OAuthClientData.confidential client = true ->
           OAuthClient.verifySecret db client (str (body !! "client_secret")) = true)
       /\ AuthCode.lookup db (AuthCode.hashCode (str (body !! "code"))) (str (body !! "client_id"))
          = Some row
       /\ consume_accepts (now env) (str (body !! "redirect_uri")) (body !! "code_verifier") row
          = true
       /\ handleAuthorizationCode env config body db
          = let db1 := AuthCode.mark_used (now env) (AuthCodeRow.id row) db in
            match OAuthToken.create env config
                    {| OAuthToken.userId := Some (AuthCodeRow.user_id row);
                       OAuthToken.clientId := str (body !! "client_id");
                       OAuthToken.scopes := AuthCodeRow.scopes row;
                       OAuthToken.name := None;
                       OAuthToken.includeRefreshToken :=
                         Some (grants (OAuthClientData.grantTypes client) refresh_token);
                       OAuthToken.accessTokenLifetime_ := None;
                       OAuthToken.refreshTokenLifetime_ := None |} db1 with
            | None => (Raise insert_failed, db1)
            | Some (created, db2) =>
                (Respond (tokenResponse env (OAuthToken.accessToken created)
                            (OAuthToken.refreshToken created)
                            (OAuthTokenData.scopes (OAuthToken.tokenData created))
                            (OAuthTokenData.expiresAt (OAuthToken.tokenData created))),
                 db2)
            end.
Proof.
  unfold handleAuthorizationCode.
  destruct (negb (truthy (body !! "code")) || negb (truthy (body !! "redirect_uri"))
            || negb (truthy (body !! "client_id")));
    [refuse InvalidRequestError |].
  destruct (OAuthClient.find db (str (body !! "client_id"))) as [client|] eqn:Hfind;
    [| refuse InvalidClientError].
  destruct (OAuthClientData.revoked client) eqn:Hrev; [refuse InvalidClientError |].
  destruct (OAuthClientData.confidential client && negb (truthy (body !! "client_secret")))
    eqn:Hsecret; [refuse InvalidClientError |].
  destruct (OAuthClientData.confidential client
            && negb (OAuthClient.verifySecret db client (str (body !! "client_secret"))))
    eqn:Hverify; [refuse InvalidClientError |].
  rewrite consume_unfold.
  destruct (AuthCode.lookup db (AuthCode.hashCode (str (body !! "code")))
              (str (body !! "client_id"))) as [row|] eqn:Hrow;
    [| refuse InvalidGrantError].
  destruct (consume_accepts (now env) (str (body !! "redirect_uri")) (body !! "code_verifier")
              row) eqn:Hacc; [| refuse InvalidGrantError].
  right. exists client, row. repeat apply conj; try reflexivity; try assumption.
  intros Hconf. rewrite Hconf in Hverify. simpl in Hverify.
  now apply negb_false_iff in Hverify.
Qed.

(** The client-credentials grant: an error that leaves the database
    alone, or the INSERT of a token for validated scopes. *)
Lemma handleClientCredentials_shape (env : Env) (config : OAuth2Config)
    (reg : ScopeRegistry.t) (body : Params) (db : Db) :
  (exists e,
      handleClientCredentials env config reg body db = (Respond (errorResponse e), db)
      /\ (statusCode e = 400 \/ statusCode e = 401))
  \/ exists client granted,
       OAuthClient.find db (str (body !! "client_id")) = Some client
       /\ OAuthClientData.revoked client = false
       /\ OAuthClientData.confidential client = true
       /\ grants (OAuthClientData.grantTypes client) client_credentials = true
       /\ truthy (body !! "client_secret") = true
       /\ OAuthClient.verifySecret db client (str (body !! "client_secret")) = true
       /\ ScopeRegistry.validate reg
            (if truthy (body !! "scope") then split_scopes (str (body !! "scope")) else [])
            (OAuthClientData.scopes client) (defaultScopes config) = inr granted
       /\ handleClientCredentials env config reg body db
          = match OAuthToken.create env config
                    {| OAuthToken.userId := None;
                       OAuthToken.clientId := str (body !! "client_id");
                       OAuthToken.scopes := granted;
                       OAuthToken.name := None;
                       OAuthToken.includeRefreshToken := Some false;
                       OAuthToken.accessTokenLifetime_ := None;
                       OAuthToken.refreshTokenLifetime_ := None |} db with
            | None => (Raise insert_failed, db)
            | Some (created, db1) =>
                (Respond (tokenResponse env (OAuthToken.accessToken created) None
                            (OAuthTokenData.scopes (OAuthToken.tokenData created))
                            (OAuthTokenData.expiresAt (OAuthToken.tokenData created))),
                 db1)
            end.
Proof.
  unfold handleClientCredentials.
  destruct (negb (truthy (body !! "client_id")) || negb (truthy (body !! "client_secret")))
    eqn:Hreq; [refuse InvalidRequestError |].
  apply orb_false_iff in Hreq as [_ Hsecret]. apply negb_false_iff in Hsecret.
  destruct (OAuthClient.find db (str (body !! "client_id"))) as [client|] eqn:Hfind;
    [| refuse InvalidClientError].
  destruct (OAuthClientData.revoked client) eqn:Hrev; [refuse InvalidClientError |].
  destruct (OAuthClientData.confidential client) eqn:Hconf; simpl;
    [| refuse InvalidClientError].
  destruct (grants (OAuthClientData.grantTypes client) client_credentials) eqn:Hgrant; simpl;
    [| refuse InvalidGrantError].
  destruct (OAuthClient.verifySecret db client (str (body !! "client_secret"))) eqn:Hverify;
    simpl; [| refuse InvalidClientError].
  destruct (ScopeRegistry.validate reg _ (OAuthClientData.scopes client) (defaultScopes config))
    as [err | granted] eqn:Hval.
  - left. exists err. split; [reflexivity |]. left.
    exact (validate_error_status _ _ _ _ _ Hval).
  - right. exists client, granted. repeat apply conj; try reflexivity; assumption.
Qed.

(** The response and the table after a successful INSERT by a grant
    handler, none of which overrides the configured lifetimes. The clock is
    read again for [expires_in]. *)
Lemma issued_response (env : Env) (config : OAuth2Config) (params : OAuthToken.CreateParams)
    (db1 db2 : Db) (created : OAuthToken.Created) (shown : option string) :
  OAuthToken.create env config params db1 = Some (created, db2) ->
  OAuthToken.accessTokenLifetime_ params = None ->
  (shown = OAuthToken.refreshToken created \/ shown = None) ->
  let row := new_token_row env config params in
  tokens db2 = tokens db1 ++ [row]
  /\ clients db2 = clients db1
  /\ auth_codes db2 = auth_codes db1
  /\ exists extra,
       tokenResponse env (OAuthToken.accessToken created) shown
         (OAuthTokenData.scopes (OAuthToken.tokenData created))
         (OAuthTokenData.expiresAt (OAuthToken.tokenData created))
       = RJson (JObj ([("access_token", JStr (hex1 env));
                       ("token_type", JStr "Bearer");
                       ("expires_in",
                        JNum ((now env + accessTokenLifetime config * 60000 - now_reply env)
                              / 1000));
                       ("scope", JStr (join " " (OAuthToken.scopes params)))] ++ extra)) 200
       /\ (TokenRow.refresh_token row = None -> extra = [])
       /\ (extra = [] \/ extra = [("refresh_token", JStr (hex2 env))]).
Proof.
  intros Hc Hlife Hshown row. apply token_create_row in Hc as (-> & -> & _).
  repeat apply conj; try reflexivity.
  unfold tokenResponse. simpl. rewrite Hlife. simpl.
  eexists. split; [reflexivity |]. fold row.
  destruct Hshown as [-> | ->]; simpl.
  - destruct (wants_refresh params); simpl.
    + destruct (negb (String.eqb (hex2 env) EmptyString)); simpl; split; auto; discriminate.
    + split; auto.
  - split; auto.
Qed.

(** ** When the INSERT of a token succeeds *)

Lemma find_has_client (db : Db) (id : string) (c : OAuthClientData.t) :
  OAuthClient.find db id = Some c -> has_client db id = true.
Proof.
  unfold OAuthClient.find, has_client.
  induction (clients db) as [|r l IH]; simpl; [discriminate |].
  destruct (String.eqb (ClientRow.id r) id); simpl; [reflexivity | exact IH].
Qed.

Lemma existsb_refresh_is_false (h : string) (l : list TokenRow.t) :
  ~ In h (refresh_hashes l) -> existsb (OAuthToken.refresh_is h) l = false.
Proof.
  intros Hn. apply not_true_iff_false. intros Hex. apply Hn.
  apply existsb_exists in Hex as (t & Ht & Hh). apply refresh_hashes_In.
  exists t. split; [exact Ht | now apply strict_eq_true].
Qed.

(** [OAuthToken.create] succeeds when its INSERT violates no constraint,
    and then appends the row [new_token_row]. *)
Lemma token_create_succeeds (env : Env) (config : OAuth2Config)
    (params : OAuthToken.CreateParams) (db : Db) :
  token_insertable env db ->
  has_client db (OAuthToken.clientId params) = true ->
  OAuthToken.create env config params db
  = Some ({| OAuthToken.accessToken := hex1 env;
             OAuthToken.refreshToken :=
               if wants_refresh params then Some (hex2 env) else None;
             OAuthToken.tokenData := OAuthToken.hydrate (new_token_row env config params) |},
          with_tokens db (tokens db ++ [new_token_row env config params])).
Proof.
  intros (Hid & Htok & Href) Hfk.
  unfold OAuthToken.create. fold (wants_refresh params).
  change {| TokenRow.id := uuid env;
            TokenRow.user_id := OAuthToken.userId params;
            TokenRow.client_id := OAuthToken.clientId params;
            TokenRow.name := OAuthToken.name params;
            TokenRow.scopes := OAuthToken.scopes params;
            TokenRow.token := OAuthToken.hashToken (hex1 env);
            TokenRow.refresh_token :=
              if wants_refresh params then Some (OAuthToken.hashToken (hex2 env)) else None;
            TokenRow.expires_at :=
              now env + default (accessTokenLifetime config)
                          (OAuthToken.accessTokenLifetime_ params) * 60000;
            TokenRow.refresh_expires_at :=
              if wants_refresh params
              then Some (now env
                         + default (refreshTokenLifetime config)
                             (OAuthToken.refreshTokenLifetime_ params) * 60000)
              else None;
            TokenRow.last_used_at := None;
            TokenRow.revoked_at := None;
            TokenRow.created_at := now env |}
    with (new_token_row env config params).
  unfold OAuthToken.insert.
  apply (existsb_eqb_false TokenRow.id) in Hid.
  apply (existsb_eqb_false TokenRow.token) in Htok.
  apply existsb_refresh_is_false in Href.
  simpl TokenRow.id. simpl TokenRow.token. simpl TokenRow.client_id.
  simpl TokenRow.refresh_token.
  rewrite Hid, Htok, Hfk. simpl.
  destruct (wants_refresh params); [rewrite Href |]; reflexivity.
Qed.

Lemma token_insertable_revoke (env : Env) (t : Z) (id : string) (db : Db) :
  token_insertable env db -> token_insertable env (OAuthToken.revoke t id db).
Proof.
  unfold token_insertable. rewrite revoke_tokens, !map_map.
  rewrite refresh_hashes_mapped
    by (intros r; now destruct (String.eqb (TokenRow.id r) id)).
  rewrite (map_ext (fun x => TokenRow.id (if String.eqb (TokenRow.id x) id
                                          then OAuthToken.set_revoked_at t x else x))
             TokenRow.id)
    by (intros r; now destruct (String.eqb (TokenRow.id r) id)).
  rewrite (map_ext (fun x => TokenRow.token (if String.eqb (TokenRow.id x) id
                                             then OAuthToken.set_revoked_at t x else x))
             TokenRow.token)
    by (intros r; now destruct (String.eqb (TokenRow.id r) id)).
  trivial.
Qed.

Lemma refresh_admitted_has_client (db : Db) (body : Params) :
  refresh_client_admitted db body = true ->
  has_client db (str (body !! "client_id")) = true.
Proof.
  unfold refresh_client_admitted.
  destruct (OAuthClient.find db (str (body !! "client_id"))) as [c|] eqn:Hfind.
  - intros _. exact (find_has_client _ _ _ Hfind).
  - rewrite andb_false_r. discriminate.
Qed.

(** C6. For a refresh request that reaches the scope step with old token
    [old] (the value the handler binds once the client is admitted and the
    refresh token validates for that client): the widening names are exactly
    the requested names that [old] does not carry, in request order; if a
    scope parameter is supplied and any name widens, the answer is
    invalid_request (400) whose description lists those names joined by
    ", ", and the database is unchanged, so no token is issued. Every
    successful answer (200) of the handler comes from such a request and
    with exactly one new token row, whose scopes are the requested ones when
    a scope parameter is supplied (all of them members of the old scopes)
    and the old scopes when it is omitted, hence always a subset of the
    scopes of the consumed token's row; the response echoes them. And the
    handler does issue: when no supplied name widens and the INSERT of the
    new token violates no constraint, the answer is 200, the old row is
    revoked and one row is appended that carries the requested scopes, or
    the old scopes when the parameter is omitted. *)
Theorem refresh_scopes_never_widen
    (env : Env) (config : OAuth2Config) (body : Params) (db : Db) :
  let requested := split_scopes (str (body !! "scope")) in
  let result := handleRefreshToken env config body db in
  (forall old,
      refresh_old_token env body db = Some old ->
      let widened := widened_scopes (OAuthTokenData.scopes old) requested in
      (forall name,
          In name widened <-> In name requested /\ ~ In name (OAuthTokenData.scopes old))
      /\ (truthy (body !! "scope") = true -> widened <> [] ->
          result
          = (Respond (RJson (toJSON (InvalidRequestError
                                       ("Cannot widen scopes on refresh. Unknown scopes: "
                                        +:+ join ", " widened))) 400), db)))
  /\ (forall payload,
         fst result = Respond (RJson payload 200) ->
         exists old oldrow row,
           refresh_old_token env body db = Some old
           /\ refresh_row db (str (body !! "refresh_token")) = Some oldrow
           /\ old = OAuthToken.hydrate oldrow
           /\ tokens (snd result)
              = tokens (OAuthToken.revoke (now env) (TokenRow.id oldrow) db) ++ [row]
           /\ TokenRow.scopes row
              = (if truthy (body !! "scope") then requested else TokenRow.scopes oldrow)
           /\ (truthy (body !! "scope") = true ->
               forall name, In name requested -> In name (TokenRow.scopes oldrow))
           /\ (forall name, In name (TokenRow.scopes row) -> In name (TokenRow.scopes oldrow))
           /\ payload_scope payload = Some (join " " (TokenRow.scopes row)))
  /\ (forall old,
         refresh_old_token env body db = Some old ->
         (truthy (body !! "scope") = true ->
          widened_scopes (OAuthTokenData.scopes old) requested = []) ->
         token_insertable env db ->
         exists row payload,
           result
           = (Respond (RJson payload 200),
              with_tokens db
                (tokens (OAuthToken.revoke (now env) (OAuthTokenData.id old) db) ++ [row]))
           /\ TokenRow.scopes row
              = (if truthy (body !! "scope") then requested else OAuthTokenData.scopes old)
           /\ payload_scope payload = Some (join " " (TokenRow.scopes row))).
Proof.
  intros requested result.
  destruct (refresh_scope_step env config body db) as [Hstep Hissued].
  split; [exact Hstep | split; [exact Hissued |]].
  intros old Hold Hnarrow Hins. subst result.
  pose proof (handleRefreshToken_split env config body db) as Hsplit.
  rewrite Hold in Hsplit. rewrite Hsplit. unfold refresh_tail. fold requested.
  assert (Hcond : truthy (body !! "scope")
                  && (0 <? length (widened_scopes (OAuthTokenData.scopes old) requested))%nat
                  = false).
  { destruct (truthy (body !! "scope")); [| reflexivity].
    now rewrite (Hnarrow eq_refl). }
  rewrite Hcond.
  destruct (refresh_old_token_inv env body db old Hold) as (Hadm & _ & _).
  rewrite token_create_succeeds.
  - eexists _, _. split; [reflexivity |]. split; reflexivity.
  - now apply token_insertable_revoke.
  - exact (refresh_admitted_has_client db body Hadm).
Qed.

(** C6 on scenario 5 of the specification: the token was issued for
    [read]. Refreshing with scope "read write" is refused and names
    "write", and nothing is written. Refreshing without a scope, and with
    scope "read", is answered 200: the old row is revoked and the new row
    carries [read]. *)
Lemma refresh_scopes_never_widen_witness :
  let refresh (fields : Params) : Params :=
    <["grant_type" := "refresh_token"]>
      (<["refresh_token" := "rt-1"]>
         (<["client_id" := "app"]> (<["client_secret" := "s3cret"]> fields))) in
  let issued (body : Params) :=
    exists row payload,
      handleRefreshToken sample_env sample_config body sample_db
      = (Respond (RJson payload 200),
         with_tokens sample_db
           (tokens (OAuthToken.revoke 3000 "uuid-2" sample_db) ++ [row]))
      /\ TokenRow.scopes row = ["read"]
      /\ payload_scope payload = Some "read" in
  handleRefreshToken sample_env sample_config (refresh (<["scope" := "read write"]> ∅))
    sample_db
  = (Respond (RJson (toJSON (InvalidRequestError
                               "Cannot widen scopes on refresh. Unknown scopes: write")) 400),
     sample_db)
  /\ issued (refresh ∅)
  /\ issued (refresh (<["scope" := "read"]> ∅)).
Proof.
  intros refresh issued.
  assert (Hins : token_insertable sample_env sample_db).
  { repeat split; intros H; vm_compute in H; destruct H as [H | []]; discriminate H. }
  assert (Hissue : forall body,
             refresh_old_token sample_env body sample_db
             = Some (OAuthToken.hydrate sample_token) ->
             (truthy (body !! "scope") = true ->
              widened_scopes ["read"] (split_scopes (str (body !! "scope"))) = []) ->
             ["read"]
             = (if truthy (body !! "scope")
                then split_scopes (str (body !! "scope")) else ["read"]) ->
             issued body).
  { intros body Hold Hnarrow Hscopes.
    destruct (refresh_scopes_never_widen sample_env sample_config body sample_db)
      as (_ & _ & Hissue).
    destruct (Hissue (OAuthToken.hydrate sample_token) Hold Hnarrow Hins)
      as (row & payload & Hresult & Hrow & Hpayload).
    exists row, payload. split; [exact Hresult |].
    rewrite Hpayload, Hrow. simpl OAuthTokenData.scopes. rewrite <- Hscopes. split; reflexivity. }
  split; [| split].
  - destruct (refresh_scopes_never_widen sample_env sample_config
                (refresh (<["scope" := "read write"]> ∅)) sample_db) as (Hwiden & _).
    destruct (Hwiden (OAuthToken.hydrate sample_token) ltac:(vm_compute; reflexivity))
      as (_ & Hrefused).
    apply Hrefused; [vm_compute; reflexivity | vm_compute; discriminate].
  - apply Hissue; [vm_compute; reflexivity | vm_compute; discriminate | vm_compute; reflexivity].
  - apply Hissue;
      [vm_compute; reflexivity | intros _; vm_compute; reflexivity | vm_compute; reflexivity].
Defined.

(** Every grant is an error that leaves the database alone, or ends in
    [issue_tokens] for an existing client, on a database with the same
    clients and as many tokens: the database of the request, or that
    database with the code marked used, or with the old token revoked. *)
Lemma tokenHandler_shape (env : Env) (config : OAuth2Config) (reg : ScopeRegistry.t)
    (body : Params) (db : Db) :
  (exists e,
      tokenHandler env config reg body db = (Respond (errorResponse e), db)
      /\ (statusCode e = 400 \/ statusCode e = 401))
  \/ exists params db1,
       OAuthToken.accessTokenLifetime_ params = None
       /\ OAuthToken.clientId params = str (body !! "client_id")
       /\ clients db1 = clients db
       /\ length (tokens db1) = length (tokens db)
       /\ (db1 = db
           \/ (exists id, db1 = AuthCode.mark_used (now env) id db)
           \/ (exists id, db1 = OAuthToken.revoke (now env) id db))
       /\ has_client db (str (body !! "client_id")) = true
       /\ tokenHandler env config reg body db = issue_tokens env config params db1.
Proof.
  unfold tokenHandler.
  destruct (negb (truthy (body !! "grant_type"))); [refuse InvalidRequestError |].
  destruct (String.eqb (str (body !! "grant_type")) "authorization_code").
  { destruct (handleAuthorizationCode_shape env config body db)
      as [Herr | (client & row & Hfind & _ & _ & _ & _ & ->)]; [now left |].
    right. eexists _, _. repeat apply conj; [| | | | | | reflexivity]; try reflexivity.
    - right. left. eexists. reflexivity.
    - exact (find_has_client _ _ _ Hfind). }
  destruct (String.eqb (str (body !! "grant_type")) "client_credentials").
  { destruct (handleClientCredentials_shape env config reg body db)
      as [Herr | (client & granted & Hfind & _ & _ & _ & _ & _ & _ & ->)]; [now left |].
    right.
    exists {| OAuthToken.userId := None;
              OAuthToken.clientId := str (body !! "client_id");
              OAuthToken.scopes := granted;
              OAuthToken.name := None;
              OAuthToken.includeRefreshToken := Some false;
              OAuthToken.accessTokenLifetime_ := None;
              OAuthToken.refreshTokenLifetime_ := None |}, db.
    repeat apply conj; try reflexivity.
    - now left.
    - exact (find_has_client _ _ _ Hfind).
    - unfold issue_tokens.
      destruct (OAuthToken.create env config _ db) as [[created db1]|] eqn:Hc; [| reflexivity].
      apply token_create_row in Hc as (_ & -> & _). reflexivity. }
  destruct (String.eqb (str (body !! "grant_type")) "refresh_token");
    [| left; exists UnsupportedGrantError; auto].
  pose proof (handleRefreshToken_split env config body db) as Hsplit.
  destruct (refresh_old_token env body db) as [old|] eqn:Hold.
  - rewrite Hsplit. unfold refresh_tail.
    destruct (truthy (body !! "scope") && (0 <? length _)%nat); [refuse InvalidRequestError |].
    right. eexists _, _. repeat apply conj; [| | | | | | reflexivity]; try reflexivity.
    + simpl. now rewrite length_map.
    + right. right. eexists. reflexivity.
    + apply refresh_admitted_has_client.
      exact (proj1 (refresh_old_token_inv env body db old Hold)).
  - destruct Hsplit as (e & -> & Hstatus & _). left. now exists e.
Qed.

(** X18. The effects of POST /token. Every response is JSON with status
    200, 400 or 401, never a redirect, and a 400 or 401 leaves the database
    as it was. A 200 appends one row to the token table: its access hash is
    the digest of the returned [access_token], its client is the named one,
    it expires after the configured access lifetime; the payload has
    [token_type] Bearer, the scopes of the row joined by spaces, and no
    [refresh_token] when the row has no refresh hash; the client table is
    not written. The handler throws only when the INSERT of the token
    fails, which takes a collision of the UUID or the random strings of the
    request with a stored token. What the grant wrote before the INSERT
    then stays: the database is the one of the request, or that one with
    the code marked used, or with the old token revoked; no row is added or
    removed. *)
Theorem tokenHandler_effects (env : Env) (config : OAuth2Config)
    (reg : ScopeRegistry.t) (body : Params) (db : Db) :
  let result := tokenHandler env config reg body db in
  (forall r, fst result = Respond r ->
             exists payload status,
               r = RJson payload status /\ (status = 200 \/ status = 400 \/ status = 401))
  /\ (forall payload status,
         fst result = Respond (RJson payload status) -> status <> 200 -> snd result = db)
  /\ (forall payload,
         fst result = Respond (RJson payload 200) ->
         exists row,
           length (tokens (snd result)) = S (length (tokens db))
           /\ access_row (snd result) (hex1 env) = Some row
           /\ TokenRow.client_id row = str (body !! "client_id")
           /\ TokenRow.expires_at row = now env + accessTokenLifetime config * 60000
           /\ TokenRow.revoked_at row = None
           /\ clients (snd result) = clients db
           /\ json_field "access_token" payload = Some (JStr (hex1 env))
           /\ json_field "token_type" payload = Some (JStr "Bearer")
           /\ json_field "scope" payload = Some (JStr (join " " (TokenRow.scopes row)))
           /\ (TokenRow.refresh_token row = None ->
               json_field "refresh_token" payload = None))
  /\ (forall error,
         fst result = Raise error ->
         error = insert_failed
         /\ ~ token_insertable env db
         /\ clients (snd result) = clients db
         /\ length (tokens (snd result)) = length (tokens db)
         /\ (snd result = db
             \/ (exists id, snd result = AuthCode.mark_used (now env) id db)
             \/ (exists id, snd result = OAuthToken.revoke (now env) id db))).
Proof.
  intros result. unfold result.
  destruct (tokenHandler_shape env config reg body db)
    as [(e & -> & Hstatus)
       | (params & db1 & Hlife & Hclient & Hclients & Hlen & Hwrote & Hhas & ->)].
  { simpl. repeat apply conj.
    - intros r [= <-]. exists (toJSON e), (statusCode e). split; [reflexivity |].
      destruct Hstatus as [-> | ->]; auto.
    - reflexivity.
    - intros payload [= _ H200]. destruct Hstatus; congruence.
    - discriminate. }
  unfold issue_tokens.
  destruct (OAuthToken.create env config params db1) as [[created db2]|] eqn:Hc.
  2:{ simpl. repeat apply conj; try (intros; discriminate).
      intros error [= <-]. repeat apply conj; auto.
      intros Hins.
      assert (Hins1 : token_insertable env db1).
      { destruct Hwrote as [-> | [(id & ->) | (id & ->)]];
          [exact Hins | exact Hins | now apply token_insertable_revoke]. }
      assert (Hhas1 : has_client db1 (OAuthToken.clientId params) = true)
        by (unfold has_client; now rewrite Hclients, Hclient).
      rewrite (token_create_succeeds env config params db1 Hins1 Hhas1) in Hc.
      discriminate Hc. }
  destruct (issued_response env config params db1 db2 created (OAuthToken.refreshToken created)
              Hc Hlife (or_introl eq_refl))
    as (Htokens & Hcl & _ & extra & Hresp & Hextra & _).
  rewrite Hresp. simpl. repeat apply conj.
  - intros r [= <-]. eexists _, _. split; [reflexivity | auto].
  - intros payload status [= _ <-] Hne. now destruct Hne.
  - intros payload [= <-].
    exists (new_token_row env config params).
    repeat apply conj; try reflexivity.
    + rewrite Htokens, length_app, Hlen. simpl. lia.
    + exact (proj1 (token_row_created _ _ _ _ _ _ Hc)).
    + exact Hclient.
    + simpl. now rewrite Hlife.
    + now rewrite Hcl, Hclients.
    + intros Hnone. now rewrite (Hextra Hnone).
  - discriminate.
Qed.

(** X18 on the scenarios: the exchange of the approved code is answered
    200 and appends the row of "acc-1"; the same exchange with another
    redirect URI is answered 400 and writes nothing; a refresh whose new
    row would reuse the id "uuid-2" of the stored token throws, and the
    old token stays revoked. *)
Lemma tokenHandler_effects_witness :
  let env := env_at 3000 "id-2" "acc-1" "ref-1" in
  let exchange (uri : string) :=
    tokenHandler env sample_config sample_registry (scenario_exchange uri)
      (snd scenario_after_approve) in
  let refresh : Params :=
    <["grant_type" := "refresh_token"]>
      (<["refresh_token" := "rt-1"]>
         (<["client_id" := "app"]> (<["client_secret" := "s3cret"]> ∅))) in
  let collision :=
    tokenHandler (env_at 3000 "uuid-2" "aa11" "bb22") sample_config sample_registry refresh
      sample_db in
  (exists payload row,
      fst (exchange "https://app/cb") = Respond (RJson payload 200)
      /\ access_row (snd (exchange "https://app/cb")) "acc-1" = Some row
      /\ TokenRow.client_id row = "C"
      /\ json_field "access_token" payload = Some (JStr "acc-1")
      /\ json_field "scope" payload = Some (JStr (join " " (TokenRow.scopes row))))
  /\ exchange "https://evil/cb"
     = (Respond (RJson (toJSON (InvalidGrantError grant_invalid)) 400),
        snd scenario_after_approve)
  /\ (fst collision = Raise insert_failed
      /\ snd collision = OAuthToken.revoke 3000 "uuid-2" sample_db
      /\ ~ token_insertable (env_at 3000 "uuid-2" "aa11" "bb22") sample_db).
Proof.
  intros env exchange refresh collision.
  destruct (tokenHandler_effects env sample_config sample_registry
              (scenario_exchange "https://app/cb") (snd scenario_after_approve))
    as (_ & _ & Hissued & _).
  destruct (tokenHandler_effects env sample_config sample_registry
              (scenario_exchange "https://evil/cb") (snd scenario_after_approve))
    as (_ & Hsame & _).
  destruct (tokenHandler_effects (env_at 3000 "uuid-2" "aa11" "bb22") sample_config
              sample_registry refresh sample_db) as (_ & _ & _ & Hraise).
  split; [| split].
  - assert (Hok : exists payload,
               fst (exchange "https://app/cb") = Respond (RJson payload 200))
      by (eexists; vm_compute; reflexivity).
    destruct Hok as (payload & Hok).
    destruct (Hissued payload Hok)
      as (row & _ & Hrow & Hclient & _ & _ & _ & Haccess & _ & Hscope & _).
    exists payload, row. repeat apply conj; assumption.
  - assert (Hfst : fst (exchange "https://evil/cb")
                   = Respond (RJson (toJSON (InvalidGrantError grant_invalid)) 400))
      by (vm_compute; reflexivity).
    specialize (Hsame _ _ Hfst ltac:(discriminate)).
    unfold exchange in *.
    destruct (tokenHandler _ _ _ (scenario_exchange "https://evil/cb") _) as [o d].
    simpl in *. now subst.
  - assert (Hfst : fst collision = Raise insert_failed) by (vm_compute; reflexivity).
    destruct (Hraise _ Hfst) as (_ & Hcollides & _).
    repeat apply conj; [exact Hfst | vm_compute; reflexivity | exact Hcollides].
Defined.

Lemma code_admitted_same_clients (db db' : Db) (body : Params) :
  clients db' = clients db ->
  code_client_admitted db' body = code_client_admitted db body.
Proof.
  intros H. unfold code_client_admitted. rewrite (find_same_clients _ _ _ H).
  destruct (OAuthClient.find db (str (body !! "client_id"))); [| reflexivity].
  now rewrite (verifySecret_same_clients _ _ _ _ H).
Qed.

Lemma handleAuthorizationCode_split (env : Env) (config : OAuth2Config) (body : Params)
    (db : Db) :
  if code_client_admitted db body then
    exists client,
      OAuthClient.find db (str (body !! "client_id")) = Some client
      /\ OAuthClientData.revoked client = false
      /\ handleAuthorizationCode env config body db
         = match AuthCode.consume (now env) (str (body !! "code")) (str (body !! "client_id"))
                   (str (body !! "redirect_uri")) (body !! "code_verifier") db with
           | (None, db1) => (Respond (errorResponse (InvalidGrantError grant_invalid)), db1)
           | (Some codeData, db1) =>
               issue_tokens env config
                 {| OAuthToken.userId := Some (OAuthAuthCodeData.userId codeData);
                    OAuthToken.clientId := str (body !! "client_id");
                    OAuthToken.scopes := OAuthAuthCodeData.scopes codeData;
                    OAuthToken.name := None;
                    OAuthToken.includeRefreshToken :=
                      Some (grants (OAuthClientData.grantTypes client) refresh_token);
                    OAuthToken.accessTokenLifetime_ := None;
                    OAuthToken.refreshTokenLifetime_ := None |} db1
           end
  else
    exists e,
      handleAuthorizationCode env config body db = (Respond (errorResponse e), db)
      /\ (statusCode e = 400 \/ statusCode e = 401).
Proof.
  unfold code_client_admitted, handleAuthorizationCode.
  destruct (truthy (body !! "code")); simpl; [| eexists (InvalidRequestError _); auto].
  destruct (truthy (body !! "redirect_uri")); simpl; [| eexists (InvalidRequestError _); auto].
  destruct (truthy (body !! "client_id")); simpl; [| eexists (InvalidRequestError _); auto].
  destruct (OAuthClient.find db (str (body !! "client_id"))) as [client|];
    [| eexists (InvalidClientError _); auto].
  destruct (OAuthClientData.revoked client) eqn:Hrev; simpl;
    [eexists (InvalidClientError _); auto |].
  destruct (OAuthClientData.confidential client); simpl.
  - destruct (truthy (body !! "client_secret")); simpl;
      [| eexists (InvalidClientError _); auto].
    destruct (OAuthClient.verifySecret db client (str (body !! "client_secret"))); simpl;
      [| eexists (InvalidClientError _); auto].
    exists client. repeat split; auto.
  - exists client. repeat split; auto.
Qed.

(** X19. The authorization-code grant of POST /token answers 200 only
    for a code row of the named client that is unused, unexpired, bound to
    the presented redirect URI and whose PKCE challenge the verifier
    satisfies. The token row it appends carries the user, client and scopes
    of the code, and a refresh hash exactly when the client is registered
    for the refresh_token grant. The code is burned before the token is
    inserted: whenever the first request got past the exchange (200, or a
    failed INSERT), repeating it at any time is answered invalid_grant. *)
Theorem code_exchange_spec (env : Env) (config : OAuth2Config) (body : Params) (db : Db) :
  let result := handleAuthorizationCode env config body db in
  (forall payload,
      fst result = Respond (RJson payload 200) ->
      exists client coderow tokrow,
        OAuthClient.find db (str (body !! "client_id")) = Some client
        /\ AuthCode.lookup db (AuthCode.hashCode (str (body !! "code")))
             (str (body !! "client_id")) = Some coderow
        /\ AuthCodeRow.used_at coderow = None
        /\ now env <= AuthCodeRow.expires_at coderow
        /\ AuthCodeRow.redirect_uri coderow = str (body !! "redirect_uri")
        /\ pkce_satisfied coderow (body !! "code_verifier")
        /\ tokens (snd result) = tokens db ++ [tokrow]
        /\ auth_codes (snd result)
           = auth_codes (AuthCode.mark_used (now env) (AuthCodeRow.id coderow) db)
        /\ TokenRow.user_id tokrow = Some (AuthCodeRow.user_id coderow)
        /\ TokenRow.client_id tokrow = AuthCodeRow.client_id coderow
        /\ TokenRow.scopes tokrow = AuthCodeRow.scopes coderow
        /\ (TokenRow.refresh_token tokrow <> None
            <-> grants (OAuthClientData.grantTypes client) refresh_token = true))
  /\ ((exists payload, fst result = Respond (RJson payload 200))
      \/ (exists err, fst result = Raise err) ->
      forall env',
        handleAuthorizationCode env' config body (snd result)
        = (Respond (errorResponse (InvalidGrantError grant_invalid)), snd result)).
Proof.
  intros result. unfold result.
  pose proof (handleAuthorizationCode_split env config body db) as Hsplit.
  destruct (code_client_admitted db body) eqn:Hadm.
  2:{ destruct Hsplit as (e & -> & Hstatus). simpl. split.
      - intros payload [= _ H200]. destruct Hstatus; congruence.
      - intros [(payload & [= _ H200]) | (err & [=])]. destruct Hstatus; congruence. }
  destruct Hsplit as (client & Hfind & Hrev & ->). rewrite consume_unfold.
  destruct (AuthCode.lookup db (AuthCode.hashCode (str (body !! "code")))
              (str (body !! "client_id"))) as [coderow|] eqn:Hrow.
  2:{ simpl. split; [discriminate |]. intros [(payload & [=]) | (err & [=])]. }
  destruct (consume_accepts (now env) (str (body !! "redirect_uri")) (body !! "code_verifier")
              coderow) eqn:Hacc.
  2:{ simpl. split; [discriminate |]. intros [(payload & [=]) | (err & [=])]. }
  apply consume_accepts_iff in Hacc as (Hunused & Hexp & Hredir & Hpkce).
  set (db1 := AuthCode.mark_used (now env) (AuthCodeRow.id coderow) db).
  assert (Hreplay : forall db2 env',
             clients db2 = clients db -> auth_codes db2 = auth_codes db1 ->
             handleAuthorizationCode env' config body db2
             = (Respond (errorResponse (InvalidGrantError grant_invalid)), db2)).
  { intros db2 env' Hcl Hcodes.
    pose proof (handleAuthorizationCode_split env' config body db2) as Hsplit.
    rewrite (code_admitted_same_clients _ _ _ Hcl), Hadm in Hsplit.
    destruct Hsplit as (client' & _ & _ & ->).
    rewrite (consume_used (now env') (str (body !! "code")) (str (body !! "client_id"))
               (str (body !! "redirect_uri")) (body !! "code_verifier") db2
               (AuthCode.set_used_at (now env) coderow)); [reflexivity | | discriminate].
    unfold AuthCode.lookup. rewrite Hcodes. fold (AuthCode.lookup db1
      (AuthCode.hashCode (str (body !! "code"))) (str (body !! "client_id"))).
    unfold db1. rewrite lookup_mark_used, Hrow. simpl. now rewrite String.eqb_refl. }
  unfold issue_tokens. simpl OAuthAuthCodeData.userId. simpl OAuthAuthCodeData.scopes.
  destruct (OAuthToken.create env config _ db1) as [[created db2]|] eqn:Hc.
  - pose proof (token_create_row _ _ _ _ _ _ Hc) as (Hdb2 & _).
    simpl. split.
    + intros payload _. eexists client, coderow, _.
      repeat apply conj; try eassumption; try (rewrite Hdb2; reflexivity); try reflexivity.
      * apply List.find_some in Hrow as [_ Hrow]. apply andb_true_iff in Hrow as [_ Hrow].
        apply String.eqb_eq in Hrow. simpl. congruence.
      * simpl. unfold wants_refresh. simpl.
        destruct (grants (OAuthClientData.grantTypes client) refresh_token); simpl;
          [intros _; reflexivity | intros H; now destruct H].
      * simpl. unfold wants_refresh. simpl. intros ->. simpl. discriminate.
    + intros _ env'. apply Hreplay; rewrite Hdb2; reflexivity.
  - simpl. split; [discriminate |]. intros _ env'. apply Hreplay; reflexivity.
Qed.

Lemma code_exchange_spec_witness :
  let body := scenario_exchange "https://app/cb" in
  let db := snd scenario_after_approve in
  handleAuthorizationCode (env_at 3500 "id-3" "acc-2" "ref-2") sample_config body
    (snd (handleAuthorizationCode (env_at 3000 "id-2" "acc-1" "ref-1") sample_config body db))
  = (Respond (errorResponse (InvalidGrantError grant_invalid)),
     snd (handleAuthorizationCode (env_at 3000 "id-2" "acc-1" "ref-1") sample_config body db)).
Proof.
  intros body db.
  destruct (code_exchange_spec (env_at 3000 "id-2" "acc-1" "ref-1") sample_config body db)
    as (_ & Hreplay).
  apply Hreplay. left. eexists. vm_compute. reflexivity.
Defined.

(** X20. A 200 from the client-credentials grant means the client is
    confidential, registered for the grant and presented its secret. The
    token row it appends has no user, no refresh hash and no refresh
    expiry; the response carries the new [access_token], [token_type]
    Bearer and the scopes of the row, and has no [refresh_token] field. The
    scopes are the requested ones, or the defaults when none are requested,
    each registered and inside the allow-list of the client. *)
Theorem client_credentials_spec (env : Env) (config : OAuth2Config) (reg : ScopeRegistry.t)
    (body : Params) (db : Db) :
  let result := handleClientCredentials env config reg body db in
  let requested :=
    if truthy (body !! "scope") then split_scopes (str (body !! "scope")) else [] in
  forall payload,
    fst result = Respond (RJson payload 200) ->
    exists client row,
      OAuthClient.find db (str (body !! "client_id")) = Some client
      /\ OAuthClientData.confidential client = true
      /\ grants (OAuthClientData.grantTypes client) client_credentials = true
      /\ OAuthClient.verifySecret db client (str (body !! "client_secret")) = true
      /\ snd result = with_tokens db (tokens db ++ [row])
      /\ TokenRow.client_id row = str (body !! "client_id")
      /\ TokenRow.user_id row = None
      /\ TokenRow.refresh_token row = None
      /\ TokenRow.refresh_expires_at row = None
      /\ TokenRow.scopes row = effective_scopes requested (defaultScopes config)
      /\ (forall s, In s (TokenRow.scopes row) ->
                    reg !! s <> None
                    /\ forall allowed, OAuthClientData.scopes client = Some allowed ->
                                       In s allowed)
      /\ json_field "access_token" payload = Some (JStr (hex1 env))
      /\ json_field "token_type" payload = Some (JStr "Bearer")
      /\ json_field "scope" payload = Some (JStr (join " " (TokenRow.scopes row)))
      /\ json_field "refresh_token" payload = None.
Proof.
  intros result requested payload. unfold result.
  destruct (handleClientCredentials_shape env config reg body db)
    as [(e & -> & Hstatus)
       | (client & granted & Hfind & _ & Hconf & Hgrant & _ & Hverify & Hval & ->)].
  { intros [= _ H200]. destruct Hstatus; congruence. }
  destruct (OAuthToken.create env config _ db) as [[created db1]|] eqn:Hc; [| discriminate].
  destruct (issued_response env config _ db db1 created None Hc eq_refl (or_intror eq_refl))
    as (_ & _ & _ & extra & Hresp & Hextra & _).
  rewrite (Hextra eq_refl), app_nil_r in Hresp.
  pose proof (token_create_row _ _ _ _ _ _ Hc) as (Hdb1 & _).
  simpl. rewrite Hresp. intros [= <-].
  apply validate_accepts_iff in Hval as (Heff & Hknown & Hallowed).
  eexists client, _. repeat apply conj; try eassumption; try reflexivity.
  simpl. intros s Hs. split; [now apply Hknown |].
  intros allowed Hsome. now apply (Hallowed allowed Hsome).
Qed.

Lemma client_credentials_spec_witness :
  let body : Params :=
    <["grant_type" := "client_credentials"]>
      (<["client_id" := "svc"]> (<["client_secret" := "m2m-secret"]> ∅)) in
  exists row payload,
    fst (handleClientCredentials sample_env sample_config sample_registry body machine_db)
    = Respond (RJson payload 200)
    /\ snd (handleClientCredentials sample_env sample_config sample_registry body machine_db)
       = with_tokens machine_db [row]
    /\ TokenRow.user_id row = None
    /\ TokenRow.refresh_token row = None
    /\ json_field "access_token" payload = Some (JStr "aa11")
    /\ json_field "refresh_token" payload = None.
Proof.
  intros body.
  assert (Hok : exists payload,
             fst (handleClientCredentials sample_env sample_config sample_registry body machine_db)
             = Respond (RJson payload 200)) by (eexists; vm_compute; reflexivity).
  destruct Hok as (payload & Hok).
  destruct (client_credentials_spec sample_env sample_config sample_registry body machine_db
              payload Hok)
    as (client & row & _ & _ & _ & _ & Hdb & _ & Huser & Hrefresh & _ & _ & _ & Haccess & _ & _
        & Hnone).
  exists row, payload. repeat apply conj; assumption.
Defined.

(** ** GET and POST /authorize, continued *)

Lemma issueAuthorizationCode_cases (env : Env) (config : OAuth2Config) (user : JsUser)
    (request : AuthRequest) (db : Db) :
  let result :=
    issueAuthorizationCode env config user (ar_clientId request) (ar_redirectUri request)
      (ar_scopes request) (ar_state request) (ar_codeChallenge request)
      (ar_codeChallengeMethod request) db in
  (snd result = db /\ exists err, fst result = Raise err)
  \/ exists userId,
       getUserId user = inr userId
       /\ snd result
          = with_auth_codes db
              (auth_codes db ++ [new_code_row env config (code_params request userId)])
       /\ fst result
          = if url_ok env (ar_redirectUri request)
            then Respond (RRedirect (ar_redirectUri request)
                            (("code", hex1 env) :: state_param (ar_state request)) 302)
            else Raise invalid_url.
Proof.
  intros result. unfold result, issueAuthorizationCode.
  destruct (getUserId user) as [err | userId]; [left; simpl; eauto |].
  fold (code_params request userId).
  destruct (AuthCode.create env config (code_params request userId) db)
    as [[[code data] db']|] eqn:Hc; [| left; simpl; eauto].
  apply code_create_row in Hc as (-> & [= -> _] & _).
  right. exists userId. split; [reflexivity |].
  destruct (url_ok env (ar_redirectUri request)); split; reflexivity.
Qed.

(** X21. POST /authorize always clears the pending request, so an
    authorization request can be answered once: a second POST, whatever it
    says, gets 400 "No pending authorization request". A denial redirects
    with [access_denied] and writes nothing. An approval inserts one code,
    bound to the client, redirect URI, scopes and PKCE challenge stored by
    GET /authorize and to the user of the POST, and redirects to the stored
    URI with the plaintext code and the stored state. *)
Theorem approve_once (env : Env) (config : OAuth2Config) (approved : bool) (user : JsUser)
    (session : Session) (db : Db) :
  let result := approveHandler env config approved user session db in
  let outcome := fst (fst result) in
  snd (fst result) = None
  /\ (forall env' approved' user',
         approveHandler env' config approved' user' (snd (fst result)) (snd result)
         = (Respond (RJson (toJSON (InvalidRequestError "No pending authorization request."))
                       400), None, snd result))
  /\ (session = None ->
      outcome = Respond (RJson (toJSON (InvalidRequestError "No pending authorization request."))
                           400)
      /\ snd result = db)
  /\ (forall request,
         session = Some request -> approved = false ->
         snd result = db
         /\ outcome = errorRedirect env (ar_redirectUri request) (ar_state request)
                        "access_denied" "The resource owner denied the request.")
  /\ (forall request,
         session = Some request -> approved = true ->
         (snd result = db /\ exists err, outcome = Raise err)
         \/ exists userId,
              getUserId user = inr userId
              /\ snd result
                 = with_auth_codes db
                     (auth_codes db ++ [new_code_row env config (code_params request userId)])
              /\ outcome
                 = if url_ok env (ar_redirectUri request)
                   then Respond (RRedirect (ar_redirectUri request)
                                   (("code", hex1 env) :: state_param (ar_state request)) 302)
                   else Raise invalid_url).
Proof.
  intros result outcome. unfold outcome, result, approveHandler.
  destruct session as [request|].
  2:{ simpl. repeat apply conj; try reflexivity; try discriminate. auto. }
  destruct approved.
  - simpl negb. cbv iota.
    pose proof (issueAuthorizationCode_cases env config user request db) as Hcases.
    destruct (issueAuthorizationCode env config user (ar_clientId request)
                (ar_redirectUri request) (ar_scopes request) (ar_state request)
                (ar_codeChallenge request) (ar_codeChallengeMethod request) db)
      as [o db'] eqn:Hissue.
    simpl in *. repeat apply conj; try reflexivity; try discriminate.
    intros request' [= <-] _. exact Hcases.
  - simpl. repeat apply conj; try reflexivity; try discriminate.
    intros request' [= <-] _. split; reflexivity.
Qed.

Lemma approve_once_witness :
  fst scenario_after_approve
  = (Respond (RRedirect "https://app/cb" [("code", "c0de"); ("state", "xyz")] 302), None)
  /\ fst (fst (approveHandler (env_at 2100 "id-9" "c1de" "unused") sample_config true
                 (UObject (Some (SNumber 42)))
                 (snd (fst scenario_after_approve)) (snd scenario_after_approve)))
     = Respond (RJson (toJSON (InvalidRequestError "No pending authorization request.")) 400).
Proof.
  split; [vm_compute; reflexivity |].
  destruct (approve_once (env_at 2000 "id-1" "c0de" "unused") sample_config true
              (UObject (Some (SNumber 42))) (snd (fst scenario_after_authorize))
              (snd scenario_after_authorize)) as (_ & Hsecond & _).
  unfold scenario_after_approve. now rewrite Hsecond.
Defined.

(** What GET /authorize stores in the session when it accepts a request. *)
Lemma authorizeHandler_accepts (env : Env) (config : OAuth2Config) (reg : ScopeRegistry.t)
    (actions : OAuth2Actions) (query : Params) (user : JsUser) (session : Session) (db : Db) :
  let result := authorizeHandler env config reg actions query user session db in
  (snd (fst result) = session /\ snd result = db
   /\ forall r, fst (fst result) = Respond r ->
                (exists payload status, r = RJson payload status /\ status <> 200)
                \/ exists uri params, r = RRedirect uri (("error", params.1) :: params.2) 302)
  \/ exists client granted,
       let challenge := query !! "code_challenge" in
       let method := default "plain" (query !! "code_challenge_method") in
       let request :=
         {| ar_clientId := str (query !! "client_id");
            ar_redirectUri := str (query !! "redirect_uri");
            ar_scopes := granted;
            ar_state := query !! "state";
            ar_codeChallenge := challenge;
            ar_codeChallengeMethod := if truthy challenge then Some method else None |} in
       OAuthClient.find db (str (query !! "client_id")) = Some client
       /\ OAuthClientData.revoked client = false
       /\ grants (OAuthClientData.grantTypes client) authorization_code = true
       /\ In (str (query !! "redirect_uri")) (OAuthClientData.redirectUris client)
       /\ (OAuthClientData.confidential client = false -> truthy challenge = true)
       /\ (truthy challenge = true -> method = "S256" \/ method = "plain")
       /\ ScopeRegistry.validate reg
            (if truthy (query !! "scope") then split_scopes (str (query !! "scope")) else [])
            (OAuthClientData.scopes client) (defaultScopes config) = inr granted
       /\ snd (fst result) = Some request
       /\ (OAuthClientData.firstParty client = false -> snd result = db)
       /\ (OAuthClientData.firstParty client = true ->
           result
           = (fst (issueAuthorizationCode env config user (str (query !! "client_id"))
                     (str (query !! "redirect_uri")) granted (query !! "state") challenge
                     (Some method) db),
              Some request,
              snd (issueAuthorizationCode env config user (str (query !! "client_id"))
                     (str (query !! "redirect_uri")) granted (query !! "state") challenge
                     (Some method) db))).
Proof.
  intros result. unfold result, authorizeHandler, json_error.
  assert (Hjson : forall e status,
             status <> 200 ->
             forall r, Respond (RJson (toJSON e) status) = Respond r ->
                       (exists payload status', r = RJson payload status' /\ status' <> 200)
                       \/ exists uri params, r = RRedirect uri (("error", params.1) :: params.2) 302).
  { intros e status Hne r [= <-]. left. eauto. }
  assert (Hredirect : forall uri state error description,
             forall r, errorRedirect env uri state error description = Respond r ->
                       (exists payload status', r = RJson payload status' /\ status' <> 200)
                       \/ exists uri' params,
                            r = RRedirect uri' (("error", params.1) :: params.2) 302).
  { intros uri state error description r. unfold errorRedirect.
    destruct (url_ok env uri); [| discriminate]. intros [= <-]. right.
    exists uri, (error, [("error_description", description)] ++ state_param state).
    reflexivity. }
  destruct (negb (strict_eq (query !! "response_type") "code"));
    [left; repeat split; apply Hjson; discriminate |].
  destruct (negb (truthy (query !! "client_id")));
    [left; repeat split; apply Hjson; discriminate |].
  destruct (OAuthClient.find db (str (query !! "client_id"))) as [client|] eqn:Hfind;
    [| left; repeat split; apply Hjson; discriminate].
  destruct (OAuthClientData.revoked client) eqn:Hrev;
    [left; repeat split; apply Hjson; discriminate |].
  destruct (grants (OAuthClientData.grantTypes client) authorization_code) eqn:Hgrant; simpl;
    [| left; repeat split; apply Hjson; discriminate].
  destruct (negb (truthy (query !! "redirect_uri"))
            || negb (includes (OAuthClientData.redirectUris client) (str (query !! "redirect_uri"))))
    eqn:Huri; [left; repeat split; apply Hjson; discriminate |].
  apply orb_false_iff in Huri as [_ Huri]. apply negb_false_iff, includes_In in Huri.
  destruct (negb (OAuthClientData.confidential client) && negb (truthy (query !! "code_challenge")))
    eqn:Hpublic; [left; repeat split; apply Hredirect |].
  destruct (truthy (query !! "code_challenge")
            && negb (String.eqb (default "plain" (query !! "code_challenge_method")) "S256")
            && negb (String.eqb (default "plain" (query !! "code_challenge_method")) "plain"))
    eqn:Hmethod; [left; repeat split; apply Hredirect |].
  destruct (ScopeRegistry.validate reg _ (OAuthClientData.scopes client) (defaultScopes config))
    as [err | granted] eqn:Hval; [left; repeat split; apply Hredirect |].
  right. exists client, granted. cbv zeta. rewrite (find_client_id _ _ _ Hfind).
  repeat apply conj; try assumption; try reflexivity.
  - intros Hconf. rewrite Hconf in Hpublic. simpl in Hpublic.
    now apply negb_false_iff in Hpublic.
  - intros Hch. rewrite Hch in Hmethod. simpl in Hmethod.
    destruct (String.eqb (default "plain" (query !! "code_challenge_method")) "S256") eqn:H256.
    + left. now apply String.eqb_eq.
    + right. simpl in Hmethod. apply negb_false_iff in Hmethod. now apply String.eqb_eq.
  - destruct (OAuthClientData.firstParty client);
      [| destruct (renderAuthorization actions); reflexivity].
    now destruct (issueAuthorizationCode _ _ _ _ _ _ _ _ _ _).
  - intros Hfp. rewrite Hfp. destruct (renderAuthorization actions); reflexivity.
  - intros Hfp. rewrite Hfp. now destruct (issueAuthorizationCode _ _ _ _ _ _ _ _ _ _).
Qed.

(** X22. Whenever GET /authorize stores a request or writes to the
    database, the stored request names a client that exists and is not
    revoked, one of its registered redirect URIs, and scopes that are the
    requested ones (the defaults if none), each registered and allowed for
    the client. For a public client it carries a non-empty PKCE challenge,
    and a method stored in the request is S256 or plain. The database is
    written only for a first-party client, by one unused code row bound to
    the user and to the client, redirect URI, scopes and challenge of that
    request. The row stores the code_challenge_method of the query (plain
    when absent), which the handler validates only when a challenge is
    present: with a challenge the method of the row is that of the request
    and is S256 or plain; without one the request stores no method and the
    row keeps the value as it was sent. The code of a public client cannot
    be exchanged without a verifier. *)
Theorem authorize_binds_request (env : Env) (config : OAuth2Config) (reg : ScopeRegistry.t)
    (actions : OAuth2Actions) (query : Params) (user : JsUser) (session : Session) (db : Db) :
  let result := authorizeHandler env config reg actions query user session db in
  let session' := snd (fst result) in
  let requested :=
    if truthy (query !! "scope") then split_scopes (str (query !! "scope")) else [] in
  session' <> session \/ snd result <> db ->
  exists client request,
    session' = Some request
    /\ OAuthClient.find db (ar_clientId request) = Some client
    /\ OAuthClientData.revoked client = false
    /\ In (ar_redirectUri request) (OAuthClientData.redirectUris client)
    /\ ar_scopes request = effective_scopes requested (defaultScopes config)
    /\ (forall s, In s (ar_scopes request) ->
                  reg !! s <> None
                  /\ forall allowed, OAuthClientData.scopes client = Some allowed ->
                                     In s allowed)
    /\ (OAuthClientData.confidential client = false ->
        truthy (ar_codeChallenge request) = true)
    /\ (forall m, ar_codeChallengeMethod request = Some m ->
                  truthy (ar_codeChallenge request) = true /\ (m = "S256" \/ m = "plain"))
    /\ (snd result <> db ->
        OAuthClientData.firstParty client = true
        /\ exists userId row,
             getUserId user = inr userId
             /\ snd result = with_auth_codes db (auth_codes db ++ [row])
             /\ AuthCodeRow.client_id row = ar_clientId request
             /\ AuthCodeRow.user_id row = userId
             /\ AuthCodeRow.redirect_uri row = ar_redirectUri request
             /\ AuthCodeRow.scopes row = ar_scopes request
             /\ AuthCodeRow.code_challenge row = ar_codeChallenge request
             /\ AuthCodeRow.code_challenge_method row
                = Some (default "plain" (query !! "code_challenge_method"))
             /\ (truthy (AuthCodeRow.code_challenge row) = true ->
                 AuthCodeRow.code_challenge_method row = ar_codeChallengeMethod request
                 /\ (AuthCodeRow.code_challenge_method row = Some "S256"
                     \/ AuthCodeRow.code_challenge_method row = Some "plain"))
             /\ (truthy (AuthCodeRow.code_challenge row) = false ->
                 ar_codeChallengeMethod request = None)
             /\ AuthCodeRow.code row = AuthCode.hashCode (hex1 env)
             /\ AuthCodeRow.expires_at row = now env + authCodeLifetime config * 60000
             /\ AuthCodeRow.used_at row = None
             /\ (OAuthClientData.confidential client = false ->
                 forall now_ uri, consume_accepts now_ uri None row = false)).
Proof.
  intros result session' requested Hchanged. unfold session', result in *.
  destruct (authorizeHandler_accepts env config reg actions query user session db)
    as [(Hs & Hdb & _)
       | (client & granted & Hfind & Hrev & _ & Huri & Hpublic & Hmethod & Hval & Hsession
          & Hthird & Hfirst)].
  { destruct Hchanged; contradiction. }
  apply validate_accepts_iff in Hval as (Heff & Hknown & Hallowed).
  eexists client, _. split; [exact Hsession |]. simpl.
  repeat apply conj; try assumption.
  - intros s Hs. split; [now apply Hknown |].
    intros allowed Hsome. now apply (Hallowed allowed Hsome).
  - intros m. destruct (truthy (query !! "code_challenge")) eqn:Hch; [| discriminate].
    intros [= <-]. split; [reflexivity | now apply Hmethod].
  - intros Hwritten.
    destruct (OAuthClientData.firstParty client) eqn:Hfp;
      [| now destruct (Hwritten (Hthird eq_refl))].
    split; [reflexivity |].
    rewrite (Hfirst eq_refl) in Hwritten |- *. simpl in Hwritten |- *.
    destruct (issueAuthorizationCode_cases env config user
                {| ar_clientId := str (query !! "client_id");
                   ar_redirectUri := str (query !! "redirect_uri");
                   ar_scopes := granted;
                   ar_state := query !! "state";
                   ar_codeChallenge := query !! "code_challenge";
                   ar_codeChallengeMethod :=
                     Some (default "plain" (query !! "code_challenge_method")) |} db)
      as [(Hsame & _) | (userId & Huser & Hinserted & _)]; simpl in *.
    + contradiction.
    + eexists userId, _. split; [exact Huser |]. split; [exact Hinserted |].
      repeat apply conj; try reflexivity.
      * simpl. intros Hch. rewrite Hch. split; [reflexivity |].
        destruct (Hmethod Hch) as [-> | ->]; auto.
      * simpl. now intros ->.
      * intros Hconf now_ uri. unfold consume_accepts. simpl.
        rewrite (Hpublic Hconf). simpl. now rewrite andb_false_r.
Qed.

(** X22 on two requests. The public client "C" of the scenarios gets its
    request stored, with the challenge. The first-party client "dash" sends
    no challenge and the method "md5": the handler answers with the code at
    once, the request in the session has no method, and the code row keeps
    "md5" next to an empty challenge. *)
Lemma authorize_binds_request_witness :
  let query : Params :=
    <["response_type" := "code"]>
      (<["client_id" := "dash"]>
         (<["redirect_uri" := "https://dash.example/cb"]>
            (<["code_challenge_method" := "md5"]> ∅))) in
  let result :=
    authorizeHandler (env_at 1000 "id-0" "c0de" "unused") sample_config sample_registry
      {| renderAuthorization := false |} query (UObject (Some (SNumber 42))) None
      first_party_db in
  (exists request,
      snd (fst scenario_after_authorize) = Some request
      /\ truthy (ar_codeChallenge request) = true
      /\ ar_scopes request = ["read"])
  /\ (exists request row,
         snd (fst result) = Some request
         /\ snd result = with_auth_codes first_party_db [row]
         /\ ar_codeChallengeMethod request = None
         /\ AuthCodeRow.code_challenge row = None
         /\ AuthCodeRow.code_challenge_method row = Some "md5"
         /\ AuthCodeRow.redirect_uri row = "https://dash.example/cb").
Proof.
  intros query result. split.
  - destruct (authorize_binds_request (env_at 1000 "id-0" "unused" "unused") sample_config
                sample_registry {| renderAuthorization := false |} scenario_authorize
                (UObject (Some (SNumber 42))) None scenario_db)
      as (client & request & Hsession & Hfind & _ & _ & Hscopes & _ & Hpublic & _).
    { left. vm_compute. discriminate. }
    exists request. split; [exact Hsession |]. split.
    + apply Hpublic. vm_compute in Hsession. injection Hsession as <-.
      vm_compute in Hfind. now injection Hfind as <-.
    + rewrite Hscopes. vm_compute. reflexivity.
  - assert (Hwritten : snd result <> first_party_db) by (vm_compute; discriminate).
    destruct (authorize_binds_request (env_at 1000 "id-0" "c0de" "unused") sample_config
                sample_registry {| renderAuthorization := false |} query
                (UObject (Some (SNumber 42))) None first_party_db (or_intror Hwritten))
      as (client & request & Hsession & _ & _ & _ & _ & _ & _ & _ & Hrow).
    destruct (Hrow Hwritten)
      as (_ & userId & row & _ & Hdb & _ & _ & Huri & _ & Hchallenge & Hmethod & _ & Hnone & _).
    assert (Hrequest : ar_codeChallenge request = None).
    { vm_compute in Hsession. now injection Hsession as <-. }
    exists request, row. repeat apply conj.
    + exact Hsession.
    + exact Hdb.
    + apply Hnone. now rewrite Hchallenge, Hrequest.
    + now rewrite Hchallenge.
    + exact Hmethod.
    + rewrite Huri. vm_compute in Hsession. now injection Hsession as <-.
Defined.

(** ** Listings: [ORDER BY created_at DESC] *)

Lemma insert_desc_perm {A} (key : A -> Z) (x : A) (l : list A) :
  Permutation (insert_desc key x l) (x :: l).
Proof.
  induction l as [|y l IH]; simpl; [reflexivity |].
  destruct (key y <=? key x); [reflexivity |].
  rewrite IH. apply perm_swap.
Qed.

Lemma order_by_desc_perm {A} (key : A -> Z) (l : list A) :
  Permutation (order_by_desc key l) l.
Proof.
  induction l as [|x l IH]; simpl; [reflexivity |].
  unfold order_by_desc in *. simpl. rewrite insert_desc_perm. now rewrite IH.
Qed.

Lemma order_by_desc_In {A} (key : A -> Z) (l : list A) (x : A) :
  In x (order_by_desc key l) <-> In x l.
Proof.
  split; apply Permutation_in; [| symmetry]; apply order_by_desc_perm.
Qed.

Lemma insert_desc_sorted {A} (key : A -> Z) (x : A) (l : list A) :
  StronglySorted (fun a b => key b <= key a) l ->
  StronglySorted (fun a b => key b <= key a) (insert_desc key x l).
Proof.
  induction l as [|y l IH]; intros Hs; simpl.
  - constructor; [constructor | constructor].
  - apply StronglySorted_inv in Hs as [Hl Hy].
    destruct (key y <=? key x) eqn:Hle.
    + apply Z.leb_le in Hle. constructor; [constructor; assumption |].
      constructor; [exact Hle |].
      rewrite List.Forall_forall in Hy |- *. intros z Hz. specialize (Hy z Hz). simpl in *. lia.
    + apply Z.leb_gt in Hle. constructor; [now apply IH |].
      rewrite List.Forall_forall in Hy |- *. intros z Hz.
      apply (Permutation_in _ (insert_desc_perm key x l)) in Hz as [<- | Hz]; [lia | auto].
Qed.

Lemma order_by_desc_sorted {A} (key : A -> Z) (l : list A) :
  StronglySorted (fun a b => key b <= key a) (order_by_desc key l).
Proof.
  induction l as [|x l IH]; [constructor |].
  unfold order_by_desc in *. simpl. now apply insert_desc_sorted.
Qed.

Lemma StronglySorted_map {A B} (f : A -> B) (R : B -> B -> Prop) (l : list A) :
  StronglySorted (fun a b => R (f a) (f b)) l -> StronglySorted R (map f l).
Proof.
  induction 1 as [|a l Hl IH Ha]; simpl; constructor; [exact IH |].
  rewrite List.Forall_forall in Ha |- *. intros y Hy.
  apply in_map_iff in Hy as (x & <- & Hx). now apply Ha.
Qed.

(** X23. The token listings show exactly the rows of the user that are
    not revoked and expire strictly after the current time, newest first;
    the personal-token listing is the part of it that belongs to the
    personal access client, and is empty when none is configured. A token
    whose [expires_at] is the current instant is still accepted by
    [validate] but no longer listed. *)
Theorem token_listing_spec (config : OAuth2Config) (now_ : Z) (userId : string) (db : Db) :
  (forall d,
      In d (OAuthToken.allForUser now_ userId db)
      <-> exists row,
            In row (tokens db) /\ d = OAuthToken.hydrate row
            /\ TokenRow.user_id row = Some userId
            /\ TokenRow.revoked_at row = None
            /\ now_ < TokenRow.expires_at row)
  /\ StronglySorted (fun a b => OAuthTokenData.createdAt b <= OAuthTokenData.createdAt a)
       (OAuthToken.allForUser now_ userId db)
  /\ (forall d,
         In d (OAuthToken.personalTokensFor config now_ userId db)
         <-> truthy (personalAccessClient config) = true
             /\ In d (OAuthToken.allForUser now_ userId db)
             /\ OAuthTokenData.clientId d = str (personalAccessClient config))
  /\ StronglySorted (fun a b => OAuthTokenData.createdAt b <= OAuthTokenData.createdAt a)
       (OAuthToken.personalTokensFor config now_ userId db)
  /\ (forall plain row,
         access_row db plain = Some row ->
         TokenRow.user_id row = Some userId ->
         TokenRow.revoked_at row = None ->
         TokenRow.expires_at row = now_ ->
         fst (OAuthToken.validate now_ plain db) = Some (OAuthToken.hydrate row)
         /\ ~ In row (List.filter (OAuthToken.active_for now_ userId) (tokens db))).
Proof.
  assert (Hactive : forall row,
             OAuthToken.active_for now_ userId row = true
             <-> TokenRow.user_id row = Some userId
                 /\ TokenRow.revoked_at row = None
                 /\ now_ < TokenRow.expires_at row).
  { intros row. unfold OAuthToken.active_for.
    rewrite !andb_true_iff, strict_eq_true, negb_true_iff, is_set_false, Z.ltb_lt. tauto. }
  assert (Hall : forall d,
             In d (OAuthToken.allForUser now_ userId db)
             <-> exists row,
                   In row (tokens db) /\ d = OAuthToken.hydrate row
                   /\ TokenRow.user_id row = Some userId
                   /\ TokenRow.revoked_at row = None
                   /\ now_ < TokenRow.expires_at row).
  { intros d. unfold OAuthToken.allForUser. rewrite in_map_iff. split.
    - intros (row & <- & Hin). apply order_by_desc_In, filter_In in Hin as [Hin Hact].
      apply Hactive in Hact. exists row. tauto.
    - intros (row & Hin & -> & Hrest). exists row. split; [reflexivity |].
      apply order_by_desc_In, filter_In. split; [exact Hin | now apply Hactive]. }
  repeat apply conj.
  - apply Hall.
  - unfold OAuthToken.allForUser. apply StronglySorted_map. apply order_by_desc_sorted.
  - intros d. unfold OAuthToken.personalTokensFor. split.
    + destruct (truthy (personalAccessClient config)); simpl; [| contradiction].
      rewrite in_map_iff. intros (row & <- & Hin).
      apply order_by_desc_In, filter_In in Hin as [Hin Hact].
      apply andb_true_iff in Hact as [Hact Hcl]. apply String.eqb_eq in Hcl.
      apply Hactive in Hact. repeat split; [| exact Hcl].
      apply Hall. exists row. tauto.
    + intros (Hpat & Hin & Hcl). rewrite Hpat. simpl.
      apply Hall in Hin as (row & Hin & -> & Hrest). apply in_map_iff. exists row.
      split; [reflexivity |]. apply order_by_desc_In, filter_In. split; [exact Hin |].
      apply andb_true_iff. split; [now apply Hactive | now apply String.eqb_eq].
  - unfold OAuthToken.personalTokensFor.
    destruct (negb (truthy (personalAccessClient config))); [constructor |].
    apply StronglySorted_map. apply order_by_desc_sorted.
  - intros plain row Hrow Huser Hrev Hexp. split.
    + rewrite validate_unfold, Hrow. apply is_set_false in Hrev. rewrite Hrev.
      replace (TokenRow.expires_at row <? now_) with false; [reflexivity |].
      symmetry. apply Z.ltb_ge. lia.
    + intros Hin. apply filter_In in Hin as [_ Hact]. apply Hactive in Hact. lia.
Qed.

Lemma token_listing_spec_witness :
  fst (OAuthToken.validate 5000 "at-1" sample_db) = Some (OAuthToken.hydrate sample_token)
  /\ OAuthToken.allForUser 5000 "alice" sample_db = []
  /\ In (OAuthToken.hydrate sample_token) (OAuthToken.allForUser 4999 "alice" sample_db).
Proof.
  destruct (token_listing_spec sample_config 5000 "alice" sample_db)
    as (_ & _ & _ & _ & Hedge).
  destruct (token_listing_spec sample_config 4999 "alice" sample_db) as (Hall & _).
  repeat apply conj.
  - apply (Hedge "at-1" sample_token); vm_compute; reflexivity.
  - vm_compute. reflexivity.
  - apply Hall. exists sample_token. split; [now left |]. repeat split.
Defined.

(** ** Personal access tokens and client management *)

(** X24. POST /oauth/personal-tokens writes only with its 201 answer;
    every other answer has status 500 or 422. A 201 is given only when a
    personal access client is configured and the name is not empty; one token
    row is appended for the personal access client and the calling user,
    with the given name, exactly the scopes of the body (no defaults, every
    one registered), the personal access lifetime and no refresh token; the
    listing of the user's personal tokens shows it until it expires. *)
Theorem personal_token_spec (env : Env) (config : OAuth2Config) (reg : ScopeRegistry.t)
    (body : PersonalTokenBody) (user : JsUser) (db : Db) :
  let result := createPersonalTokenHandler env config reg body user db in
  (forall payload status,
      fst result = Respond (RJson payload status) -> status <> 201 ->
      snd result = db /\ (status = 500 \/ status = 422))
  /\ (forall payload,
         fst result = Respond (RJson payload 201) ->
         exists userId row,
           truthy (personalAccessClient config) = true
           /\ truthy (pt_name body) = true
           /\ getUserId user = inr userId
           /\ snd result = with_tokens db (tokens db ++ [row])
           /\ TokenRow.user_id row = Some userId
           /\ TokenRow.client_id row = str (personalAccessClient config)
           /\ TokenRow.name row = pt_name body
           /\ TokenRow.scopes row = default [] (pt_scopes body)
           /\ (forall s, In s (TokenRow.scopes row) -> reg !! s <> None)
           /\ TokenRow.refresh_token row = None
           /\ TokenRow.expires_at row = now env + personalAccessTokenLifetime config * 60000
           /\ access_row (snd result) (hex1 env) = Some row
           /\ forall now',
                now' < TokenRow.expires_at row ->
                In (OAuthToken.hydrate row)
                   (OAuthToken.personalTokensFor config now' userId (snd result))).
Proof.
  intros result. unfold result, createPersonalTokenHandler.
  destruct (truthy (personalAccessClient config)) eqn:Hpat; simpl.
  2:{ split; [intros payload status [= _ <-] _; auto | discriminate]. }
  destruct (truthy (pt_name body)) eqn:Hname; simpl.
  2:{ split; [intros payload status [= _ <-] _; auto | discriminate]. }
  destruct (List.find (fun scope => negb (ScopeRegistry.has reg scope))
              (default [] (pt_scopes body))) as [bad|] eqn:Hscopes.
  { split; [intros payload status [= _ <-] _; auto | discriminate]. }
  destruct (getUserId user) as [err | userId] eqn:Huser.
  { split; discriminate. }
  destruct (OAuthToken.create env config _ db) as [[created db']|] eqn:Hc.
  2:{ split; discriminate. }
  pose proof (token_row_created _ _ _ _ _ _ Hc) as (Haccess & _).
  apply token_create_row in Hc as (-> & -> & _).
  split; [intros payload status [= _ <-] Hne; now destruct Hne |].
  intros payload _. eexists userId, _.
  repeat apply conj; try reflexivity; try assumption.
  - simpl. symmetry. now apply truthy_str.
  - simpl. intros s Hs. rewrite find_none_iff in Hscopes. specialize (Hscopes s Hs).
    apply negb_false_iff in Hscopes. unfold ScopeRegistry.has in Hscopes.
    destruct (reg !! s); [discriminate | discriminate].
  - intros now' Hnow. unfold OAuthToken.personalTokensFor. rewrite Hpat. simpl negb. cbv iota.
    apply in_map. apply order_by_desc_In, filter_In. split.
    + simpl. apply in_app_iff. right. now left.
    + unfold OAuthToken.active_for. simpl in *. rewrite !String.eqb_refl. simpl.
      rewrite andb_true_r. apply Z.ltb_lt. exact Hnow.
Qed.

Lemma personal_token_spec_witness :
  let config := {| accessTokenLifetime := 60; refreshTokenLifetime := 43200;
                   authCodeLifetime := 10; personalAccessTokenLifetime := 525600;
                   defaultScopes := ["read"]; personalAccessClient := Some "app";
                   pruneRevokedAfterDays := 7 |} in
  let body := {| pt_name := Some "laptop"; pt_scopes := None |} in
  exists row,
    snd (createPersonalTokenHandler sample_env config sample_registry body (UString "alice")
           sample_db)
    = with_tokens sample_db [sample_token; row]
    /\ TokenRow.scopes row = []
    /\ TokenRow.refresh_token row = None.
Proof.
  intros config body.
  assert (Hok : exists payload,
             fst (createPersonalTokenHandler sample_env config sample_registry body
                    (UString "alice") sample_db) = Respond (RJson payload 201))
    by (eexists; vm_compute; reflexivity).
  destruct Hok as (payload & Hok).
  destruct (personal_token_spec sample_env config sample_registry body (UString "alice")
              sample_db) as (_ & Hcreated).
  destruct (Hcreated payload Hok)
    as (userId & row & _ & _ & _ & Hdb & _ & _ & _ & Hscopes & _ & Hrefresh & _).
  exists row. repeat apply conj; assumption.
Defined.

(** X25. Every answer of POST /oauth/clients other than 201 is a 422
    and writes nothing, and a 201 is given only for a non-empty name and at
    least one redirect URI. On 201 the new client is found by the
    id shown in the response and is not revoked; the secret is shown exactly
    when the client is confidential (the default), and it is the one string
    that [verifySecret] accepts for the client, up to equality of SHA-256
    digests. *)
Theorem create_client_spec (env : Env) (body : CreateClientBody) (db : Db) :
  let result := createClientHandler env body db in
  (forall payload status,
      fst result = Respond (RJson payload status) -> status <> 201 ->
      snd result = db /\ status = 422)
  /\ (forall payload,
         fst result = Respond (RJson payload 201) ->
         exists client secret uris,
           payload = JObj [("client", json_of_client client);
                           ("secret", json_of_nullable secret)]
           /\ truthy (cb_name body) = true
           /\ cb_redirect_uris body = Some uris /\ uris <> []
           /\ OAuthClientData.redirectUris client = uris
           /\ OAuthClient.find (snd result) (OAuthClientData.id client) = Some client
           /\ OAuthClientData.revoked client = false
           /\ OAuthClientData.confidential client = default true (cb_confidential body)
           /\ (secret = None <-> OAuthClientData.confidential client = false)
           /\ (forall plain, secret = Some plain ->
                 forall guess,
                   OAuthClient.verifySecret (snd result) client guess = true
                   <-> OAuthClient.hashSecret guess = OAuthClient.hashSecret plain)
           /\ forall id c, OAuthClient.find db id = Some c ->
                           OAuthClient.find (snd result) id = Some c).
Proof.
  intros result. unfold result, createClientHandler.
  destruct (truthy (cb_name body)) eqn:Hname; simpl.
  2:{ split; [intros payload status [= _ <-] _; auto | discriminate]. }
  destruct (cb_redirect_uris body) as [[|uri uris]|] eqn:Huris.
  1,3: split; [intros payload status [= _ <-] _; auto | discriminate].
  destruct (OAuthClient.create env _ db) as [[[client secret] db']|] eqn:Hc.
  2:{ split; discriminate. }
  split; [intros payload status [= _ <-] Hne; now destruct Hne |].
  intros payload [= <-]. simpl snd.
  pose proof (client_row_created _ _ _ _ _ Hc) as Hrow.
  pose proof (client_create_row _ _ _ _ _ Hc) as (Hdb & Hcreated & Hfresh).
  injection Hcreated as -> ->. simpl in *.
  assert (Hverify : forall guess,
             OAuthClient.verifySecret db' (OAuthClient.hydrate (new_client_row env
               {| OAuthClient.name := str (cb_name body);
                  OAuthClient.redirectUris := uri :: uris;
                  OAuthClient.confidential := cb_confidential body;
                  OAuthClient.firstParty := cb_first_party body;
                  OAuthClient.scopes := cb_scopes body;
                  OAuthClient.grantTypes := cb_grant_types body |})) guess
             = if default true (cb_confidential body)
               then OAuthClient.timingSafeEqual (OAuthClient.hashSecret (hex1 env))
                      (OAuthClient.hashSecret guess)
               else false).
  { intros guess. unfold OAuthClient.verifySecret. simpl OAuthClientData.id.
    rewrite Hrow. simpl.
    destruct (default true (cb_confidential body)); [| reflexivity].
    unfold OAuthClient.hashSecret at 1. now rewrite sha256_hex_truthy. }
  eexists _, _, (uri :: uris).
  split; [reflexivity |]. split; [reflexivity |]. split; [reflexivity |].
  split; [discriminate |]. split; [reflexivity |].
  split; [unfold OAuthClient.find; simpl; now rewrite Hrow |].
  split; [reflexivity |]. split; [reflexivity |]. split; [| split].
  - simpl. destruct (default true (cb_confidential body)); split; congruence.
  - intros plain Hs guess. rewrite Hverify.
    destruct (default true (cb_confidential body)); [| discriminate].
    injection Hs as <-. rewrite timingSafeEqual_eq. split; congruence.
  - intros id c. unfold OAuthClient.find. rewrite Hdb. simpl.
    destruct (List.find (fun c0 => String.eqb (ClientRow.id c0) id) (clients db)) as [r|] eqn:Hf;
      [| discriminate].
    now rewrite (find_app_hit _ _ _ _ Hf).
Qed.

Lemma create_client_spec_witness :
  let body := {| cb_name := Some "Test";
                 cb_redirect_uris := Some ["https://example.com/callback"];
                 cb_confidential := None; cb_first_party := None;
                 cb_scopes := None; cb_grant_types := None |} in
  let result := createClientHandler (env_at 100 "uuid-1" "5ec7e7" "unused") body empty_db in
  exists client,
    OAuthClient.find (snd result) (OAuthClientData.id client) = Some client
    /\ OAuthClientData.confidential client = true.
Proof.
  intros body result.
  assert (Hok : exists payload, fst result = Respond (RJson payload 201))
    by (eexists; vm_compute; reflexivity).
  destruct Hok as (payload & Hok).
  destruct (create_client_spec (env_at 100 "uuid-1" "5ec7e7" "unused") body empty_db)
    as (_ & Hcreated).
  destruct (Hcreated payload Hok)
    as (client & secret & uris & _ & _ & _ & _ & _ & Hfind & _ & Hconf & _).
  exists client. split; [exact Hfind | exact Hconf].
Defined.

Lemma has_client_find (db : Db) (id : string) :
  has_client db id = false <-> OAuthClient.findIncludingRevoked db id = None.
Proof.
  unfold has_client, OAuthClient.findIncludingRevoked.
  induction (clients db) as [|c l IH]; simpl; [tauto |].
  destruct (String.eqb (ClientRow.id c) id); simpl; [split; discriminate | exact IH].
Qed.

Lemma client_all_In (db : Db) (c : OAuthClientData.t) :
  In c (OAuthClient.all db)
  <-> exists row, In row (clients db) /\ ClientRow.revoked row = false
                  /\ c = OAuthClient.hydrate row.
Proof.
  unfold OAuthClient.all. rewrite in_map_iff. split.
  - intros (row & <- & Hin). apply order_by_desc_In, filter_In in Hin as [Hin Hrev].
    apply negb_true_iff in Hrev. eauto.
  - intros (row & Hin & Hrev & ->). exists row. split; [reflexivity |].
    apply order_by_desc_In, filter_In. split; [exact Hin | now rewrite Hrev].
Qed.

(** X26. DELETE /oauth/clients/:id answers 404 and writes nothing when
    no client row has the id. Otherwise it soft-revokes: the row stays, so
    repeating the request gives 200 again; the client disappears from the
    listing of GET /oauth/clients while the other clients stay listed; and
    no token or code of the client is touched, so its access tokens are
    validated as before. *)
Theorem delete_client_soft (env : Env) (id : string) (db : Db) :
  let result := deleteClientHandler env id db in
  (has_client db id = false ->
   result = (RJson (JObj [("message", JStr "Client not found.")]) 404, db))
  /\ (has_client db id = true ->
      fst result = RJson (JObj [("message", JStr "Client revoked.")]) 200
      /\ snd result = OAuthClient.revoke (now env) id db
      /\ has_client (snd result) id = true
      /\ (forall env',
             fst (deleteClientHandler env' id (snd result))
             = RJson (JObj [("message", JStr "Client revoked.")]) 200)
      /\ (forall c, In c (OAuthClient.all (snd result)) ->
                    OAuthClientData.id c <> id /\ In c (OAuthClient.all db))
      /\ (forall c, In c (OAuthClient.all db) -> OAuthClientData.id c <> id ->
                    In c (OAuthClient.all (snd result)))
      /\ tokens (snd result) = tokens db
      /\ auth_codes (snd result) = auth_codes db
      /\ forall now_ plain,
           fst (OAuthToken.validate now_ plain (snd result))
           = fst (OAuthToken.validate now_ plain db)).
Proof.
  intros result. unfold result, deleteClientHandler. split.
  - intros Hno. apply has_client_find in Hno. now rewrite Hno.
  - intros Hyes.
    assert (Hkept : forall t, has_client (OAuthClient.revoke t id db) id = true).
    { intros t. apply has_client_iff. apply has_client_iff in Hyes. simpl.
      rewrite map_map. erewrite map_ext; [exact Hyes |].
      intros c. now destruct (String.eqb (ClientRow.id c) id). }
    assert (Hfound : forall db0, has_client db0 id = true ->
                                 OAuthClient.findIncludingRevoked db0 id <> None).
    { intros db0 H Hnone. apply has_client_find in Hnone. congruence. }
    destruct (OAuthClient.findIncludingRevoked db id) as [c0|] eqn:Hfind;
      [| now destruct (Hfound db Hyes)].
    simpl. repeat apply conj; try reflexivity.
    + apply Hkept.
    + intros env'.
      destruct (OAuthClient.findIncludingRevoked (OAuthClient.revoke (now env) id db) id)
        eqn:Hagain; [reflexivity | now destruct (Hfound _ (Hkept (now env)))].
    + intros c H. apply client_all_In in H as (row & Hin & Hrev & ->). simpl in Hin.
      apply in_map_iff in Hin as (r & <- & Hr).
      destruct (String.eqb (ClientRow.id r) id) eqn:Heq; [discriminate |].
      split; [simpl; now apply String.eqb_neq | apply client_all_In; eauto].
    + intros c Hin Hne. apply client_all_In in Hin as (row & Hin & Hrev & ->).
      apply client_all_In. exists row. split; [| auto]. simpl.
      apply in_map_iff. exists row. split; [| exact Hin].
      simpl in Hne. apply String.eqb_neq in Hne. now rewrite Hne.
    + intros now_ plain. now apply validate_reads_tokens.
Qed.

Lemma delete_client_soft_witness :
  let db' := snd (deleteClientHandler sample_env "app" sample_db) in
  fst (deleteClientHandler sample_env "app" db')
  = RJson (JObj [("message", JStr "Client revoked.")]) 200
  /\ OAuthClient.all db' = []
  /\ fst (OAuthToken.validate 3000 "at-1" db') = Some (OAuthToken.hydrate sample_token).
Proof.
  intros db'.
  destruct (delete_client_soft sample_env "app" sample_db) as (_ & Hsoft).
  destruct (Hsoft ltac:(vm_compute; reflexivity))
    as (_ & _ & _ & Hagain & _ & _ & _ & _ & Hvalid).
  repeat apply conj.
  - apply Hagain.
  - vm_compute. reflexivity.
  - unfold db'. rewrite Hvalid. vm_compute. reflexivity.
Defined.

(** ** From consent to token *)

Lemma issueAuthorizationCode_created (env : Env) (config : OAuth2Config) (user : JsUser)
    (request : AuthRequest) (db : Db) (uri : string) (params : list (string * string))
    (status : Z) :
  fst (issueAuthorizationCode env config user (ar_clientId request) (ar_redirectUri request)
         (ar_scopes request) (ar_state request) (ar_codeChallenge request)
         (ar_codeChallengeMethod request) db)
  = Respond (RRedirect uri params status) ->
  exists userId data,
    getUserId user = inr userId
    /\ AuthCode.create env config (code_params request userId) db
       = Some ((hex1 env, data),
               snd (issueAuthorizationCode env config user (ar_clientId request)
                      (ar_redirectUri request) (ar_scopes request) (ar_state request)
                      (ar_codeChallenge request) (ar_codeChallengeMethod request) db))
    /\ uri = ar_redirectUri request
    /\ params = ("code", hex1 env) :: state_param (ar_state request).
Proof.
  unfold issueAuthorizationCode.
  destruct (getUserId user) as [err | userId]; [discriminate |].
  fold (code_params request userId).
  destruct (AuthCode.create env config (code_params request userId) db)
    as [[[code data] db']|] eqn:Hc; [| discriminate].
  pose proof (code_create_row _ _ _ _ _ _ Hc) as (_ & [= -> _] & _).
  destruct (url_ok env (ar_redirectUri request)); [| discriminate].
  simpl. intros [= <- <- _]. exists userId, data. auto.
Qed.

(** X27. The code that an approval hands out is good for one token for
    what was consented to. If POST /authorize with approval redirected with
    a code, then a POST /token of that code by the client of the pending
    request, with its redirect URI, before the code expires and with a
    verifier that satisfies the stored challenge, passes the exchange: the
    code row of the approval is marked used and the token is issued for the
    user who approved and for exactly the scopes stored by GET /authorize. *)
Theorem approved_code_exchanges (env env' : Env) (config : OAuth2Config) (user : JsUser)
    (request : AuthRequest) (db : Db) (body : Params) (uri code userId : string)
    (rest : list (string * string)) (status : Z) (client : OAuthClientData.t) :
  let approved := approveHandler env config true user (Some request) db in
  let db' := snd approved in
  fst (fst approved) = Respond (RRedirect uri (("code", code) :: rest) status) ->
  getUserId user = inr userId ->
  body !! "code" = Some code ->
  body !! "client_id" = Some (ar_clientId request) ->
  body !! "redirect_uri" = Some uri ->
  code_client_admitted db' body = true ->
  OAuthClient.find db' (ar_clientId request) = Some client ->
  now env' <= now env + authCodeLifetime config * 60000 ->
  pkce_satisfied (new_code_row env config (code_params request userId))
    (body !! "code_verifier") ->
  handleAuthorizationCode env' config body db'
  = issue_tokens env' config
      {| OAuthToken.userId := Some userId;
         OAuthToken.clientId := ar_clientId request;
         OAuthToken.scopes := ar_scopes request;
         OAuthToken.name := None;
         OAuthToken.includeRefreshToken :=
           Some (grants (OAuthClientData.grantTypes client) refresh_token);
         OAuthToken.accessTokenLifetime_ := None;
         OAuthToken.refreshTokenLifetime_ := None |}
      (AuthCode.mark_used (now env') (uuid env) db').
Proof.
  intros approved db' Hredirect Huser Hcode Hclient Huri Hadm Hfind Hnow Hpkce.
  unfold db', approved, approveHandler in *. simpl negb in *. cbv iota in *.
  destruct (issueAuthorizationCode env config user (ar_clientId request)
              (ar_redirectUri request) (ar_scopes request) (ar_state request)
              (ar_codeChallenge request) (ar_codeChallengeMethod request) db)
    as [o db1] eqn:Hissue.
  simpl in *.
  pose proof (issueAuthorizationCode_created env config user request db uri
                (("code", code) :: rest) status) as Hcreated.
  rewrite Hissue in Hcreated. simpl in Hcreated.
  destruct (Hcreated Hredirect) as (userId' & data & Huser' & Hcreate & -> & [= -> _]).
  assert (userId' = userId) by congruence. subst userId'.
  pose proof (handleAuthorizationCode_split env' config body db1) as Hsplit.
  rewrite Hadm in Hsplit. destruct Hsplit as (client' & Hfind' & _ & ->).
  rewrite Hclient in Hfind'. simpl in Hfind'.
  assert (client' = client) by congruence. subst client'.
  rewrite Hcode, Hclient, Huri. simpl str.
  rewrite consume_unfold, (code_row_created _ _ _ _ _ _ Hcreate). simpl AuthCode.clientId.
  rewrite String.eqb_refl.
  replace (consume_accepts (now env') (ar_redirectUri request) (body !! "code_verifier")
             (new_code_row env config (code_params request userId))) with true;
    [reflexivity |].
  symmetry. apply consume_accepts_iff. repeat apply conj; auto.
Qed.

Lemma approved_code_exchanges_witness :
  let request := {| ar_clientId := "C";
                    ar_redirectUri := "https://app/cb";
                    ar_scopes := ["read"];
                    ar_state := Some "xyz";
                    ar_codeChallenge := Some "rxPiyZz8P240xCXTZCn7w9huUtn-Efu70HAeOJkMu_I";
                    ar_codeChallengeMethod := Some "S256" |} in
  let db' := snd (approveHandler (env_at 2000 "id-1" "c0de" "unused") sample_config true
                    (UObject (Some (SNumber 42))) (Some request) scenario_db) in
  handleAuthorizationCode (env_at 3000 "id-2" "acc-1" "ref-1") sample_config
    (scenario_exchange "https://app/cb") db'
  = issue_tokens (env_at 3000 "id-2" "acc-1" "ref-1") sample_config
      {| OAuthToken.userId := Some "42";
         OAuthToken.clientId := "C";
         OAuthToken.scopes := ["read"];
         OAuthToken.name := None;
         OAuthToken.includeRefreshToken := Some true;
         OAuthToken.accessTokenLifetime_ := None;
         OAuthToken.refreshTokenLifetime_ := None |}
      (AuthCode.mark_used 3000 "id-1" db').
Proof.
  intros request db'.
  assert (Hpkce : pkce_satisfied
                    (new_code_row (env_at 2000 "id-1" "c0de" "unused") sample_config
                       (code_params request "42"))
                    (scenario_exchange "https://app/cb" !! "code_verifier")).
  { intros _. split; vm_compute; reflexivity. }
  exact (approved_code_exchanges (env_at 2000 "id-1" "c0de" "unused")
           (env_at 3000 "id-2" "acc-1" "ref-1") sample_config
           (UObject (Some (SNumber 42))) request scenario_db
           (scenario_exchange "https://app/cb") "https://app/cb" "c0de" "42"
           [("state", "xyz")] 302 (OAuthClient.hydrate public_client)
           ltac:(vm_compute; reflexivity) ltac:(vm_compute; reflexivity)
           ltac:(vm_compute; reflexivity) ltac:(vm_compute; reflexivity)
           ltac:(vm_compute; reflexivity) ltac:(vm_compute; reflexivity)
           ltac:(vm_compute; reflexivity) ltac:(simpl; lia) Hpkce).
Defined.
